(** * CycloneTCP device drivers: DMA descriptor rings, MAC address filter,
      KSZ9477 address tables and tail tags.

    Shallow embedding of
      - drivers/mac/msp432e4_eth_driver.c   (module [Msp432e4])
      - the W5100S transmit path            (module [W5100s])
      - the KSZ9477 switch driver           (module [Ksz9477])
      - the descriptor rings in use         (module [Msp432e4Ring])
      - the access to transceiver registers (module [Msp432e4Mii])
      - drivers/phy/lan8720_driver.c and the MAC configuration
                                            (modules [Lan8720], [Msp432e4Mac])
      - the W5100S receive path             (module [W5100sRx])
      - the KSZ9477 SPI access and tables   (modules [Ksz9477Spi], [Ksz9477Static])
    Machine integers are [Z] with the wrap-around written out; arrays are
    lists read with [!!] and written with [<[ i := x ]>]; the driver state,
    which the C code keeps in static variables and memory-mapped registers,
    is passed explicitly. *)

From coqutil Require Import Z.bitblast.
From stdpp Require Import base numbers option list.

Local Open Scope Z_scope.

(** ** Machine integers and status codes *)

(** Wrap-around of the unsigned C types on the 32-bit targets. *)
Definition u8 (x : Z) : Z := x mod 2 ^ 8.
Definition u16 (x : Z) : Z := x mod 2 ^ 16.
Definition u32 (x : Z) : Z := x mod 2 ^ 32.

(** [~x] on a [uint32_t]. *)
Definition not32 (x : Z) : Z := Z.lxor x 0xFFFFFFFF.

(** The status codes of [error_t] that the modelled functions return. *)
Inductive error_t : Set :=
| NO_ERROR
| ERROR_FAILURE
| ERROR_INVALID_LENGTH
| ERROR_INVALID_PACKET
| ERROR_BUFFER_EMPTY
| ERROR_TABLE_FULL
| ERROR_NOT_FOUND
| ERROR_INVALID_ENTRY
| ERROR_END_OF_TABLE.

Global Instance error_t_eq_dec : EqDecision error_t.
Proof. solve_decision. Defined.

(** [MacAddr]: a union of six bytes [b] and three 16-bit words [w]. *)
Record MacAddr : Set := mkMacAddr {
  mac_b0 : Z; mac_b1 : Z; mac_b2 : Z; mac_b3 : Z; mac_b4 : Z; mac_b5 : Z
}.

Global Instance MacAddr_eq_dec : EqDecision MacAddr.
Proof. solve_decision. Defined.

(** The bytes [b[0] .. b[5]] in memory order. *)
Definition mac_b (a : MacAddr) : list Z :=
  [mac_b0 a; mac_b1 a; mac_b2 a; mac_b3 a; mac_b4 a; mac_b5 a].

(** The words [w[0] .. w[2]] of the union on the little-endian targets. *)
Definition mac_w0 (a : MacAddr) : Z := Z.lor (mac_b0 a) (Z.shiftl (mac_b1 a) 8).
Definition mac_w1 (a : MacAddr) : Z := Z.lor (mac_b2 a) (Z.shiftl (mac_b3 a) 8).
Definition mac_w2 (a : MacAddr) : Z := Z.lor (mac_b4 a) (Z.shiftl (mac_b5 a) 8).

(** Every field of the address is a [uint8_t]. *)
Definition mac_wf (a : MacAddr) : Prop :=
  Forall (fun b => 0 <= b < 256) (mac_b a).

Definition MAC_UNSPECIFIED_ADDR : MacAddr := mkMacAddr 0 0 0 0 0 0.

(** ** MSP432E4 Ethernet MAC *)

Module Msp432e4.

(** Enhanced DMA descriptors: eight 32-bit words each. *)
Record Msp432e4TxDmaDesc : Set := mkTxDesc {
  tdes0 : Z; tdes1 : Z; tdes2 : Z; tdes3 : Z;
  tdes4 : Z; tdes5 : Z; tdes6 : Z; tdes7 : Z
}.

Record Msp432e4RxDmaDesc : Set := mkRxDesc {
  rdes0 : Z; rdes1 : Z; rdes2 : Z; rdes3 : Z;
  rdes4 : Z; rdes5 : Z; rdes6 : Z; rdes7 : Z
}.

(** [sizeof(Msp432e4TxDmaDesc)] and [sizeof(Msp432e4RxDmaDesc)]. *)
Definition DESC_SIZE : Z := 32.

(** The constants of msp432e4_eth_driver.h and of the device header, which
    are not part of the sources at hand, and the addresses the linker gives
    to the four static arrays. *)
Class Header : Type := mkHeader {
  MSP432E4_ETH_TX_BUFFER_COUNT : nat;
  MSP432E4_ETH_TX_BUFFER_SIZE : Z;
  MSP432E4_ETH_RX_BUFFER_COUNT : nat;
  MSP432E4_ETH_RX_BUFFER_SIZE : Z;
  EMAC_TDES0_OWN : Z;
  EMAC_TDES0_IC : Z;
  EMAC_TDES0_LS : Z;
  EMAC_TDES0_FS : Z;
  EMAC_TDES0_TCH : Z;
  EMAC_TDES1_TBS1 : Z;
  EMAC_RDES0_OWN : Z;
  EMAC_RDES0_FL : Z;
  EMAC_RDES0_ES : Z;
  EMAC_RDES0_FS : Z;
  EMAC_RDES0_LS : Z;
  EMAC_RDES1_RCH : Z;
  EMAC_RDES1_RBS1 : Z;
  EMAC_DMARIS_TU : Z;
  EMAC_DMARIS_RU : Z;
  EMAC_ADDR1H_AE : Z;
  EMAC_ADDR2H_AE : Z;
  EMAC_ADDR3H_AE : Z;
  (** the macro [macIsMulticastAddr] of core/ethernet.h *)
  macIsMulticastAddr : MacAddr -> bool;
  txBuffer_addr : Z;
  rxBuffer_addr : Z;
  txDmaDesc_addr : Z;
  rxDmaDesc_addr : Z
}.

(** The registers of [EMAC0] that the modelled functions write. *)
Inductive EmacReg : Set :=
| TXDLADDR | RXDLADDR | DMARIS | TXPOLLD | RXPOLLD
| ADDR0L | ADDR0H | ADDR1L | ADDR1H | ADDR2L | ADDR2H | ADDR3L | ADDR3H
| HASHTBLL | HASHTBLH.

Global Instance EmacReg_eq_dec : EqDecision EmacReg.
Proof. solve_decision. Defined.

(** A register file holds the value last written to each register. *)
Definition regWrite (r : EmacReg) (v : Z) (f : EmacReg -> Z) : EmacReg -> Z :=
  fun r' => if decide (r' = r) then v else f r'.

(** The static variables of the driver, the registers, the event of the
    interface and the calls made to the upper layer. *)
Record State : Type := mkState {
  txDmaDesc : list Msp432e4TxDmaDesc;
  rxDmaDesc : list Msp432e4RxDmaDesc;
  txCurDmaDesc : Z;
  rxCurDmaDesc : Z;
  EMAC0 : EmacReg -> Z;
  nicTxEvent : bool;
  (** [netBufferRead(dest, ...)]: destination address and bytes copied *)
  txCopies : list (Z * list Z);
  (** [nicProcessPacket(interface, data, n, ...)]: address and length *)
  rxDelivered : list (Z * Z)
}.

Definition set_txDmaDesc (v : list Msp432e4TxDmaDesc) (s : State) : State :=
  mkState v (rxDmaDesc s) (txCurDmaDesc s) (rxCurDmaDesc s) (EMAC0 s)
    (nicTxEvent s) (txCopies s) (rxDelivered s).
Definition set_rxDmaDesc (v : list Msp432e4RxDmaDesc) (s : State) : State :=
  mkState (txDmaDesc s) v (txCurDmaDesc s) (rxCurDmaDesc s) (EMAC0 s)
    (nicTxEvent s) (txCopies s) (rxDelivered s).
Definition set_txCurDmaDesc (v : Z) (s : State) : State :=
  mkState (txDmaDesc s) (rxDmaDesc s) v (rxCurDmaDesc s) (EMAC0 s)
    (nicTxEvent s) (txCopies s) (rxDelivered s).
Definition set_rxCurDmaDesc (v : Z) (s : State) : State :=
  mkState (txDmaDesc s) (rxDmaDesc s) (txCurDmaDesc s) v (EMAC0 s)
    (nicTxEvent s) (txCopies s) (rxDelivered s).
Definition set_EMAC0 (r : EmacReg) (v : Z) (s : State) : State :=
  mkState (txDmaDesc s) (rxDmaDesc s) (txCurDmaDesc s) (rxCurDmaDesc s)
    (regWrite r v (EMAC0 s)) (nicTxEvent s) (txCopies s) (rxDelivered s).
(** [osSetEvent(&interface->nicTxEvent)] *)
Definition osSetEvent_nicTxEvent (s : State) : State :=
  mkState (txDmaDesc s) (rxDmaDesc s) (txCurDmaDesc s) (rxCurDmaDesc s)
    (EMAC0 s) true (txCopies s) (rxDelivered s).
Definition netBufferRead (dest : Z) (data : list Z) (s : State) : State :=
  mkState (txDmaDesc s) (rxDmaDesc s) (txCurDmaDesc s) (rxCurDmaDesc s)
    (EMAC0 s) (nicTxEvent s) (txCopies s ++ [(dest, data)]) (rxDelivered s).
Definition nicProcessPacket (data n : Z) (s : State) : State :=
  mkState (txDmaDesc s) (rxDmaDesc s) (txCurDmaDesc s) (rxCurDmaDesc s)
    (EMAC0 s) (nicTxEvent s) (txCopies s) (rxDelivered s ++ [(data, n)]).

Section Driver.

Context `{hdr : Header}.

(** [(uint32_t) &txDmaDesc[i]], [(uint32_t) &rxDmaDesc[i]],
    [(uint32_t) txBuffer[i]] and [(uint32_t) rxBuffer[i]]. *)
Definition txDescAddr (i : nat) : Z :=
  u32 (txDmaDesc_addr + DESC_SIZE * Z.of_nat i).
Definition rxDescAddr (i : nat) : Z :=
  u32 (rxDmaDesc_addr + DESC_SIZE * Z.of_nat i).
Definition txBufferAddr (i : nat) : Z :=
  u32 (txBuffer_addr + MSP432E4_ETH_TX_BUFFER_SIZE * Z.of_nat i).
Definition rxBufferAddr (i : nat) : Z :=
  u32 (rxBuffer_addr + MSP432E4_ETH_RX_BUFFER_SIZE * Z.of_nat i).

(** Dereferencing a descriptor pointer: the index of the array element at
    that address, when there is one. *)
Definition descIndex (base p : Z) : option nat :=
  if decide (base <= p /\ (p - base) mod DESC_SIZE = 0)
  then Some (Z.to_nat ((p - base) / DESC_SIZE)) else None.

Definition txDeref (s : State) (p : Z) : option (nat * Msp432e4TxDmaDesc) :=
  i ← descIndex (txDmaDesc_addr) p;
  d ← txDmaDesc s !! i;
  Some (i, d).

Definition rxDeref (s : State) (p : Z) : option (nat * Msp432e4RxDmaDesc) :=
  i ← descIndex (rxDmaDesc_addr) p;
  d ← rxDmaDesc s !! i;
  Some (i, d).

(** *** msp432e4EthInitDmaDesc *)

(** Body of the first [for] loop, at index [i]. *)
Definition initTxDesc (i : nat) : Msp432e4TxDmaDesc :=
  {| tdes0 := Z.lor (EMAC_TDES0_IC) (EMAC_TDES0_TCH);
     tdes1 := 0;
     tdes2 := txBufferAddr i;
     tdes3 := txDescAddr (i + 1);
     tdes4 := 0; tdes5 := 0; tdes6 := 0; tdes7 := 0 |}.

(** Body of the second [for] loop, at index [i]. *)
Definition initRxDesc (i : nat) : Msp432e4RxDmaDesc :=
  {| rdes0 := EMAC_RDES0_OWN;
     rdes1 := Z.lor (EMAC_RDES1_RCH)
                (Z.land (MSP432E4_ETH_RX_BUFFER_SIZE) (EMAC_RDES1_RBS1));
     rdes2 := rxBufferAddr i;
     rdes3 := rxDescAddr (i + 1);
     rdes4 := 0; rdes5 := 0; rdes6 := 0; rdes7 := 0 |}.

(** [for(i = i0; i < i0 + n; i++) a[i] = body(i);] *)
Fixpoint initLoop {A : Type} (body : nat -> A) (n i : nat) (a : list A) : list A :=
  match n with
  | O => a
  | S n' => initLoop body n' (S i) (<[ i := body i ]> a)
  end.

Definition set_tdes3 (v : Z) (d : Msp432e4TxDmaDesc) : Msp432e4TxDmaDesc :=
  mkTxDesc (tdes0 d) (tdes1 d) (tdes2 d) v (tdes4 d) (tdes5 d) (tdes6 d) (tdes7 d).
Definition set_rdes3 (v : Z) (d : Msp432e4RxDmaDesc) : Msp432e4RxDmaDesc :=
  mkRxDesc (rdes0 d) (rdes1 d) (rdes2 d) v (rdes4 d) (rdes5 d) (rdes6 d) (rdes7 d).

(** [a[i - 1].des3 = v] after a loop that left [i = n]; the index is
    unsigned, so with [n = 0] the store falls outside the array and the
    function has no defined result. *)
Definition chainLast {A : Type} (set3 : A -> A) (n : nat) (a : list A)
  : option (list A) :=
  match n with
  | O => None
  | S k => d ← a !! k; Some (<[ k := set3 d ]> a)
  end.

Definition msp432e4EthInitDmaDesc (s : State) : option State :=
  let tx := initLoop initTxDesc (MSP432E4_ETH_TX_BUFFER_COUNT) 0 (txDmaDesc s) in
  tx' ← chainLast (set_tdes3 (txDescAddr 0)) (MSP432E4_ETH_TX_BUFFER_COUNT) tx;
  let s1 := set_txCurDmaDesc (txDescAddr 0) (set_txDmaDesc tx' s) in
  let rx := initLoop initRxDesc (MSP432E4_ETH_RX_BUFFER_COUNT) 0 (rxDmaDesc s1) in
  rx' ← chainLast (set_rdes3 (rxDescAddr 0)) (MSP432E4_ETH_RX_BUFFER_COUNT) rx;
  let s2 := set_rxCurDmaDesc (rxDescAddr 0) (set_rxDmaDesc rx' s1) in
  let s3 := set_EMAC0 TXDLADDR (u32 (txDmaDesc_addr)) s2 in
  Some (set_EMAC0 RXDLADDR (u32 (rxDmaDesc_addr)) s3).

(** *** msp432e4EthSendPacket *)

Definition set_tdes0 (v : Z) (d : Msp432e4TxDmaDesc) : Msp432e4TxDmaDesc :=
  mkTxDesc v (tdes1 d) (tdes2 d) (tdes3 d) (tdes4 d) (tdes5 d) (tdes6 d) (tdes7 d).
Definition set_tdes1 (v : Z) (d : Msp432e4TxDmaDesc) : Msp432e4TxDmaDesc :=
  mkTxDesc (tdes0 d) v (tdes2 d) (tdes3 d) (tdes4 d) (tdes5 d) (tdes6 d) (tdes7 d).
Definition set_rdes0 (v : Z) (d : Msp432e4RxDmaDesc) : Msp432e4RxDmaDesc :=
  mkRxDesc v (rdes1 d) (rdes2 d) (rdes3 d) (rdes4 d) (rdes5 d) (rdes6 d) (rdes7 d).

(** [buffer] holds the bytes of the multi-part buffer, so
    [netBufferGetLength(buffer)] is its length; [size_t] has 32 bits.  The
    function has no defined result when a descriptor pointer it follows
    does not point into the descriptor array. *)
Definition msp432e4EthSendPacket (buffer : list Z) (offset : Z) (s : State)
  : option (error_t * State) :=
  let length := u32 (Z.of_nat (length buffer) - offset) in
  if decide (length > MSP432E4_ETH_TX_BUFFER_SIZE) then
    Some (ERROR_INVALID_LENGTH, osSetEvent_nicTxEvent s)
  else
    '(i, d) ← txDeref s (txCurDmaDesc s);
    if decide (Z.land (tdes0 d) EMAC_TDES0_OWN ≠ 0) then
      Some (ERROR_FAILURE, s)
    else
      let data := take (Z.to_nat length) (drop (Z.to_nat offset) buffer) in
      let s1 := netBufferRead (tdes2 d) data s in
      let d1 := set_tdes1 (Z.land length EMAC_TDES1_TBS1) d in
      let d2 := set_tdes0 (Z.lor (tdes0 d1) (Z.lor EMAC_TDES0_LS EMAC_TDES0_FS)) d1 in
      let d3 := set_tdes0 (Z.lor (tdes0 d2) EMAC_TDES0_OWN) d2 in
      let s2 := set_txDmaDesc (<[ i := d3 ]> (txDmaDesc s1)) s1 in
      let s3 := set_EMAC0 TXPOLLD 0 (set_EMAC0 DMARIS EMAC_DMARIS_TU s2) in
      let s4 := set_txCurDmaDesc (tdes3 d3) s3 in
      '(_, next) ← txDeref s4 (txCurDmaDesc s4);
      if decide (Z.land (tdes0 next) EMAC_TDES0_OWN = 0) then
        Some (NO_ERROR, osSetEvent_nicTxEvent s4)
      else
        Some (NO_ERROR, s4).

(** *** msp432e4EthReceivePacket *)

Definition msp432e4EthReceivePacket (s : State) : option (error_t * State) :=
  '(i, d) ← rxDeref s (rxCurDmaDesc s);
  let '(error, s2) :=
    if decide (Z.land (rdes0 d) EMAC_RDES0_OWN = 0) then
      let '(error, s1) :=
        if decide (Z.land (rdes0 d) EMAC_RDES0_FS ≠ 0 /\
                   Z.land (rdes0 d) EMAC_RDES0_LS ≠ 0) then
          if decide (Z.land (rdes0 d) EMAC_RDES0_ES = 0) then
            let n := Z.shiftr (Z.land (rdes0 d) EMAC_RDES0_FL) 16 in
            let n := Z.min n MSP432E4_ETH_RX_BUFFER_SIZE in
            (NO_ERROR, nicProcessPacket (rdes2 d) n s)
          else (ERROR_INVALID_PACKET, s)
        else (ERROR_INVALID_PACKET, s) in
      let s1' := set_rxDmaDesc (<[ i := set_rdes0 EMAC_RDES0_OWN d ]> (rxDmaDesc s1)) s1 in
      (error, set_rxCurDmaDesc (rdes3 d) s1')
    else (ERROR_BUFFER_EMPTY, s) in
  Some (error, set_EMAC0 RXPOLLD 0 (set_EMAC0 DMARIS EMAC_DMARIS_RU s2)).

(** The receive ring is linked when every descriptor points to its
    successor and the last one to the first. *)
Definition rxRingLinked (s : State) : Prop :=
  forall i d, rxDmaDesc s !! i = Some d ->
    rdes3 d = rxDescAddr (S i mod MSP432E4_ETH_RX_BUFFER_COUNT).

Definition txRingLinked (s : State) : Prop :=
  forall i d, txDmaDesc s !! i = Some d ->
    tdes3 d = txDescAddr (S i mod MSP432E4_ETH_TX_BUFFER_COUNT).

(** The packet of the current descriptor is valid: first and last segment
    in one buffer, no error summary. *)
Definition rxValid (d : Msp432e4RxDmaDesc) : Prop :=
  Z.land (rdes0 d) EMAC_RDES0_FS ≠ 0 /\
  Z.land (rdes0 d) EMAC_RDES0_LS ≠ 0 /\
  Z.land (rdes0 d) EMAC_RDES0_ES = 0.

(** *** msp432e4EthCalcCrc *)

(** One turn of the inner loop: bit [j] of the byte [b]. *)
Definition crcBit (b : Z) (crc : Z) (j : Z) : Z :=
  if decide (Z.land (Z.lxor (Z.shiftr crc 31) (Z.shiftr b j)) 0x01 ≠ 0)
  then Z.lxor (u32 (Z.shiftl crc 1)) 0x04C11DB7
  else u32 (Z.shiftl crc 1).

(** The inner loop, [for(j = 0; j < 8; j++)]. *)
Definition crcByte (crc : Z) (b : Z) : Z :=
  foldl (crcBit b) crc [0; 1; 2; 3; 4; 5; 6; 7].

(** [data] holds the [length] bytes at [p]. *)
Definition msp432e4EthCalcCrc (data : list Z) : Z :=
  not32 (foldl crcByte 0xFFFFFFFF data).

(** The CRC of the specification, written after its words and not after
    the driver: the CRC-32 with generator polynomial 0x04C11DB7, initial
    value all ones and final value inverted, in its usual table-free form:
    the register is shifted right, the bits of a byte enter least
    significant first, and the polynomial appears mirrored, 0xEDB88320. *)
Definition spec_crc32Bit (b : Z) (crc : Z) (j : Z) : Z :=
  if decide (Z.land (Z.lxor crc (Z.shiftr b j)) 0x01 ≠ 0)
  then Z.lxor (Z.shiftr crc 1) 0xEDB88320
  else Z.shiftr crc 1.

Definition spec_crc32Byte (crc : Z) (b : Z) : Z :=
  foldl (spec_crc32Bit b) crc [0; 1; 2; 3; 4; 5; 6; 7].

Definition spec_crc32 (data : list Z) : Z :=
  not32 (foldl spec_crc32Byte 0xFFFFFFFF data).

(** The [n] low bits of [x] in reverse order. *)
Fixpoint bitrev (n : nat) (x : Z) : Z :=
  match n with
  | O => 0
  | S n' => Z.lor (Z.shiftl (Z.land x 1) (Z.of_nat n')) (bitrev n' (Z.shiftr x 1))
  end.

(** A value fits 32 bits when it has no bit at or above position 32. *)
Definition fits32 (x : Z) : Prop := forall i, 32 <= i -> Z.testbit x i = false.

(** *** msp432e4EthUpdateMacAddrFilter *)

Record MacFilterEntry : Set := mkMacFilterEntry {
  addr : MacAddr;
  refCount : Z
}.

(** The locals [j], [unicastMacAddr] and [hashTable] of the function. *)
Record FilterLocals : Set := mkFilterLocals {
  fl_j : nat;
  fl_unicastMacAddr : list MacAddr;
  fl_hashTable : list Z
}.

(** The hash-table position of an address: the upper 6 bits of its CRC. *)
Definition hashIndex (a : MacAddr) : Z :=
  Z.land (Z.shiftr (msp432e4EthCalcCrc (mac_b a)) 26) 0x3F.

(** Body of the loop over [interface->macAddrFilter]. *)
Definition filterEntry (l : FilterLocals) (entry : MacFilterEntry) : FilterLocals :=
  if decide (refCount entry > 0) then
    if macIsMulticastAddr (addr entry) then
      let k := hashIndex (addr entry) in
      mkFilterLocals (fl_j l) (fl_unicastMacAddr l)
        (alter (fun w => Z.lor w (u32 (Z.shiftl 1 (k mod 32))))
           (Z.to_nat (k / 32)) (fl_hashTable l))
    else if decide (fl_j l < 3)%nat then
      mkFilterLocals (S (fl_j l))
        (<[ fl_j l := addr entry ]> (fl_unicastMacAddr l)) (fl_hashTable l)
    else l
  else l.

Definition filterLoop (macAddrFilter : list MacFilterEntry) : FilterLocals :=
  foldl filterEntry
    (mkFilterLocals 0
       [MAC_UNSPECIFIED_ADDR; MAC_UNSPECIFIED_ADDR; MAC_UNSPECIFIED_ADDR] [0; 0])
    macAddrFilter.

(** [a.w[0] | (a.w[1] << 16)] *)
Definition addrLow (a : MacAddr) : Z :=
  u32 (Z.lor (mac_w0 a) (Z.shiftl (mac_w1 a) 16)).

(** One of the three [if(j >= n)] blocks: the pair of registers of a
    perfect-filter slot. *)
Definition setUnicastSlot (regL regH : EmacReg) (ae : Z) (n : nat)
    (l : FilterLocals) (s : State) : State :=
  if decide (n <= fl_j l)%nat then
    let a := default MAC_UNSPECIFIED_ADDR (fl_unicastMacAddr l !! (n - 1)%nat) in
    set_EMAC0 regH (u32 (Z.lor (mac_w2 a) ae)) (set_EMAC0 regL (addrLow a) s)
  else
    set_EMAC0 regH 0 (set_EMAC0 regL 0 s).

(** [macAddr] and [macAddrFilter] are the fields of the interface; the
    array has [MAC_ADDR_FILTER_SIZE] entries. *)
Definition msp432e4EthUpdateMacAddrFilter (macAddr : MacAddr)
    (macAddrFilter : list MacFilterEntry) (s : State) : error_t * State :=
  let s := set_EMAC0 ADDR0L (addrLow macAddr) s in
  let s := set_EMAC0 ADDR0H (mac_w2 macAddr) s in
  let l := filterLoop macAddrFilter in
  let s := setUnicastSlot ADDR1L ADDR1H EMAC_ADDR1H_AE 1 l s in
  let s := setUnicastSlot ADDR2L ADDR2H EMAC_ADDR2H_AE 2 l s in
  let s := setUnicastSlot ADDR3L ADDR3H EMAC_ADDR3H_AE 3 l s in
  let s := set_EMAC0 HASHTBLL (default 0 (fl_hashTable l !! 0%nat)) s in
  let s := set_EMAC0 HASHTBLH (default 0 (fl_hashTable l !! 1%nat)) s in
  (NO_ERROR, s).

(** What the MAC does with the programmed filter: a perfect-filter slot
    accepts an address when its enable bit is set and its 48 bits are those
    of the address; the hash filter accepts it when the bit of the 64-bit
    table selected by the upper 6 bits of the CRC is set. *)
Definition slotMatches (lo hi ae : Z) (a : MacAddr) : bool :=
  bool_decide (Z.land hi ae ≠ 0 /\ lo = addrLow a /\ Z.land hi 0xFFFF = mac_w2 a).

Definition perfectMatch (regs : EmacReg -> Z) (a : MacAddr) : bool :=
  slotMatches (regs ADDR1L) (regs ADDR1H) EMAC_ADDR1H_AE a
  || slotMatches (regs ADDR2L) (regs ADDR2H) EMAC_ADDR2H_AE a
  || slotMatches (regs ADDR3L) (regs ADDR3H) EMAC_ADDR3H_AE a.

Definition hashMatch (regs : EmacReg -> Z) (a : MacAddr) : bool :=
  let k := hashIndex a in
  if decide (k < 32) then Z.testbit (regs HASHTBLL) k
  else Z.testbit (regs HASHTBLH) (k - 32).

(** The addresses of the active unicast entries of the table, in table
    order, and the table with the multicast entries only. *)
Definition activeUnicast (es : list MacFilterEntry) : list MacAddr :=
  omap (fun e =>
          if decide (refCount e > 0) then
            if macIsMulticastAddr (addr e) then None else Some (addr e)
          else None) es.

Definition multicastOnly (es : list MacFilterEntry) : list MacFilterEntry :=
  filter (fun e => macIsMulticastAddr (addr e) = true) es.

(** The perfect-filter slots hold the first three active unicast
    addresses: [j] counts them and the unused slots keep the unspecified
    address. *)
Definition unicastInv (l : FilterLocals) (u : list MacAddr) : Prop :=
  fl_j l = length (take 3 u) /\
  fl_unicastMacAddr l =
    take 3 (u ++ replicate 3 MAC_UNSPECIFIED_ADDR).

(** Bit [k] of the 64-bit table held in the array [hashTable]. *)
Definition hashBit (h : list Z) (k : Z) : bool :=
  Z.testbit (default 0 (h !! Z.to_nat (k / 32))) (k mod 32).

End Driver.

(** The values of the constants in the headers of the MSP432E401Y port
    (three transmit and six receive buffers of 1536 bytes), with the
    arrays placed in SRAM. *)
Definition msp432e401y : Header :=
  {| MSP432E4_ETH_TX_BUFFER_COUNT := 3;
     MSP432E4_ETH_TX_BUFFER_SIZE := 1536;
     MSP432E4_ETH_RX_BUFFER_COUNT := 6;
     MSP432E4_ETH_RX_BUFFER_SIZE := 1536;
     EMAC_TDES0_OWN := 0x80000000;
     EMAC_TDES0_IC := 0x40000000;
     EMAC_TDES0_LS := 0x20000000;
     EMAC_TDES0_FS := 0x10000000;
     EMAC_TDES0_TCH := 0x00100000;
     EMAC_TDES1_TBS1 := 0x00001FFF;
     EMAC_RDES0_OWN := 0x80000000;
     EMAC_RDES0_FL := 0x3FFF0000;
     EMAC_RDES0_ES := 0x00008000;
     EMAC_RDES0_FS := 0x00000200;
     EMAC_RDES0_LS := 0x00000100;
     EMAC_RDES1_RCH := 0x00004000;
     EMAC_RDES1_RBS1 := 0x00001FFF;
     EMAC_DMARIS_TU := 0x00000004;
     EMAC_DMARIS_RU := 0x00000080;
     EMAC_ADDR1H_AE := 0x80000000;
     EMAC_ADDR2H_AE := 0x80000000;
     EMAC_ADDR3H_AE := 0x80000000;
     macIsMulticastAddr := fun a => bool_decide (Z.land (mac_b0 a) 0x01 ≠ 0);
     txBuffer_addr := 0x20000000;
     rxBuffer_addr := 0x20001200;
     txDmaDesc_addr := 0x20003600;
     rxDmaDesc_addr := 0x20003660 |}.

(** The driver state at start-up: the arrays are in zero-initialised
    static storage. *)
Definition startState : State :=
  mkState (replicate 3 (mkTxDesc 0 0 0 0 0 0 0 0))
    (replicate 6 (mkRxDesc 0 0 0 0 0 0 0 0)) 0 0 (fun _ => 0) false [] [].

(** The state after initialisation of the descriptor lists, and two states
    that the DMA reaches from it: a frame of 60 bytes received into the
    first receive buffer, and the first transmit descriptor still owned
    by the DMA. *)
Definition ringState : State :=
  default startState (@msp432e4EthInitDmaDesc msp432e401y startState).

Definition frameReceivedState : State :=
  set_rxDmaDesc
    (<[ 0%nat := mkRxDesc 0x003C0300 0x4600 0x20001200 0x20003680 0 0 0 0 ]>
       (rxDmaDesc ringState)) ringState.

Definition txBusyState : State :=
  set_txDmaDesc
    (<[ 0%nat := mkTxDesc 0xF0100000 60 0x20000000 0x20003620 0 0 0 0 ]>
       (txDmaDesc ringState)) ringState.

(** A filter table with one multicast address, the first example of the
    data sheet, and one with four unicast addresses. *)
Definition stationAddr : MacAddr := mkMacAddr 0x00 0xAB 0xCD 0xEF 0x04 0x29.

Definition multicastFilter : list MacFilterEntry :=
  [ mkMacFilterEntry (mkMacAddr 0x1F 0x52 0x41 0x9C 0xB6 0xAF) 1;
    mkMacFilterEntry MAC_UNSPECIFIED_ADDR 0 ].

Definition fourUnicastFilter : list MacFilterEntry :=
  [ mkMacFilterEntry (mkMacAddr 0x02 0x00 0x00 0x00 0x00 0x01) 1;
    mkMacFilterEntry (mkMacAddr 0x02 0x00 0x00 0x00 0x00 0x02) 1;
    mkMacFilterEntry (mkMacAddr 0x02 0x00 0x00 0x00 0x00 0x03) 1;
    mkMacFilterEntry (mkMacAddr 0x02 0x00 0x00 0x00 0x00 0x04) 1 ].

End Msp432e4.

(** ** Register access through a bus: a small state monad *)

(** A driver function is a computation on the state [S] of the interface
    that may fail to return (a polling loop that is never satisfied, with
    the fuel the model allots to it). *)
Definition St (S A : Type) : Type := S -> option (A * S).

Global Instance St_ret {S : Type} : MRet (St S) :=
  fun A (a : A) s => Some (a, s).

Global Instance St_bind {S : Type} : MBind (St S) :=
  fun A B (k : A -> St S B) (c : St S A) s =>
    match c s with
    | Some (a, s') => k a s'
    | None => None
    end.

(** A state change that returns nothing. *)
Definition modify {S : Type} (f : S -> S) : St S unit := fun s => Some (tt, f s).

(** A computation that always returns and keeps the property [P] of the
    state. *)
Definition preserves {S A : Type} (P : S -> S -> Prop) (c : St S A) : Prop :=
  forall s, exists a s', c s = Some (a, s') /\ P s s'.

(** [MSB(x)] and [LSB(x)] of a 16-bit value. *)
Definition MSB (x : Z) : Z := Z.land (Z.shiftr x 8) 0xFF.
Definition LSB (x : Z) : Z := Z.land x 0xFF.

(** ** W5100S Ethernet controller: the transmit path *)

Module W5100s.

(** The SPI driver of the interface, [interface->spiDriver], over the state
    [dev] of whatever sits on the bus. *)
Class SpiDriver (dev : Type) : Type := mkSpiDriver {
  assertCs : dev -> dev;
  transfer : Z -> dev -> Z * dev;
  deassertCs : dev -> dev
}.

(** The constants of w5100s_driver.h and ethernet.h. *)
Class Header : Set := mkHeader {
  W5100S_CTRL_READ : Z;
  W5100S_CTRL_WRITE : Z;
  W5100S_S0_CR : Z;
  W5100S_S0_TXBUF_SIZE : Z;
  W5100S_S0_TX_FSR0 : Z;
  W5100S_S0_TX_WR0 : Z;
  W5100S_TX_BUFFER : Z;
  W5100S_Sn_CR_SEND : Z;
  ETH_MAX_FRAME_SIZE : Z
}.

(** The interface: the chip behind the SPI bus and the transmit event. *)
Record NetInterface (dev : Type) : Type := mkNetInterface {
  chip : dev;
  nicTxEvent : bool
}.
Arguments mkNetInterface {dev} _ _.
Arguments chip {dev} _.
Arguments nicTxEvent {dev} _.

Section Driver.

Context {dev : Type} `{spi : SpiDriver dev} `{hdr : Header}.

Definition spiAssertCs : St (NetInterface dev) unit :=
  modify (fun i => mkNetInterface (assertCs (chip i)) (nicTxEvent i)).
Definition spiDeassertCs : St (NetInterface dev) unit :=
  modify (fun i => mkNetInterface (deassertCs (chip i)) (nicTxEvent i)).
Definition spiTransfer (b : Z) : St (NetInterface dev) Z :=
  fun i => let '(r, c) := transfer b (chip i) in
           Some (u8 r, mkNetInterface c (nicTxEvent i)).
(** [osSetEvent(&interface->nicTxEvent)] *)
Definition osSetEvent_nicTxEvent : St (NetInterface dev) unit :=
  modify (fun i => mkNetInterface (chip i) true).

Definition w5100sWriteReg8 (address data : Z) : St (NetInterface dev) unit :=
  spiAssertCs ;;
  spiTransfer W5100S_CTRL_WRITE ;;
  spiTransfer (MSB address) ;;
  spiTransfer (LSB address) ;;
  spiTransfer data ;;
  spiDeassertCs.

Definition w5100sReadReg8 (address : Z) : St (NetInterface dev) Z :=
  spiAssertCs ;;
  spiTransfer W5100S_CTRL_READ ;;
  spiTransfer (MSB address) ;;
  spiTransfer (LSB address) ;;
  data ← spiTransfer 0x00;
  spiDeassertCs ;;
  mret data.

Definition w5100sWriteReg16 (address data : Z) : St (NetInterface dev) unit :=
  spiAssertCs ;;
  spiTransfer W5100S_CTRL_WRITE ;;
  spiTransfer (MSB address) ;;
  spiTransfer (LSB address) ;;
  spiTransfer (MSB data) ;;
  spiTransfer (LSB data) ;;
  spiDeassertCs.

Definition w5100sReadReg16 (address : Z) : St (NetInterface dev) Z :=
  spiAssertCs ;;
  spiTransfer W5100S_CTRL_READ ;;
  spiTransfer (MSB address) ;;
  spiTransfer (LSB address) ;;
  hi ← spiTransfer 0x00;
  lo ← spiTransfer 0x00;
  spiDeassertCs ;;
  mret (Z.lor (u16 (Z.shiftl hi 8)) lo).

(** The data phase of [w5100sWriteBuffer]: one transfer per byte. *)
Fixpoint transferAll (data : list Z) : St (NetInterface dev) unit :=
  match data with
  | [] => mret tt
  | b :: data' => spiTransfer b ;; transferAll data'
  end.

(** [data] holds the bytes at the pointer; the loop sends the first
    [length] of them. *)
Definition w5100sWriteBuffer (address : Z) (data : list Z) (length : Z) : St (NetInterface dev) unit :=
  spiAssertCs ;;
  spiTransfer W5100S_CTRL_WRITE ;;
  spiTransfer (MSB address) ;;
  spiTransfer (LSB address) ;;
  transferAll (take (Z.to_nat length) data) ;;
  spiDeassertCs.

Definition w5100sWriteData (data : list Z) (length : Z) : St (NetInterface dev) unit :=
  sz ← w5100sReadReg8 W5100S_S0_TXBUF_SIZE;
  let size := sz * 1024 in
  p ← w5100sReadReg16 W5100S_S0_TX_WR0;
  let offset := Z.land p (u32 (size - 1)) in
  (if decide (u32 (offset + length) < size) then
     w5100sWriteBuffer (u16 (W5100S_TX_BUFFER + offset)) data length
   else
     w5100sWriteBuffer (u16 (W5100S_TX_BUFFER + offset)) data (u32 (size - offset)) ;;
     w5100sWriteBuffer (u16 W5100S_TX_BUFFER)
       (drop (Z.to_nat (u32 (size - offset))) data)
       (u32 (offset + length - size))) ;;
  w5100sWriteReg16 W5100S_S0_TX_WR0 (u16 (p + length)) ;;
  w5100sWriteReg8 W5100S_S0_CR W5100S_Sn_CR_SEND.

(** [buffer] holds the bytes of the multi-part buffer. *)
Definition w5100sSendPacket (buffer : list Z) (offset : Z) : St (NetInterface dev) error_t :=
  let length := u32 (Z.of_nat (length buffer) - offset) in
  if decide (length > ETH_MAX_FRAME_SIZE) then
    osSetEvent_nicTxEvent ;;
    mret ERROR_INVALID_LENGTH
  else
    n ← w5100sReadReg16 W5100S_S0_TX_FSR0;
    if decide (n < length) then
      mret ERROR_FAILURE
    else
      let temp := take (Z.to_nat length) (drop (Z.to_nat offset) buffer) in
      w5100sWriteData temp length ;;
      n ← w5100sReadReg16 W5100S_S0_TX_FSR0;
      (if decide (n >= ETH_MAX_FRAME_SIZE) then osSetEvent_nicTxEvent else mret tt) ;;
      mret NO_ERROR.

(** The transmit event is as it was. *)
Definition sameEvent (i i' : NetInterface dev) : Prop :=
  nicTxEvent i' = nicTxEvent i.

End Driver.

(** The values of w5100s_driver.h. *)
Definition w5100s_h : Header :=
  {| W5100S_CTRL_READ := 0x0F;
     W5100S_CTRL_WRITE := 0xF0;
     W5100S_S0_CR := 0x0401;
     W5100S_S0_TXBUF_SIZE := 0x041F;
     W5100S_S0_TX_FSR0 := 0x0420;
     W5100S_S0_TX_WR0 := 0x0424;
     W5100S_TX_BUFFER := 0x4000;
     W5100S_Sn_CR_SEND := 0x20;
     ETH_MAX_FRAME_SIZE := 1518 |}.

(** A chip that answers every transfer with the same byte. *)
Definition constSpi (answer : Z) : SpiDriver unit :=
  {| assertCs := fun d => d;
     transfer := fun _ d => (answer, d);
     deassertCs := fun d => d |}.

End W5100s.

(** ** KSZ9477 Ethernet switch *)

Module Ksz9477.

(** The constants of ksz9477_driver.h, nic.h and ethernet.h that the
    modelled functions use, and the compile-time option of the tail tag. *)
Class Header : Set := mkHeader {
  ETH_PORT_TAGGING_SUPPORT : bool;
  sizeof_EthHeader : Z;
  SWITCH_CPU_PORT_MASK : Z;
  KSZ9477_PORT1 : Z; KSZ9477_PORT2 : Z; KSZ9477_PORT3 : Z; KSZ9477_PORT4 : Z;
  KSZ9477_PORT5 : Z; KSZ9477_PORT6 : Z; KSZ9477_PORT7 : Z;
  KSZ9477_PORT_MASK : Z;
  KSZ9477_PORT6_MASK : Z;
  KSZ9477_TAIL_TAG_SRC_PORT : Z;
  KSZ9477_STATIC_MAC_TABLE_SIZE : nat;
  KSZ9477_SWITCH_LUE_CTRL3 : Z;
  KSZ9477_ALU_TABLE_CTRL : Z;
  KSZ9477_STATIC_MCAST_TABLE_CTRL : Z;
  KSZ9477_ALU_TABLE_ENTRY1 : Z; KSZ9477_ALU_TABLE_ENTRY2 : Z;
  KSZ9477_ALU_TABLE_ENTRY3 : Z; KSZ9477_ALU_TABLE_ENTRY4 : Z;
  KSZ9477_STATIC_TABLE_ENTRY1 : Z; KSZ9477_STATIC_TABLE_ENTRY2 : Z;
  KSZ9477_STATIC_TABLE_ENTRY3 : Z; KSZ9477_STATIC_TABLE_ENTRY4 : Z;
  KSZ9477_ALU_TABLE_CTRL_START_FINISH : Z;
  KSZ9477_ALU_TABLE_CTRL_VALID : Z;
  KSZ9477_ALU_TABLE_CTRL_VALID_ENTRY_OR_SEARCH_END : Z;
  KSZ9477_ALU_TABLE_CTRL_ACTION_SEARCH : Z;
  KSZ9477_STATIC_MCAST_TABLE_CTRL_TABLE_INDEX : Z;
  KSZ9477_STATIC_MCAST_TABLE_CTRL_START_FINISH : Z;
  KSZ9477_STATIC_MCAST_TABLE_CTRL_TABLE_SELECT : Z;
  KSZ9477_STATIC_MCAST_TABLE_CTRL_ACTION : Z;
  KSZ9477_STATIC_TABLE_ENTRY1_VALID : Z;
  KSZ9477_STATIC_TABLE_ENTRY2_OVERRIDE : Z;
  KSZ9477_STATIC_TABLE_ENTRY2_PORT_FORWARD : Z;
  KSZ9477_ALU_TABLE_ENTRY2_PORT_FORWARD : Z;
  KSZ9477_ALU_TABLE_ENTRY2_PORT1_FORWARD : Z;
  KSZ9477_ALU_TABLE_ENTRY2_PORT2_FORWARD : Z;
  KSZ9477_ALU_TABLE_ENTRY2_PORT3_FORWARD : Z;
  KSZ9477_ALU_TABLE_ENTRY2_PORT4_FORWARD : Z;
  KSZ9477_ALU_TABLE_ENTRY2_PORT5_FORWARD : Z;
  KSZ9477_ALU_TABLE_ENTRY2_PORT6_FORWARD : Z;
  KSZ9477_ALU_TABLE_ENTRY2_PORT7_FORWARD : Z
}.

(** [SwitchFdbEntry] *)
Record SwitchFdbEntry : Set := mkSwitchFdbEntry {
  macAddr : MacAddr;
  srcPort : Z;
  destPorts : Z;
  override : bool
}.

Global Instance SwitchFdbEntry_eq_dec : EqDecision SwitchFdbEntry.
Proof. solve_decision. Defined.

(** The macro [macCompAddr] of ethernet.h: the six bytes compare equal. *)
Definition macCompAddr (a b : MacAddr) : bool := bool_decide (a = b).

(** What one SPI transaction of [ksz9477WriteSwitchReg8],
    [ksz9477WriteSwitchReg32] and [ksz9477ReadSwitchReg32] (command word,
    then the data bytes, most significant first) does to the switch, whose
    state is [dev]. *)
Class SwitchBus (dev : Type) : Type := mkSwitchBus {
  spiWrite8 : Z -> Z -> dev -> dev;
  spiWrite32 : Z -> Z -> dev -> dev;
  spiRead32 : Z -> dev -> Z * dev
}.

(** The interface: whether [interface->spiDriver] is set, and the switch. *)
Record NetInterface (dev : Type) : Type := mkNetInterface {
  spiDriver : bool;
  chip : dev
}.
Arguments mkNetInterface {dev} _ _.
Arguments spiDriver {dev} _.
Arguments chip {dev} _.

(** [NetRxAncillary] *)
Record NetRxAncillary : Set := mkNetRxAncillary {
  port : Z
}.

Section Driver.

Context {dev : Type} `{bus : SwitchBus dev} `{hdr : Header}.

(** The number of times the model lets a polling loop read its register;
    the C loops have no bound. *)
Variable fuel : nat.

(** *** Register access *)

Definition ksz9477WriteSwitchReg8 (address data : Z) : St (NetInterface dev) unit :=
  fun i =>
    if spiDriver i then
      Some (tt, mkNetInterface (spiDriver i) (spiWrite8 address data (chip i)))
    else
      Some (tt, i).

Definition ksz9477WriteSwitchReg32 (address data : Z) : St (NetInterface dev) unit :=
  fun i =>
    if spiDriver i then
      Some (tt, mkNetInterface (spiDriver i) (spiWrite32 address data (chip i)))
    else
      Some (tt, i).

Definition ksz9477ReadSwitchReg32 (address : Z) : St (NetInterface dev) Z :=
  fun i =>
    if spiDriver i then
      let '(data, c) := spiRead32 address (chip i) in
      Some (u32 data, mkNetInterface (spiDriver i) c)
    else
      Some (0, i).

(** *** ksz9477UntagFrame *)

(** [mem] gives the byte at an address; [frame] and [length] are the
    values behind the two in-out pointers. The result holds the status
    code and the new values of [*frame], [*length] and [*ancillary]. *)
Definition ksz9477UntagFrame (mem : Z -> Z) (interface : NetInterface dev)
    (frame length : Z) (ancillary : NetRxAncillary)
  : error_t * Z * Z * NetRxAncillary :=
  if ETH_PORT_TAGGING_SUPPORT then
    if spiDriver interface then
      if decide (length >= u32 (sizeof_EthHeader + 1)) then
        let tailTag := u32 (frame + length - 1) in
        let ancillary :=
          mkNetRxAncillary (u8 (Z.land (mem tailTag) KSZ9477_TAIL_TAG_SRC_PORT + 1)) in
        (NO_ERROR, frame, u32 (length - 1), ancillary)
      else
        (ERROR_INVALID_LENGTH, frame, length, ancillary)
    else
      (NO_ERROR, frame, length, mkNetRxAncillary 0)
  else
    (NO_ERROR, frame, length, ancillary).

(** *** ksz9477SetAgingTime *)

Definition ksz9477SetAgingTime (agingTime : Z) : St (NetInterface dev) unit :=
  let agingTime := u32 (agingTime + 3) / 4 in
  let agingTime := Z.min agingTime 255 in
  ksz9477WriteSwitchReg8 KSZ9477_SWITCH_LUE_CTRL3 (u8 agingTime).

(** *** Static MAC table *)

(** The command written to the control register for table entry [index];
    [read] tells a read from a write. *)
Definition staticTableCommand (index : nat) (read : bool) : Z :=
  let value := Z.land (u32 (Z.shiftl (Z.of_nat index) 16))
                 KSZ9477_STATIC_MCAST_TABLE_CTRL_TABLE_INDEX in
  let value := Z.land value (not32 KSZ9477_STATIC_MCAST_TABLE_CTRL_TABLE_SELECT) in
  let value :=
    if read then Z.lor value KSZ9477_STATIC_MCAST_TABLE_CTRL_ACTION
    else Z.land value (not32 KSZ9477_STATIC_MCAST_TABLE_CTRL_ACTION) in
  Z.lor value KSZ9477_STATIC_MCAST_TABLE_CTRL_START_FINISH.

(** [do { value = read(CTRL); } while((value & START_FINISH) != 0);] *)
Fixpoint pollStartFinish (n : nat) : St (NetInterface dev) Z :=
  match n with
  | O => fun _ => None
  | S n' =>
      value ← ksz9477ReadSwitchReg32 KSZ9477_STATIC_MCAST_TABLE_CTRL;
      if decide (Z.land value KSZ9477_STATIC_MCAST_TABLE_CTRL_START_FINISH ≠ 0)
      then pollStartFinish n'
      else mret value
  end.

(** The six bytes of an address out of entry registers 3 and 4. *)
Definition macOfRegs (value3 value4 : Z) : MacAddr :=
  mkMacAddr
    (Z.land (Z.shiftr value3 8) 0xFF) (Z.land value3 0xFF)
    (Z.land (Z.shiftr value4 24) 0xFF) (Z.land (Z.shiftr value4 16) 0xFF)
    (Z.land (Z.shiftr value4 8) 0xFF) (Z.land value4 0xFF).

(** [entry] is the record behind the out pointer: it is returned as it was
    unless the function stores into it. *)
Definition ksz9477GetStaticFdbEntry (index : nat) (entry : SwitchFdbEntry)
  : St (NetInterface dev) (error_t * SwitchFdbEntry) :=
  if decide (index < KSZ9477_STATIC_MAC_TABLE_SIZE)%nat then
    ksz9477WriteSwitchReg32 KSZ9477_STATIC_MCAST_TABLE_CTRL
      (staticTableCommand index true) ;;
    pollStartFinish fuel ;;
    value ← ksz9477ReadSwitchReg32 KSZ9477_STATIC_TABLE_ENTRY1;
    if decide (Z.land value KSZ9477_STATIC_TABLE_ENTRY1_VALID ≠ 0) then
      value2 ← ksz9477ReadSwitchReg32 KSZ9477_STATIC_TABLE_ENTRY2;
      value3 ← ksz9477ReadSwitchReg32 KSZ9477_STATIC_TABLE_ENTRY3;
      value4 ← ksz9477ReadSwitchReg32 KSZ9477_STATIC_TABLE_ENTRY4;
      mret (NO_ERROR,
            mkSwitchFdbEntry (macOfRegs value3 value4) 0
              (Z.land value2 KSZ9477_STATIC_TABLE_ENTRY2_PORT_FORWARD)
              (bool_decide (Z.land value2 KSZ9477_STATIC_TABLE_ENTRY2_OVERRIDE ≠ 0)))
    else
      mret (ERROR_INVALID_ENTRY, entry)
  else
    mret (ERROR_END_OF_TABLE, entry).

(** The loop of [ksz9477AddStaticFdbEntry] from index [i] on, for [n] more
    turns; the result is the value of [j] when the loop is left. *)
Fixpoint addStaticScan (entry : SwitchFdbEntry) (n i j : nat)
    (currentEntry : SwitchFdbEntry) : St (NetInterface dev) nat :=
  match n with
  | O => mret j
  | S n' =>
      '(error, currentEntry) ← ksz9477GetStaticFdbEntry i currentEntry;
      if decide (error = NO_ERROR) then
        if macCompAddr (macAddr currentEntry) (macAddr entry) then
          mret i
        else
          addStaticScan entry n' (S i) j currentEntry
      else
        if decide (j = KSZ9477_STATIC_MAC_TABLE_SIZE) then
          addStaticScan entry n' (S i) i currentEntry
        else
          addStaticScan entry n' (S i) j currentEntry
  end.

(** The value written to entry register 2. *)
Definition staticEntry2 (entry : SwitchFdbEntry) : Z :=
  let value :=
    if decide (destPorts entry = SWITCH_CPU_PORT_MASK) then KSZ9477_PORT6_MASK
    else Z.land (destPorts entry) KSZ9477_PORT_MASK in
  if override entry then Z.lor value KSZ9477_STATIC_TABLE_ENTRY2_OVERRIDE
  else value.

(** The values written to entry registers 3 and 4. *)
Definition staticEntry3 (entry : SwitchFdbEntry) : Z :=
  u32 (Z.lor (Z.shiftl (mac_b0 (macAddr entry)) 8) (mac_b1 (macAddr entry))).
Definition staticEntry4 (entry : SwitchFdbEntry) : Z :=
  u32 (Z.lor (Z.lor (Z.lor (Z.shiftl (mac_b2 (macAddr entry)) 24)
                       (Z.shiftl (mac_b3 (macAddr entry)) 16))
                (Z.shiftl (mac_b4 (macAddr entry)) 8))
         (mac_b5 (macAddr entry))).

(** [currentEntry] is the initial content of the local of that name. *)
Definition ksz9477AddStaticFdbEntry (entry currentEntry : SwitchFdbEntry)
  : St (NetInterface dev) error_t :=
  j ← addStaticScan entry KSZ9477_STATIC_MAC_TABLE_SIZE 0
        KSZ9477_STATIC_MAC_TABLE_SIZE currentEntry;
  if decide (j < KSZ9477_STATIC_MAC_TABLE_SIZE)%nat then
    ksz9477WriteSwitchReg32 KSZ9477_STATIC_TABLE_ENTRY1
      KSZ9477_STATIC_TABLE_ENTRY1_VALID ;;
    ksz9477WriteSwitchReg32 KSZ9477_STATIC_TABLE_ENTRY2 (staticEntry2 entry) ;;
    ksz9477WriteSwitchReg32 KSZ9477_STATIC_TABLE_ENTRY3 (staticEntry3 entry) ;;
    ksz9477WriteSwitchReg32 KSZ9477_STATIC_TABLE_ENTRY4 (staticEntry4 entry) ;;
    ksz9477WriteSwitchReg32 KSZ9477_STATIC_MCAST_TABLE_CTRL
      (staticTableCommand j false) ;;
    pollStartFinish fuel ;;
    mret NO_ERROR
  else
    mret ERROR_TABLE_FULL.

(** *** Dynamic MAC table *)

(** [do { value = read(CTRL); } while((value & VALID_ENTRY_OR_SEARCH_END) == 0);] *)
Fixpoint pollSearch (n : nat) : St (NetInterface dev) Z :=
  match n with
  | O => fun _ => None
  | S n' =>
      value ← ksz9477ReadSwitchReg32 KSZ9477_ALU_TABLE_CTRL;
      if decide (Z.land value KSZ9477_ALU_TABLE_CTRL_VALID_ENTRY_OR_SEARCH_END = 0)
      then pollSearch n'
      else mret value
  end.

(** The [switch] on the forward bits of entry register 2: the first
    label equal to the scrutinee is taken. *)
Definition srcPortOfForward (forward : Z) : Z :=
  if decide (forward = KSZ9477_ALU_TABLE_ENTRY2_PORT1_FORWARD) then KSZ9477_PORT1
  else if decide (forward = KSZ9477_ALU_TABLE_ENTRY2_PORT2_FORWARD) then KSZ9477_PORT2
  else if decide (forward = KSZ9477_ALU_TABLE_ENTRY2_PORT3_FORWARD) then KSZ9477_PORT3
  else if decide (forward = KSZ9477_ALU_TABLE_ENTRY2_PORT4_FORWARD) then KSZ9477_PORT4
  else if decide (forward = KSZ9477_ALU_TABLE_ENTRY2_PORT5_FORWARD) then KSZ9477_PORT5
  else if decide (forward = KSZ9477_ALU_TABLE_ENTRY2_PORT6_FORWARD) then KSZ9477_PORT6
  else if decide (forward = KSZ9477_ALU_TABLE_ENTRY2_PORT7_FORWARD) then KSZ9477_PORT7
  else 0.

Definition ksz9477GetDynamicFdbEntry (index : nat) (entry : SwitchFdbEntry)
  : St (NetInterface dev) (error_t * SwitchFdbEntry) :=
  (if decide (index = 0)%nat then
     ksz9477WriteSwitchReg32 KSZ9477_ALU_TABLE_CTRL 0 ;;
     ksz9477WriteSwitchReg32 KSZ9477_ALU_TABLE_CTRL
       (Z.lor KSZ9477_ALU_TABLE_CTRL_START_FINISH KSZ9477_ALU_TABLE_CTRL_ACTION_SEARCH)
   else mret tt) ;;
  value ← pollSearch fuel;
  if decide (Z.land value KSZ9477_ALU_TABLE_CTRL_VALID ≠ 0) then
    ksz9477ReadSwitchReg32 KSZ9477_ALU_TABLE_ENTRY1 ;;
    value2 ← ksz9477ReadSwitchReg32 KSZ9477_ALU_TABLE_ENTRY2;
    value3 ← ksz9477ReadSwitchReg32 KSZ9477_ALU_TABLE_ENTRY3;
    value4 ← ksz9477ReadSwitchReg32 KSZ9477_ALU_TABLE_ENTRY4;
    mret (NO_ERROR,
          mkSwitchFdbEntry (macOfRegs value3 value4)
            (srcPortOfForward (Z.land value2 KSZ9477_ALU_TABLE_ENTRY2_PORT_FORWARD))
            0 false)
  else
    ksz9477WriteSwitchReg32 KSZ9477_ALU_TABLE_CTRL 0 ;;
    mret (ERROR_END_OF_TABLE, entry).

End Driver.

(** The values of ksz9477_driver.h, with the tail tag compiled in. *)
Definition ksz9477_h : Header :=
  {| ETH_PORT_TAGGING_SUPPORT := true;
     sizeof_EthHeader := 14;
     SWITCH_CPU_PORT_MASK := 0x80000000;
     KSZ9477_PORT1 := 1; KSZ9477_PORT2 := 2; KSZ9477_PORT3 := 3;
     KSZ9477_PORT4 := 4; KSZ9477_PORT5 := 5; KSZ9477_PORT6 := 6;
     KSZ9477_PORT7 := 7;
     KSZ9477_PORT_MASK := 0x7F;
     KSZ9477_PORT6_MASK := 0x20;
     KSZ9477_TAIL_TAG_SRC_PORT := 0x07;
     KSZ9477_STATIC_MAC_TABLE_SIZE := 16;
     KSZ9477_SWITCH_LUE_CTRL3 := 0x0313;
     KSZ9477_ALU_TABLE_CTRL := 0x0418;
     KSZ9477_STATIC_MCAST_TABLE_CTRL := 0x041C;
     KSZ9477_ALU_TABLE_ENTRY1 := 0x0420; KSZ9477_ALU_TABLE_ENTRY2 := 0x0424;
     KSZ9477_ALU_TABLE_ENTRY3 := 0x0428; KSZ9477_ALU_TABLE_ENTRY4 := 0x042C;
     KSZ9477_STATIC_TABLE_ENTRY1 := 0x0420; KSZ9477_STATIC_TABLE_ENTRY2 := 0x0424;
     KSZ9477_STATIC_TABLE_ENTRY3 := 0x0428; KSZ9477_STATIC_TABLE_ENTRY4 := 0x042C;
     KSZ9477_ALU_TABLE_CTRL_START_FINISH := 0x00000080;
     KSZ9477_ALU_TABLE_CTRL_VALID := 0x00000040;
     KSZ9477_ALU_TABLE_CTRL_VALID_ENTRY_OR_SEARCH_END := 0x00000020;
     KSZ9477_ALU_TABLE_CTRL_ACTION_SEARCH := 0x00000003;
     KSZ9477_STATIC_MCAST_TABLE_CTRL_TABLE_INDEX := 0x003F0000;
     KSZ9477_STATIC_MCAST_TABLE_CTRL_START_FINISH := 0x00000080;
     KSZ9477_STATIC_MCAST_TABLE_CTRL_TABLE_SELECT := 0x00000002;
     KSZ9477_STATIC_MCAST_TABLE_CTRL_ACTION := 0x00000001;
     KSZ9477_STATIC_TABLE_ENTRY1_VALID := 0x80000000;
     KSZ9477_STATIC_TABLE_ENTRY2_OVERRIDE := 0x80000000;
     KSZ9477_STATIC_TABLE_ENTRY2_PORT_FORWARD := 0x0000007F;
     KSZ9477_ALU_TABLE_ENTRY2_PORT_FORWARD := 0x0000007F;
     KSZ9477_ALU_TABLE_ENTRY2_PORT1_FORWARD := 0x00000001;
     KSZ9477_ALU_TABLE_ENTRY2_PORT2_FORWARD := 0x00000002;
     KSZ9477_ALU_TABLE_ENTRY2_PORT3_FORWARD := 0x00000004;
     KSZ9477_ALU_TABLE_ENTRY2_PORT4_FORWARD := 0x00000008;
     KSZ9477_ALU_TABLE_ENTRY2_PORT5_FORWARD := 0x00000010;
     KSZ9477_ALU_TABLE_ENTRY2_PORT6_FORWARD := 0x00000020;
     KSZ9477_ALU_TABLE_ENTRY2_PORT7_FORWARD := 0x00000040 |}.

(** *** A simulated switch

    The table engines of the chip as the comments of the driver describe
    them, with the register map of [ksz9477_h].  A static-table command
    (START_FINISH set, TABLE_SELECT clear) moves the four entry registers
    to or from the selected slot and keeps START_FINISH set for
    [sim_latency] reads of the control register.  A search command makes
    the valid entries of the address lookup table available one after the
    other in the entry registers: the control register shows
    VALID_ENTRY_OR_SEARCH_END with VALID while an entry waits, and without
    VALID once the table is exhausted; reading entry register 4 releases
    the entry; writing 0 stops the search. *)

(** One operation on the bus. *)
Inductive BusOp : Set :=
| BusWrite8 (address data : Z)
| BusWrite32 (address data : Z)
| BusRead32 (address : Z).

(** The four words of a table slot. *)
Record TableWords : Set := mkTableWords {
  word1 : Z; word2 : Z; word3 : Z; word4 : Z
}.

Record SimSwitch : Type := mkSimSwitch {
  sim_regs : Z -> Z;
  sim_static : list TableWords;
  sim_static_ctrl : Z;
  sim_static_busy : nat;
  sim_alu : list TableWords;
  sim_search : option nat;
  sim_search_busy : nat;
  sim_latency : nat;
  sim_log : list BusOp
}.

Definition sim_logOp (op : BusOp) (d : SimSwitch) : SimSwitch :=
  mkSimSwitch (sim_regs d) (sim_static d) (sim_static_ctrl d) (sim_static_busy d)
    (sim_alu d) (sim_search d) (sim_search_busy d) (sim_latency d)
    (sim_log d ++ [op]).

Definition sim_setReg (a v : Z) (d : SimSwitch) : SimSwitch :=
  mkSimSwitch (fun a' => if decide (a' = a) then v else sim_regs d a')
    (sim_static d) (sim_static_ctrl d) (sim_static_busy d)
    (sim_alu d) (sim_search d) (sim_search_busy d) (sim_latency d) (sim_log d).

Definition sim_entryRegs (d : SimSwitch) : TableWords :=
  mkTableWords (sim_regs d 0x0420) (sim_regs d 0x0424)
    (sim_regs d 0x0428) (sim_regs d 0x042C).

Definition sim_loadEntryRegs (w : TableWords) (d : SimSwitch) : SimSwitch :=
  sim_setReg 0x042C (word4 w) (sim_setReg 0x0428 (word3 w)
    (sim_setReg 0x0424 (word2 w) (sim_setReg 0x0420 (word1 w) d))).

(** A write to the static table control register. *)
Definition sim_staticCommand (v : Z) (d : SimSwitch) : SimSwitch :=
  if decide (Z.land v 0x80 ≠ 0 /\ Z.land v 0x02 = 0) then
    let index := Z.to_nat (Z.shiftr (Z.land v 0x003F0000) 16) in
    let d' :=
      if decide (Z.land v 0x01 ≠ 0) then
        sim_loadEntryRegs
          (default (mkTableWords 0 0 0 0) (sim_static d !! index)) d
      else
        mkSimSwitch (sim_regs d) (<[ index := sim_entryRegs d ]> (sim_static d))
          (sim_static_ctrl d) (sim_static_busy d)
          (sim_alu d) (sim_search d) (sim_search_busy d) (sim_latency d)
          (sim_log d) in
    mkSimSwitch (sim_regs d') (sim_static d') v (sim_latency d)
      (sim_alu d') (sim_search d') (sim_search_busy d') (sim_latency d')
      (sim_log d')
  else
    mkSimSwitch (sim_regs d) (sim_static d) v (sim_static_busy d)
      (sim_alu d) (sim_search d) (sim_search_busy d) (sim_latency d) (sim_log d).

(** A write to the address lookup table control register. *)
Definition sim_aluCommand (v : Z) (d : SimSwitch) : SimSwitch :=
  if decide (Z.land v 0x80 ≠ 0 /\ Z.land v 0x03 = 0x03) then
    mkSimSwitch (sim_regs d) (sim_static d) (sim_static_ctrl d) (sim_static_busy d)
      (sim_alu d) (Some 0%nat) (sim_latency d) (sim_latency d) (sim_log d)
  else
    mkSimSwitch (sim_regs d) (sim_static d) (sim_static_ctrl d) (sim_static_busy d)
      (sim_alu d) None 0 (sim_latency d) (sim_log d).

Definition sim_setSearch (pos : option nat) (busy : nat) (d : SimSwitch) : SimSwitch :=
  mkSimSwitch (sim_regs d) (sim_static d) (sim_static_ctrl d) (sim_static_busy d)
    (sim_alu d) pos busy (sim_latency d) (sim_log d).

Definition sim_setStaticBusy (busy : nat) (d : SimSwitch) : SimSwitch :=
  mkSimSwitch (sim_regs d) (sim_static d) (sim_static_ctrl d) busy
    (sim_alu d) (sim_search d) (sim_search_busy d) (sim_latency d) (sim_log d).

(** The entry the running search offers, if it offers one. *)
Definition sim_offered (d : SimSwitch) : option (nat * TableWords) :=
  match sim_search d, sim_search_busy d with
  | Some pos, O => w ← sim_alu d !! pos; Some (pos, w)
  | _, _ => None
  end.

Definition sim_write32 (a v : Z) (d : SimSwitch) : SimSwitch :=
  let d := sim_logOp (BusWrite32 a v) d in
  if decide (a = 0x041C) then sim_staticCommand v d
  else if decide (a = 0x0418) then sim_aluCommand v d
  else sim_setReg a v d.

Definition sim_read32 (a : Z) (d : SimSwitch) : Z * SimSwitch :=
  let d := sim_logOp (BusRead32 a) d in
  if decide (a = 0x041C) then
    match sim_static_busy d with
    | S b => (Z.lor (sim_static_ctrl d) 0x80, sim_setStaticBusy b d)
    | O => (Z.land (sim_static_ctrl d) (not32 0x80), d)
    end
  else if decide (a = 0x0418) then
    match sim_search d, sim_search_busy d with
    | None, _ => (0, d)
    | Some pos, S b => (0x83, sim_setSearch (Some pos) b d)
    | Some pos, O =>
        if decide (pos < length (sim_alu d))%nat then (0xE3, d) else (0x20, d)
    end
  else
    match sim_offered d with
    | Some (pos, w) =>
        if decide (a = 0x0420) then (word1 w, d)
        else if decide (a = 0x0424) then (word2 w, d)
        else if decide (a = 0x0428) then (word3 w, d)
        else if decide (a = 0x042C) then
          (word4 w, sim_setSearch (Some (S pos)) (sim_latency d) d)
        else (sim_regs d a, d)
    | None => (sim_regs d a, d)
    end.

Definition simBus : SwitchBus SimSwitch :=
  {| spiWrite8 := fun a v d => sim_setReg a v (sim_logOp (BusWrite8 a v) d);
     spiWrite32 := sim_write32;
     spiRead32 := sim_read32 |}.

Section Simulated.

Local Existing Instance ksz9477_h.
Local Existing Instance simBus.

(** The entry that the driver decodes from the four words of a slot of
    the address lookup table. *)
Definition aluEntry (w : TableWords) : SwitchFdbEntry :=
  mkSwitchFdbEntry (macOfRegs (u32 (word3 w)) (u32 (word4 w)))
    (srcPortOfForward (Z.land (u32 (word2 w)) 0x7F)) 0 false.

(** The layout of a slot of the address lookup table in the chip, written
    with arithmetic on the words: the slot holds the address [a], learned
    on port [p], when bytes 0 and 1 of the address are bits 15 to 0 of
    word 3, bytes 2 to 5 are the 32 bits of word 4, and of bits 6 to 0 of
    word 2 the forward bit of port [p], which is bit [p - 1]
    (KSZ9477_ALU_TABLE_ENTRY2_PORTn_FORWARD in ksz9477_driver.h), is the
    only one set.  A slot with none or several of these bits set is held
    on no port, for which [p] is 0. *)
Definition learnedOn (a : MacAddr) (p : Z) (w : TableWords) : Prop :=
  mac_wf a /\
  u32 (word3 w) mod 2 ^ 16 = mac_b0 a * 2 ^ 8 + mac_b1 a /\
  u32 (word4 w) =
    mac_b2 a * 2 ^ 24 + mac_b3 a * 2 ^ 16 + mac_b4 a * 2 ^ 8 + mac_b5 a /\
  (1 <= p <= 7 /\ u32 (word2 w) mod 2 ^ 7 = 2 ^ (p - 1) \/
   p = 0 /\ forall q, 1 <= q <= 7 -> u32 (word2 w) mod 2 ^ 7 ≠ 2 ^ (q - 1)).

(** What the driver reads in a slot: its valid bit and its entry. *)
Definition slotValid (w : TableWords) : Prop :=
  Z.land (u32 (word1 w)) 0x80000000 ≠ 0.

Definition slotEntry (w : TableWords) : SwitchFdbEntry :=
  mkSwitchFdbEntry (macOfRegs (u32 (word3 w)) (u32 (word4 w))) 0
    (Z.land (u32 (word2 w)) 0x7F)
    (bool_decide (Z.land (u32 (word2 w)) 0x80000000 ≠ 0)).

(** The four words that [ksz9477AddStaticFdbEntry] writes for an entry. *)
Definition entryWords (entry : SwitchFdbEntry) : TableWords :=
  mkTableWords 0x80000000 (staticEntry2 entry) (staticEntry3 entry)
    (staticEntry4 entry).

(** The destination ports as the table holds them. *)
Definition storedPorts (entry : SwitchFdbEntry) : Z :=
  if decide (destPorts entry = 0x80000000) then 0x20
  else Z.land (destPorts entry) 0x7F.

(** The index that the scan of [ksz9477AddStaticFdbEntry] leaves in [j],
    computed on the table itself. *)
Fixpoint scanSlots (mac : MacAddr) (st : list TableWords) (n i j : nat) : nat :=
  match n with
  | O => j
  | S n' =>
      match st !! i with
      | Some w =>
          if decide (slotValid w) then
            if decide (macAddr (slotEntry w) = mac) then i
            else scanSlots mac st n' (S i) j
          else scanSlots mac st n' (S i) (if decide (j = 16%nat) then i else j)
      | None => scanSlots mac st n' (S i) (if decide (j = 16%nat) then i else j)
      end
  end.

(** A slot that holds a valid entry with the address [mac]. *)
Definition holdsMac (mac : MacAddr) (w : TableWords) : Prop :=
  slotValid w /\ macAddr (slotEntry w) = mac.

(** The static table engine is idle or busy with a command; no search
    offers an entry in the entry registers. *)
Definition staticView (st : list TableWords) (lat : nat) (d : SimSwitch) : Prop :=
  sim_static d = st /\ sim_search d = None /\ sim_latency d = lat.

End Simulated.

(** A switch with an empty static table and an address lookup table of two
    learned entries; the engines answer after two reads. *)
Definition emptySwitch : SimSwitch :=
  mkSimSwitch (fun _ => 0) (replicate 16 (mkTableWords 0 0 0 0)) 0 0
    [mkTableWords 0 0x02 0x0011 0x22334455; mkTableWords 0 0x40 0x00AA 0xBBCCDDEE]
    None 0 2 [].

Definition noEntry : SwitchFdbEntry :=
  mkSwitchFdbEntry MAC_UNSPECIFIED_ADDR 0 0 false.

(** An entry for the CPU port. *)
Definition cpuEntry : SwitchFdbEntry :=
  mkSwitchFdbEntry (mkMacAddr 0x01 0x80 0xC2 0x00 0x00 0x0E) 0 0x80000000 true.

(** The result of a computation from the empty switch, without the state. *)
Definition resultOf {A : Type} (c : St (NetInterface SimSwitch) A) (spi : bool)
  : option A :=
  fst <$> c (mkNetInterface spi emptySwitch).

End Ksz9477.

(** ** MSP432E4: the descriptor rings in use *)

Module Msp432e4Ring.
Import Msp432e4.

Section Driver.

Context `{hdr : Header}.

(** The loop of [msp432e4EthEventHandler] that processes the pending
    packets, [do { error = msp432e4EthReceivePacket(interface); }
    while(error != ERROR_BUFFER_EMPTY);], for at most [fuel] turns. *)
Fixpoint receivePending (fuel : nat) (s : State) : option State :=
  match fuel with
  | O => None
  | S fuel' =>
      '(error, s') ← msp432e4EthReceivePacket s;
      if decide (error ≠ ERROR_BUFFER_EMPTY) then receivePending fuel' s'
      else Some s'
  end.

(** Calls of [msp432e4EthSendPacket], one for each frame of the list, with
    the status codes in order. *)
Fixpoint sendFrames (frames : list (list Z * Z)) (s : State)
  : option (list error_t * State) :=
  match frames with
  | [] => Some ([], s)
  | (buffer, offset) :: frames' =>
      '(error, s') ← msp432e4EthSendPacket buffer offset s;
      '(errors, s'') ← sendFrames frames' s';
      Some (error :: errors, s'')
  end.

(** What happens to the rings between two calls of the driver: the DMA
    engine writes the status word of a descriptor back. *)
Inductive RingOp : Type :=
| OpSend (buffer : list Z) (offset : Z)
| OpReceive
| OpDmaTx (i : nat) (status : Z)
| OpDmaRx (i : nat) (status : Z).

Definition ringStep (op : RingOp) (s : State) : option State :=
  match op with
  | OpSend buffer offset => snd <$> msp432e4EthSendPacket buffer offset s
  | OpReceive => snd <$> msp432e4EthReceivePacket s
  | OpDmaTx i status => Some (set_txDmaDesc (alter (set_tdes0 status) i (txDmaDesc s)) s)
  | OpDmaRx i status => Some (set_rxDmaDesc (alter (set_rdes0 status) i (rxDmaDesc s)) s)
  end.

Fixpoint ringRun (ops : list RingOp) (s : State) : option State :=
  match ops with
  | [] => Some s
  | op :: ops' => s' ← ringStep op s; ringRun ops' s'
  end.

(** The arrays fit the 32-bit address space and hold a descriptor each. *)
Definition ringsFit : Prop :=
  (1 <= MSP432E4_ETH_TX_BUFFER_COUNT)%nat /\
  (1 <= MSP432E4_ETH_RX_BUFFER_COUNT)%nat /\
  0 <= txDmaDesc_addr /\
  txDmaDesc_addr + DESC_SIZE * Z.of_nat MSP432E4_ETH_TX_BUFFER_COUNT <= 2 ^ 32 /\
  0 <= rxDmaDesc_addr /\
  rxDmaDesc_addr + DESC_SIZE * Z.of_nat MSP432E4_ETH_RX_BUFFER_COUNT <= 2 ^ 32.

(** Both rings are whole: the arrays have their size, every descriptor is
    linked to its successor, and each cursor points to a descriptor of its
    ring. *)
Definition ringOk (s : State) : Prop :=
  length (txDmaDesc s) = MSP432E4_ETH_TX_BUFFER_COUNT /\
  length (rxDmaDesc s) = MSP432E4_ETH_RX_BUFFER_COUNT /\
  txRingLinked s /\ rxRingLinked s /\
  (exists i, (i < MSP432E4_ETH_TX_BUFFER_COUNT)%nat /\ txCurDmaDesc s = txDescAddr i) /\
  (exists i, (i < MSP432E4_ETH_RX_BUFFER_COUNT)%nat /\ rxCurDmaDesc s = rxDescAddr i).

(** The descriptor that a successful send leaves behind. *)
Definition queued (len : Z) (d : Msp432e4TxDmaDesc) : Msp432e4TxDmaDesc :=
  set_tdes0
    (Z.lor (Z.lor (tdes0 d) (Z.lor EMAC_TDES0_LS EMAC_TDES0_FS)) EMAC_TDES0_OWN)
    (set_tdes1 (Z.land len EMAC_TDES1_TBS1) d).

(** The frame that a valid receive descriptor hands to the upper layer:
    buffer address and length. *)
Definition rxFrame (d : Msp432e4RxDmaDesc) : option (Z * Z) :=
  if decide (Z.land (rdes0 d) EMAC_RDES0_FS ≠ 0 /\
             Z.land (rdes0 d) EMAC_RDES0_LS ≠ 0 /\
             Z.land (rdes0 d) EMAC_RDES0_ES = 0)
  then Some (rdes2 d,
             Z.min (Z.shiftr (Z.land (rdes0 d) EMAC_RDES0_FL) 16)
               MSP432E4_ETH_RX_BUFFER_SIZE)
  else None.

(** [length = netBufferGetLength(buffer) - offset] for a frame, and the
    bytes that [netBufferRead] copies. *)
Definition frameLength (f : list Z * Z) : Z :=
  u32 (Z.of_nat (length f.1) - f.2).

Definition frameData (f : list Z * Z) : list Z :=
  take (Z.to_nat (frameLength f)) (drop (Z.to_nat f.2) f.1).

End Driver.

(** Three frames of 60, 64 and 1514 bytes. *)
Definition threeFrames : list (list Z * Z) :=
  [(replicate 60 0xAA, 0); (replicate 64 0xBB, 0); (replicate 1514 0xCC, 0)].

(** The receive ring after the DMA has released the first three
    descriptors: a frame of 60 bytes, a frame of 64 bytes with the error
    summary set, and a frame of 1514 bytes. *)
Definition threeReceivedState : State :=
  set_rxDmaDesc
    (<[ 0%nat := mkRxDesc 0x003C0300 0x4600 0x20001200 0x20003680 0 0 0 0 ]>
       (<[ 1%nat := mkRxDesc 0x00408300 0x4600 0x20001800 0x200036A0 0 0 0 0 ]>
          (<[ 2%nat := mkRxDesc 0x05EA0300 0x4600 0x20001E00 0x200036C0 0 0 0 0 ]>
             (rxDmaDesc ringState)))) ringState.

End Msp432e4Ring.

(** ** MSP432E4: access to the transceiver registers *)

Module Msp432e4Mii.

(** The constants of the device header for the MII management registers,
    and the opcodes of core/nic.h. *)
Class Header : Set := mkHeader {
  EMAC_MIIADDR_CR_M : Z;
  EMAC_MIIADDR_MIIW : Z;
  EMAC_MIIADDR_MIIB : Z;
  EMAC_MIIADDR_PLA_S : Z;
  EMAC_MIIADDR_PLA_M : Z;
  EMAC_MIIADDR_MII_S : Z;
  EMAC_MIIADDR_MII_M : Z;
  EMAC_MIIDATA_DATA_M : Z;
  SMI_OPCODE_WRITE : Z;
  SMI_OPCODE_READ : Z
}.

(** The two registers of [EMAC0] that the functions use, over the state
    [dev] of the peripheral. *)
Class Emac (dev : Type) : Type := mkEmac {
  read_MIIADDR : dev -> Z * dev;
  write_MIIADDR : Z -> dev -> dev;
  read_MIIDATA : dev -> Z * dev;
  write_MIIDATA : Z -> dev -> dev
}.

Section Driver.

Context {dev : Type} `{emac : Emac dev} `{hdr : Header}.

(** [while((EMAC0->MIIADDR & EMAC_MIIADDR_MIIB) != 0) { }], for at most
    [n] reads of the register. *)
Fixpoint waitNotBusy (n : nat) : St dev unit :=
  match n with
  | O => fun _ => None
  | S n' =>
      fun d =>
        let '(value, d') := read_MIIADDR d in
        if decide (Z.land value EMAC_MIIADDR_MIIB ≠ 0) then waitNotBusy n' d'
        else Some (tt, d')
  end.

Section Fuel.

Variable fuel : nat.

Definition msp432e4EthWritePhyReg (opcode phyAddr regAddr data : Z) : St dev unit :=
  if decide (opcode = SMI_OPCODE_WRITE) then
    fun d =>
      let '(value, d) := read_MIIADDR d in
      let temp := Z.land value EMAC_MIIADDR_CR_M in
      let temp := Z.lor temp (Z.lor EMAC_MIIADDR_MIIW EMAC_MIIADDR_MIIB) in
      let temp := Z.lor temp (Z.land (Z.shiftl phyAddr EMAC_MIIADDR_PLA_S) EMAC_MIIADDR_PLA_M) in
      let temp := Z.lor temp (Z.land (Z.shiftl regAddr EMAC_MIIADDR_MII_S) EMAC_MIIADDR_MII_M) in
      let d := write_MIIDATA (Z.land data EMAC_MIIDATA_DATA_M) d in
      let d := write_MIIADDR (u32 temp) d in
      waitNotBusy fuel d
  else mret tt.

Definition msp432e4EthReadPhyReg (opcode phyAddr regAddr : Z) : St dev Z :=
  if decide (opcode = SMI_OPCODE_READ) then
    fun d =>
      let '(value, d) := read_MIIADDR d in
      let temp := Z.land value EMAC_MIIADDR_CR_M in
      let temp := Z.lor temp EMAC_MIIADDR_MIIB in
      let temp := Z.lor temp (Z.land (Z.shiftl phyAddr EMAC_MIIADDR_PLA_S) EMAC_MIIADDR_PLA_M) in
      let temp := Z.lor temp (Z.land (Z.shiftl regAddr EMAC_MIIADDR_MII_S) EMAC_MIIADDR_MII_M) in
      let d := write_MIIADDR (u32 temp) d in
      match waitNotBusy fuel d with
      | Some (_, d) =>
          let '(value, d) := read_MIIDATA d in
          Some (u16 (Z.land value EMAC_MIIDATA_DATA_M), d)
      | None => None
      end
  else mret 0.

End Fuel.

End Driver.

(** The values of the device header. *)
Definition msp432e4_mii_h : Header :=
  {| EMAC_MIIADDR_CR_M := 0x0000003C;
     EMAC_MIIADDR_MIIW := 0x00000002;
     EMAC_MIIADDR_MIIB := 0x00000001;
     EMAC_MIIADDR_PLA_S := 11;
     EMAC_MIIADDR_PLA_M := 0x0000F800;
     EMAC_MIIADDR_MII_S := 6;
     EMAC_MIIADDR_MII_M := 0x000007C0;
     EMAC_MIIDATA_DATA_M := 0x0000FFFF;
     SMI_OPCODE_WRITE := 1;
     SMI_OPCODE_READ := 2 |}.

(** *** The management interface of the MAC

    The peripheral as the reference manual describes it: a write to MIIADDR
    with the busy bit set starts a transfer between MIIDATA and the register
    that the address fields select, a write when the MIIW bit is set and a
    read otherwise; the busy bit reads as set for [mii_latency] further
    reads of MIIADDR and as clear after that. *)
Record MiiUnit : Type := mkMiiUnit {
  mii_addr : Z;
  mii_data : Z;
  (** the registers of the transceivers, by address and register number *)
  mii_phy : Z -> Z -> Z;
  mii_busy : nat;
  mii_latency : nat
}.

Definition mii_start (v : Z) (d : MiiUnit) : MiiUnit :=
  let pla := Z.shiftr (Z.land v 0xF800) 11 in
  let mii := Z.shiftr (Z.land v 0x07C0) 6 in
  if decide (Z.land v 0x01 ≠ 0) then
    if decide (Z.land v 0x02 ≠ 0) then
      mkMiiUnit v (mii_data d)
        (fun p r => if decide (p = pla /\ r = mii) then Z.land (mii_data d) 0xFFFF
                    else mii_phy d p r)
        (mii_latency d) (mii_latency d)
    else
      mkMiiUnit v (Z.land (mii_phy d pla mii) 0xFFFF) (mii_phy d)
        (mii_latency d) (mii_latency d)
  else
    mkMiiUnit v (mii_data d) (mii_phy d) (mii_busy d) (mii_latency d).

Definition miiEmac : Emac MiiUnit :=
  {| read_MIIADDR := fun d =>
       match mii_busy d with
       | S b => (Z.lor (mii_addr d) 0x01,
                 mkMiiUnit (mii_addr d) (mii_data d) (mii_phy d) b (mii_latency d))
       | O => (Z.land (mii_addr d) (Z.lnot 0x01), d)
       end;
     write_MIIADDR := mii_start;
     read_MIIDATA := fun d => (mii_data d, d);
     write_MIIDATA := fun v d =>
       mkMiiUnit (mii_addr d) v (mii_phy d) (mii_busy d) (mii_latency d) |}.

(** A unit at rest with the clock range 0x0C selected, and transceiver
    registers that all hold 0xFFFF. *)
Definition idleMii : MiiUnit :=
  mkMiiUnit 0x0C 0 (fun _ _ => 0xFFFF) 0 3.

End Msp432e4Mii.

(** ** The link: LAN8720 transceiver and MAC configuration *)

(** The constants of core/nic.h that the drivers of the link use. *)
Module Nic.

Class Header : Set := mkHeader {
  NIC_LINK_SPEED_10MBPS : Z;
  NIC_LINK_SPEED_100MBPS : Z;
  NIC_HALF_DUPLEX_MODE : Z;
  NIC_FULL_DUPLEX_MODE : Z;
  SMI_OPCODE_WRITE : Z;
  SMI_OPCODE_READ : Z
}.

Definition nic_h : Header :=
  {| NIC_LINK_SPEED_10MBPS := 10000000;
     NIC_LINK_SPEED_100MBPS := 100000000;
     NIC_HALF_DUPLEX_MODE := 1;
     NIC_FULL_DUPLEX_MODE := 2;
     SMI_OPCODE_WRITE := 1;
     SMI_OPCODE_READ := 2 |}.

End Nic.

(** *** msp432e4EthUpdateMacConfig *)

Module Msp432e4Mac.
Import Nic.

(** The two bits of [EMAC0->CFG] that the function writes. *)
Class Header : Set := mkHeader {
  EMAC_CFG_FES : Z;
  EMAC_CFG_DUPM : Z
}.

Section Driver.

Context `{nic : Nic.Header} `{hdr : Header}.

(** [linkSpeed] and [duplexMode] are the fields of the interface that the
    function reads; the register [EMAC0->CFG] is the state. *)
Definition msp432e4EthUpdateMacConfig (linkSpeed duplexMode : Z) (CFG : Z)
  : error_t * Z :=
  let config := CFG in
  let config :=
    if decide (linkSpeed = NIC_LINK_SPEED_100MBPS)
    then u32 (Z.lor config EMAC_CFG_FES)
    else Z.land config (not32 EMAC_CFG_FES) in
  let config :=
    if decide (duplexMode = NIC_FULL_DUPLEX_MODE)
    then u32 (Z.lor config EMAC_CFG_DUPM)
    else Z.land config (not32 EMAC_CFG_DUPM) in
  (NO_ERROR, config).

End Driver.

(** The values of the device header. *)
Definition msp432e4_mac_h : Header :=
  {| EMAC_CFG_FES := 0x00004000;
     EMAC_CFG_DUPM := 0x00000800 |}.

End Msp432e4Mac.

(** *** lan8720_driver.c *)

Module Lan8720.
Import Nic.

(** The constants of lan8720_driver.h. *)
Class Header : Set := mkHeader {
  LAN8720_BMSR : Z;
  LAN8720_ISR : Z;
  LAN8720_PSCSR : Z;
  LAN8720_BMSR_LINK_STATUS : Z;
  LAN8720_IMR_AN_COMPLETE : Z;
  LAN8720_IMR_LINK_DOWN : Z;
  LAN8720_PSCSR_HCDSPEED : Z;
  LAN8720_PSCSR_HCDSPEED_10BT_HD : Z;
  LAN8720_PSCSR_HCDSPEED_100BTX_HD : Z;
  LAN8720_PSCSR_HCDSPEED_10BT_FD : Z;
  LAN8720_PSCSR_HCDSPEED_100BTX_FD : Z
}.

(** The fields of the interface that the driver uses, over the state [dev]
    of the hardware: MAC and transceiver. *)
Record NetInterface (dev : Type) : Type := mkNetInterface {
  hw : dev;
  phyAddr : Z;
  (** [interface->smiDriver != NULL], [interface->extIntDriver != NULL] *)
  smiDriver : bool;
  extIntDriver : bool;
  linkState : bool;
  linkSpeed : Z;
  duplexMode : Z;
  phyEvent : bool;
  (** [osSetEvent(&netEvent)] *)
  netEvent : bool;
  (** the calls of [nicNotifyLinkChange] *)
  linkChanges : nat
}.
Arguments mkNetInterface {dev} _ _ _ _ _ _ _ _ _ _.
Arguments hw {dev} _.
Arguments phyAddr {dev} _.
Arguments smiDriver {dev} _.
Arguments extIntDriver {dev} _.
Arguments linkState {dev} _.
Arguments linkSpeed {dev} _.
Arguments duplexMode {dev} _.
Arguments phyEvent {dev} _.
Arguments netEvent {dev} _.
Arguments linkChanges {dev} _.

(** The functions behind [interface->smiDriver] and [interface->nicDriver]:
    register access with opcode, transceiver address and register address,
    and [updateMacConfig], which reads the link speed and the duplex mode of
    the interface. *)
Class Drivers (dev : Type) : Type := mkDrivers {
  smi_writePhyReg : Z -> Z -> Z -> Z -> dev -> dev;
  smi_readPhyReg : Z -> Z -> Z -> dev -> Z * dev;
  nic_writePhyReg : Z -> Z -> Z -> Z -> dev -> dev;
  nic_readPhyReg : Z -> Z -> Z -> dev -> Z * dev;
  nic_updateMacConfig : Z -> Z -> dev -> dev
}.

Section Driver.

Context {dev : Type} `{drv : Drivers dev} `{nic : Nic.Header} `{hdr : Header}.

Definition set_hw (d : dev) (i : NetInterface dev) : NetInterface dev :=
  mkNetInterface d (phyAddr i) (smiDriver i) (extIntDriver i) (linkState i)
    (linkSpeed i) (duplexMode i) (phyEvent i) (netEvent i) (linkChanges i).
Definition set_linkState (v : bool) (i : NetInterface dev) : NetInterface dev :=
  mkNetInterface (hw i) (phyAddr i) (smiDriver i) (extIntDriver i) v
    (linkSpeed i) (duplexMode i) (phyEvent i) (netEvent i) (linkChanges i).
Definition set_link (speed duplex : Z) (i : NetInterface dev) : NetInterface dev :=
  mkNetInterface (hw i) (phyAddr i) (smiDriver i) (extIntDriver i) (linkState i)
    speed duplex (phyEvent i) (netEvent i) (linkChanges i).
(** [interface->phyEvent = TRUE; osSetEvent(&netEvent);] *)
Definition raisePhyEvent (i : NetInterface dev) : NetInterface dev :=
  mkNetInterface (hw i) (phyAddr i) (smiDriver i) (extIntDriver i) (linkState i)
    (linkSpeed i) (duplexMode i) true true (linkChanges i).
Definition nicNotifyLinkChange (i : NetInterface dev) : NetInterface dev :=
  mkNetInterface (hw i) (phyAddr i) (smiDriver i) (extIntDriver i) (linkState i)
    (linkSpeed i) (duplexMode i) (phyEvent i) (netEvent i) (S (linkChanges i)).

Definition lan8720WritePhyReg (address data : Z) : St (NetInterface dev) unit :=
  modify (fun i =>
    if smiDriver i
    then set_hw (smi_writePhyReg SMI_OPCODE_WRITE (phyAddr i) address data (hw i)) i
    else set_hw (nic_writePhyReg SMI_OPCODE_WRITE (phyAddr i) address data (hw i)) i).

Definition lan8720ReadPhyReg (address : Z) : St (NetInterface dev) Z :=
  fun i =>
    let '(data, d) :=
      if smiDriver i
      then smi_readPhyReg SMI_OPCODE_READ (phyAddr i) address (hw i)
      else nic_readPhyReg SMI_OPCODE_READ (phyAddr i) address (hw i) in
    Some (u16 data, set_hw d i).

Definition lan8720Tick : St (NetInterface dev) unit :=
  fun i =>
    if extIntDriver i then Some (tt, i)
    else
      (value ← lan8720ReadPhyReg LAN8720_BMSR;
       let linkState' := bool_decide (Z.land value LAN8720_BMSR_LINK_STATUS ≠ 0) in
       modify (fun i =>
         if linkState' && negb (linkState i) then raisePhyEvent i
         else if negb linkState' && linkState i then raisePhyEvent i
         else i)) i.

(** The [switch] on the operation mode: the new speed and duplex mode, or
    none in the default case. *)
Definition operationMode (value : Z) : option (Z * Z) :=
  let mode := Z.land value LAN8720_PSCSR_HCDSPEED in
  if decide (mode = LAN8720_PSCSR_HCDSPEED_10BT_HD)
  then Some (NIC_LINK_SPEED_10MBPS, NIC_HALF_DUPLEX_MODE)
  else if decide (mode = LAN8720_PSCSR_HCDSPEED_10BT_FD)
  then Some (NIC_LINK_SPEED_10MBPS, NIC_FULL_DUPLEX_MODE)
  else if decide (mode = LAN8720_PSCSR_HCDSPEED_100BTX_HD)
  then Some (NIC_LINK_SPEED_100MBPS, NIC_HALF_DUPLEX_MODE)
  else if decide (mode = LAN8720_PSCSR_HCDSPEED_100BTX_FD)
  then Some (NIC_LINK_SPEED_100MBPS, NIC_FULL_DUPLEX_MODE)
  else None.

Definition lan8720EventHandler : St (NetInterface dev) unit :=
  value ← lan8720ReadPhyReg LAN8720_ISR;
  if decide (Z.land value (Z.lor LAN8720_IMR_AN_COMPLETE LAN8720_IMR_LINK_DOWN) ≠ 0)
  then
    lan8720ReadPhyReg LAN8720_BMSR ;;
    value ← lan8720ReadPhyReg LAN8720_BMSR;
    (if decide (Z.land value LAN8720_BMSR_LINK_STATUS ≠ 0) then
       value ← lan8720ReadPhyReg LAN8720_PSCSR;
       modify (fun i =>
         match operationMode value with
         | Some (speed, duplex) => set_link speed duplex i
         | None => i
         end) ;;
       modify (set_linkState true) ;;
       modify (fun i =>
         set_hw (nic_updateMacConfig (linkSpeed i) (duplexMode i) (hw i)) i)
     else
       modify (set_linkState false)) ;;
    modify nicNotifyLinkChange
  else mret tt.

End Driver.

(** The values of lan8720_driver.h. *)
Definition lan8720_h : Header :=
  {| LAN8720_BMSR := 0x01;
     LAN8720_ISR := 0x1D;
     LAN8720_PSCSR := 0x1F;
     LAN8720_BMSR_LINK_STATUS := 0x0004;
     LAN8720_IMR_AN_COMPLETE := 0x0040;
     LAN8720_IMR_LINK_DOWN := 0x0010;
     LAN8720_PSCSR_HCDSPEED := 0x001C;
     LAN8720_PSCSR_HCDSPEED_10BT_HD := 0x0004;
     LAN8720_PSCSR_HCDSPEED_100BTX_HD := 0x0008;
     LAN8720_PSCSR_HCDSPEED_10BT_FD := 0x0014;
     LAN8720_PSCSR_HCDSPEED_100BTX_FD := 0x0018 |}.

(** *** The MSP432E4 with a LAN8720

    The hardware is the register [EMAC0->CFG] and a transceiver that answers
    the successive reads of each of its registers with given values, which
    covers registers that latch or clear when read. *)
Record MacPhy : Type := mkMacPhy {
  answers : Z -> Z -> list Z;
  CFG : Z
}.

(** The transceiver after one of its registers has been read. *)
Definition afterRead (phy reg : Z) (rest : list Z) (d : MacPhy) : MacPhy :=
  mkMacPhy (fun p r => if decide (p = phy /\ r = reg) then rest else answers d p r)
    (CFG d).

Definition answeredRead (opcode phyAddr regAddr : Z) (d : MacPhy) : Z * MacPhy :=
  if decide (opcode = Nic.SMI_OPCODE_READ (Header := nic_h)) then
    match answers d phyAddr regAddr with
    | v :: rest => (v, afterRead phyAddr regAddr rest d)
    | [] => (0, d)
    end
  else (0, d).

Definition msp432e4Drivers : Drivers MacPhy :=
  {| smi_writePhyReg := fun _ _ _ _ d => d;
     smi_readPhyReg := answeredRead;
     nic_writePhyReg := fun _ _ _ _ d => d;
     nic_readPhyReg := answeredRead;
     nic_updateMacConfig := fun speed duplex d =>
       mkMacPhy (answers d)
         (Msp432e4Mac.msp432e4EthUpdateMacConfig
            (nic := nic_h) (hdr := Msp432e4Mac.msp432e4_mac_h)
            speed duplex (CFG d)).2 |}.

(** A transceiver at address 0 that has latched a link failure and now
    reports a link at 100 Mbit/s, full duplex, after auto-negotiation. *)
Definition linkUpAnswers : Z -> Z -> list Z :=
  fun p r =>
    if decide (p = 0 /\ r = 0x1D) then [0x0040]
    else if decide (p = 0 /\ r = 0x01) then [0x7809; 0x782D]
    else if decide (p = 0 /\ r = 0x1F) then [0x1058]
    else [].

(** The same transceiver with [pscsr] in its special control/status
    register, behind an interface without link whose speed and duplex mode
    are unknown (0 in nic.h), and a MAC whose configuration is [cfg]. *)
Definition negotiatedAnswers (pscsr : Z) : Z -> Z -> list Z :=
  fun p r =>
    if decide (p = 0 /\ r = 0x1D) then [0x0040]
    else if decide (p = 0 /\ r = 0x01) then [0x7809; 0x782D]
    else if decide (p = 0 /\ r = 0x1F) then [pscsr]
    else [].

Definition linkDownInterface (pscsr cfg : Z) : NetInterface MacPhy :=
  mkNetInterface (mkMacPhy (negotiatedAnswers pscsr) cfg) 0 false true false
    0 0 false false 0.

End Lan8720.

(** ** W5100S: the receive path and the memory behind the bus *)

Module W5100sRx.
Import W5100s.

(** The constants of w5100s_driver.h for the receive path. *)
Class RxHeader : Set := mkRxHeader {
  W5100S_S0_RXBUF_SIZE : Z;
  W5100S_S0_RX_RSR0 : Z;
  W5100S_S0_RX_RD0 : Z;
  W5100S_RX_BUFFER : Z;
  W5100S_Sn_CR_RECV : Z
}.

(** The driver with the static array [temp] of [w5100sReceivePacket] and the
    calls made to the upper layer. *)
Record Receiver (dev : Type) : Type := mkReceiver {
  interface : NetInterface dev;
  (** [static uint8_t temp[W5100S_ETH_RX_BUFFER_SIZE]] *)
  temp : list Z;
  (** [nicProcessPacket(interface, temp, length, ...)]: the bytes
      [temp[0 .. length)] *)
  processed : list (list Z)
}.
Arguments mkReceiver {dev} _ _ _.
Arguments interface {dev} _.
Arguments temp {dev} _.
Arguments processed {dev} _.

(** [LOAD16BE(p)] of cpu_endian.h, on an array of bytes. *)
Definition LOAD16BE (p : list Z) : option Z :=
  b0 ← p !! 0%nat; b1 ← p !! 1%nat;
  Some (Z.lor (u16 (Z.shiftl (u8 b0) 8)) (u8 b1)).

Section Driver.

Context {dev : Type} `{spi : SpiDriver dev} `{hdr : Header} `{rxh : RxHeader}.

(** The data phase of [w5100sReadBuffer]:
    [for(i = 0; i < length; i++) data[i] = transfer(0x00);] where the
    pointer [data] is [start] bytes into the array.  A store outside the
    array has no defined result. *)
Fixpoint readLoop (n : nat) (i : nat) (data : list Z)
  : St (NetInterface dev) (list Z) :=
  match n with
  | O => mret data
  | S n' =>
      b ← spiTransfer 0x00;
      if decide (i < length data)%nat
      then readLoop n' (S i) (<[ i := b ]> data)
      else fun _ => None
  end.

Definition w5100sReadBuffer (address : Z) (data : list Z) (start : nat)
    (length : Z) : St (NetInterface dev) (list Z) :=
  spiAssertCs ;;
  spiTransfer W5100S_CTRL_READ ;;
  spiTransfer (MSB address) ;;
  spiTransfer (LSB address) ;;
  data' ← readLoop (Z.to_nat length) start data;
  spiDeassertCs ;;
  mret data'.

Definition w5100sReadData (data : list Z) (length : Z)
  : St (NetInterface dev) (list Z) :=
  sz ← w5100sReadReg8 W5100S_S0_RXBUF_SIZE;
  let size := sz * 1024 in
  p ← w5100sReadReg16 W5100S_S0_RX_RD0;
  let offset := Z.land p (u32 (size - 1)) in
  data' ← (if decide (u32 (offset + length) < size) then
             w5100sReadBuffer (u16 (W5100S_RX_BUFFER + offset)) data 0 length
           else
             data1 ← w5100sReadBuffer (u16 (W5100S_RX_BUFFER + offset)) data 0
                       (u32 (size - offset));
             w5100sReadBuffer (u16 W5100S_RX_BUFFER) data1
               (Z.to_nat (u32 (size - offset))) (u32 (offset + length - size)));
  w5100sWriteReg16 W5100S_S0_RX_RD0 (u16 (p + length)) ;;
  w5100sWriteReg8 W5100S_S0_CR W5100S_Sn_CR_RECV ;;
  mret data'.

(** A call on the interface of the receiver. *)
Definition onInterface {A : Type} (c : St (NetInterface dev) A)
  : St (Receiver dev) A :=
  fun r => match c (interface r) with
           | Some (a, i) => Some (a, mkReceiver i (temp r) (processed r))
           | None => None
           end.

(** [w5100sReadData(interface, temp, length)] *)
Definition readTemp (length : Z) : St (Receiver dev) unit :=
  fun r => match w5100sReadData (temp r) length (interface r) with
           | Some (t, i) => Some (tt, mkReceiver i t (processed r))
           | None => None
           end.

(** [nicProcessPacket(interface, temp, length, &ancillary)]; reading past
    the end of the array has no defined result. *)
Definition nicProcessPacket (length : Z) : St (Receiver dev) unit :=
  fun r => if decide (length <= Z.of_nat (List.length (temp r)))
           then Some (tt, mkReceiver (interface r) (temp r)
                            (processed r ++ [take (Z.to_nat length) (temp r)]))
           else None.

Definition w5100sReceivePacket : St (Receiver dev) error_t :=
  length ← onInterface (w5100sReadReg16 W5100S_S0_RX_RSR0);
  '(error, length) ←
    (if decide (length > 0) then
       readTemp 2 ;;
       length ← (fun r => (fun l => (l, r)) <$> LOAD16BE (temp r));
       if decide (length >= 2 /\ length <= ETH_MAX_FRAME_SIZE + 2) then
         readTemp (u32 (length - 2)) ;;
         mret (NO_ERROR, length)
       else
         mret (ERROR_INVALID_LENGTH, length)
     else
       mret (ERROR_BUFFER_EMPTY, length));
  (if decide (error = NO_ERROR) then nicProcessPacket length else mret tt) ;;
  mret error.

End Driver.

(** The values of w5100s_driver.h. *)
Definition w5100s_rx_h : RxHeader :=
  {| W5100S_S0_RXBUF_SIZE := 0x041E;
     W5100S_S0_RX_RSR0 := 0x0426;
     W5100S_S0_RX_RD0 := 0x0428;
     W5100S_RX_BUFFER := 0x6000;
     W5100S_Sn_CR_RECV := 0x40 |}.

(** *** The chip as a memory

    The serial interface of the W5100S as the driver uses it: after chip
    select a control byte (0xF0 to write, 0x0F to read), two bytes of
    address, then data bytes, each for the next address.  The chip modelled
    here only stores; it does not act on commands. *)
Inductive ChipPhase : Set :=
| Deselected
| ControlPhase
| AddressHigh (control : Z)
| AddressLow (control high : Z)
| DataPhase (control address : Z).

Record MemChip : Type := mkMemChip {
  mc_mem : Z -> Z;
  mc_phase : ChipPhase
}.

(** A store into a byte of the memory. *)
Definition store (a v : Z) (mem : Z -> Z) : Z -> Z :=
  fun a' => if decide (a' = a) then u8 v else mem a'.

Definition mc_transfer (b : Z) (d : MemChip) : Z * MemChip :=
  match mc_phase d with
  | Deselected => (0, d)
  | ControlPhase => (0, mkMemChip (mc_mem d) (AddressHigh b))
  | AddressHigh c => (0, mkMemChip (mc_mem d) (AddressLow c b))
  | AddressLow c h =>
      (0, mkMemChip (mc_mem d) (DataPhase c (Z.lor (Z.shiftl h 8) b)))
  | DataPhase c a =>
      if decide (c = 0xF0) then
        (0, mkMemChip (store a b (mc_mem d)) (DataPhase c (u16 (a + 1))))
      else if decide (c = 0x0F) then
        (mc_mem d a, mkMemChip (mc_mem d) (DataPhase c (u16 (a + 1))))
      else (0, d)
  end.

Definition memSpi : SpiDriver MemChip :=
  {| assertCs := fun d => mkMemChip (mc_mem d) ControlPhase;
     transfer := mc_transfer;
     deassertCs := fun d => mkMemChip (mc_mem d) Deselected |}.

(** An interface with the memory behind the bus, chip select high. *)
Definition onChip (mem : Z -> Z) (event : bool) : NetInterface MemChip :=
  mkNetInterface (mkMemChip mem Deselected) event.

(** The bytes [bs] stored from address [a] on. *)
Fixpoint storeBytes (a : Z) (bs : list Z) (mem : Z -> Z) : Z -> Z :=
  match bs with
  | [] => mem
  | b :: bs' => storeBytes (u16 (a + 1)) bs' (store a b mem)
  end.

(** The [n] bytes read from address [a] on. *)
Fixpoint loadBytes (a : Z) (n : nat) (mem : Z -> Z) : list Z :=
  match n with
  | O => []
  | S n' => u8 (mem a) :: loadBytes (u16 (a + 1)) n' mem
  end.

(** The value of a 16-bit register of the memory. *)
Definition reg16 (mem : Z -> Z) (a : Z) : Z :=
  Z.lor (u16 (Z.shiftl (u8 (mem a)) 8)) (u8 (mem (a + 1))).

(** The bytes of a circular buffer of [size] bytes at [base], from the
    16-bit pointer [p] on. *)
Definition ringBytes (base size p : Z) (n : nat) (mem : Z -> Z) : list Z :=
  (fun i => u8 (mem (base + (p + Z.of_nat i) mod size))) <$> seq 0 n.

(** A chip with buffers of 8 kilobytes, 8192 bytes free for transmission
    and the write pointer 16 bytes before the end of the transmit buffer. *)
Definition txMemory : Z -> Z :=
  fun a =>
    if decide (a = 0x041F) then 0x08
    else if decide (a = 0x0420) then 0x20
    else if decide (a = 0x0424) then 0x1F
    else if decide (a = 0x0425) then 0xF0
    else 0.

(** A chip with a receive buffer of 8 kilobytes and the read pointer on its
    last byte, where a packet starts: the header [header0 header1], then
    the bytes DE AD BE EF. *)
Definition rxMemory (header0 header1 : Z) : Z -> Z :=
  fun a =>
    if decide (a = 0x041E) then 0x08
    else if decide (a = 0x0427) then 0x06
    else if decide (a = 0x0428) then 0x1F
    else if decide (a = 0x0429) then 0xFF
    else if decide (a = 0x7FFF) then header0
    else if decide (a = 0x6000) then header1
    else if decide (a = 0x6001) then 0xDE
    else if decide (a = 0x6002) then 0xAD
    else if decide (a = 0x6003) then 0xBE
    else if decide (a = 0x6004) then 0xEF
    else 0.

End W5100sRx.

(** ** KSZ9477: register access over SPI and the port controls *)

Module Ksz9477Spi.
Import Ksz9477.

(** The constants of ksz9477_driver.h for the SPI command word and for the
    registers of the port and lookup engine controls. *)
Class SpiHeader : Type := mkSpiHeader {
  KSZ9477_SPI_CMD_WRITE : Z;
  KSZ9477_SPI_CMD_READ : Z;
  KSZ9477_SPI_CMD_ADDR : Z;
  (** the macro [KSZ9477_PORTn_MSTP_STATE(port)] *)
  KSZ9477_PORTn_MSTP_STATE : Z -> Z;
  KSZ9477_PORTn_MSTP_STATE_TRANSMIT_EN : Z;
  KSZ9477_PORTn_MSTP_STATE_RECEIVE_EN : Z;
  KSZ9477_PORTn_MSTP_STATE_LEARNING_DIS : Z;
  KSZ9477_GLOBAL_PORT_MIRROR_SNOOP_CTRL : Z;
  KSZ9477_GLOBAL_PORT_MIRROR_SNOOP_CTRL_IGMP_SNOOP_EN : Z;
  KSZ9477_GLOBAL_PORT_MIRROR_SNOOP_CTRL_MLD_SNOOP_EN : Z;
  KSZ9477_SWITCH_LUE_CTRL0 : Z;
  KSZ9477_SWITCH_LUE_CTRL0_RESERVED_MCAST_LOOKUP_EN : Z;
  KSZ9477_SWITCH_LUE_CTRL1 : Z;
  KSZ9477_SWITCH_LUE_CTRL1_FLUSH_ALU_TABLE : Z;
  KSZ9477_SWITCH_LUE_CTRL1_FLUSH_MSTP_ENTRIES : Z;
  KSZ9477_SWITCH_LUE_CTRL2 : Z;
  KSZ9477_SWITCH_LUE_CTRL2_FLUSH_OPTION : Z;
  KSZ9477_SWITCH_LUE_CTRL2_FLUSH_OPTION_DYNAMIC : Z;
  KSZ9477_UNKONWN_MULTICAST_CTRL : Z;
  KSZ9477_UNKONWN_MULTICAST_CTRL_FWD : Z;
  KSZ9477_UNKONWN_MULTICAST_CTRL_FWD_MAP : Z;
  KSZ9477_UNKONWN_MULTICAST_CTRL_FWD_MAP_ALL : Z;
  KSZ9477_UNKONWN_MULTICAST_CTRL_FWD_MAP_PORT6 : Z
}.

(** [SwitchPortState] of nic.h. *)
Inductive SwitchPortState : Set :=
| SWITCH_PORT_STATE_UNKNOWN
| SWITCH_PORT_STATE_DISABLED
| SWITCH_PORT_STATE_BLOCKING
| SWITCH_PORT_STATE_LISTENING
| SWITCH_PORT_STATE_LEARNING
| SWITCH_PORT_STATE_FORWARDING.

Global Instance SwitchPortState_eq_dec : EqDecision SwitchPortState.
Proof. solve_decision. Defined.

Section Driver.

Context {dev : Type} `{spi : W5100s.SpiDriver dev} `{sh : SpiHeader} `{hdr : Header}.

(** [interface->spiDriver->transfer(b)] with its result dropped, and
    [interface->spiDriver->transfer(0xFF)] for its result, a [uint8_t]. *)
Definition spiSend (b : Z) (d : dev) : dev := (W5100s.transfer b d).2.
Definition spiReceive (d : dev) : Z * dev :=
  let '(r, d) := W5100s.transfer 0xFF d in (u8 r, d).

(** [command = op; command |= (address << 5) & KSZ9477_SPI_CMD_ADDR;] for
    an [address] of type [uint16_t]. *)
Definition spiCommand (op address : Z) : Z :=
  Z.lor op (Z.land (Z.shiftl (u16 address) 5) KSZ9477_SPI_CMD_ADDR).

(** Chip select and the four bytes of the command. *)
Definition spiCommandPhase (command : Z) (d : dev) : dev :=
  let d := W5100s.assertCs d in
  let d := spiSend (Z.land (Z.shiftr command 24) 0xFF) d in
  let d := spiSend (Z.land (Z.shiftr command 16) 0xFF) d in
  let d := spiSend (Z.land (Z.shiftr command 8) 0xFF) d in
  spiSend (Z.land command 0xFF) d.

(** The SPI transactions of the six register functions, in the branch
    [interface->spiDriver != NULL]. *)
Definition writeTransaction8 (address data : Z) (d : dev) : dev :=
  let d := spiCommandPhase (spiCommand KSZ9477_SPI_CMD_WRITE address) d in
  let d := spiSend data d in
  W5100s.deassertCs d.

Definition readTransaction8 (address : Z) (d : dev) : Z * dev :=
  let d := spiCommandPhase (spiCommand KSZ9477_SPI_CMD_READ address) d in
  let '(data, d) := spiReceive d in
  (data, W5100s.deassertCs d).

Definition writeTransaction16 (address data : Z) (d : dev) : dev :=
  let d := spiCommandPhase (spiCommand KSZ9477_SPI_CMD_WRITE address) d in
  let d := spiSend (Z.land (Z.shiftr data 8) 0xFF) d in
  let d := spiSend (Z.land data 0xFF) d in
  W5100s.deassertCs d.

Definition readTransaction16 (address : Z) (d : dev) : Z * dev :=
  let d := spiCommandPhase (spiCommand KSZ9477_SPI_CMD_READ address) d in
  let '(b, d) := spiReceive d in
  let data := u16 (Z.shiftl b 8) in
  let '(b, d) := spiReceive d in
  let data := Z.lor data b in
  (data, W5100s.deassertCs d).

Definition writeTransaction32 (address data : Z) (d : dev) : dev :=
  let d := spiCommandPhase (spiCommand KSZ9477_SPI_CMD_WRITE address) d in
  let d := spiSend (Z.land (Z.shiftr data 24) 0xFF) d in
  let d := spiSend (Z.land (Z.shiftr data 16) 0xFF) d in
  let d := spiSend (Z.land (Z.shiftr data 8) 0xFF) d in
  let d := spiSend (Z.land data 0xFF) d in
  W5100s.deassertCs d.

Definition readTransaction32 (address : Z) (d : dev) : Z * dev :=
  let d := spiCommandPhase (spiCommand KSZ9477_SPI_CMD_READ address) d in
  let '(b, d) := spiReceive d in
  let data := u32 (Z.shiftl b 24) in
  let '(b, d) := spiReceive d in
  let data := Z.lor data (u32 (Z.shiftl b 16)) in
  let '(b, d) := spiReceive d in
  let data := Z.lor data (u32 (Z.shiftl b 8)) in
  let '(b, d) := spiReceive d in
  let data := Z.lor data b in
  (data, W5100s.deassertCs d).

(** The bus of [ksz9477WriteSwitchReg8], [ksz9477WriteSwitchReg32] and
    [ksz9477ReadSwitchReg32] made of these transactions. *)
Definition spiBus : SwitchBus dev :=
  {| spiWrite8 := writeTransaction8;
     spiWrite32 := writeTransaction32;
     spiRead32 := readTransaction32 |}.

Local Existing Instance spiBus.

Definition ksz9477ReadSwitchReg8 (address : Z) : St (NetInterface dev) Z :=
  fun i =>
    if spiDriver i then
      let '(data, c) := readTransaction8 address (chip i) in
      Some (data, mkNetInterface (spiDriver i) c)
    else
      Some (0, i).

Definition ksz9477WriteSwitchReg16 (address data : Z) : St (NetInterface dev) unit :=
  fun i =>
    if spiDriver i then
      Some (tt, mkNetInterface (spiDriver i) (writeTransaction16 address data (chip i)))
    else
      Some (tt, i).

Definition ksz9477ReadSwitchReg16 (address : Z) : St (NetInterface dev) Z :=
  fun i =>
    if spiDriver i then
      let '(data, c) := readTransaction16 address (chip i) in
      Some (data, mkNetInterface (spiDriver i) c)
    else
      Some (0, i).

(** *** ksz9477SetPortState and ksz9477GetPortState *)

(** [temp &= ~mask] and [temp |= mask] on a [uint8_t]. *)
Definition clear8 (temp mask : Z) : Z := u8 (Z.land temp (Z.lnot mask)).
Definition set8 (temp mask : Z) : Z := u8 (Z.lor temp mask).

Definition ksz9477SetPortState (port : Z) (state : SwitchPortState)
  : St (NetInterface dev) unit :=
  if decide (port >= KSZ9477_PORT1 /\ port <= KSZ9477_PORT5) then
    temp ← ksz9477ReadSwitchReg8 (KSZ9477_PORTn_MSTP_STATE port);
    let temp :=
      match state with
      | SWITCH_PORT_STATE_LISTENING =>
          let temp := clear8 temp KSZ9477_PORTn_MSTP_STATE_TRANSMIT_EN in
          let temp := set8 temp KSZ9477_PORTn_MSTP_STATE_RECEIVE_EN in
          set8 temp KSZ9477_PORTn_MSTP_STATE_LEARNING_DIS
      | SWITCH_PORT_STATE_LEARNING =>
          let temp := clear8 temp KSZ9477_PORTn_MSTP_STATE_TRANSMIT_EN in
          let temp := clear8 temp KSZ9477_PORTn_MSTP_STATE_RECEIVE_EN in
          clear8 temp KSZ9477_PORTn_MSTP_STATE_LEARNING_DIS
      | SWITCH_PORT_STATE_FORWARDING =>
          let temp := set8 temp KSZ9477_PORTn_MSTP_STATE_TRANSMIT_EN in
          let temp := set8 temp KSZ9477_PORTn_MSTP_STATE_RECEIVE_EN in
          clear8 temp KSZ9477_PORTn_MSTP_STATE_LEARNING_DIS
      | _ =>
          let temp := clear8 temp KSZ9477_PORTn_MSTP_STATE_TRANSMIT_EN in
          let temp := clear8 temp KSZ9477_PORTn_MSTP_STATE_RECEIVE_EN in
          set8 temp KSZ9477_PORTn_MSTP_STATE_LEARNING_DIS
      end in
    ksz9477WriteSwitchReg8 (KSZ9477_PORTn_MSTP_STATE port) temp
  else
    mret tt.

Definition ksz9477GetPortState (port : Z) : St (NetInterface dev) SwitchPortState :=
  if decide (port >= KSZ9477_PORT1 /\ port <= KSZ9477_PORT5) then
    temp ← ksz9477ReadSwitchReg8 (KSZ9477_PORTn_MSTP_STATE port);
    let tx := Z.land temp KSZ9477_PORTn_MSTP_STATE_TRANSMIT_EN in
    let rx := Z.land temp KSZ9477_PORTn_MSTP_STATE_RECEIVE_EN in
    let dis := Z.land temp KSZ9477_PORTn_MSTP_STATE_LEARNING_DIS in
    if decide (tx = 0 /\ rx = 0 /\ dis ≠ 0) then
      mret SWITCH_PORT_STATE_DISABLED
    else if decide (tx = 0 /\ rx ≠ 0 /\ dis ≠ 0) then
      mret SWITCH_PORT_STATE_LISTENING
    else if decide (tx = 0 /\ rx = 0 /\ dis = 0) then
      mret SWITCH_PORT_STATE_LEARNING
    else if decide (tx ≠ 0 /\ rx ≠ 0 /\ dis = 0) then
      mret SWITCH_PORT_STATE_FORWARDING
    else
      mret SWITCH_PORT_STATE_UNKNOWN
  else
    mret SWITCH_PORT_STATE_DISABLED.

(** *** The snooping and lookup switches *)

Definition ksz9477EnableIgmpSnooping (enable : bool) : St (NetInterface dev) unit :=
  temp ← ksz9477ReadSwitchReg8 KSZ9477_GLOBAL_PORT_MIRROR_SNOOP_CTRL;
  let temp :=
    if enable then set8 temp KSZ9477_GLOBAL_PORT_MIRROR_SNOOP_CTRL_IGMP_SNOOP_EN
    else clear8 temp KSZ9477_GLOBAL_PORT_MIRROR_SNOOP_CTRL_IGMP_SNOOP_EN in
  ksz9477WriteSwitchReg8 KSZ9477_GLOBAL_PORT_MIRROR_SNOOP_CTRL temp.

Definition ksz9477EnableMldSnooping (enable : bool) : St (NetInterface dev) unit :=
  temp ← ksz9477ReadSwitchReg8 KSZ9477_GLOBAL_PORT_MIRROR_SNOOP_CTRL;
  let temp :=
    if enable then set8 temp KSZ9477_GLOBAL_PORT_MIRROR_SNOOP_CTRL_MLD_SNOOP_EN
    else clear8 temp KSZ9477_GLOBAL_PORT_MIRROR_SNOOP_CTRL_MLD_SNOOP_EN in
  ksz9477WriteSwitchReg8 KSZ9477_GLOBAL_PORT_MIRROR_SNOOP_CTRL temp.

Definition ksz9477EnableRsvdMcastTable (enable : bool) : St (NetInterface dev) unit :=
  temp ← ksz9477ReadSwitchReg8 KSZ9477_SWITCH_LUE_CTRL0;
  let temp :=
    if enable then set8 temp KSZ9477_SWITCH_LUE_CTRL0_RESERVED_MCAST_LOOKUP_EN
    else clear8 temp KSZ9477_SWITCH_LUE_CTRL0_RESERVED_MCAST_LOOKUP_EN in
  ksz9477WriteSwitchReg8 KSZ9477_SWITCH_LUE_CTRL0 temp.

(** *** ksz9477FlushDynamicFdbTable *)

(** [temp] is a [uint_t] here and [state] a [uint8_t]; the value handed to
    [ksz9477WriteSwitchReg8] is converted to [uint8_t]. *)
Definition ksz9477FlushDynamicFdbTable (port : Z) : St (NetInterface dev) unit :=
  temp ← ksz9477ReadSwitchReg8 KSZ9477_SWITCH_LUE_CTRL2;
  let temp := u32 (Z.land temp (Z.lnot KSZ9477_SWITCH_LUE_CTRL2_FLUSH_OPTION)) in
  let temp := u32 (Z.lor temp KSZ9477_SWITCH_LUE_CTRL2_FLUSH_OPTION_DYNAMIC) in
  ksz9477WriteSwitchReg8 KSZ9477_SWITCH_LUE_CTRL2 (u8 temp) ;;
  if decide (port >= KSZ9477_PORT1 /\ port <= KSZ9477_PORT7) then
    state ← ksz9477ReadSwitchReg8 (KSZ9477_PORTn_MSTP_STATE port);
    ksz9477WriteSwitchReg8 (KSZ9477_PORTn_MSTP_STATE port)
      (u8 (Z.lor state KSZ9477_PORTn_MSTP_STATE_LEARNING_DIS)) ;;
    temp ← ksz9477ReadSwitchReg8 KSZ9477_SWITCH_LUE_CTRL1;
    let temp := u32 (Z.lor temp KSZ9477_SWITCH_LUE_CTRL1_FLUSH_MSTP_ENTRIES) in
    ksz9477WriteSwitchReg8 KSZ9477_SWITCH_LUE_CTRL1 (u8 temp) ;;
    ksz9477WriteSwitchReg8 (KSZ9477_PORTn_MSTP_STATE port) state
  else
    temp ← ksz9477ReadSwitchReg8 KSZ9477_SWITCH_LUE_CTRL1;
    let temp := u32 (Z.lor temp KSZ9477_SWITCH_LUE_CTRL1_FLUSH_ALU_TABLE) in
    ksz9477WriteSwitchReg8 KSZ9477_SWITCH_LUE_CTRL1 (u8 temp).

(** *** ksz9477SetUnknownMcastFwdPorts *)

Definition ksz9477SetUnknownMcastFwdPorts (enable : bool) (forwardPorts : Z)
  : St (NetInterface dev) unit :=
  temp ← ksz9477ReadSwitchReg32 KSZ9477_UNKONWN_MULTICAST_CTRL;
  let temp := Z.land temp (not32 KSZ9477_UNKONWN_MULTICAST_CTRL_FWD_MAP) in
  let temp :=
    if enable then
      let temp := Z.lor temp KSZ9477_UNKONWN_MULTICAST_CTRL_FWD in
      let temp :=
        if decide (Z.land forwardPorts SWITCH_CPU_PORT_MASK ≠ 0)
        then Z.lor temp KSZ9477_UNKONWN_MULTICAST_CTRL_FWD_MAP_PORT6
        else temp in
      Z.lor temp (Z.land forwardPorts KSZ9477_UNKONWN_MULTICAST_CTRL_FWD_MAP_ALL)
    else
      Z.land temp (not32 KSZ9477_UNKONWN_MULTICAST_CTRL_FWD) in
  ksz9477WriteSwitchReg32 KSZ9477_UNKONWN_MULTICAST_CTRL temp.

End Driver.

(** The values of ksz9477_driver.h. *)
Definition ksz9477_spi_h : SpiHeader :=
  {| KSZ9477_SPI_CMD_WRITE := 0x40000000;
     KSZ9477_SPI_CMD_READ := 0x60000000;
     KSZ9477_SPI_CMD_ADDR := 0x001FFFE0;
     KSZ9477_PORTn_MSTP_STATE := fun port => 0x0B04 + port * 0x1000;
     KSZ9477_PORTn_MSTP_STATE_TRANSMIT_EN := 0x04;
     KSZ9477_PORTn_MSTP_STATE_RECEIVE_EN := 0x02;
     KSZ9477_PORTn_MSTP_STATE_LEARNING_DIS := 0x01;
     KSZ9477_GLOBAL_PORT_MIRROR_SNOOP_CTRL := 0x0370;
     KSZ9477_GLOBAL_PORT_MIRROR_SNOOP_CTRL_IGMP_SNOOP_EN := 0x40;
     KSZ9477_GLOBAL_PORT_MIRROR_SNOOP_CTRL_MLD_SNOOP_EN := 0x08;
     KSZ9477_SWITCH_LUE_CTRL0 := 0x0310;
     KSZ9477_SWITCH_LUE_CTRL0_RESERVED_MCAST_LOOKUP_EN := 0x40;
     KSZ9477_SWITCH_LUE_CTRL1 := 0x0311;
     KSZ9477_SWITCH_LUE_CTRL1_FLUSH_ALU_TABLE := 0x80;
     KSZ9477_SWITCH_LUE_CTRL1_FLUSH_MSTP_ENTRIES := 0x40;
     KSZ9477_SWITCH_LUE_CTRL2 := 0x0312;
     KSZ9477_SWITCH_LUE_CTRL2_FLUSH_OPTION := 0x0C;
     KSZ9477_SWITCH_LUE_CTRL2_FLUSH_OPTION_DYNAMIC := 0x04;
     KSZ9477_UNKONWN_MULTICAST_CTRL := 0x0324;
     KSZ9477_UNKONWN_MULTICAST_CTRL_FWD := 0x80000000;
     KSZ9477_UNKONWN_MULTICAST_CTRL_FWD_MAP := 0x0000007F;
     KSZ9477_UNKONWN_MULTICAST_CTRL_FWD_MAP_ALL := 0x0000007F;
     KSZ9477_UNKONWN_MULTICAST_CTRL_FWD_MAP_PORT6 := 0x00000020 |}.

(** *** The SPI slave of the switch as a register file

    The serial interface of the chip as the comments of the driver describe
    it: after chip select, four bytes of command (an operation in the upper
    three bits, the register address from bit 5 on), then the data bytes,
    each for the next byte register, the most significant byte of a wider
    register first. *)
Record RegFile : Type := mkRegFile {
  rf_mem : Z -> Z;
  (** the bytes received since chip select, when selected *)
  rf_frame : option (list Z)
}.

(** The big-endian value of the bytes of a command. *)
Definition rf_command (bs : list Z) : Z :=
  foldl (fun acc b => Z.lor (Z.shiftl acc 8) b) 0 (take 4 bs).

Definition rf_transfer (b : Z) (d : RegFile) : Z * RegFile :=
  match rf_frame d with
  | None => (0, d)
  | Some bs =>
      let d' := mkRegFile (rf_mem d) (Some (bs ++ [b])) in
      if decide (length bs < 4)%nat then (0, d')
      else
        let command := rf_command bs in
        let address :=
          Z.shiftr (Z.land command 0x001FFFE0) 5 + Z.of_nat (length bs - 4) in
        if decide (Z.land command 0xE0000000 = 0x40000000) then
          (0, mkRegFile (fun a => if decide (a = address) then u8 b else rf_mem d a)
                (Some (bs ++ [b])))
        else if decide (Z.land command 0xE0000000 = 0x60000000) then
          (rf_mem d address, d')
        else (0, d')
  end.

Definition regFileSpi : W5100s.SpiDriver RegFile :=
  {| W5100s.assertCs := fun d => mkRegFile (rf_mem d) (Some []);
     W5100s.transfer := rf_transfer;
     W5100s.deassertCs := fun d => mkRegFile (rf_mem d) None |}.

(** An interface with the register file behind the SPI bus, chip select
    high. *)
Definition onSpi (mem : Z -> Z) : NetInterface RegFile :=
  mkNetInterface true (mkRegFile mem None).

(** A store into a byte register. *)
Definition setByte (a v : Z) (mem : Z -> Z) : Z -> Z :=
  fun a' => if decide (a' = a) then u8 v else mem a'.

(** The state that [ksz9477SetPortState] programs for a requested state,
    and the three bits of the MSTP state register that stand for it
    (transmit enable, receive enable, learning disable). *)
Definition programmedState (state : SwitchPortState) : SwitchPortState :=
  match state with
  | SWITCH_PORT_STATE_LISTENING | SWITCH_PORT_STATE_LEARNING
  | SWITCH_PORT_STATE_FORWARDING => state
  | _ => SWITCH_PORT_STATE_DISABLED
  end.

Definition stateBits (state : SwitchPortState) : Z :=
  match state with
  | SWITCH_PORT_STATE_LISTENING => 0x03
  | SWITCH_PORT_STATE_LEARNING => 0x00
  | SWITCH_PORT_STATE_FORWARDING => 0x06
  | _ => 0x01
  end.

(** Bit [i] of [v] set or cleared. *)
Definition withBit (i : Z) (b : bool) (v : Z) : Z :=
  if b then Z.setbit v i else Z.clearbit v i.

(** The value of a 32-bit register of the register file. *)
Definition reg32 (mem : Z -> Z) (a : Z) : Z :=
  u32 (Z.lor (Z.lor (Z.lor (u32 (Z.shiftl (u8 (mem a)) 24))
                        (u32 (Z.shiftl (u8 (mem (a + 1))) 16)))
                 (u32 (Z.shiftl (u8 (mem (a + 2))) 8)))
          (u8 (mem (a + 3)))).

(** The bytes of a command word, as the driver sends them. *)
Definition commandBytes (c : Z) : list Z :=
  [Z.land (Z.shiftr c 24) 0xFF; Z.land (Z.shiftr c 16) 0xFF;
   Z.land (Z.shiftr c 8) 0xFF; Z.land c 0xFF].

(** A register file that holds 0 everywhere. *)
Definition zeroRegs : Z -> Z := fun _ => 0.

End Ksz9477Spi.

(** ** KSZ9477: removing entries from the static MAC table *)

Module Ksz9477Static.
Import Ksz9477.

Section Driver.

Context {dev : Type} `{bus : SwitchBus dev} `{hdr : Header}.

(** The number of times the model lets a polling loop read its register. *)
Variable fuel : nat.

(** The loop of [ksz9477DeleteStaticFdbEntry] from index [j] on, for [n]
    more turns; the result is the value of [j] when the loop is left. *)
Fixpoint deleteStaticScan (entry : SwitchFdbEntry) (n j : nat)
    (currentEntry : SwitchFdbEntry) : St (NetInterface dev) nat :=
  match n with
  | O => mret j
  | S n' =>
      '(error, currentEntry) ← ksz9477GetStaticFdbEntry fuel j currentEntry;
      if decide (error = NO_ERROR) then
        if macCompAddr (macAddr currentEntry) (macAddr entry) then
          mret j
        else
          deleteStaticScan entry n' (S j) currentEntry
      else
        deleteStaticScan entry n' (S j) currentEntry
  end.

(** [currentEntry] is the initial content of the local of that name. *)
Definition ksz9477DeleteStaticFdbEntry (entry currentEntry : SwitchFdbEntry)
  : St (NetInterface dev) error_t :=
  j ← deleteStaticScan entry KSZ9477_STATIC_MAC_TABLE_SIZE 0 currentEntry;
  if decide (j < KSZ9477_STATIC_MAC_TABLE_SIZE)%nat then
    ksz9477WriteSwitchReg32 KSZ9477_STATIC_TABLE_ENTRY1 0 ;;
    ksz9477WriteSwitchReg32 KSZ9477_STATIC_TABLE_ENTRY2 0 ;;
    ksz9477WriteSwitchReg32 KSZ9477_STATIC_TABLE_ENTRY3 0 ;;
    ksz9477WriteSwitchReg32 KSZ9477_STATIC_TABLE_ENTRY4 0 ;;
    ksz9477WriteSwitchReg32 KSZ9477_STATIC_MCAST_TABLE_CTRL
      (staticTableCommand j false) ;;
    pollStartFinish fuel ;;
    mret NO_ERROR
  else
    mret ERROR_NOT_FOUND.

(** The loop of [ksz9477FlushStaticFdbTable] from index [i] on, for [n]
    more turns. *)
Fixpoint flushStaticLoop (n i : nat) : St (NetInterface dev) unit :=
  match n with
  | O => mret tt
  | S n' =>
      ksz9477WriteSwitchReg32 KSZ9477_STATIC_TABLE_ENTRY1 0 ;;
      ksz9477WriteSwitchReg32 KSZ9477_STATIC_TABLE_ENTRY2 0 ;;
      ksz9477WriteSwitchReg32 KSZ9477_STATIC_TABLE_ENTRY3 0 ;;
      ksz9477WriteSwitchReg32 KSZ9477_STATIC_TABLE_ENTRY4 0 ;;
      ksz9477WriteSwitchReg32 KSZ9477_STATIC_MCAST_TABLE_CTRL
        (staticTableCommand i false) ;;
      pollStartFinish fuel ;;
      flushStaticLoop n' (S i)
  end.

Definition ksz9477FlushStaticFdbTable : St (NetInterface dev) unit :=
  flushStaticLoop KSZ9477_STATIC_MAC_TABLE_SIZE 0.

End Driver.

(** Whether a slot holds a valid entry with an address can be decided. *)
Global Instance holdsMac_dec (mac : MacAddr) (w : TableWords) :
  Decision (holdsMac mac w).
Proof. unfold holdsMac, slotValid. apply _. Defined.

(** The slot that a cleared table holds everywhere. *)
Definition clearedSlot : TableWords := mkTableWords 0 0 0 0.

(** A switch whose static table holds two entries, in slots 0 and 2. *)
Definition twoEntrySwitch : SimSwitch :=
  mkSimSwitch (fun _ => 0)
    (<[ 2%nat := mkTableWords 0x80000000 0x03 0x0011 0x22334455 ]>
       (<[ 0%nat := mkTableWords 0x80000000 0x20 0x0180 0xC200000E ]>
          (replicate 16 (mkTableWords 0 0 0 0))))
    0 0 [] None 0 2 [].

(** The calls that an enumeration of the dynamic table makes: index [i],
    then [i + 1], and so on for [n] calls, each with the entry record left
    by the call before; the results of the calls in order. *)
Fixpoint enumerateDynamic {dev : Type} `{bus : SwitchBus dev} `{hdr : Header}
    (fuel n i : nat) (entry : SwitchFdbEntry)
  : St (NetInterface dev) (list (error_t * SwitchFdbEntry)) :=
  match n with
  | O => mret []
  | S n' =>
      r ← ksz9477GetDynamicFdbEntry fuel i entry;
      rs ← enumerateDynamic fuel n' (S i) r.2;
      mret (r :: rs)
  end.

(** The second entry of [twoEntrySwitch]. *)
Definition learnedEntry : SwitchFdbEntry :=
  mkSwitchFdbEntry (mkMacAddr 0x00 0x11 0x22 0x33 0x44 0x55) 0 0x03 false.

End Ksz9477Static.

(** * Proofs *)

(** ** MSP432E4 Ethernet MAC *)

Module Msp432e4Proofs.
Import Msp432e4.

Section Proofs.

Context `{hdr : Header}.

(** The loop writes [body k] at every index it visits and nothing else. *)
Lemma initLoop_lookup {A : Type} (body : nat -> A) (n i : nat) (a : list A) (k : nat) :
  (i + n <= length a)%nat ->
  initLoop body n i a !! k =
    if decide (i <= k < i + n)%nat then Some (body k) else a !! k.
Proof.
  revert i a. induction n as [|n IH]; intros i a Hlen; simpl.
  - case_decide; [lia | done].
  - rewrite IH by (rewrite length_insert; lia).
    destruct (decide (k = i)) as [->|Hne].
    + rewrite list_lookup_insert_eq by lia.
      repeat case_decide; try lia; done.
    + rewrite list_lookup_insert_ne by done.
      repeat case_decide; try lia; done.
Qed.

Lemma initLoop_length {A : Type} (body : nat -> A) (n i : nat) (a : list A) :
  length (initLoop body n i a) = length a.
Proof.
  revert i a. induction n as [|n IH]; intros i a; simpl; [done|].
  by rewrite IH, length_insert.
Qed.

(** The whole array after the loop and the store that closes the chain. *)
Lemma chainLast_initLoop {A : Type} (body : nat -> A) (set3 : A -> A) (n : nat) (a : list A) :
  (1 <= n)%nat -> length a = n ->
  exists a', chainLast set3 n (initLoop body n 0 a) = Some a' /\
    length a' = n /\
    forall k, (k < n)%nat ->
      a' !! k = Some (if decide (S k = n) then set3 (body k) else body k).
Proof.
  intros Hn Hlen. destruct n as [|m]; [lia|]. cbn [chainLast].
  assert (Hm : initLoop body (S m) 0 a !! m = Some (body m)).
  { rewrite initLoop_lookup by lia. case_decide; [done | lia]. }
  rewrite Hm. eexists; split; [reflexivity|]. split.
  - by rewrite length_insert, initLoop_length.
  - intros k Hk. destruct (decide (k = m)) as [->|Hne].
    + rewrite list_lookup_insert_eq by (rewrite initLoop_length; lia).
      case_decide; [done | lia].
    + rewrite list_lookup_insert_ne by done.
      rewrite initLoop_lookup by lia.
      repeat case_decide; try lia; done.
Qed.

(** Distinct elements of an array that fits the address space have
    distinct addresses. *)
Lemma descAddr_inj (base : Z) (n i j : nat) :
  0 <= base -> base + DESC_SIZE * Z.of_nat n <= 2 ^ 32 ->
  (i < n)%nat -> (j < n)%nat ->
  u32 (base + DESC_SIZE * Z.of_nat i) = u32 (base + DESC_SIZE * Z.of_nat j) ->
  i = j.
Proof.
  unfold u32, DESC_SIZE. intros Hb Hfit Hi Hj.
  rewrite !Z.mod_small by lia. lia.
Qed.

(** C1. After [msp432e4EthInitDmaDesc], for ring sizes of at least one
    descriptor: in each ring the next-descriptor link of a descriptor is the
    address of descriptor 0 exactly when it is the last one (every other
    link is the address of the successor), every receive descriptor has
    OWN set and every transmit descriptor has OWN clear. *)
Theorem init_dma_desc_ring (s : State) :
  (1 <= MSP432E4_ETH_TX_BUFFER_COUNT)%nat ->
  (1 <= MSP432E4_ETH_RX_BUFFER_COUNT)%nat ->
  length (txDmaDesc s) = MSP432E4_ETH_TX_BUFFER_COUNT ->
  length (rxDmaDesc s) = MSP432E4_ETH_RX_BUFFER_COUNT ->
  0 <= txDmaDesc_addr ->
  txDmaDesc_addr + DESC_SIZE * Z.of_nat MSP432E4_ETH_TX_BUFFER_COUNT <= 2 ^ 32 ->
  0 <= rxDmaDesc_addr ->
  rxDmaDesc_addr + DESC_SIZE * Z.of_nat MSP432E4_ETH_RX_BUFFER_COUNT <= 2 ^ 32 ->
  Z.land (Z.lor EMAC_TDES0_IC EMAC_TDES0_TCH) EMAC_TDES0_OWN = 0 ->
  EMAC_RDES0_OWN ≠ 0 ->
  exists s', msp432e4EthInitDmaDesc s = Some s' /\
    length (txDmaDesc s') = MSP432E4_ETH_TX_BUFFER_COUNT /\
    length (rxDmaDesc s') = MSP432E4_ETH_RX_BUFFER_COUNT /\
    txCurDmaDesc s' = txDescAddr 0 /\
    rxCurDmaDesc s' = rxDescAddr 0 /\
    txRingLinked s' /\ rxRingLinked s' /\
    (forall i d, txDmaDesc s' !! i = Some d ->
       (tdes3 d = txDescAddr 0 <-> S i = MSP432E4_ETH_TX_BUFFER_COUNT) /\
       Z.land (tdes0 d) EMAC_TDES0_OWN = 0) /\
    (forall i d, rxDmaDesc s' !! i = Some d ->
       (rdes3 d = rxDescAddr 0 <-> S i = MSP432E4_ETH_RX_BUFFER_COUNT) /\
       Z.land (rdes0 d) EMAC_RDES0_OWN ≠ 0).
Proof.
  intros Htx Hrx Hltx Hlrx Hbt Hft Hbr Hfr Htown Hrown.
  unfold msp432e4EthInitDmaDesc.
  destruct (chainLast_initLoop initTxDesc (set_tdes3 (txDescAddr 0)) _
              (txDmaDesc s) Htx Hltx) as (tx' & -> & Hlt' & Htx').
  simpl.
  destruct (chainLast_initLoop initRxDesc (set_rdes3 (rxDescAddr 0)) _
              (rxDmaDesc s) Hrx Hlrx) as (rx' & -> & Hlr' & Hrx').
  simpl. eexists; split; [reflexivity|]. simpl.
  assert (Htl : forall i d, tx' !! i = Some d ->
            tdes3 d = txDescAddr (S i mod MSP432E4_ETH_TX_BUFFER_COUNT) /\
            tdes0 d = Z.lor EMAC_TDES0_IC EMAC_TDES0_TCH).
  { intros i d Hd. pose proof (lookup_lt_Some _ _ _ Hd) as Hi.
    rewrite Hlt' in Hi. rewrite Htx' in Hd by done.
    injection Hd as <-. case_decide as Hlast; simpl.
    - rewrite Hlast, Nat.Div0.mod_same. done.
    - rewrite Nat.mod_small by lia. by rewrite Nat.add_1_r. }
  assert (Hrl : forall i d, rx' !! i = Some d ->
            rdes3 d = rxDescAddr (S i mod MSP432E4_ETH_RX_BUFFER_COUNT) /\
            rdes0 d = EMAC_RDES0_OWN).
  { intros i d Hd. pose proof (lookup_lt_Some _ _ _ Hd) as Hi.
    rewrite Hlr' in Hi. rewrite Hrx' in Hd by done.
    injection Hd as <-. case_decide as Hlast; simpl.
    - rewrite Hlast, Nat.Div0.mod_same. done.
    - rewrite Nat.mod_small by lia. by rewrite Nat.add_1_r. }
  repeat split; try done.
  - intros i d Hd. by apply Htl.
  - intros i d Hd. by apply Hrl.
  - intros Heq. pose proof (lookup_lt_Some _ _ _ H) as Hi. rewrite Hlt' in Hi.
    destruct (Htl _ _ H) as [H3 _]. rewrite H3 in Heq.
    destruct (decide (S i = MSP432E4_ETH_TX_BUFFER_COUNT)) as [|Hne]; [done|].
    rewrite Nat.mod_small in Heq by lia.
    apply (descAddr_inj _ MSP432E4_ETH_TX_BUFFER_COUNT) in Heq; lia.
  - intros Hlast. destruct (Htl _ _ H) as [-> _].
    by rewrite Hlast, Nat.Div0.mod_same.
  - destruct (Htl _ _ H) as [_ ->]. done.
  - intros Heq. pose proof (lookup_lt_Some _ _ _ H) as Hi. rewrite Hlr' in Hi.
    destruct (Hrl _ _ H) as [H3 _]. rewrite H3 in Heq.
    destruct (decide (S i = MSP432E4_ETH_RX_BUFFER_COUNT)) as [|Hne]; [done|].
    rewrite Nat.mod_small in Heq by lia.
    apply (descAddr_inj _ MSP432E4_ETH_RX_BUFFER_COUNT) in Heq; lia.
  - intros Hlast. destruct (Hrl _ _ H) as [-> _].
    by rewrite Hlast, Nat.Div0.mod_same.
  - destruct (Hrl _ _ H) as [_ ->]. by rewrite Z.land_diag.
Qed.

(** C4. When every receive descriptor is owned by the DMA and the cursor
    points into the ring, [msp432e4EthReceivePacket] returns
    [ERROR_BUFFER_EMPTY], leaves the cursor where it was and changes no
    field of any descriptor: it only writes the two poll registers. *)
Theorem receive_all_hw_owned (s : State) :
  is_Some (rxDeref s (rxCurDmaDesc s)) ->
  (forall i d, rxDmaDesc s !! i = Some d -> Z.land (rdes0 d) EMAC_RDES0_OWN ≠ 0) ->
  exists s', msp432e4EthReceivePacket s = Some (ERROR_BUFFER_EMPTY, s') /\
    s' = set_EMAC0 RXPOLLD 0 (set_EMAC0 DMARIS EMAC_DMARIS_RU s) /\
    rxCurDmaDesc s' = rxCurDmaDesc s /\
    rxDmaDesc s' = rxDmaDesc s /\
    txDmaDesc s' = txDmaDesc s /\
    txCurDmaDesc s' = txCurDmaDesc s /\
    rxDelivered s' = rxDelivered s.
Proof.
  intros [[i d] Hcur] Hown.
  assert (Hd : rxDmaDesc s !! i = Some d).
  { unfold rxDeref in Hcur.
    destruct (descIndex rxDmaDesc_addr (rxCurDmaDesc s)) as [i'|]; [|done].
    simpl in Hcur. destruct (rxDmaDesc s !! i') as [d'|] eqn:E; [|done].
    simpl in Hcur. by injection Hcur as <- <-. }
  unfold msp432e4EthReceivePacket. rewrite Hcur. simpl.
  destruct (decide (Z.land (rdes0 d) EMAC_RDES0_OWN = 0)) as [Hz|_].
  - by destruct (Hown i d Hd).
  - eexists; split; [reflexivity|]. by repeat split.
Qed.

(** A pointer that dereferences to element [i] holds that element. *)
Lemma rxDeref_lookup (s : State) (p : Z) (i : nat) (d : Msp432e4RxDmaDesc) :
  rxDeref s p = Some (i, d) -> rxDmaDesc s !! i = Some d.
Proof.
  unfold rxDeref. intros Hcur.
  destruct (descIndex rxDmaDesc_addr p) as [i'|]; [|done].
  simpl in Hcur. destruct (rxDmaDesc s !! i') as [d'|] eqn:E; [|done].
  simpl in Hcur. by injection Hcur as <- <-.
Qed.

(** C3. When the current receive descriptor has OWN clear,
    [msp432e4EthReceivePacket] returns, whatever the flags of the
    descriptor: it stores OWN alone in [rdes0] of that descriptor, which is
    hardware-owned again, and moves the cursor to the descriptor's next
    link, the successor in a linked ring; the ring stays linked.  The
    status is [NO_ERROR] for a valid packet, which is passed on, and
    [ERROR_INVALID_PACKET] otherwise, nothing being passed on. *)
Theorem receive_rearms_and_advances (s : State) (i : nat) (d : Msp432e4RxDmaDesc) :
  rxDeref s (rxCurDmaDesc s) = Some (i, d) ->
  Z.land (rdes0 d) EMAC_RDES0_OWN = 0 ->
  EMAC_RDES0_OWN ≠ 0 ->
  exists error s', msp432e4EthReceivePacket s = Some (error, s') /\
    rxDmaDesc s' = <[ i := set_rdes0 EMAC_RDES0_OWN d ]> (rxDmaDesc s) /\
    (exists d', rxDmaDesc s' !! i = Some d' /\
                Z.land (rdes0 d') EMAC_RDES0_OWN ≠ 0) /\
    rxCurDmaDesc s' = rdes3 d /\
    (rxRingLinked s ->
       rxCurDmaDesc s' = rxDescAddr (S i mod MSP432E4_ETH_RX_BUFFER_COUNT) /\
       rxRingLinked s') /\
    (rxValid d -> error = NO_ERROR /\
       rxDelivered s' = rxDelivered s ++
         [(rdes2 d, Z.min (Z.shiftr (Z.land (rdes0 d) EMAC_RDES0_FL) 16)
                      MSP432E4_ETH_RX_BUFFER_SIZE)]) /\
    (~ rxValid d -> error = ERROR_INVALID_PACKET /\
       rxDelivered s' = rxDelivered s).
Proof.
  intros Hcur Hsw Hown.
  pose proof (rxDeref_lookup _ _ _ _ Hcur) as Hd.
  pose proof (lookup_lt_Some _ _ _ Hd) as Hi.
  assert (Hlinked : forall l, rxDmaDesc l = <[ i := set_rdes0 EMAC_RDES0_OWN d ]> (rxDmaDesc s) ->
            rxRingLinked s -> rxRingLinked l).
  { intros l Hl Hring k dk. rewrite Hl.
    destruct (decide (k = i)) as [->|Hne].
    - rewrite list_lookup_insert_eq by done. intros [= <-]. simpl. by apply Hring.
    - rewrite list_lookup_insert_ne by done. apply Hring. }
  unfold msp432e4EthReceivePacket. rewrite Hcur. simpl.
  rewrite decide_True by done.
  destruct (decide (Z.land (rdes0 d) EMAC_RDES0_FS ≠ 0 /\
                    Z.land (rdes0 d) EMAC_RDES0_LS ≠ 0)) as [[Hfs Hls]|Hseg];
    [destruct (decide (Z.land (rdes0 d) EMAC_RDES0_ES = 0)) as [Hes|Hes]|];
    (do 2 eexists; split; [reflexivity|]; simpl;
     split; [done|]; split;
     [ eexists; split; [by apply list_lookup_insert_eq|]; simpl;
       by rewrite Z.land_diag
     | split; [done|]; split;
       [ intros Hring; split; [by apply Hring | by eapply Hlinked]
       | unfold rxValid; split; [intros (? & ? & ?) | intros Hnv];
         try done; try tauto ] ]).
Qed.

(** Part of C2 for the MSP432E4: a frame longer than the transmit buffer is
    refused with [ERROR_INVALID_LENGTH] and the event is set; a current
    descriptor still owned by the DMA gives [ERROR_FAILURE] and the state,
    the event with it, is left as it was. *)
Lemma msp432e4_send_errors (buffer : list Z) (offset : Z) (s : State) :
  let length := u32 (Z.of_nat (length buffer) - offset) in
  (length > MSP432E4_ETH_TX_BUFFER_SIZE ->
     msp432e4EthSendPacket buffer offset s =
       Some (ERROR_INVALID_LENGTH, osSetEvent_nicTxEvent s) /\
     nicTxEvent (osSetEvent_nicTxEvent s) = true) /\
  (length <= MSP432E4_ETH_TX_BUFFER_SIZE ->
     forall i d, txDeref s (txCurDmaDesc s) = Some (i, d) ->
       Z.land (tdes0 d) EMAC_TDES0_OWN ≠ 0 ->
       msp432e4EthSendPacket buffer offset s = Some (ERROR_FAILURE, s)).
Proof.
  intros len. unfold msp432e4EthSendPacket. fold len. split.
  - intros Hlen. by rewrite decide_True.
  - intros Hlen i d Hcur Hown. rewrite decide_False by lia.
    rewrite Hcur. simpl. by rewrite decide_True.
Qed.

(** *** The CRC *)

Lemma testbit_1 (m : Z) : Z.testbit 1 m = bool_decide (m = 0).
Proof.
  destruct (decide (m = 0)) as [->|Hne].
  - done.
  - rewrite bool_decide_eq_false_2 by done.
    destruct (Z.lt_ge_cases m 0).
    + by apply Z.testbit_neg_r.
    + change 1 with (2 ^ 0). apply Z.pow2_bits_false. lia.
Qed.

Lemma bitrev_spec (n : nat) (x i : Z) :
  0 <= i ->
  Z.testbit (bitrev n x) i =
    if decide (i < Z.of_nat n) then Z.testbit x (Z.of_nat n - 1 - i) else false.
Proof.
  revert x. induction n as [|n IH]; intros x Hi.
  - simpl. rewrite Z.testbit_0_l. case_decide; [lia | done].
  - cbn [bitrev]. rewrite Z.lor_spec, Z.shiftl_spec, Z.land_spec, testbit_1, IH by lia.
    destruct (decide (i = Z.of_nat n)) as [->|Hne].
    + rewrite Z.sub_diag, bool_decide_eq_true_2 by done.
      rewrite decide_False by lia. rewrite decide_True by lia.
      rewrite andb_true_r, orb_false_r. f_equal. lia.
    + rewrite bool_decide_eq_false_2 by lia.
      rewrite andb_false_r, orb_false_l.
      repeat case_decide; try lia; try done.
      rewrite Z.shiftr_spec by lia. f_equal. lia.
Qed.

Lemma fits32_shiftr (x : Z) : fits32 x -> fits32 (Z.shiftr x 1).
Proof. intros H i Hi. rewrite Z.shiftr_spec by lia. apply H. lia. Qed.

Lemma fits32_lxor (x y : Z) : fits32 x -> fits32 y -> fits32 (Z.lxor x y).
Proof. intros Hx Hy i Hi. by rewrite Z.lxor_spec, Hx, Hy. Qed.

Lemma fits32_const (c : Z) : 0 <= c < 2 ^ 32 -> fits32 c.
Proof.
  intros Hc i Hi. destruct (decide (c = 0)) as [->|Hne]; [apply Z.testbit_0_l|].
  apply Z.bits_above_log2; [lia|].
  assert (Z.log2 c < 32) by (apply Z.log2_lt_pow2; lia). lia.
Qed.

Lemma land_1_testbit (x : Z) : Z.land x 1 = Z.b2z (Z.testbit x 0).
Proof.
  change 1 with (Z.ones 1). rewrite Z.land_ones by lia.
  symmetry. apply Z.bit0_mod.
Qed.

Lemma land_1_nonzero (x : Z) : Z.land x 1 ≠ 0 <-> Z.testbit x 0 = true.
Proof. rewrite land_1_testbit. destruct (Z.testbit x 0); simpl; split; try done; lia. Qed.

Lemma bitrev_lxor (x y : Z) :
  bitrev 32 (Z.lxor x y) = Z.lxor (bitrev 32 x) (bitrev 32 y).
Proof.
  apply Z.bits_inj'. intros i Hi.
  rewrite Z.lxor_spec, !bitrev_spec by done.
  case_decide; [apply Z.lxor_spec | done].
Qed.

Lemma bitrev_shiftr (x : Z) :
  fits32 x -> bitrev 32 (Z.shiftr x 1) = u32 (Z.shiftl (bitrev 32 x) 1).
Proof.
  intros Hx. apply Z.bits_inj'. intros i Hi. unfold u32.
  rewrite bitrev_spec by done.
  destruct (decide (i < 32)) as [Hlt|Hge].
  - rewrite decide_True by lia.
    rewrite Z.mod_pow2_bits_low by lia.
    rewrite Z.shiftr_spec by lia.
    destruct (decide (i = 0)) as [->|Hne].
    + rewrite Z.shiftl_spec_low by lia. apply Hx. lia.
    + rewrite Z.shiftl_spec by lia. rewrite bitrev_spec by lia.
      rewrite decide_True by lia. f_equal. lia.
  - rewrite decide_False by lia.
    by rewrite Z.mod_pow2_bits_high by lia.
Qed.

(** One bit of the message: the driver's shift register is the mirror image
    of the register of the reflected algorithm. *)
Lemma crcBit_bitrev (b crc j : Z) :
  0 <= j -> fits32 crc ->
  crcBit b (bitrev 32 crc) j = bitrev 32 (spec_crc32Bit b crc j) /\
  fits32 (spec_crc32Bit b crc j).
Proof.
  intros Hj Hfit. unfold crcBit, spec_crc32Bit.
  assert (Hc : Z.land (Z.lxor (Z.shiftr (bitrev 32 crc) 31) (Z.shiftr b j)) 1 ≠ 0 <->
               Z.land (Z.lxor crc (Z.shiftr b j)) 1 ≠ 0).
  { rewrite !land_1_nonzero, !Z.lxor_spec, !Z.shiftr_spec by lia.
    rewrite bitrev_spec by lia. simpl. done. }
  destruct (decide (Z.land (Z.lxor crc (Z.shiftr b j)) 1 ≠ 0)) as [Hs|Hs].
  - rewrite decide_True by (by apply Hc). split.
    + rewrite bitrev_lxor, bitrev_shiftr by done. done.
    + apply fits32_lxor; [by apply fits32_shiftr | by apply fits32_const].
  - rewrite decide_False by (by rewrite Hc). split.
    + by rewrite bitrev_shiftr.
    + by apply fits32_shiftr.
Qed.

Lemma crcByte_bitrev (b crc : Z) :
  fits32 crc ->
  crcByte (bitrev 32 crc) b = bitrev 32 (spec_crc32Byte crc b) /\
  fits32 (spec_crc32Byte crc b).
Proof.
  unfold crcByte, spec_crc32Byte.
  assert (H : forall js crc, Forall (fun j => 0 <= j) js -> fits32 crc ->
            foldl (crcBit b) (bitrev 32 crc) js = bitrev 32 (foldl (spec_crc32Bit b) crc js) /\
            fits32 (foldl (spec_crc32Bit b) crc js)).
  { induction js as [|j js IH]; intros c Hjs Hc; cbn [foldl]; [done|].
    apply Forall_cons in Hjs as [Hj Hjs].
    destruct (crcBit_bitrev b c j Hj Hc) as [-> Hfit]. by apply IH. }
  intros Hc. apply H; [|done]. repeat constructor; lia.
Qed.

Lemma crcBytes_bitrev (data : list Z) (crc : Z) :
  fits32 crc ->
  foldl crcByte (bitrev 32 crc) data = bitrev 32 (foldl spec_crc32Byte crc data).
Proof.
  revert crc. induction data as [|b data IH]; intros crc Hc; cbn [foldl]; [done|].
  destruct (crcByte_bitrev b crc Hc) as [-> Hfit]. by apply IH.
Qed.

(** The CRC of the driver is the CRC-32 of the message, bit-reversed. *)
Lemma calcCrc_spec_crc32 (data : list Z) :
  msp432e4EthCalcCrc data = bitrev 32 (spec_crc32 data).
Proof.
  unfold msp432e4EthCalcCrc, spec_crc32, not32.
  rewrite bitrev_lxor. change (bitrev 32 0xFFFFFFFF) with 0xFFFFFFFF.
  f_equal. change 0xFFFFFFFF with (bitrev 32 0xFFFFFFFF) at 1.
  apply crcBytes_bitrev. by apply fits32_const.
Qed.

(** *** The MAC address filter *)

Lemma hashIndex_range (a : MacAddr) : 0 <= hashIndex a < 64.
Proof.
  unfold hashIndex. change 0x3F with (Z.ones 6).
  rewrite Z.land_ones by lia. apply Z.mod_pos_bound. lia.
Qed.

Lemma hashIndex_unfold (a : MacAddr) :
  hashIndex a = Z.land (Z.shiftr (msp432e4EthCalcCrc (mac_b a)) 26) 0x3F.
Proof. reflexivity. Qed.

Local Opaque hashIndex msp432e4EthCalcCrc.

Lemma hashMatch_hashBit (regs : EmacReg -> Z) (h : list Z) (a : MacAddr) :
  regs HASHTBLL = default 0 (h !! 0%nat) ->
  regs HASHTBLH = default 0 (h !! 1%nat) ->
  hashMatch regs a = hashBit h (hashIndex a).
Proof.
  intros HL HH. unfold hashMatch, hashBit.
  pose proof (hashIndex_range a) as Hk.
  case_decide as Hlt.
  - replace (hashIndex a / 32) with 0 by (symmetry; apply Z.div_small; lia).
    rewrite Z.mod_small by lia. by rewrite HL.
  - replace (hashIndex a / 32) with 1 by (Z.div_mod_to_equations; lia).
    replace (hashIndex a mod 32) with (hashIndex a - 32)
      by (Z.div_mod_to_equations; lia).
    by rewrite HH.
Qed.

Lemma filterEntry_hashTable_length (l : FilterLocals) (e : MacFilterEntry) :
  length (fl_hashTable (filterEntry l e)) = length (fl_hashTable l).
Proof.
  unfold filterEntry. repeat case_match; simpl; try done.
  apply length_alter.
Qed.

(** The loop only ever sets bits of the table. *)
Lemma filterEntry_hashBit_mono (l : FilterLocals) (e : MacFilterEntry) (k : Z) :
  hashBit (fl_hashTable l) k = true ->
  hashBit (fl_hashTable (filterEntry l e)) k = true.
Proof.
  unfold filterEntry. repeat case_match; simpl; try done.
  unfold hashBit. intros Hk.
  set (i := Z.to_nat (hashIndex (addr e) / 32)).
  destruct (decide (Z.to_nat (k / 32) = i)) as [Heq|Hne].
  - rewrite Heq in *. rewrite list_lookup_alter_eq.
    destruct (fl_hashTable l !! i) as [w|]; simpl in *.
    + rewrite Z.lor_spec, Hk. done.
    + by rewrite Z.testbit_0_l in Hk.
  - by rewrite list_lookup_alter_ne.
Qed.

Lemma filterEntry_hashBit_set (l : FilterLocals) (e : MacFilterEntry) :
  length (fl_hashTable l) = 2%nat ->
  refCount e > 0 -> macIsMulticastAddr (addr e) = true ->
  hashBit (fl_hashTable (filterEntry l e)) (hashIndex (addr e)) = true.
Proof.
  intros Hlen Hact Hmc. unfold filterEntry.
  rewrite decide_True by done. rewrite Hmc. simpl. unfold hashBit.
  pose proof (hashIndex_range (addr e)) as Hk.
  set (k := hashIndex (addr e)) in *.
  rewrite list_lookup_alter_eq.
  destruct (lookup_lt_is_Some_2 (fl_hashTable l) (Z.to_nat (k / 32))) as [w ->].
  { rewrite Hlen. assert (k / 32 < 2) by (apply Z.div_lt_upper_bound; lia). lia. }
  simpl. rewrite Z.lor_spec.
  assert (Hm : 0 <= k mod 32 < 32) by (apply Z.mod_pos_bound; lia).
  assert (Hlo : 0 < 2 ^ (k mod 32)) by (apply Z.pow_pos_nonneg; lia).
  assert (Hhi : 2 ^ (k mod 32) < 2 ^ 32) by (apply Z.pow_lt_mono_r; lia).
  rewrite Z.shiftl_1_l. unfold u32.
  rewrite (Z.mod_small (2 ^ (k mod 32))) by lia.
  rewrite Z.pow2_bits_true by lia. apply orb_true_r.
Qed.

Lemma filterLoop_hashBit_mono (es : list MacFilterEntry) (l : FilterLocals) (k : Z) :
  hashBit (fl_hashTable l) k = true ->
  hashBit (fl_hashTable (foldl filterEntry l es)) k = true.
Proof.
  revert l. induction es as [|e es IH]; intros l Hk; simpl; [done|].
  apply IH. by apply filterEntry_hashBit_mono.
Qed.

(** Every active multicast entry of the table has its bit set when the
    loop is left. *)
Lemma filterLoop_multicast (es : list MacFilterEntry) (l : FilterLocals)
    (e : MacFilterEntry) :
  length (fl_hashTable l) = 2%nat ->
  e ∈ es -> refCount e > 0 -> macIsMulticastAddr (addr e) = true ->
  hashBit (fl_hashTable (foldl filterEntry l es)) (hashIndex (addr e)) = true.
Proof.
  revert l. induction es as [|x es IH]; intros l Hlen Hin Hact Hmc.
  - by apply elem_of_nil in Hin.
  - simpl. apply elem_of_cons in Hin as [->|Hin].
    + apply filterLoop_hashBit_mono. by apply filterEntry_hashBit_set.
    + apply IH; try done. by rewrite filterEntry_hashTable_length.
Qed.

(** The registers of the hash table after the update. *)
Lemma update_hash_regs (macAddr : MacAddr) (es : list MacFilterEntry) (s : State) :
  let s' := (msp432e4EthUpdateMacAddrFilter macAddr es s).2 in
  EMAC0 s' HASHTBLL = default 0 (fl_hashTable (filterLoop es) !! 0%nat) /\
  EMAC0 s' HASHTBLH = default 0 (fl_hashTable (filterLoop es) !! 1%nat).
Proof. done. Qed.

Lemma update_multicast_hashMatch (macAddr : MacAddr) (es : list MacFilterEntry)
    (s : State) (e : MacFilterEntry) :
  e ∈ es -> refCount e > 0 -> macIsMulticastAddr (addr e) = true ->
  hashMatch (EMAC0 (msp432e4EthUpdateMacAddrFilter macAddr es s).2) (addr e) = true.
Proof.
  intros Hin Hact Hmc.
  destruct (update_hash_regs macAddr es s) as [HL HH].
  rewrite (hashMatch_hashBit _ _ _ HL HH).
  by apply filterLoop_multicast.
Qed.

Lemma activeUnicast_cons (e : MacFilterEntry) (es : list MacFilterEntry) :
  activeUnicast (e :: es) = activeUnicast [e] ++ activeUnicast es.
Proof. unfold activeUnicast. simpl. by repeat case_match. Qed.

Lemma filterEntry_unicastInv (l : FilterLocals) (e : MacFilterEntry) (u : list MacAddr) :
  unicastInv l u -> unicastInv (filterEntry l e) (u ++ activeUnicast [e]).
Proof.
  intros [Hj Hu]. unfold filterEntry, activeUnicast. simpl.
  destruct (decide (refCount e > 0)) as [Hact|Hact];
    [destruct (macIsMulticastAddr (addr e))|]; simpl;
    rewrite ?app_nil_r; try done.
  destruct (decide (fl_j l < 3)%nat) as [Hlt|Hge]; unfold unicastInv; simpl.
  - rewrite Hu, Hj. rewrite Hj in Hlt.
    destruct u as [|a [|b [|c u]]]; simpl in *; try lia; done.
  - rewrite Hu, Hj. rewrite Hj in Hge.
    destruct u as [|a [|b [|c u]]]; simpl in *; try lia; done.
Qed.

Lemma filterLoop_unicastInv (es : list MacFilterEntry) (l : FilterLocals)
    (u : list MacAddr) :
  unicastInv l u -> unicastInv (foldl filterEntry l es) (u ++ activeUnicast es).
Proof.
  revert l u. induction es as [|e es IH]; intros l u Hinv.
  - simpl. by rewrite app_nil_r.
  - rewrite activeUnicast_cons, app_assoc. simpl.
    apply IH. by apply filterEntry_unicastInv.
Qed.

Lemma filterLoop_unicast (es : list MacFilterEntry) :
  unicastInv (filterLoop es) (activeUnicast es).
Proof. by apply (filterLoop_unicastInv es _ []). Qed.

(** The unicast entries never reach the hash table. *)
Lemma filterLoop_hash_multicastOnly (es : list MacFilterEntry) (l l' : FilterLocals) :
  fl_hashTable l = fl_hashTable l' ->
  fl_hashTable (foldl filterEntry l es) =
  fl_hashTable (foldl filterEntry l' (multicastOnly es)).
Proof.
  revert l l'. induction es as [|e es IH]; intros l l' Hh; [done|].
  unfold multicastOnly. rewrite filter_cons. simpl.
  destruct (decide (macIsMulticastAddr (addr e) = true)) as [Hmc|Hmc].
  - simpl. apply IH. unfold filterEntry. rewrite Hmc.
    case_decide; simpl; by rewrite ?Hh.
  - apply IH. unfold filterEntry.
    destruct (macIsMulticastAddr (addr e)); [done|].
    by repeat case_decide.
Qed.

(** The two registers of slot [n] after the update. *)
Lemma update_slot_regs (macAddr : MacAddr) (es : list MacFilterEntry) (s : State) :
  let s' := (msp432e4EthUpdateMacAddrFilter macAddr es s).2 in
  let l := filterLoop es in
  let a n := default MAC_UNSPECIFIED_ADDR (fl_unicastMacAddr l !! n) in
  ((1 <= fl_j l)%nat ->
     EMAC0 s' ADDR1L = addrLow (a 0%nat) /\
     EMAC0 s' ADDR1H = u32 (Z.lor (mac_w2 (a 0%nat)) EMAC_ADDR1H_AE)) /\
  ((2 <= fl_j l)%nat ->
     EMAC0 s' ADDR2L = addrLow (a 1%nat) /\
     EMAC0 s' ADDR2H = u32 (Z.lor (mac_w2 (a 1%nat)) EMAC_ADDR2H_AE)) /\
  ((3 <= fl_j l)%nat ->
     EMAC0 s' ADDR3L = addrLow (a 2%nat) /\
     EMAC0 s' ADDR3H = u32 (Z.lor (mac_w2 (a 2%nat)) EMAC_ADDR3H_AE)).
Proof.
  intros s' l a. subst s'. unfold msp432e4EthUpdateMacAddrFilter.
  fold l. unfold setUnicastSlot. simpl.
  repeat split; unfold regWrite; simpl;
    repeat case_decide; try lia; done.
Qed.

Lemma testbit_mod_pow2 (a n i : Z) :
  0 <= n -> 0 <= i ->
  Z.testbit (a mod 2 ^ n) i = (i <? n) && Z.testbit a i.
Proof.
  intros Hn Hi. destruct (Z.ltb_spec i n).
  - by rewrite Z.mod_pow2_bits_low by lia.
  - by rewrite Z.mod_pow2_bits_high by lia.
Qed.

(** Byte and word ranges of a well-formed address. *)
Lemma mac_w2_range (a : MacAddr) : mac_wf a -> mac_w2 a = mac_w2 a mod 2 ^ 16.
Proof.
  unfold mac_wf, mac_b, mac_w2. intros Hwf.
  repeat (apply Forall_cons in Hwf as [? Hwf]).
  rewrite <- (Z.mod_small (mac_b4 a) (2 ^ 8)) by lia.
  rewrite <- (Z.mod_small (mac_b5 a) (2 ^ 8)) by lia.
  apply Z.bits_inj'. intros i Hi.
  rewrite testbit_mod_pow2, Z.lor_spec by lia.
  destruct (decide (i < 16)) as [Hlt|Hge].
  - by rewrite (proj2 (Z.ltb_lt _ _)), andb_true_l by lia.
  - rewrite (proj2 (Z.ltb_ge _ _)), andb_false_l by lia.
    rewrite Z.shiftl_spec by lia.
    by rewrite !Z.mod_pow2_bits_high by lia.
Qed.

(** A slot programmed with an address and its enable bit accepts that
    address. *)
Lemma slotMatches_programmed (ae : Z) (a : MacAddr) :
  mac_wf a -> 0 < ae < 2 ^ 32 -> Z.land ae 0xFFFF = 0 ->
  slotMatches (addrLow a) (u32 (Z.lor (mac_w2 a) ae)) ae a = true.
Proof.
  intros Hwf Hae Hlow. unfold slotMatches. apply bool_decide_eq_true_2.
  pose proof (mac_w2_range a Hwf) as Hw.
  assert (Hu : u32 (Z.lor (mac_w2 a) ae) = Z.lor (mac_w2 a) ae).
  { unfold u32. rewrite Hw. rewrite <- (Z.mod_small ae (2 ^ 32)) at 2 by lia.
    rewrite <- (Z.mod_small ae (2 ^ 32)) at 1 by lia.
    apply Z.bits_inj'. intros i Hi.
    rewrite !testbit_mod_pow2, !Z.lor_spec, !testbit_mod_pow2 by lia.
    destruct (Z.ltb_spec i 32), (Z.ltb_spec i 16); simpl; try lia; done. }
  rewrite Hu. split; [|split; [done|]].
  - replace (Z.land (Z.lor (mac_w2 a) ae) ae) with ae; [lia|].
    apply Z.bits_inj'. intros i Hi.
    rewrite Z.land_spec, Z.lor_spec. by destruct (Z.testbit ae i), (Z.testbit (mac_w2 a) i).
  - rewrite Z.land_lor_distr_l, Hlow, Z.lor_0_r.
    change 0xFFFF with (Z.ones 16). rewrite Z.land_ones by lia. by rewrite <- Hw.
Qed.

(** C5. In [msp432e4EthUpdateMacAddrFilter], for every active multicast
    entry of the filter table: the CRC computed over its six bytes is the
    CRC-32 of the specification (polynomial 0x04C11DB7, initial value
    0xFFFFFFFF, final value inverted) with the bit order of the result
    reversed; the index [(crc >> 26) & 0x3F] lies in 0..63 and its bit is set
    in the 64-bit table, in HASHTBLL for an index below 32 and in HASHTBLH
    otherwise.  The two addresses of the data sheet give the indices
    printed there: 1F:52:41:9C:B6:AF gives 0x2C and A0:0A:98:00:00:45 gives
    0x07. *)
Theorem multicast_hash_index (macAddr : MacAddr) (macAddrFilter : list MacFilterEntry)
    (s : State) (entry : MacFilterEntry) :
  entry ∈ macAddrFilter ->
  refCount entry > 0 ->
  macIsMulticastAddr (addr entry) = true ->
  let crc := msp432e4EthCalcCrc (mac_b (addr entry)) in
  let k := Z.land (Z.shiftr crc 26) 0x3F in
  let s' := (msp432e4EthUpdateMacAddrFilter macAddr macAddrFilter s).2 in
  crc = bitrev 32 (spec_crc32 (mac_b (addr entry))) /\
  0 <= k < 64 /\
  Z.testbit (EMAC0 s' (if decide (k < 32) then HASHTBLL else HASHTBLH)) (k mod 32) = true /\
  hashMatch (EMAC0 s') (addr entry) = true /\
  hashIndex (mkMacAddr 0x1F 0x52 0x41 0x9C 0xB6 0xAF) = 0x2C /\
  hashIndex (mkMacAddr 0xA0 0x0A 0x98 0x00 0x00 0x45) = 0x07.
Proof.
  intros Hin Hact Hmc crc k s'.
  assert (Hm : hashMatch (EMAC0 s') (addr entry) = true)
    by (by apply update_multicast_hashMatch).
  pose proof (hashIndex_range (addr entry)) as Hk.
  unfold hashMatch in Hm. rewrite hashIndex_unfold in Hk, Hm. fold crc k in Hk, Hm.
  split; [apply calcCrc_spec_crc32|]. split; [done|]. split; [|split].
  - revert Hm.
    destruct (decide (k < 32)) as [Hlt|Hge].
    + by rewrite Z.mod_small by lia.
    + by replace (k mod 32) with (k - 32) by (Z.div_mod_to_equations; lia).
  - by apply update_multicast_hashMatch.
  - split; by vm_compute.
Qed.

(** C6, as the code has it. With any number of active unicast addresses in
    the table the update returns [NO_ERROR]; the first three of them, in
    table order, are accepted by the perfect-filter slots; the hash table
    is the one the multicast entries alone would give, so a unicast address
    after the third is programmed nowhere; every active multicast address
    is accepted by the hash filter. *)
Theorem unicast_overflow_ignored (macAddr : MacAddr)
    (macAddrFilter : list MacFilterEntry) (s : State) :
  0 < EMAC_ADDR1H_AE < 2 ^ 32 -> Z.land EMAC_ADDR1H_AE 0xFFFF = 0 ->
  0 < EMAC_ADDR2H_AE < 2 ^ 32 -> Z.land EMAC_ADDR2H_AE 0xFFFF = 0 ->
  0 < EMAC_ADDR3H_AE < 2 ^ 32 -> Z.land EMAC_ADDR3H_AE 0xFFFF = 0 ->
  let r := msp432e4EthUpdateMacAddrFilter macAddr macAddrFilter s in
  r.1 = NO_ERROR /\
  (forall n a, (n < 3)%nat -> activeUnicast macAddrFilter !! n = Some a ->
     mac_wf a -> perfectMatch (EMAC0 r.2) a = true) /\
  EMAC0 r.2 HASHTBLL =
    EMAC0 (msp432e4EthUpdateMacAddrFilter macAddr (multicastOnly macAddrFilter) s).2 HASHTBLL /\
  EMAC0 r.2 HASHTBLH =
    EMAC0 (msp432e4EthUpdateMacAddrFilter macAddr (multicastOnly macAddrFilter) s).2 HASHTBLH /\
  (forall e, e ∈ macAddrFilter -> refCount e > 0 ->
     macIsMulticastAddr (addr e) = true -> hashMatch (EMAC0 r.2) (addr e) = true).
Proof.
  intros Hae1 Hlo1 Hae2 Hlo2 Hae3 Hlo3 r. subst r.
  split; [done|]. split; [|split; [|split]].
  - intros n a Hn Ha Hwf.
    destruct (filterLoop_unicast macAddrFilter) as [Hj Hu].
    destruct (update_slot_regs macAddr macAddrFilter s) as (H1 & H2 & H3).
    pose proof (lookup_lt_Some _ _ _ Ha) as Hlen.
    assert (Hget : fl_unicastMacAddr (filterLoop macAddrFilter) !! n = Some a).
    { rewrite Hu. rewrite lookup_take_lt by done. by apply lookup_app_l_Some. }
    assert (Hjn : (n < fl_j (filterLoop macAddrFilter))%nat).
    { rewrite Hj, length_take. lia. }
    unfold perfectMatch.
    destruct n as [|[|[|n]]]; [| | |lia].
    + destruct H1 as [-> ->]; [lia|]. rewrite Hget. simpl.
      by rewrite slotMatches_programmed.
    + destruct H2 as [-> ->]; [lia|]. rewrite Hget. simpl.
      rewrite slotMatches_programmed by done. by rewrite orb_true_r.
    + destruct H3 as [-> ->]; [lia|]. rewrite Hget. simpl.
      rewrite slotMatches_programmed by done. apply orb_true_r.
  - destruct (update_hash_regs macAddr macAddrFilter s) as [-> _].
    destruct (update_hash_regs macAddr (multicastOnly macAddrFilter) s) as [-> _].
    unfold filterLoop. by erewrite filterLoop_hash_multicastOnly.
  - destruct (update_hash_regs macAddr macAddrFilter s) as [_ ->].
    destruct (update_hash_regs macAddr (multicastOnly macAddrFilter) s) as [_ ->].
    unfold filterLoop. by erewrite filterLoop_hash_multicastOnly.
  - intros e Hin Hact Hmc. by apply update_multicast_hashMatch.
Qed.

End Proofs.

Local Existing Instance msp432e401y.

Lemma init_dma_desc_ring_witness :
  exists s', msp432e4EthInitDmaDesc startState = Some s' /\
    length (txDmaDesc s') = MSP432E4_ETH_TX_BUFFER_COUNT /\
    length (rxDmaDesc s') = MSP432E4_ETH_RX_BUFFER_COUNT /\
    txCurDmaDesc s' = txDescAddr 0 /\
    rxCurDmaDesc s' = rxDescAddr 0 /\
    txRingLinked s' /\ rxRingLinked s' /\
    (forall i d, txDmaDesc s' !! i = Some d ->
       (tdes3 d = txDescAddr 0 <-> S i = MSP432E4_ETH_TX_BUFFER_COUNT) /\
       Z.land (tdes0 d) EMAC_TDES0_OWN = 0) /\
    (forall i d, rxDmaDesc s' !! i = Some d ->
       (rdes3 d = rxDescAddr 0 <-> S i = MSP432E4_ETH_RX_BUFFER_COUNT) /\
       Z.land (rdes0 d) EMAC_RDES0_OWN ≠ 0).
Proof.
  apply (init_dma_desc_ring startState); simpl; try lia; done.
Defined.

Lemma receive_all_hw_owned_witness :
  msp432e4EthReceivePacket ringState =
    Some (ERROR_BUFFER_EMPTY,
          set_EMAC0 RXPOLLD 0 (set_EMAC0 DMARIS EMAC_DMARIS_RU ringState)).
Proof.
  assert (Hown : Forall (fun d => Z.land (rdes0 d) EMAC_RDES0_OWN ≠ 0)
                   (rxDmaDesc ringState)).
  { set (l := rxDmaDesc ringState). vm_compute in l. subst l.
    repeat (constructor; [by vm_compute|]). constructor. }
  destruct (receive_all_hw_owned ringState) as (s' & Hrun & -> & _).
  - by eexists.
  - intros i d Hd. by apply (Forall_lookup_1 _ _ _ _ Hown Hd).
  - exact Hrun.
Defined.

Lemma receive_rearms_and_advances_witness :
  exists s', msp432e4EthReceivePacket frameReceivedState = Some (NO_ERROR, s') /\
    rxCurDmaDesc s' = rxDescAddr 1 /\
    rxDelivered s' = [(0x20001200, 60)] /\
    rxRingLinked s'.
Proof.
  assert (Hlinked : rxRingLinked frameReceivedState).
  { assert (HF : Forall (fun p => rdes3 p.2 = rxDescAddr (S p.1 mod 6))
                   (imap pair (rxDmaDesc frameReceivedState))).
    { set (l := imap pair (rxDmaDesc frameReceivedState)).
      vm_compute in l. subst l.
      repeat (constructor; [by vm_compute|]). constructor. }
    intros i d Hd.
    apply (Forall_lookup_1 _ _ i (i, d) HF).
    by rewrite list_lookup_imap, Hd. }
  destruct (receive_rearms_and_advances frameReceivedState 0
              (mkRxDesc 0x003C0300 0x4600 0x20001200 0x20003680 0 0 0 0))
    as (error & s' & Hrun & _ & _ & _ & Hring & Hvalid & _).
  - reflexivity.
  - reflexivity.
  - by vm_compute.
  - destruct Hvalid as [-> Hdel]; [by vm_compute|].
    destruct (Hring Hlinked) as [Hcur Hlinked'].
    exists s'. by repeat split.
Defined.

Lemma multicast_hash_index_witness :
  Z.testbit
    (EMAC0 (msp432e4EthUpdateMacAddrFilter stationAddr multicastFilter startState).2
       HASHTBLH) 12 = true.
Proof.
  destruct (multicast_hash_index stationAddr multicastFilter startState
              (mkMacFilterEntry (mkMacAddr 0x1F 0x52 0x41 0x9C 0xB6 0xAF) 1))
    as (_ & _ & Hbit & _).
  - apply list_elem_of_here.
  - simpl. lia.
  - reflexivity.
  - exact Hbit.
Defined.

Lemma unicast_overflow_ignored_witness :
  perfectMatch
    (EMAC0 (msp432e4EthUpdateMacAddrFilter stationAddr fourUnicastFilter startState).2)
    (mkMacAddr 0x02 0x00 0x00 0x00 0x00 0x03) = true.
Proof.
  destruct (unicast_overflow_ignored stationAddr fourUnicastFilter startState)
    as (_ & Hperfect & _).
  1, 3, 5: simpl; lia.
  1, 2, 3: reflexivity.
  apply (Hperfect 2%nat); [lia | reflexivity |].
  repeat constructor; simpl; lia.
Defined.

(** C6, as the claim states it, fails: the fourth active unicast address
    of a table is accepted neither by a perfect-filter slot nor by the hash
    filter. *)
Lemma unicast_overflow_not_hashed :
  let a := mkMacAddr 0x02 0x00 0x00 0x00 0x00 0x04 in
  let regs :=
    EMAC0 (msp432e4EthUpdateMacAddrFilter stationAddr fourUnicastFilter startState).2 in
  mkMacFilterEntry a 1 ∈ fourUnicastFilter /\
  macIsMulticastAddr a = false /\
  perfectMatch regs a = false /\
  hashMatch regs a = false /\
  regs HASHTBLL = 0 /\ regs HASHTBLH = 0.
Proof.
  split; [|by vm_compute].
  unfold fourUnicastFilter. do 3 apply list_elem_of_further. apply list_elem_of_here.
Qed.

End Msp432e4Proofs.

(** ** Computations in the state monad *)

Lemma bind_Some {S A B : Type} (c : St S A) (k : A -> St S B) (s : S) (r : B * S) :
  (c ≫= k) s = Some r <-> exists a s1, c s = Some (a, s1) /\ k a s1 = Some r.
Proof.
  unfold mbind, St_bind. destruct (c s) as [[a s1]|]; split.
  - intros H. by exists a, s1.
  - by intros (a' & s' & [= -> ->] & H).
  - done.
  - by intros (a' & s' & H & _).
Qed.

Lemma bind_run {S A B : Type} (c : St S A) (k : A -> St S B) (s s1 : S) (a : A) :
  c s = Some (a, s1) -> (c ≫= k) s = k a s1.
Proof. intros H. unfold mbind, St_bind. by rewrite H. Qed.

Lemma preserves_ret {S A : Type} (P : S -> S -> Prop) (a : A) :
  (forall s, P s s) -> preserves P (mret a : St S A).
Proof. intros Hrefl s. by exists a, s. Qed.

Lemma preserves_bind {S A B : Type} (P : S -> S -> Prop) (c : St S A)
    (k : A -> St S B) :
  (forall s1 s2 s3, P s1 s2 -> P s2 s3 -> P s1 s3) ->
  preserves P c -> (forall a, preserves P (k a)) -> preserves P (c ≫= k).
Proof.
  intros Htrans Hc Hk s.
  destruct (Hc s) as (a & s1 & Hrun & HP).
  destruct (Hk a s1) as (b & s2 & Hrun' & HP').
  exists b, s2. split; [|by eapply Htrans].
  unfold mbind, St_bind. by rewrite Hrun.
Qed.

(** ** W5100S: the errors of the transmit path *)

Module W5100sProofs.
Import W5100s.

Section Proofs.

Context {dev : Type} `{spi : SpiDriver dev} `{hdr : Header}.

Lemma sameEvent_trans (i1 i2 i3 : NetInterface dev) :
  sameEvent i1 i2 -> sameEvent i2 i3 -> sameEvent i1 i3.
Proof. unfold sameEvent. congruence. Qed.

Lemma spiTransfer_sameEvent (b : Z) : preserves sameEvent (spiTransfer b).
Proof.
  intros i. unfold spiTransfer. destruct (transfer b (chip i)) as [r c].
  by eexists _, _.
Qed.

Lemma spiAssertCs_sameEvent : preserves sameEvent spiAssertCs.
Proof. intros i. by eexists _, _. Qed.

Lemma spiDeassertCs_sameEvent : preserves sameEvent spiDeassertCs.
Proof. intros i. by eexists _, _. Qed.

(** Reading a register of the chip always returns and leaves the event
    alone. *)
Lemma w5100sReadReg16_sameEvent (address : Z) :
  preserves sameEvent (w5100sReadReg16 address).
Proof.
  unfold w5100sReadReg16.
  repeat first
    [ apply preserves_bind; [apply sameEvent_trans | | intros ?]
    | apply spiAssertCs_sameEvent
    | apply spiDeassertCs_sameEvent
    | apply spiTransfer_sameEvent
    | apply preserves_ret; done ].
Qed.

(** The two error returns of [w5100sSendPacket]: a frame longer than
    [ETH_MAX_FRAME_SIZE] gives [ERROR_INVALID_LENGTH] with the event set and
    nothing sent to the chip; less free space in the transmit buffer than
    the frame needs gives [ERROR_FAILURE] with the event as it was. *)
Lemma w5100s_send_errors (buffer : list Z) (offset : Z) (i : NetInterface dev) :
  let length := u32 (Z.of_nat (length buffer) - offset) in
  (length > ETH_MAX_FRAME_SIZE ->
     w5100sSendPacket buffer offset i =
       Some (ERROR_INVALID_LENGTH, mkNetInterface (chip i) true)) /\
  (length <= ETH_MAX_FRAME_SIZE ->
     exists n i1, w5100sReadReg16 W5100S_S0_TX_FSR0 i = Some (n, i1) /\
       nicTxEvent i1 = nicTxEvent i /\
       (n < length ->
          w5100sSendPacket buffer offset i = Some (ERROR_FAILURE, i1))).
Proof.
  intros len. unfold w5100sSendPacket. fold len. split.
  - intros Hlen. by rewrite decide_True.
  - intros Hlen. rewrite decide_False by lia.
    destruct (w5100sReadReg16_sameEvent W5100S_S0_TX_FSR0 i) as (n & i1 & Hrun & Hev).
    exists n, i1. split; [done|]. split; [done|].
    intros Hn. unfold mbind, St_bind. rewrite Hrun.
    by rewrite decide_True.
Qed.

End Proofs.

End W5100sProofs.

(** ** The error returns of the two transmit paths *)

Module TransmitErrors.

Section Proofs.

Context `{mh : Msp432e4.Header}.
Context {dev : Type} `{spi : W5100s.SpiDriver dev} `{wh : W5100s.Header}.

(** C2, as the code has it. In [msp432e4EthSendPacket] and in
    [w5100sSendPacket] a frame longer than the limit is refused: the call
    returns [ERROR_INVALID_LENGTH] with [nicTxEvent] set and nothing else
    changed.  A frame within the limit that meets a current descriptor
    owned by the DMA, or a chip with less free space than the frame
    needs, is refused too: the call returns [ERROR_FAILURE] and the event
    is as it was before the call.  There is no other error return, and
    [ERROR_INVALID_LENGTH] is returned for no frame within the limit. *)
Theorem send_error_returns_and_event (buffer : list Z) (offset : Z)
    (s : Msp432e4.State) (i : W5100s.NetInterface dev) :
  let length := u32 (Z.of_nat (length buffer) - offset) in
  (length > Msp432e4.MSP432E4_ETH_TX_BUFFER_SIZE ->
     Msp432e4.msp432e4EthSendPacket buffer offset s =
       Some (ERROR_INVALID_LENGTH,
             Msp432e4.mkState (Msp432e4.txDmaDesc s) (Msp432e4.rxDmaDesc s)
               (Msp432e4.txCurDmaDesc s) (Msp432e4.rxCurDmaDesc s)
               (Msp432e4.EMAC0 s) true
               (Msp432e4.txCopies s) (Msp432e4.rxDelivered s))) /\
  (forall j d, length <= Msp432e4.MSP432E4_ETH_TX_BUFFER_SIZE ->
     Msp432e4.txDeref s (Msp432e4.txCurDmaDesc s) = Some (j, d) ->
     Z.land (Msp432e4.tdes0 d) Msp432e4.EMAC_TDES0_OWN ≠ 0 ->
     Msp432e4.msp432e4EthSendPacket buffer offset s = Some (ERROR_FAILURE, s)) /\
  (forall e s', Msp432e4.msp432e4EthSendPacket buffer offset s = Some (e, s') ->
     (e = NO_ERROR \/ e = ERROR_INVALID_LENGTH \/ e = ERROR_FAILURE) /\
     (e = ERROR_INVALID_LENGTH <-> length > Msp432e4.MSP432E4_ETH_TX_BUFFER_SIZE) /\
     (e = ERROR_INVALID_LENGTH -> Msp432e4.nicTxEvent s' = true) /\
     (e = ERROR_FAILURE -> s' = s)) /\
  (length > W5100s.ETH_MAX_FRAME_SIZE ->
     W5100s.w5100sSendPacket buffer offset i =
       Some (ERROR_INVALID_LENGTH, W5100s.mkNetInterface (W5100s.chip i) true)) /\
  (length <= W5100s.ETH_MAX_FRAME_SIZE ->
     exists n i1,
       W5100s.w5100sReadReg16 W5100s.W5100S_S0_TX_FSR0 i = Some (n, i1) /\
       (n < length ->
          W5100s.w5100sSendPacket buffer offset i = Some (ERROR_FAILURE, i1) /\
          W5100s.nicTxEvent i1 = W5100s.nicTxEvent i)) /\
  (forall e i', W5100s.w5100sSendPacket buffer offset i = Some (e, i') ->
     (e = NO_ERROR \/ e = ERROR_INVALID_LENGTH \/ e = ERROR_FAILURE) /\
     (e = ERROR_INVALID_LENGTH <-> length > W5100s.ETH_MAX_FRAME_SIZE) /\
     (e = ERROR_INVALID_LENGTH ->
        W5100s.nicTxEvent i' = true /\ W5100s.chip i' = W5100s.chip i) /\
     (e = ERROR_FAILURE -> W5100s.nicTxEvent i' = W5100s.nicTxEvent i)).
Proof.
  intros len. split; [|split; [|split; [|split; [|split]]]].
  - intros Hlen.
    destruct (Msp432e4Proofs.msp432e4_send_errors buffer offset s) as [Hlong _].
    by destruct (Hlong Hlen) as [-> _].
  - intros j d Hlen Hcur Hown.
    destruct (Msp432e4Proofs.msp432e4_send_errors buffer offset s) as [_ Hbusy].
    by eapply Hbusy.
  - intros e s'. unfold Msp432e4.msp432e4EthSendPacket. fold len.
    destruct (decide (len > Msp432e4.MSP432E4_ETH_TX_BUFFER_SIZE)) as [Hlen|Hlen].
    { intros [= <- <-]. by repeat split; auto. }
    destruct (Msp432e4.txDeref s (Msp432e4.txCurDmaDesc s)) as [[j d]|]; [|done].
    simpl.
    destruct (decide (Z.land (Msp432e4.tdes0 d) Msp432e4.EMAC_TDES0_OWN ≠ 0)).
    { intros [= <- <-]. repeat split; auto; done. }
    match goal with
    | |- context [Msp432e4.txDeref ?s4 ?p] =>
        destruct (Msp432e4.txDeref s4 p) as [[j' d']|]; [|done]
    end.
    simpl. case_decide; intros [= <- <-]; repeat split; auto; done.
  - intros Hlen.
    by apply (proj1 (W5100sProofs.w5100s_send_errors buffer offset i)).
  - intros Hlen.
    destruct (proj2 (W5100sProofs.w5100s_send_errors buffer offset i) Hlen)
      as (n & i1 & Hread & Hev & Hbusy).
    exists n, i1. split; [done|]. intros Hn. split; [by apply Hbusy | done].
  - intros e i'. unfold W5100s.w5100sSendPacket. fold len.
    destruct (decide (len > W5100s.ETH_MAX_FRAME_SIZE)) as [Hlen|Hlen].
    { intros [= <- <-]. by repeat split; auto. }
    intros Hrun. apply bind_Some in Hrun as (n & i1 & Hread & Hrun).
    destruct (W5100sProofs.w5100sReadReg16_sameEvent W5100s.W5100S_S0_TX_FSR0 i)
      as (n' & i1' & Hread' & Hev).
    rewrite Hread in Hread'. injection Hread' as <- <-.
    destruct (decide (n < len)).
    { injection Hrun as <- <-. repeat split; auto; done. }
    apply bind_Some in Hrun as (? & i2 & _ & Hrun).
    apply bind_Some in Hrun as (n2 & i3 & _ & Hrun).
    apply bind_Some in Hrun as (? & i4 & _ & Hrun).
    injection Hrun as <- <-. repeat split; auto; done.
Qed.

End Proofs.

(** C2, as the claim states it, fails on both drivers: with the transmit
    descriptor owned by the DMA, or with no free space in the chip, the
    send returns [ERROR_FAILURE] and [nicTxEvent], clear before the call,
    is still clear after it. *)
Lemma busy_return_leaves_event_clear :
  (Msp432e4.nicTxEvent Msp432e4.txBusyState = false /\
   exists s', @Msp432e4.msp432e4EthSendPacket Msp432e4.msp432e401y
                (replicate 60 0) 0 Msp432e4.txBusyState = Some (ERROR_FAILURE, s') /\
              Msp432e4.nicTxEvent s' = false) /\
  (exists i', @W5100s.w5100sSendPacket unit (W5100s.constSpi 0) W5100s.w5100s_h
                (replicate 60 0) 0 (W5100s.mkNetInterface tt false)
              = Some (ERROR_FAILURE, i') /\
              W5100s.nicTxEvent i' = false).
Proof.
  split; [split; [reflexivity|]|]; eexists; split; reflexivity.
Qed.

(** The theorem at two frames, on the MSP432E401Y after initialisation
    and on a W5100S that answers every transfer with 0: a frame of 1537
    bytes is refused by both with [ERROR_INVALID_LENGTH] and the event,
    clear before, is set; a frame of 60 bytes that meets a descriptor
    owned by the DMA, or no free space in the chip, is refused with
    [ERROR_FAILURE] and the event stays clear. *)
Lemma send_error_returns_and_event_witness :
  (Msp432e4.nicTxEvent Msp432e4.ringState = false /\
   exists s', @Msp432e4.msp432e4EthSendPacket Msp432e4.msp432e401y
                (replicate 1537 0) 0 Msp432e4.ringState =
                Some (ERROR_INVALID_LENGTH, s') /\
              Msp432e4.nicTxEvent s' = true) /\
  @W5100s.w5100sSendPacket unit (W5100s.constSpi 0) W5100s.w5100s_h
    (replicate 1537 0) 0 (W5100s.mkNetInterface tt false) =
    Some (ERROR_INVALID_LENGTH, W5100s.mkNetInterface tt true) /\
  (Msp432e4.nicTxEvent Msp432e4.txBusyState = false /\
   @Msp432e4.msp432e4EthSendPacket Msp432e4.msp432e401y
     (replicate 60 0) 0 Msp432e4.txBusyState =
     Some (ERROR_FAILURE, Msp432e4.txBusyState)) /\
  exists i', @W5100s.w5100sSendPacket unit (W5100s.constSpi 0) W5100s.w5100s_h
               (replicate 60 0) 0 (W5100s.mkNetInterface tt false) =
               Some (ERROR_FAILURE, i') /\
             W5100s.nicTxEvent i' = false.
Proof.
  destruct (@send_error_returns_and_event Msp432e4.msp432e401y unit
              (W5100s.constSpi 0) W5100s.w5100s_h (replicate 1537 0) 0
              Msp432e4.ringState (W5100s.mkNetInterface tt false))
    as (Hlong & _ & _ & Hlong' & _).
  destruct (@send_error_returns_and_event Msp432e4.msp432e401y unit
              (W5100s.constSpi 0) W5100s.w5100s_h (replicate 60 0) 0
              Msp432e4.txBusyState (W5100s.mkNetInterface tt false))
    as (_ & Hbusy & _ & _ & Hbusy' & _).
  split; [split; [reflexivity|]|split; [|split; [split; [reflexivity|]|]]].
  - eexists. split; [apply Hlong; reflexivity | reflexivity].
  - apply Hlong'. reflexivity.
  - apply (Hbusy 0%nat (Msp432e4.mkTxDesc 0xF0100000 60 0x20000000 0x20003620 0 0 0 0)).
    + by vm_compute.
    + reflexivity.
    + by vm_compute.
  - destruct Hbusy' as (n & i1 & Hread & Hfull); [by vm_compute|].
    vm_compute in Hread. injection Hread as <- <-.
    destruct Hfull as [Hrun Hev]; [reflexivity|].
    eexists. split; [exact Hrun | reflexivity].
Defined.

End TransmitErrors.

(** ** KSZ9477 Ethernet switch *)

Module Ksz9477Proofs.
Import Ksz9477.

Ltac bits_finish :=
  repeat match goal with
         | |- context [Z.eqb ?a ?b] => destruct (Z.eqb_spec a b); try lia
         end;
  repeat match goal with
         | |- context [Z.testbit ?b ?l] => rewrite (Z.testbit_neg_r b l) by lia
         end;
  simpl; rewrite ?orb_false_r, ?andb_true_r, ?andb_false_r, ?orb_true_r;
  try reflexivity.

Ltac bits := Z.bitblast; bits_finish.

Lemma land_upper_bound (a b : Z) : 0 <= b -> Z.land a b <= b.
Proof.
  intros Hb.
  assert (H : Z.ldiff (Z.land a b) b = 0).
  { apply Z.bits_inj'. intros i Hi.
    rewrite Z.ldiff_spec, Z.land_spec, Z.testbit_0_l.
    by destruct (Z.testbit a i), (Z.testbit b i). }
  apply Z.sub_nocarry_ldiff in H.
  assert (0 <= Z.ldiff b (Z.land a b)) by (apply Z.ldiff_nonneg; lia).
  lia.
Qed.

Section Generic.

Context {dev : Type} `{bus : SwitchBus dev} `{hdr : Header}.

(** C10. With the tail tag compiled in and the switch on the SPI bus,
    [ksz9477UntagFrame] on a frame of at least [sizeof(EthHeader) + 1]
    bytes returns [NO_ERROR] with the length one less, the frame pointer as
    it was and the port set to the last byte of the frame masked by
    [KSZ9477_TAIL_TAG_SRC_PORT], plus 1; on a shorter frame it returns
    [ERROR_INVALID_LENGTH] and leaves pointer, length and port as they
    were. *)
Theorem untag_frame (mem : Z -> Z) (interface : NetInterface dev)
    (frame length : Z) (ancillary : NetRxAncillary) :
  ETH_PORT_TAGGING_SUPPORT = true ->
  spiDriver interface = true ->
  0 <= KSZ9477_TAIL_TAG_SRC_PORT < 255 ->
  0 <= sizeof_EthHeader -> sizeof_EthHeader + 1 < 2 ^ 32 ->
  0 <= length < 2 ^ 32 ->
  (length >= sizeof_EthHeader + 1 ->
     ksz9477UntagFrame mem interface frame length ancillary =
       (NO_ERROR, frame, length - 1,
        mkNetRxAncillary
          (Z.land (mem (u32 (frame + length - 1))) KSZ9477_TAIL_TAG_SRC_PORT + 1))) /\
  (length < sizeof_EthHeader + 1 ->
     ksz9477UntagFrame mem interface frame length ancillary =
       (ERROR_INVALID_LENGTH, frame, length, ancillary)).
Proof.
  intros Htag Hspi Hmask Hhdr Hhdr' Hlen. unfold ksz9477UntagFrame.
  rewrite Htag, Hspi.
  assert (E1 : u32 (sizeof_EthHeader + 1) = sizeof_EthHeader + 1)
    by (unfold u32; apply Z.mod_small; lia).
  rewrite E1. split; intros Hcmp.
  - rewrite decide_True by lia.
    assert (E2 : u32 (length - 1) = length - 1)
      by (unfold u32; apply Z.mod_small; lia).
    rewrite E2. set (tag := mem _).
    assert (0 <= Z.land tag KSZ9477_TAIL_TAG_SRC_PORT) by (apply Z.land_nonneg; right; lia).
    assert (Z.land tag KSZ9477_TAIL_TAG_SRC_PORT <= KSZ9477_TAIL_TAG_SRC_PORT)
      by (apply land_upper_bound; lia).
    unfold u8. by rewrite Z.mod_small by lia.
  - by rewrite decide_False by lia.
Qed.

(** C9 at its failing input. The sum [agingTime + 3] is computed on 32
    bits: for an aging time of 0xFFFFFFFF seconds it wraps to 2 and
    [ksz9477SetAgingTime] writes 0 to the register, where the exact quotient
    clamped to 255 is 255; for aging times up to 0xFFFFFFFC the value
    written is [min((agingTime + 3) / 4, 255)]. *)
Theorem set_aging_time_wraps (interface : NetInterface dev) :
  ksz9477SetAgingTime 0xFFFFFFFF interface =
    ksz9477WriteSwitchReg8 KSZ9477_SWITCH_LUE_CTRL3 0 interface /\
  Z.min ((0xFFFFFFFF + 3) / 4) 255 = 255 /\
  (forall agingTime, 0 <= agingTime <= 0xFFFFFFFC ->
     ksz9477SetAgingTime agingTime interface =
       ksz9477WriteSwitchReg8 KSZ9477_SWITCH_LUE_CTRL3
         (Z.min ((agingTime + 3) / 4) 255) interface).
Proof.
  split; [reflexivity|]. split; [reflexivity|].
  intros t Ht. unfold ksz9477SetAgingTime, u32, u8.
  rewrite (Z.mod_small (t + 3)) by lia.
  assert (0 <= (t + 3) / 4) by (apply Z.div_pos; lia).
  by rewrite Z.mod_small by lia.
Qed.

(** Without an SPI driver the poll of the search engine reads 0 every
    time and is never satisfied. *)
Lemma pollSearch_mdio (fuel : nat) (c : dev) :
  pollSearch fuel (mkNetInterface false c) = None.
Proof.
  induction fuel as [|fuel IH]; [done|]. cbn [pollSearch].
  erewrite bind_run by reflexivity.
  rewrite decide_True by apply Z.land_0_l. apply IH.
Qed.

(** Nor does the call that waits for it return. *)
Lemma getDynamic_mdio (fuel index : nat) (entry : SwitchFdbEntry) (c : dev) :
  ksz9477GetDynamicFdbEntry fuel index entry (mkNetInterface false c) = None.
Proof.
  unfold ksz9477GetDynamicFdbEntry.
  assert (Hstart :
    (if decide (index = 0%nat)
     then ksz9477WriteSwitchReg32 KSZ9477_ALU_TABLE_CTRL 0 ;;
          ksz9477WriteSwitchReg32 KSZ9477_ALU_TABLE_CTRL
            (Z.lor KSZ9477_ALU_TABLE_CTRL_START_FINISH
               KSZ9477_ALU_TABLE_CTRL_ACTION_SEARCH)
     else mret tt) (mkNetInterface false c) = Some (tt, mkNetInterface false c)).
  { by destruct (decide (index = 0%nat)). }
  rewrite (bind_run _ _ _ _ _ Hstart).
  unfold mbind, St_bind. by rewrite pollSearch_mdio.
Qed.

End Generic.

Section Sim.

Local Existing Instance ksz9477_h.
Local Existing Instance simBus.

(** Register access on the simulated switch, on the SPI bus. *)
Lemma read32_sim (a : Z) (d : SimSwitch) :
  ksz9477ReadSwitchReg32 a (mkNetInterface true d) =
    Some (u32 (sim_read32 a d).1, mkNetInterface true (sim_read32 a d).2).
Proof.
  unfold ksz9477ReadSwitchReg32. cbn [spiDriver chip spiRead32 simBus].
  by destruct (sim_read32 a d).
Qed.

Lemma write32_sim (a v : Z) (d : SimSwitch) :
  ksz9477WriteSwitchReg32 a v (mkNetInterface true d) =
    Some (tt, mkNetInterface true (sim_write32 a v d)).
Proof. reflexivity. Qed.

(** Reads of the simulated switch while a search runs. *)
Lemma sim_read_ctrl_busy regs st ctrl sb alu pos b lat log :
  sim_read32 0x0418 (mkSimSwitch regs st ctrl sb alu (Some pos) (S b) lat log) =
    (0x83, mkSimSwitch regs st ctrl sb alu (Some pos) b lat (log ++ [BusRead32 0x0418])).
Proof. reflexivity. Qed.

Lemma sim_read_ctrl_ready regs st ctrl sb alu pos lat log :
  sim_read32 0x0418 (mkSimSwitch regs st ctrl sb alu (Some pos) 0 lat log) =
    (if decide (pos < length alu)%nat then 0xE3 else 0x20,
     mkSimSwitch regs st ctrl sb alu (Some pos) 0 lat (log ++ [BusRead32 0x0418])).
Proof.
  unfold sim_read32. cbn [sim_logOp sim_search sim_search_busy sim_alu].
  destruct (decide (pos < length alu)%nat); reflexivity.
Qed.

Lemma sim_read_entry (a : Z) regs st ctrl sb alu pos lat log w :
  alu !! pos = Some w ->
  a = 0x0420 \/ a = 0x0424 \/ a = 0x0428 ->
  sim_read32 a (mkSimSwitch regs st ctrl sb alu (Some pos) 0 lat log) =
    (if decide (a = 0x0420) then word1 w
     else if decide (a = 0x0424) then word2 w else word3 w,
     mkSimSwitch regs st ctrl sb alu (Some pos) 0 lat (log ++ [BusRead32 a])).
Proof.
  intros Hw Ha. unfold sim_read32, sim_offered.
  cbn [sim_logOp sim_search sim_search_busy sim_alu].
  rewrite Hw. destruct Ha as [->|[->| ->]]; reflexivity.
Qed.

Lemma sim_read_entry4 regs st ctrl sb alu pos lat log w :
  alu !! pos = Some w ->
  sim_read32 0x042C (mkSimSwitch regs st ctrl sb alu (Some pos) 0 lat log) =
    (word4 w,
     mkSimSwitch regs st ctrl sb alu (Some (S pos)) lat lat (log ++ [BusRead32 0x042C])).
Proof.
  intros Hw. unfold sim_read32, sim_offered.
  cbn [sim_logOp sim_search sim_search_busy sim_alu].
  rewrite Hw. reflexivity.
Qed.

(** The search engine answers the poll after [b] more reads: with an
    entry when the position is inside the table, with the end of the
    search otherwise. *)
Lemma pollSearch_sim (b : nat) :
  forall fuel regs st ctrl sb alu pos lat log,
  (b < fuel)%nat ->
  pollSearch fuel
    (mkNetInterface true (mkSimSwitch regs st ctrl sb alu (Some pos) b lat log)) =
  Some (if decide (pos < length alu)%nat then 0xE3 else 0x20,
        mkNetInterface true
          (mkSimSwitch regs st ctrl sb alu (Some pos) 0 lat
             (log ++ replicate (S b) (BusRead32 0x0418)))).
Proof.
  induction b as [|b IH]; intros fuel regs st ctrl sb alu pos lat log Hfuel;
    (destruct fuel as [|fuel]; [lia|]); cbn [pollSearch];
    erewrite bind_run by apply read32_sim.
  - change KSZ9477_ALU_TABLE_CTRL with 0x0418.
    rewrite sim_read_ctrl_ready. cbn [fst snd].
    destruct (decide (pos < length alu)%nat); reflexivity.
  - change KSZ9477_ALU_TABLE_CTRL with 0x0418.
    rewrite sim_read_ctrl_busy. cbn [fst snd].
    rewrite decide_True by reflexivity.
    rewrite IH by lia. by rewrite <- app_assoc.
Qed.

(** A call that continues a search: it returns the entry at the position
    of the search and moves on, or ends the search. *)
Lemma getDynamic_continue (fuel index : nat) (entry : SwitchFdbEntry)
    regs st ctrl sb alu pos b lat log :
  index ≠ 0%nat -> (b < fuel)%nat ->
  ksz9477GetDynamicFdbEntry fuel index entry
    (mkNetInterface true (mkSimSwitch regs st ctrl sb alu (Some pos) b lat log)) =
  match alu !! pos with
  | Some w =>
      Some ((NO_ERROR, aluEntry w),
            mkNetInterface true
              (mkSimSwitch regs st ctrl sb alu (Some (S pos)) lat lat
                 (log ++ replicate (S b) (BusRead32 0x0418) ++
                  [BusRead32 0x0420; BusRead32 0x0424; BusRead32 0x0428;
                   BusRead32 0x042C])))
  | None =>
      Some ((ERROR_END_OF_TABLE, entry),
            mkNetInterface true
              (mkSimSwitch regs st ctrl sb alu None 0 lat
                 (log ++ replicate (S b) (BusRead32 0x0418) ++
                  [BusWrite32 0x0418 0])))
  end.
Proof.
  intros Hindex Hfuel. unfold ksz9477GetDynamicFdbEntry.
  rewrite decide_False by done.
  erewrite bind_run by reflexivity.
  erewrite bind_run by (by apply pollSearch_sim).
  destruct (alu !! pos) as [w|] eqn:Hw.
  - pose proof (lookup_lt_Some _ _ _ Hw) as Hlt.
    rewrite (decide_True (P := (pos < length alu)%nat)) by done.
    rewrite decide_True by done.
    erewrite bind_run by apply read32_sim.
    change KSZ9477_ALU_TABLE_ENTRY1 with 0x0420.
    rewrite (sim_read_entry 0x0420 _ _ _ _ _ _ _ _ w) by auto. cbn [fst snd].
    erewrite bind_run by apply read32_sim.
    change KSZ9477_ALU_TABLE_ENTRY2 with 0x0424.
    rewrite (sim_read_entry 0x0424 _ _ _ _ _ _ _ _ w) by auto. cbn [fst snd].
    erewrite bind_run by apply read32_sim.
    change KSZ9477_ALU_TABLE_ENTRY3 with 0x0428.
    rewrite (sim_read_entry 0x0428 _ _ _ _ _ _ _ _ w) by auto. cbn [fst snd].
    erewrite bind_run by apply read32_sim.
    change KSZ9477_ALU_TABLE_ENTRY4 with 0x042C.
    rewrite (sim_read_entry4 _ _ _ _ _ _ _ _ w) by auto. cbn [fst snd].
    unfold mret, St_ret. rewrite <- !app_assoc. reflexivity.
  - pose proof (proj1 (lookup_ge_None _ _) Hw) as Hge.
    rewrite (decide_False (P := (pos < length alu)%nat)) by lia.
    rewrite decide_False by (intros H; by apply H).
    erewrite bind_run by apply write32_sim.
    unfold mret, St_ret. rewrite app_assoc. reflexivity.
Qed.

(** The driver decodes a slot as the layout has it. *)
Lemma aluEntry_learnedOn (a : MacAddr) (p : Z) (w : TableWords) :
  learnedOn a p w -> aluEntry w = mkSwitchFdbEntry a p 0 false.
Proof.
  destruct a as [b0 b1 b2 b3 b4 b5]. unfold learnedOn, mac_wf, mac_b. cbn.
  intros (Hwf & H3 & H4 & Hp). repeat (apply Forall_cons in Hwf as [? Hwf]).
  unfold aluEntry. f_equal.
  - unfold macOfRegs. rewrite H4.
    pose proof (Z.mod_pos_bound (word3 w) (2 ^ 32) ltac:(lia)) as Hr.
    fold (u32 (word3 w)) in Hr. revert H3 Hr. generalize (u32 (word3 w)). intros v H3 Hr.
    change 0xFF with (Z.ones 8). rewrite !Z.land_ones, !Z.shiftr_div_pow2 by lia.
    f_equal; Z.div_mod_to_equations; lia.
  - change 0x7F with (Z.ones 7). rewrite Z.land_ones by lia.
    destruct Hp as [[Hp Hbit]|[-> Hnone]].
    + rewrite Hbit.
      assert (Hcases : p = 1 \/ p = 2 \/ p = 3 \/ p = 4 \/ p = 5 \/ p = 6 \/ p = 7)
        by lia.
      destruct Hcases as [->|[->|[->|[->|[->|[->| ->]]]]]]; reflexivity.
    + pose proof (Hnone 1 ltac:(lia)). pose proof (Hnone 2 ltac:(lia)).
      pose proof (Hnone 3 ltac:(lia)). pose proof (Hnone 4 ltac:(lia)).
      pose proof (Hnone 5 ltac:(lia)). pose proof (Hnone 6 ltac:(lia)).
      pose proof (Hnone 7 ltac:(lia)).
      unfold srcPortOfForward. by rewrite !decide_False by done.
Qed.

(** Every slot holds one address on one port. *)
Lemma learnedOn_aluEntry (w : TableWords) :
  learnedOn (macAddr (aluEntry w)) (srcPort (aluEntry w)) w.
Proof.
  unfold learnedOn, aluEntry, macOfRegs, mac_wf, mac_b. cbn.
  change 0xFF with (Z.ones 8). change 0x7F with (Z.ones 7).
  rewrite !Z.land_ones, !Z.shiftr_div_pow2 by lia.
  pose proof (Z.mod_pos_bound (word3 w) (2 ^ 32) ltac:(lia)) as Hr3.
  pose proof (Z.mod_pos_bound (word4 w) (2 ^ 32) ltac:(lia)) as Hr4.
  fold (u32 (word3 w)) in Hr3. fold (u32 (word4 w)) in Hr4.
  revert Hr3 Hr4. generalize (u32 (word3 w)) (u32 (word4 w)). intros v3 v4 Hr3 Hr4.
  split; [|split; [|split]].
  - repeat constructor; Z.div_mod_to_equations; lia.
  - Z.div_mod_to_equations; lia.
  - Z.div_mod_to_equations; lia.
  - generalize (u32 (word2 w) mod 2 ^ 7). intros m. unfold srcPortOfForward.
    repeat (case_decide; [subst m; left; split; [cbn; lia | reflexivity]|]).
    right. split; [done|]. intros q Hq.
    assert (Hcases : q = 1 \/ q = 2 \/ q = 3 \/ q = 4 \/ q = 5 \/ q = 6 \/ q = 7)
      by lia.
    destruct Hcases as [->|[->|[->|[->|[->|[->| ->]]]]]]; done.
Qed.

(** C8. With the switch on the SPI bus, on the simulated search engine and
    with fuel for more reads than the engine takes to answer, a call of
    [ksz9477GetDynamicFdbEntry] with index 0 writes 0 and then the search
    command to the ALU table control register, which starts the search
    afresh whatever state an earlier enumeration left the engine in; it
    then reads the control register until VALID_ENTRY_OR_SEARCH_END is
    set, and returns [NO_ERROR] and the first entry of the table, which
    is the address in entry registers 3 and 4 and the port whose forward
    bit is set in entry register 2, or returns [ERROR_END_OF_TABLE] after
    writing 0 to the control register when the table is empty.  A call
    with another index continues the running search in the same way: it
    returns the entry at the position of the search and moves on, or
    returns [ERROR_END_OF_TABLE] after writing 0 to the control register,
    which stops the search.  The entry returned holds the address and the
    port that the slot holds, and no other.  With the switch behind
    MDC/MDIO a write reaches no register, a read gives 0, and the call
    does not return, whatever the index: no fuel gives a result. *)
Theorem dynamic_entry_search (fuel : nat) (entry : SwitchFdbEntry) (d : SimSwitch) :
  (sim_latency d < fuel)%nat ->
  (exists r d',
     ksz9477GetDynamicFdbEntry fuel 0 entry (mkNetInterface true d) =
       Some (r, mkNetInterface true d') /\
     sim_alu d' = sim_alu d /\
     sim_log d' = sim_log d ++
       [BusWrite32 0x0418 0; BusWrite32 0x0418 0x83] ++
       replicate (S (sim_latency d)) (BusRead32 0x0418) ++
       match sim_alu d with
       | [] => [BusWrite32 0x0418 0]
       | _ :: _ => [BusRead32 0x0420; BusRead32 0x0424; BusRead32 0x0428;
                    BusRead32 0x042C]
       end /\
     match sim_alu d with
     | [] => r = (ERROR_END_OF_TABLE, entry) /\ sim_search d' = None
     | w :: _ =>
         (exists a p, learnedOn a p w /\
            r = (NO_ERROR, mkSwitchFdbEntry a p 0 false)) /\
         (forall a p, learnedOn a p w -> r.2 = mkSwitchFdbEntry a p 0 false) /\
         sim_search d' = Some 1%nat
     end) /\
  (forall index pos, index ≠ 0%nat ->
     sim_search d = Some pos -> (sim_search_busy d < fuel)%nat ->
     exists r d',
       ksz9477GetDynamicFdbEntry fuel index entry (mkNetInterface true d) =
         Some (r, mkNetInterface true d') /\
       sim_alu d' = sim_alu d /\
       match sim_alu d !! pos with
       | Some w =>
           (exists a p, learnedOn a p w /\
              r = (NO_ERROR, mkSwitchFdbEntry a p 0 false)) /\
           (forall a p, learnedOn a p w -> r.2 = mkSwitchFdbEntry a p 0 false) /\
           sim_search d' = Some (S pos) /\
           sim_log d' = sim_log d ++
             replicate (S (sim_search_busy d)) (BusRead32 0x0418) ++
             [BusRead32 0x0420; BusRead32 0x0424; BusRead32 0x0428;
              BusRead32 0x042C]
       | None => r = (ERROR_END_OF_TABLE, entry) /\ sim_search d' = None /\
           sim_log d' = sim_log d ++
             replicate (S (sim_search_busy d)) (BusRead32 0x0418) ++
             [BusWrite32 0x0418 0]
       end) /\
  (forall address data,
     ksz9477WriteSwitchReg32 address data (mkNetInterface false d) =
       Some (tt, mkNetInterface false d)) /\
  (forall address,
     ksz9477ReadSwitchReg32 address (mkNetInterface false d) =
       Some (0, mkNetInterface false d)) /\
  (forall n index,
     ksz9477GetDynamicFdbEntry n index entry (mkNetInterface false d) = None).
Proof.
  intros Hfuel. destruct d as [regs st ctrl sb alu search b lat log].
  cbn [sim_latency sim_alu sim_log sim_search sim_search_busy] in *.
  split; [|split; [|split; [done|split; [done|]]]].
  - assert (Hstart :
      ksz9477GetDynamicFdbEntry fuel 0 entry
        (mkNetInterface true (mkSimSwitch regs st ctrl sb alu search b lat log)) =
      ksz9477GetDynamicFdbEntry fuel 1 entry
        (mkNetInterface true
           (mkSimSwitch regs st ctrl sb alu (Some 0%nat) lat lat
              ((log ++ [BusWrite32 0x0418 0]) ++ [BusWrite32 0x0418 0x83]))))
      by reflexivity.
    rewrite Hstart, getDynamic_continue by (done || lia).
    destruct alu as [|w alu]; cbn [lookup list_lookup];
      eexists _, _; (split; [reflexivity|]); cbn [sim_alu sim_log sim_search];
      rewrite <- !app_assoc; repeat split; try done.
    + eexists _, _. split; [apply learnedOn_aluEntry | reflexivity].
    + intros a p Hw. by apply aluEntry_learnedOn.
  - intros index pos Hindex -> Hb.
    rewrite getDynamic_continue by done.
    destruct (alu !! pos) as [w|]; eexists _, _; (split; [reflexivity|]);
      repeat split; try done.
    + eexists _, _. split; [apply learnedOn_aluEntry | reflexivity].
    + intros a p Hw. by apply aluEntry_learnedOn.
  - intros n index. apply getDynamic_mdio.
Qed.

(** *** The static table on the simulated switch *)

Lemma bit7_set (c : Z) : Z.land (u32 (Z.lor c 0x80)) 0x80 ≠ 0.
Proof.
  replace (Z.land (u32 (Z.lor c 0x80)) 0x80) with 0x80; [done|].
  unfold u32. change 0x80 with (2 ^ 7). bits.
Qed.

Lemma bit7_clear (c : Z) : Z.land (u32 (Z.land c (not32 0x80))) 0x80 = 0.
Proof.
  unfold u32, not32. change 0x80 with (2 ^ 7). change 0xFFFFFFFF with (Z.ones 32).
  bits.
Qed.

Lemma staticTableCommand_spec (index : nat) (read : bool) :
  (index < 16)%nat ->
  let v := staticTableCommand index read in
  Z.land v 0x80 ≠ 0 /\ Z.land v 0x02 = 0 /\
  (Z.land v 0x01 ≠ 0 <-> read = true) /\
  Z.to_nat (Z.shiftr (Z.land v 0x003F0000) 16) = index.
Proof.
  intros Hi.
  do 16 (destruct index as [|index];
         [destruct read; vm_compute; intuition congruence|]).
  lia.
Qed.

(** The engine clears START_FINISH after [b] more reads. *)
Lemma pollStartFinish_sim (b : nat) :
  forall fuel regs st ctrl alu sbusy lat log,
  (b < fuel)%nat ->
  pollStartFinish fuel
    (mkNetInterface true (mkSimSwitch regs st ctrl b alu None sbusy lat log)) =
  Some (u32 (Z.land ctrl (not32 0x80)),
        mkNetInterface true
          (mkSimSwitch regs st ctrl 0 alu None sbusy lat
             (log ++ replicate (S b) (BusRead32 0x041C)))).
Proof.
  induction b as [|b IH]; intros fuel regs st ctrl alu sbusy lat log Hfuel;
    (destruct fuel as [|fuel]; [lia|]); cbn [pollStartFinish];
    erewrite bind_run by apply read32_sim;
    change KSZ9477_STATIC_MCAST_TABLE_CTRL with 0x041C;
    change KSZ9477_STATIC_MCAST_TABLE_CTRL_START_FINISH with 0x80.
  - change (sim_read32 0x041C (mkSimSwitch regs st ctrl 0 alu None sbusy lat log))
      with (Z.land ctrl (not32 0x80),
            mkSimSwitch regs st ctrl 0 alu None sbusy lat (log ++ [BusRead32 0x041C])).
    cbn [fst snd]. rewrite decide_False; [done|].
    intros H. apply H. apply bit7_clear.
  - change (sim_read32 0x041C (mkSimSwitch regs st ctrl (S b) alu None sbusy lat log))
      with (Z.lor ctrl 0x80,
            mkSimSwitch regs st ctrl b alu None sbusy lat (log ++ [BusRead32 0x041C])).
    cbn [fst snd]. rewrite decide_True by apply bit7_set.
    rewrite IH by lia. by rewrite <- app_assoc.
Qed.

(** A register that is not a control register reads as it was written
    while no search offers an entry. *)
Lemma sim_read_reg_idle (a : Z) regs st ctrl sb alu sbusy lat log :
  a ≠ 0x041C -> a ≠ 0x0418 ->
  sim_read32 a (mkSimSwitch regs st ctrl sb alu None sbusy lat log) =
    (regs a, mkSimSwitch regs st ctrl sb alu None sbusy lat (log ++ [BusRead32 a])).
Proof.
  intros H1 H2. unfold sim_read32. by rewrite !decide_False by done.
Qed.

(** The read command loads the entry registers from the slot. *)
Lemma sim_static_read_cmd (index : nat) regs st ctrl sb alu sbusy lat log :
  (index < 16)%nat ->
  let w := default (mkTableWords 0 0 0 0) (st !! index) in
  exists regs',
    sim_write32 0x041C (staticTableCommand index true)
      (mkSimSwitch regs st ctrl sb alu None sbusy lat log) =
    mkSimSwitch regs' st (staticTableCommand index true) lat alu None sbusy lat
      (log ++ [BusWrite32 0x041C (staticTableCommand index true)]) /\
    regs' 0x0420 = word1 w /\ regs' 0x0424 = word2 w /\
    regs' 0x0428 = word3 w /\ regs' 0x042C = word4 w.
Proof.
  intros Hindex w.
  destruct (staticTableCommand_spec index true Hindex) as (Hsf & Hsel & Hact & Hidx).
  unfold sim_write32. rewrite decide_True by done.
  unfold sim_staticCommand.
  rewrite decide_True by done.
  rewrite decide_True by (by apply Hact).
  rewrite Hidx. eexists. split; [reflexivity|]. by repeat split.
Qed.

(** The write command stores the entry registers into the slot. *)
Lemma sim_static_write_cmd (index : nat) regs st ctrl sb alu sbusy lat log :
  (index < 16)%nat ->
  sim_write32 0x041C (staticTableCommand index false)
    (mkSimSwitch regs st ctrl sb alu None sbusy lat log) =
  mkSimSwitch regs
    (<[ index := mkTableWords (regs 0x0420) (regs 0x0424) (regs 0x0428) (regs 0x042C) ]> st)
    (staticTableCommand index false) lat alu None sbusy lat
    (log ++ [BusWrite32 0x041C (staticTableCommand index false)]).
Proof.
  intros Hindex.
  destruct (staticTableCommand_spec index false Hindex) as (Hsf & Hsel & Hact & Hidx).
  unfold sim_write32. rewrite decide_True by done.
  unfold sim_staticCommand.
  rewrite decide_True by done.
  rewrite decide_False by (intros H; by apply Hact in H).
  by rewrite Hidx.
Qed.

(** Reading a slot: the table is as it was, and the result is the entry of
    a valid slot. *)
Lemma getStatic_sim (fuel index : nat) (entry : SwitchFdbEntry) (d : SimSwitch)
    (st : list TableWords) (lat : nat) :
  staticView st lat d -> (index < 16)%nat -> (lat < fuel)%nat ->
  exists d',
    ksz9477GetStaticFdbEntry fuel index entry (mkNetInterface true d) =
      Some (match st !! index with
            | Some w => if decide (slotValid w) then (NO_ERROR, slotEntry w)
                        else (ERROR_INVALID_ENTRY, entry)
            | None => (ERROR_INVALID_ENTRY, entry)
            end, mkNetInterface true d') /\
    staticView st lat d'.
Proof.
  intros (Hst & Hsearch & Hlat) Hindex Hfuel.
  destruct d as [regs st' ctrl sb alu search sbusy lat' log].
  cbn [sim_static sim_search sim_latency] in *. subst st' search lat'.
  destruct (sim_static_read_cmd index regs st ctrl sb alu sbusy lat log Hindex)
    as (regs' & Hcmd & H1 & H2 & H3 & H4).
  unfold ksz9477GetStaticFdbEntry.
  rewrite decide_True by done.
  erewrite bind_run by apply write32_sim.
  change KSZ9477_STATIC_MCAST_TABLE_CTRL with 0x041C.
  rewrite Hcmd.
  rewrite (bind_run _ _ _ _ _ (pollStartFinish_sim _ _ _ _ _ _ _ _ _ Hfuel)).
  erewrite bind_run by apply read32_sim.
  change KSZ9477_STATIC_TABLE_ENTRY1 with 0x0420.
  rewrite sim_read_reg_idle by done. cbn [fst snd]. rewrite H1.
  change KSZ9477_STATIC_TABLE_ENTRY1_VALID with 0x80000000.
  destruct (st !! index) as [w|] eqn:Hw; cbn [default from_option id] in *.
  - unfold slotValid.
    destruct (decide (Z.land (u32 (word1 w)) 0x80000000 ≠ 0)) as [Hv|Hv].
    + erewrite bind_run by apply read32_sim.
      change KSZ9477_STATIC_TABLE_ENTRY2 with 0x0424.
      rewrite sim_read_reg_idle by done. cbn [fst snd]. rewrite H2.
      erewrite bind_run by apply read32_sim.
      change KSZ9477_STATIC_TABLE_ENTRY3 with 0x0428.
      rewrite sim_read_reg_idle by done. cbn [fst snd]. rewrite H3.
      erewrite bind_run by apply read32_sim.
      change KSZ9477_STATIC_TABLE_ENTRY4 with 0x042C.
      rewrite sim_read_reg_idle by done. cbn [fst snd]. rewrite H4.
      eexists. split; [reflexivity|]. done.
    + eexists. split; [reflexivity|]. done.
  - rewrite decide_False by (intros H; by apply H).
    eexists. split; [reflexivity|]. done.
Qed.

(** *** The scan of the table *)

Section Scan.

Variables (mac : MacAddr) (st : list TableWords).

Lemma scanSlots_bound (n i j : nat) :
  scanSlots mac st n i j = j \/ (i <= scanSlots mac st n i j < i + n)%nat.
Proof.
  revert i j. induction n as [|n IH]; intros i j; cbn [scanSlots]; [by left|].
  destruct (st !! i) as [w|]; repeat case_decide; subst;
    try (right; lia);
    match goal with
    | |- context [scanSlots mac st n (S i) ?j'] =>
        destruct (IH (S i) j') as [->|?]; try (by left); right; lia
    end.
Qed.

(** The first slot that holds the address is found, whatever slot was free
    before it. *)
Lemma scanSlots_match (n i j m : nat) (w : TableWords) :
  (i <= m < i + n)%nat -> st !! m = Some w -> holdsMac mac w ->
  (forall k w', (i <= k < m)%nat -> st !! k = Some w' -> ~ holdsMac mac w') ->
  scanSlots mac st n i j = m.
Proof.
  revert i j. induction n as [|n IH]; intros i j Hm Hw [Hv Heq] Hfirst; [lia|].
  cbn [scanSlots]. destruct (decide (i = m)) as [->|Hne].
  - rewrite Hw. by rewrite !decide_True.
  - destruct (lookup_lt_is_Some_2 st i) as [w0 Hw0].
    { apply lookup_lt_Some in Hw. lia. }
    rewrite Hw0.
    assert (Hno : ~ holdsMac mac w0) by (apply (Hfirst i); [lia | done]).
    assert (Hrest : forall j', scanSlots mac st n (S i) j' = m).
    { intros j'. apply IH; [lia | done | done |].
      intros k w' Hk. apply Hfirst. lia. }
    destruct (decide (slotValid w0)); [|apply Hrest].
    destruct (decide (macAddr (slotEntry w0) = mac)); [|apply Hrest].
    by destruct Hno.
Qed.

(** With a free slot already noted and no slot holding the address, the
    noted slot is kept. *)
Lemma scanSlots_keep (n i j : nat) :
  j ≠ 16%nat ->
  (forall k w', (i <= k < i + n)%nat -> st !! k = Some w' -> ~ holdsMac mac w') ->
  scanSlots mac st n i j = j.
Proof.
  revert i. induction n as [|n IH]; intros i Hj Hno; [done|].
  cbn [scanSlots]. rewrite (decide_False (P := j = 16%nat)) by done.
  assert (Hrest : scanSlots mac st n (S i) j = j).
  { apply IH; [done|]. intros k w' Hk. apply Hno. lia. }
  destruct (st !! i) as [w0|] eqn:Hw0; [|done].
  destruct (decide (slotValid w0)); [|done].
  destruct (decide (macAddr (slotEntry w0) = mac)); [|done].
  destruct (Hno i w0); [lia | done | done].
Qed.

(** With no slot holding the address, the first free slot is found. *)
Lemma scanSlots_free (n i f : nat) (w : TableWords) :
  (i <= f < i + n)%nat -> (f < 16)%nat ->
  st !! f = Some w -> ~ slotValid w ->
  (forall k w', (i <= k < i + n)%nat -> st !! k = Some w' -> ~ holdsMac mac w') ->
  (forall k w', (i <= k < f)%nat -> st !! k = Some w' -> slotValid w') ->
  scanSlots mac st n i 16 = f.
Proof.
  revert i. induction n as [|n IH]; intros i Hf Hf16 Hw Hinv Hno Hvalid; [lia|].
  cbn [scanSlots]. destruct (decide (i = f)) as [->|Hne].
  - rewrite Hw. rewrite decide_False by done. rewrite decide_True by done.
    apply scanSlots_keep; [lia|]. intros k w' Hk. apply Hno. lia.
  - destruct (lookup_lt_is_Some_2 st i) as [w0 Hw0].
    { apply lookup_lt_Some in Hw. lia. }
    rewrite Hw0. rewrite decide_True by (apply (Hvalid i); [lia | done]).
    rewrite decide_False.
    + apply IH; try done; [lia | |].
      * intros k w' Hk. apply Hno. lia.
      * intros k w' Hk. apply Hvalid. lia.
    + intros Heq. apply (Hno i w0); [lia | done |].
      split; [|done]. apply (Hvalid i); [lia | done].
Qed.

(** The sentinel is left in [j] exactly when every slot scanned holds a
    valid entry with another address. *)
Lemma scanSlots_full (n i : nat) :
  (i + n <= length st)%nat -> (i + n <= 16)%nat ->
  scanSlots mac st n i 16 = 16%nat <->
  (forall k w', (i <= k < i + n)%nat -> st !! k = Some w' ->
     slotValid w' /\ macAddr (slotEntry w') ≠ mac).
Proof.
  revert i. induction n as [|n IH]; intros i Hlen H16.
  - split; [intros _ k w' Hk; lia | done].
  - cbn [scanSlots].
    destruct (lookup_lt_is_Some_2 st i) as [w0 Hw0]; [lia|]. rewrite Hw0.
    destruct (decide (slotValid w0)) as [Hv|Hv];
      [destruct (decide (macAddr (slotEntry w0) = mac)) as [Heq|Heq]|].
    + split; [lia|]. intros Hall. by destruct (Hall i w0 ltac:(lia) Hw0).
    + rewrite IH by lia. split.
      * intros Hall k w' Hk Hw'. destruct (decide (k = i)) as [->|Hne].
        -- rewrite Hw0 in Hw'. by injection Hw' as <-.
        -- apply (Hall k); [lia | done].
      * intros Hall k w' Hk. apply Hall. lia.
    + rewrite decide_True by done. split.
      * intros Hres. destruct (scanSlots_bound n (S i) i) as [E|E]; lia.
      * intros Hall. by destruct (Hall i w0 ltac:(lia) Hw0).
Qed.

End Scan.

(** *** ksz9477AddStaticFdbEntry on the simulated switch *)

(** The loop of the driver computes [scanSlots] and leaves the table as it
    was. *)
Lemma addStaticScan_sim (fuel : nat) (entry : SwitchFdbEntry)
    (st : list TableWords) (lat : nat) (n : nat) :
  forall i j currentEntry d,
  staticView st lat d -> (i + n = 16)%nat -> (lat < fuel)%nat ->
  exists d',
    addStaticScan fuel entry n i j currentEntry (mkNetInterface true d) =
      Some (scanSlots (macAddr entry) st n i j, mkNetInterface true d') /\
    staticView st lat d'.
Proof.
  induction n as [|n IH]; intros i j cur d Hview Hin Hfuel.
  - exists d. by split.
  - cbn [addStaticScan scanSlots].
    destruct (getStatic_sim fuel i cur d st lat Hview ltac:(lia) Hfuel)
      as (d1 & Hget & Hview1).
    rewrite (bind_run _ _ _ _ _ Hget).
    change KSZ9477_STATIC_MAC_TABLE_SIZE with 16%nat.
    destruct (st !! i) as [w|];
      [destruct (decide (slotValid w)) as [Hv|Hv]|].
    + rewrite decide_True by done. unfold macCompAddr.
      destruct (decide (macAddr (slotEntry w) = macAddr entry)) as [Heq|Hne].
      * rewrite bool_decide_eq_true_2 by done. by exists d1.
      * rewrite bool_decide_eq_false_2 by done. apply IH; [done | lia | done].
    + rewrite decide_False by done.
      destruct (decide (j = 16%nat)); apply IH; done || lia.
    + rewrite decide_False by done.
      destruct (decide (j = 16%nat)); apply IH; done || lia.
Qed.

(** A write to an entry register. *)
Lemma sim_write_reg (a v : Z) regs st ctrl sb alu search sbusy lat log :
  a ≠ 0x041C -> a ≠ 0x0418 ->
  sim_write32 a v (mkSimSwitch regs st ctrl sb alu search sbusy lat log) =
    mkSimSwitch (fun a' => if decide (a' = a) then v else regs a')
      st ctrl sb alu search sbusy lat (log ++ [BusWrite32 a v]).
Proof.
  intros H1 H2. unfold sim_write32. by rewrite !decide_False by done.
Qed.

(** The address and the ports survive the trip through the registers. *)
Lemma mac_round_trip (a : MacAddr) :
  mac_wf a ->
  macOfRegs
    (u32 (u32 (Z.lor (Z.shiftl (mac_b0 a) 8) (mac_b1 a))))
    (u32 (u32 (Z.lor (Z.lor (Z.lor (Z.shiftl (mac_b2 a) 24) (Z.shiftl (mac_b3 a) 16))
                        (Z.shiftl (mac_b4 a) 8)) (mac_b5 a)))) = a.
Proof.
  destruct a as [b0 b1 b2 b3 b4 b5]. unfold mac_wf, mac_b. cbn.
  intros Hwf. repeat (apply Forall_cons in Hwf as [? Hwf]).
  unfold macOfRegs, u32.
  rewrite <- (Z.mod_small b0 (2 ^ 8)) by lia.
  rewrite <- (Z.mod_small b1 (2 ^ 8)) by lia.
  rewrite <- (Z.mod_small b2 (2 ^ 8)) by lia.
  rewrite <- (Z.mod_small b3 (2 ^ 8)) by lia.
  rewrite <- (Z.mod_small b4 (2 ^ 8)) by lia.
  rewrite <- (Z.mod_small b5 (2 ^ 8)) by lia.
  change 0xFF with (Z.ones 8).
  f_equal; bits.
Qed.

Lemma ports_round_trip (v : Z) (o : bool) :
  0 <= v < 128 ->
  let w := u32 (if o then Z.lor v 0x80000000 else v) in
  Z.land w 0x7F = v /\ bool_decide (Z.land w 0x80000000 ≠ 0) = o.
Proof.
  intros Hv w. subst w. unfold u32.
  rewrite <- (Z.mod_small v (2 ^ 7)) by lia.
  change 0x7F with (Z.ones 7). change 0x80000000 with (2 ^ 31).
  destruct o; split.
  - bits.
  - apply bool_decide_eq_true_2.
    replace (Z.land (Z.lor (v mod 2 ^ 7) (2 ^ 31) mod 2 ^ 32) (2 ^ 31)) with (2 ^ 31);
      [done|]. bits.
  - bits.
  - apply bool_decide_eq_false_2. intros H. apply H. bits.
Qed.

Lemma storedPorts_range (entry : SwitchFdbEntry) : 0 <= storedPorts entry < 128.
Proof.
  unfold storedPorts. case_decide; [lia|].
  pose proof (land_upper_bound (destPorts entry) 0x7F).
  assert (0 <= Z.land (destPorts entry) 0x7F) by (apply Z.land_nonneg; right; lia).
  lia.
Qed.

(** The slot that the driver writes reads back as the entry with the
    ports as stored. *)
Lemma slotEntry_entryWords (entry : SwitchFdbEntry) :
  mac_wf (macAddr entry) ->
  slotValid (entryWords entry) /\
  slotEntry (entryWords entry) =
    mkSwitchFdbEntry (macAddr entry) 0 (storedPorts entry) (override entry).
Proof.
  intros Hwf. split; [by vm_compute|].
  unfold slotEntry, entryWords. cbn [word2 word3 word4].
  unfold staticEntry3, staticEntry4. rewrite mac_round_trip by done.
  destruct (ports_round_trip (storedPorts entry) (override entry)
              (storedPorts_range entry)) as [Hp Ho].
  assert (E : staticEntry2 entry =
              if override entry then Z.lor (storedPorts entry) 0x80000000
              else storedPorts entry) by reflexivity.
  rewrite E. cbn zeta in Hp, Ho. by rewrite Hp, Ho.
Qed.


End Sim.



Section Witnesses.

Local Existing Instance ksz9477_h.
Local Existing Instance simBus.

Lemma untag_frame_witness :
  ksz9477UntagFrame (fun _ => 0x02) (mkNetInterface true emptySwitch)
    0x20001200 61 (mkNetRxAncillary 0) =
  (NO_ERROR, 0x20001200, 60, mkNetRxAncillary 3).
Proof.
  destruct (untag_frame (fun _ => 0x02) (mkNetInterface true emptySwitch)
              0x20001200 61 (mkNetRxAncillary 0)) as [Hok _].
  - reflexivity.
  - reflexivity.
  - simpl. lia.
  - simpl. lia.
  - simpl. lia.
  - lia.
  - rewrite Hok by (simpl; lia). reflexivity.
Defined.

Lemma dynamic_entry_search_witness :
  exists d',
    ksz9477GetDynamicFdbEntry 5 0 noEntry (mkNetInterface true emptySwitch) =
      Some ((NO_ERROR,
             mkSwitchFdbEntry (mkMacAddr 0x00 0x11 0x22 0x33 0x44 0x55) 2 0 false),
            mkNetInterface true d') /\
    sim_search d' = Some 1%nat.
Proof.
  destruct (dynamic_entry_search 5 noEntry emptySwitch)
    as ((r & d' & Hrun & _ & _ & Hres) & _).
  - simpl. lia.
  - cbn [emptySwitch sim_alu] in Hres.
    destruct Hres as ((a & p & _ & Hr) & Hentry & Hs).
    exists d'. split; [|exact Hs].
    rewrite Hrun, Hr. rewrite Hr in Hentry. cbn [snd] in Hentry.
    rewrite (Hentry (mkMacAddr 0x00 0x11 0x22 0x33 0x44 0x55) 2); [reflexivity|].
    split; [repeat constructor; cbn; lia|].
    split; [reflexivity|]. split; [reflexivity|].
    left. split; [lia | reflexivity].
Defined.

(** C8, as the claim states it, fails with the switch behind MDC/MDIO: the
    two writes of the call with index 0 reach no register and leave the
    search engine as it was, every read of the control register gives 0,
    and the call returns with no fuel; behind the SPI bus the same call
    on the same switch returns the first entry. *)
Lemma search_not_started_without_spi :
  (ksz9477WriteSwitchReg32 0x0418 0 ;; ksz9477WriteSwitchReg32 0x0418 0x83)
    (mkNetInterface false emptySwitch) = Some (tt, mkNetInterface false emptySwitch) /\
  ksz9477ReadSwitchReg32 0x0418 (mkNetInterface false emptySwitch) =
    Some (0, mkNetInterface false emptySwitch) /\
  (forall fuel,
     ksz9477GetDynamicFdbEntry fuel 0 noEntry (mkNetInterface false emptySwitch) = None) /\
  resultOf (ksz9477GetDynamicFdbEntry 5 0 noEntry) true =
    Some (NO_ERROR,
          mkSwitchFdbEntry (mkMacAddr 0x00 0x11 0x22 0x33 0x44 0x55) 2 0 false).
Proof.
  split; [reflexivity|]. split; [reflexivity|]. split; [|by vm_compute].
  intros fuel. apply getDynamic_mdio.
Qed.

(** An enumeration run to its end and started again: the two entries, the
    end of the table, and the first entry once more. *)
Example enumerate_twice :
  resultOf (a ← ksz9477GetDynamicFdbEntry 5 0 noEntry;
            b ← ksz9477GetDynamicFdbEntry 5 1 noEntry;
            c ← ksz9477GetDynamicFdbEntry 5 2 noEntry;
            a' ← ksz9477GetDynamicFdbEntry 5 0 noEntry;
            mret (a.1, b.1, c.1, bool_decide (a' = a))) true =
    Some (NO_ERROR, NO_ERROR, ERROR_END_OF_TABLE, true).
Proof. by vm_compute. Qed.

End Witnesses.

End Ksz9477Proofs.

Module Msp432e4RingProofs.
Import Msp432e4 Msp432e4Ring Msp432e4Proofs.

Section Proofs.

Context `{hdr : Header}.

(** A pointer to element [i] of a descriptor array dereferences to it. *)
Lemma descIndex_addr (base : Z) (n i : nat) :
  0 <= base -> base + DESC_SIZE * Z.of_nat n <= 2 ^ 32 -> (i < n)%nat ->
  descIndex base (u32 (base + DESC_SIZE * Z.of_nat i)) = Some i.
Proof.
  unfold descIndex, u32, DESC_SIZE. intros Hb Hfit Hi.
  rewrite Z.mod_small by lia.
  replace (base + 32 * Z.of_nat i - base) with (Z.of_nat i * 32) by lia.
  rewrite Z.mod_mul by lia. rewrite Z.div_mul by lia.
  rewrite decide_True by lia. by rewrite Nat2Z.id.
Qed.

Lemma txDeref_addr (s : State) (i : nat) (d : Msp432e4TxDmaDesc) :
  ringsFit -> (i < MSP432E4_ETH_TX_BUFFER_COUNT)%nat ->
  txDmaDesc s !! i = Some d ->
  txDeref s (txDescAddr i) = Some (i, d).
Proof.
  intros (_ & _ & Hb & Hf & _) Hi Hd. unfold txDeref, txDescAddr.
  rewrite (descIndex_addr _ MSP432E4_ETH_TX_BUFFER_COUNT) by done.
  cbn. by rewrite Hd.
Qed.

Lemma rxDeref_addr (s : State) (i : nat) (d : Msp432e4RxDmaDesc) :
  ringsFit -> (i < MSP432E4_ETH_RX_BUFFER_COUNT)%nat ->
  rxDmaDesc s !! i = Some d ->
  rxDeref s (rxDescAddr i) = Some (i, d).
Proof.
  intros (_ & _ & _ & _ & Hb & Hf) Hi Hd. unfold rxDeref, rxDescAddr.
  rewrite (descIndex_addr _ MSP432E4_ETH_RX_BUFFER_COUNT) by done.
  cbn. by rewrite Hd.
Qed.

(** One successful call of [msp432e4EthSendPacket]. *)
Lemma send_step (buffer : list Z) (offset : Z) (s : State) (i : nat)
    (d : Msp432e4TxDmaDesc) :
  ringsFit ->
  length (txDmaDesc s) = MSP432E4_ETH_TX_BUFFER_COUNT ->
  txRingLinked s ->
  txCurDmaDesc s = txDescAddr i ->
  txDmaDesc s !! i = Some d ->
  Z.land (tdes0 d) EMAC_TDES0_OWN = 0 ->
  let len := u32 (Z.of_nat (length buffer) - offset) in
  len <= MSP432E4_ETH_TX_BUFFER_SIZE ->
  exists s' next,
    msp432e4EthSendPacket buffer offset s = Some (NO_ERROR, s') /\
    txDmaDesc s' = <[ i := queued len d ]> (txDmaDesc s) /\
    txCurDmaDesc s' = txDescAddr (S i mod MSP432E4_ETH_TX_BUFFER_COUNT) /\
    txDmaDesc s' !! (S i mod MSP432E4_ETH_TX_BUFFER_COUNT)%nat = Some next /\
    nicTxEvent s' =
      (nicTxEvent s || bool_decide (Z.land (tdes0 next) EMAC_TDES0_OWN = 0)) /\
    txCopies s' =
      txCopies s ++ [(tdes2 d, take (Z.to_nat len) (drop (Z.to_nat offset) buffer))] /\
    EMAC0 s' = regWrite TXPOLLD 0 (regWrite DMARIS EMAC_DMARIS_TU (EMAC0 s)) /\
    rxDmaDesc s' = rxDmaDesc s /\ rxCurDmaDesc s' = rxCurDmaDesc s /\
    rxDelivered s' = rxDelivered s.
Proof.
  intros Hfit Hlen Hlinked Hcur Hd Hown len Hsize.
  pose proof (lookup_lt_Some _ _ _ Hd) as Hi. rewrite Hlen in Hi.
  assert (Hn : (S i mod MSP432E4_ETH_TX_BUFFER_COUNT < MSP432E4_ETH_TX_BUFFER_COUNT)%nat)
    by (apply Nat.mod_upper_bound; lia).
  destruct (lookup_lt_is_Some_2 (<[ i := queued len d ]> (txDmaDesc s))
              (S i mod MSP432E4_ETH_TX_BUFFER_COUNT)%nat) as [next Hnext].
  { rewrite length_insert. lia. }
  unfold msp432e4EthSendPacket. fold len.
  rewrite decide_False by lia.
  rewrite Hcur, (txDeref_addr s i d) by done. cbn [mbind option_bind].
  rewrite decide_False by (intros H; by apply H).
  match goal with
  | |- context [txDeref ?s4 (txCurDmaDesc ?s4)] =>
      assert (Hderef : txDeref s4 (txCurDmaDesc s4) =
                       Some ((S i mod MSP432E4_ETH_TX_BUFFER_COUNT)%nat, next))
  end.
  { cbn [txCurDmaDesc set_txCurDmaDesc queued set_tdes0 set_tdes1 tdes3].
    rewrite (Hlinked i d Hd). apply txDeref_addr; [done | done |]. exact Hnext. }
  rewrite Hderef. cbn [mbind option_bind].
  destruct (decide (Z.land (tdes0 next) EMAC_TDES0_OWN = 0)) as [Hfree|Hbusy].
  - eexists _, next. split; [reflexivity|]. cbn.
    rewrite (Hlinked i d Hd). rewrite bool_decide_eq_true_2 by done.
    rewrite orb_true_r. by repeat split.
  - eexists _, next. split; [reflexivity|]. cbn.
    rewrite (Hlinked i d Hd). rewrite bool_decide_eq_false_2 by done.
    rewrite orb_false_r. by repeat split.
Qed.

(** One call of [msp432e4EthReceivePacket] on a descriptor that the DMA
    has released. *)
Lemma receive_step (s : State) (i : nat) (d : Msp432e4RxDmaDesc) :
  ringsFit ->
  length (rxDmaDesc s) = MSP432E4_ETH_RX_BUFFER_COUNT ->
  rxRingLinked s ->
  rxCurDmaDesc s = rxDescAddr i ->
  rxDmaDesc s !! i = Some d ->
  Z.land (rdes0 d) EMAC_RDES0_OWN = 0 ->
  exists s',
    msp432e4EthReceivePacket s =
      Some (match rxFrame d with Some _ => NO_ERROR | None => ERROR_INVALID_PACKET end, s') /\
    rxDmaDesc s' = <[ i := set_rdes0 EMAC_RDES0_OWN d ]> (rxDmaDesc s) /\
    rxCurDmaDesc s' = rxDescAddr (S i mod MSP432E4_ETH_RX_BUFFER_COUNT) /\
    rxDelivered s' = rxDelivered s ++ option_list (rxFrame d) /\
    txDmaDesc s' = txDmaDesc s /\ txCurDmaDesc s' = txCurDmaDesc s /\
    txCopies s' = txCopies s /\ nicTxEvent s' = nicTxEvent s.
Proof.
  intros Hfit Hlen Hlinked Hcur Hd Hown.
  pose proof (lookup_lt_Some _ _ _ Hd) as Hi. rewrite Hlen in Hi.
  unfold msp432e4EthReceivePacket.
  rewrite Hcur, (rxDeref_addr s i d) by done. cbn [mbind option_bind].
  rewrite decide_True by done. unfold rxFrame.
  destruct (decide (Z.land (rdes0 d) EMAC_RDES0_FS ≠ 0 /\
                    Z.land (rdes0 d) EMAC_RDES0_LS ≠ 0)) as [[Hfs Hls]|Hseg];
    [destruct (decide (Z.land (rdes0 d) EMAC_RDES0_ES = 0)) as [Hes|Hes]|].
  - rewrite decide_True by done.
    eexists. split; [reflexivity|]. cbn. rewrite (Hlinked i d Hd). by repeat split.
  - rewrite decide_False by tauto.
    eexists. split; [reflexivity|]. cbn. rewrite (Hlinked i d Hd).
    rewrite app_nil_r. by repeat split.
  - rewrite decide_False by tauto.
    eexists. split; [reflexivity|]. cbn. rewrite (Hlinked i d Hd).
    rewrite app_nil_r. by repeat split.
Qed.

(** A call of [msp432e4EthReceivePacket] on a descriptor that the DMA
    holds. *)
Lemma receive_empty (s : State) (i : nat) (d : Msp432e4RxDmaDesc) :
  ringsFit ->
  length (rxDmaDesc s) = MSP432E4_ETH_RX_BUFFER_COUNT ->
  rxCurDmaDesc s = rxDescAddr i ->
  rxDmaDesc s !! i = Some d ->
  Z.land (rdes0 d) EMAC_RDES0_OWN ≠ 0 ->
  msp432e4EthReceivePacket s =
    Some (ERROR_BUFFER_EMPTY, set_EMAC0 RXPOLLD 0 (set_EMAC0 DMARIS EMAC_DMARIS_RU s)).
Proof.
  intros Hfit Hlen Hcur Hd Hown.
  pose proof (lookup_lt_Some _ _ _ Hd) as Hi. rewrite Hlen in Hi.
  unfold msp432e4EthReceivePacket.
  rewrite Hcur, (rxDeref_addr s i d) by done. cbn [mbind option_bind].
  by rewrite decide_False by done.
Qed.

(** A store into a descriptor that keeps its link keeps the ring
    linked. *)
Lemma txLinked_insert (s s' : State) (i : nat) (d d' : Msp432e4TxDmaDesc) :
  txRingLinked s -> txDmaDesc s !! i = Some d -> tdes3 d' = tdes3 d ->
  txDmaDesc s' = <[ i := d' ]> (txDmaDesc s) -> txRingLinked s'.
Proof.
  intros Hlinked Hd H3 Hs' k dk. rewrite Hs'.
  destruct (decide (k = i)) as [->|Hne].
  - rewrite list_lookup_insert_eq by (by eapply lookup_lt_Some).
    intros [= <-]. rewrite H3. by apply Hlinked.
  - rewrite list_lookup_insert_ne by done. apply Hlinked.
Qed.

Lemma rxLinked_insert (s s' : State) (i : nat) (d d' : Msp432e4RxDmaDesc) :
  rxRingLinked s -> rxDmaDesc s !! i = Some d -> rdes3 d' = rdes3 d ->
  rxDmaDesc s' = <[ i := d' ]> (rxDmaDesc s) -> rxRingLinked s'.
Proof.
  intros Hlinked Hd H3 Hs' k dk. rewrite Hs'.
  destruct (decide (k = i)) as [->|Hne].
  - rewrite list_lookup_insert_eq by (by eapply lookup_lt_Some).
    intros [= <-]. rewrite H3. by apply Hlinked.
  - rewrite list_lookup_insert_ne by done. apply Hlinked.
Qed.

(** Every call of the driver returns and keeps the rings whole. *)
Lemma send_ringOk (buffer : list Z) (offset : Z) (s : State) :
  ringsFit -> ringOk s ->
  exists error s', msp432e4EthSendPacket buffer offset s = Some (error, s') /\ ringOk s'.
Proof.
  intros Hfit Hok.
  destruct Hok as (Hlt & Hlr & Htl & Hrl & (i & Hi & Hcur) & Hrx).
  destruct (lookup_lt_is_Some_2 (txDmaDesc s) i) as [d Hd]; [lia|].
  destruct (decide (u32 (Z.of_nat (length buffer) - offset) > MSP432E4_ETH_TX_BUFFER_SIZE))
    as [Hlong|Hshort].
  { unfold msp432e4EthSendPacket. rewrite decide_True by done.
    eexists _, _. split; [reflexivity|].
    split; [done|]. split; [done|]. split; [done|]. split; [done|].
    split; [by exists i | done]. }
  destruct (decide (Z.land (tdes0 d) EMAC_TDES0_OWN = 0)) as [Hfree|Hbusy].
  - destruct (send_step buffer offset s i d Hfit Hlt Htl Hcur Hd Hfree ltac:(lia))
      as (s' & next & Hrun & Htx & Hc & _ & _ & _ & _ & Hrxd & Hrxc & _).
    exists NO_ERROR, s'. split; [exact Hrun|].
    split; [by rewrite Htx, length_insert|]. split; [by rewrite Hrxd|].
    split; [eapply txLinked_insert; [exact Htl | exact Hd | | exact Htx]; reflexivity|].
    split; [intros k dk; rewrite Hrxd; apply Hrl|].
    split.
    + exists (S i mod MSP432E4_ETH_TX_BUFFER_COUNT)%nat.
      split; [apply Nat.mod_upper_bound; lia | done].
    + by rewrite Hrxc.
  - unfold msp432e4EthSendPacket. rewrite decide_False by done.
    rewrite Hcur, (txDeref_addr s i d) by done. cbn [mbind option_bind].
    rewrite decide_True by done.
    exists ERROR_FAILURE, s. split; [reflexivity|].
    split; [done|]. split; [done|]. split; [done|]. split; [done|].
    split; [by exists i | done].
Qed.

Lemma receive_ringOk (s : State) :
  ringsFit -> ringOk s ->
  exists error s', msp432e4EthReceivePacket s = Some (error, s') /\ ringOk s'.
Proof.
  intros Hfit Hok.
  destruct Hok as (Hlt & Hlr & Htl & Hrl & Htx & (i & Hi & Hcur)).
  destruct (lookup_lt_is_Some_2 (rxDmaDesc s) i) as [d Hd]; [lia|].
  destruct (decide (Z.land (rdes0 d) EMAC_RDES0_OWN = 0)) as [Hfree|Hbusy].
  - destruct (receive_step s i d Hfit Hlr Hrl Hcur Hd Hfree)
      as (s' & Hrun & Hrx & Hc & _ & Htxd & Htxc & _).
    eexists _, s'. split; [exact Hrun|].
    split; [by rewrite Htxd|]. split; [by rewrite Hrx, length_insert|].
    split; [intros k dk; rewrite Htxd; apply Htl|].
    split; [eapply rxLinked_insert; [exact Hrl | exact Hd | | exact Hrx]; reflexivity|].
    split; [by rewrite Htxc|].
    exists (S i mod MSP432E4_ETH_RX_BUFFER_COUNT)%nat.
    split; [apply Nat.mod_upper_bound; lia | done].
  - rewrite (receive_empty s i d) by done.
    eexists _, _. split; [reflexivity|].
    split; [done|]. split; [done|]. split; [done|]. split; [done|].
    split; [done | by exists i].
Qed.

Lemma ringStep_ringOk (op : RingOp) (s : State) :
  ringsFit -> ringOk s -> exists s', ringStep op s = Some s' /\ ringOk s'.
Proof.
  intros Hfit Hok. destruct op as [buffer offset| |i status|i status]; cbn [ringStep].
  - destruct (send_ringOk buffer offset s Hfit Hok) as (error & s' & -> & Hok').
    by exists s'.
  - destruct (receive_ringOk s Hfit Hok) as (error & s' & -> & Hok').
    by exists s'.
  - eexists. split; [reflexivity|].
    destruct Hok as (Hlt & Hlr & Htl & Hrl & Htx & Hrx).
    split; [by cbn; rewrite length_alter|]. split; [done|].
    split; [|done].
    intros k dk. cbn [txDmaDesc set_txDmaDesc].
    destruct (decide (k = i)) as [->|Hne].
    + rewrite list_lookup_alter_eq. destruct (txDmaDesc s !! i) as [d|] eqn:Hd; [|done].
      intros [= <-]. cbn. by apply Htl.
    + rewrite list_lookup_alter_ne by done. apply Htl.
  - eexists. split; [reflexivity|].
    destruct Hok as (Hlt & Hlr & Htl & Hrl & Htx & Hrx).
    split; [done|]. split; [by cbn; rewrite length_alter|].
    split; [done|]. split; [|done].
    intros k dk. cbn [rxDmaDesc set_rxDmaDesc].
    destruct (decide (k = i)) as [->|Hne].
    + rewrite list_lookup_alter_eq. destruct (rxDmaDesc s !! i) as [d|] eqn:Hd; [|done].
      intros [= <-]. cbn. by apply Hrl.
    + rewrite list_lookup_alter_ne by done. apply Hrl.
Qed.

(** X4. Whatever the upper layer and the DMA engine do, in any order, every
    call of the driver returns, both rings stay linked and both cursors
    stay on a descriptor of their array. *)
Theorem ring_never_left (ops : list RingOp) (s : State) :
  ringsFit -> ringOk s -> exists s', ringRun ops s = Some s' /\ ringOk s'.
Proof.
  intros Hfit. revert s. induction ops as [|op ops IH]; intros s Hok.
  - by exists s.
  - destruct (ringStep_ringOk op s Hfit Hok) as (s1 & Hstep & Hok1).
    destruct (IH s1 Hok1) as (s' & Hrun & Hok').
    exists s'. cbn [ringRun]. rewrite Hstep. by split.
Qed.

Lemma mod_add_ne (n c j : nat) :
  (c < n)%nat -> (0 < j < n)%nat -> ((c + j) mod n)%nat ≠ c.
Proof.
  intros Hc Hj Heq.
  pose proof (Nat.Div0.div_mod (c + j) n) as H. rewrite Heq in H.
  assert (Hq : ((c + j) / n = 0 \/ 1 <= (c + j) / n)%nat) by lia.
  destruct Hq as [Hq|Hq]; [rewrite Hq in H; lia | nia].
Qed.

Lemma mod_succ_add (n c j : nat) :
  ((S c mod n + j) mod n = (c + S j) mod n)%nat.
Proof.
  rewrite Nat.Div0.add_mod_idemp_l. f_equal. lia.
Qed.

Lemma land_lor_absorb (a b : Z) : Z.land (Z.lor a b) b = b.
Proof.
  apply Z.bits_inj'. intros n Hn. rewrite Z.land_spec, Z.lor_spec.
  by destruct (Z.testbit a n), (Z.testbit b n).
Qed.

(** Sending a run of frames into a run of free descriptors. *)
Lemma sendFrames_run (frames : list (list Z * Z)) :
  forall (ds : list Msp432e4TxDmaDesc) (s : State) (c : nat),
  ringsFit ->
  length (txDmaDesc s) = MSP432E4_ETH_TX_BUFFER_COUNT ->
  txRingLinked s ->
  txCurDmaDesc s = txDescAddr c ->
  (c < MSP432E4_ETH_TX_BUFFER_COUNT)%nat ->
  length ds = length frames ->
  (length frames <= MSP432E4_ETH_TX_BUFFER_COUNT)%nat ->
  (forall j d, ds !! j = Some d ->
     txDmaDesc s !! ((c + j) mod MSP432E4_ETH_TX_BUFFER_COUNT)%nat = Some d /\
     Z.land (tdes0 d) EMAC_TDES0_OWN = 0) ->
  Forall (fun f => frameLength f <= MSP432E4_ETH_TX_BUFFER_SIZE) frames ->
  exists s',
    sendFrames frames s = Some (replicate (length frames) NO_ERROR, s') /\
    length (txDmaDesc s') = MSP432E4_ETH_TX_BUFFER_COUNT /\
    txRingLinked s' /\
    txCurDmaDesc s' =
      txDescAddr ((c + length frames) mod MSP432E4_ETH_TX_BUFFER_COUNT) /\
    (forall j d f, ds !! j = Some d -> frames !! j = Some f ->
       txDmaDesc s' !! ((c + j) mod MSP432E4_ETH_TX_BUFFER_COUNT)%nat =
         Some (queued (frameLength f) d)) /\
    (forall i, (forall j, (j < length frames)%nat ->
                  i ≠ ((c + j) mod MSP432E4_ETH_TX_BUFFER_COUNT)%nat) ->
       txDmaDesc s' !! i = txDmaDesc s !! i) /\
    txCopies s' =
      txCopies s ++ zip_with (fun d f => (tdes2 d, frameData f)) ds frames /\
    rxDmaDesc s' = rxDmaDesc s /\ rxCurDmaDesc s' = rxCurDmaDesc s /\
    rxDelivered s' = rxDelivered s.
Proof.
  induction frames as [|[buffer offset] frames IH];
    intros ds s c Hfit Hlen Hlinked Hcur Hc Hds Hn Hfree Hsize.
  - destruct ds; [|done]. exists s. cbn [sendFrames length replicate].
    rewrite Nat.add_0_r, Nat.mod_small by done.
    split; [done|]. split; [done|]. split; [done|]. split; [done|].
    split; [done|]. split; [done|]. split; [by rewrite app_nil_r|]. done.
  - destruct ds as [|d ds]; [done|]. cbn [length] in Hds, Hn.
    apply Forall_cons in Hsize as [Hsz Hsize].
    destruct (Hfree 0%nat d eq_refl) as [Hd Hown].
    rewrite Nat.add_0_r, Nat.mod_small in Hd by done.
    destruct (send_step buffer offset s c d Hfit Hlen Hlinked Hcur Hd Hown Hsz)
      as (s1 & next & Hrun & Htx & Hcur1 & _ & _ & Hcopies & _ & Hrxd & Hrxc & Hrxv).
    assert (Hc1 : (S c mod MSP432E4_ETH_TX_BUFFER_COUNT < MSP432E4_ETH_TX_BUFFER_COUNT)%nat)
      by (apply Nat.mod_upper_bound; lia).
    assert (Hkeep : forall j, (0 < j < MSP432E4_ETH_TX_BUFFER_COUNT)%nat ->
              txDmaDesc s1 !! ((c + j) mod MSP432E4_ETH_TX_BUFFER_COUNT)%nat =
              txDmaDesc s !! ((c + j) mod MSP432E4_ETH_TX_BUFFER_COUNT)%nat).
    { intros j Hj. rewrite Htx. apply list_lookup_insert_ne.
      intros Heq. by apply (mod_add_ne _ c j Hc Hj). }
    destruct (IH ds s1 (S c mod MSP432E4_ETH_TX_BUFFER_COUNT)%nat) as
      (s' & Hrun' & Hlen' & Hlinked' & Hcur' & Hq' & Hother' & Hcopies' & Hrxd' & Hrxc' & Hrxv');
      try done.
    + by rewrite Htx, length_insert.
    + eapply txLinked_insert; [exact Hlinked | exact Hd | | exact Htx]; reflexivity.
    + lia.
    + lia.
    + intros j dj Hdj. rewrite mod_succ_add.
      pose proof (lookup_lt_Some _ _ _ Hdj) as Hj.
      rewrite Hkeep by lia. by apply (Hfree (S j) dj).
    + exists s'. cbn [sendFrames length replicate].
      rewrite Hrun. cbn [mbind option_bind]. rewrite Hrun'. cbn [mbind option_bind].
      split; [done|]. split; [done|]. split; [done|].
      split; [by rewrite Hcur', mod_succ_add|].
      split; [|split; [|split]].
      * intros [|j] dj f Hdj Hf.
        -- cbn in Hdj, Hf. injection Hdj as <-. injection Hf as <-.
           rewrite Nat.add_0_r, Nat.mod_small by done.
           rewrite Hother'.
           ++ rewrite Htx. apply list_lookup_insert_eq. by rewrite Hlen.
           ++ intros j Hj Heq. rewrite mod_succ_add in Heq.
              symmetry in Heq. revert Heq. apply mod_add_ne; lia.
        -- cbn in Hdj, Hf. rewrite <- mod_succ_add. by eapply Hq'.
      * intros i Hi. rewrite Hother'.
        -- rewrite Htx. apply list_lookup_insert_ne.
           intros <-. apply (Hi 0%nat); [lia|].
           by rewrite Nat.add_0_r, Nat.mod_small.
        -- intros j Hj. rewrite mod_succ_add. apply Hi. lia.
      * rewrite Hcopies', Hcopies. by rewrite <- app_assoc.
      * by rewrite Hrxd', Hrxc', Hrxv'.
Qed.

Lemma rotate_nat_add_mod (c j n : nat) :
  rotate_nat_add c j n = ((c + j) mod n)%nat.
Proof.
  unfold rotate_nat_add.
  by rewrite <- Nat2Z.inj_add, <- Nat2Z.inj_mod, Nat2Z.id.
Qed.

Lemma ring_index_reached (n c i : nat) :
  (c < n)%nat -> (i < n)%nat ->
  exists j, (j < n)%nat /\ ((c + j) mod n)%nat = i.
Proof.
  intros Hc Hi. exists ((i + n - c) mod n)%nat.
  split; [apply Nat.mod_upper_bound; lia|].
  rewrite Nat.Div0.add_mod_idemp_r.
  replace (c + (i + n - c))%nat with (i + 1 * n)%nat by lia.
  rewrite Nat.Div0.mod_add. by apply Nat.mod_small.
Qed.


(** X3. The receive loop of msp432e4EthEventHandler drains the ring and
    stops.  When the descriptors [ds] after the cursor have been released
    by the DMA and the next one has not (or [ds] is the whole ring), the
    loop ends after one call more than there are released descriptors: the
    valid frames among them are handed to the upper layer in ring order,
    each released descriptor is given back to the DMA, the others are left
    alone, and the cursor rests on the first descriptor not yet filled. *)
Theorem receive_pending_drains (ds : list Msp432e4RxDmaDesc) :
  forall (s : State) (c fuel : nat),
  ringsFit ->
  EMAC_RDES0_OWN ≠ 0 ->
  length (rxDmaDesc s) = MSP432E4_ETH_RX_BUFFER_COUNT ->
  rxRingLinked s ->
  rxCurDmaDesc s = rxDescAddr c ->
  (c < MSP432E4_ETH_RX_BUFFER_COUNT)%nat ->
  (length ds <= MSP432E4_ETH_RX_BUFFER_COUNT)%nat ->
  (forall j d, ds !! j = Some d ->
     rxDmaDesc s !! ((c + j) mod MSP432E4_ETH_RX_BUFFER_COUNT)%nat = Some d /\
     Z.land (rdes0 d) EMAC_RDES0_OWN = 0) ->
  ((length ds < MSP432E4_ETH_RX_BUFFER_COUNT)%nat ->
   exists stop,
     rxDmaDesc s !! ((c + length ds) mod MSP432E4_ETH_RX_BUFFER_COUNT)%nat = Some stop /\
     Z.land (rdes0 stop) EMAC_RDES0_OWN ≠ 0) ->
  (length ds < fuel)%nat ->
  exists s',
    receivePending fuel s = Some s' /\
    rxCurDmaDesc s' =
      rxDescAddr ((c + length ds) mod MSP432E4_ETH_RX_BUFFER_COUNT) /\
    (forall j d, ds !! j = Some d ->
       rxDmaDesc s' !! ((c + j) mod MSP432E4_ETH_RX_BUFFER_COUNT)%nat =
         Some (set_rdes0 EMAC_RDES0_OWN d)) /\
    (forall i, (forall j, (j < length ds)%nat ->
                  i ≠ ((c + j) mod MSP432E4_ETH_RX_BUFFER_COUNT)%nat) ->
       rxDmaDesc s' !! i = rxDmaDesc s !! i) /\
    rxDelivered s' = rxDelivered s ++ omap rxFrame ds /\
    txDmaDesc s' = txDmaDesc s /\ txCurDmaDesc s' = txCurDmaDesc s /\
    txCopies s' = txCopies s /\ nicTxEvent s' = nicTxEvent s.
Proof.
  induction ds as [|d ds IH];
    intros s c fuel Hfit Hbit Hlen Hlinked Hcur Hc Hn Hfree Hstop Hfuel.
  - cbn [length] in *. destruct Hstop as (stop & Hstop & Hown); [lia|].
    rewrite Nat.add_0_r, Nat.mod_small in * by done.
    destruct fuel as [|fuel]; [lia|]. cbn [receivePending].
    rewrite (receive_empty s c stop) by done. cbn [mbind option_bind].
    rewrite decide_False by (intros H; by apply H).
    eexists. split; [reflexivity|]. cbn. rewrite app_nil_r. by repeat split.
  - cbn [length] in *.
    destruct (Hfree 0%nat d eq_refl) as [Hd Hrel].
    rewrite Nat.add_0_r, Nat.mod_small in Hd by done.
    destruct (receive_step s c d Hfit Hlen Hlinked Hcur Hd Hrel)
      as (s1 & Hrun & Hrx & Hcur1 & Hdel & Htxd & Htxc & Htxv & Hev).
    assert (Hc1 : (S c mod MSP432E4_ETH_RX_BUFFER_COUNT < MSP432E4_ETH_RX_BUFFER_COUNT)%nat)
      by (apply Nat.mod_upper_bound; lia).
    assert (Hkeep : forall j, (0 < j < MSP432E4_ETH_RX_BUFFER_COUNT)%nat ->
              rxDmaDesc s1 !! ((c + j) mod MSP432E4_ETH_RX_BUFFER_COUNT)%nat =
              rxDmaDesc s !! ((c + j) mod MSP432E4_ETH_RX_BUFFER_COUNT)%nat).
    { intros j Hj. rewrite Hrx. apply list_lookup_insert_ne.
      intros Heq. by apply (mod_add_ne _ c j Hc Hj). }
    destruct fuel as [|fuel]; [lia|].
    destruct (IH s1 (S c mod MSP432E4_ETH_RX_BUFFER_COUNT)%nat fuel) as
      (s' & Hrun' & Hcur' & Hq' & Hother' & Hdel' & Htxd' & Htxc' & Htxv' & Hev');
      try done.
    + by rewrite Hrx, length_insert.
    + eapply rxLinked_insert; [exact Hlinked | exact Hd | | exact Hrx]; reflexivity.
    + lia.
    + intros j dj Hdj. rewrite mod_succ_add.
      pose proof (lookup_lt_Some _ _ _ Hdj) as Hj.
      rewrite Hkeep by lia. by apply (Hfree (S j) dj).
    + intros _. rewrite mod_succ_add.
      destruct (decide (S (length ds) < MSP432E4_ETH_RX_BUFFER_COUNT)%nat) as [Hlt|Hfull].
      * rewrite Hkeep by lia. by apply Hstop.
      * exists (set_rdes0 EMAC_RDES0_OWN d).
        replace (S (length ds)) with (1 * MSP432E4_ETH_RX_BUFFER_COUNT)%nat by lia.
        rewrite Nat.Div0.mod_add, Nat.mod_small by done.
        split; [rewrite Hrx; apply list_lookup_insert_eq; by rewrite Hlen|].
        cbn. by rewrite Z.land_diag.
    + lia.
    + exists s'. cbn [receivePending]. rewrite Hrun. cbn [mbind option_bind].
      rewrite decide_True by (by destruct (rxFrame d)).
      split; [done|]. split; [by rewrite Hcur', mod_succ_add|].
      split; [|split; [|split]].
      * intros [|j] dj Hdj.
        -- cbn in Hdj. injection Hdj as <-.
           rewrite Nat.add_0_r, Nat.mod_small by done.
           rewrite Hother'.
           ++ rewrite Hrx. apply list_lookup_insert_eq. by rewrite Hlen.
           ++ intros j Hj Heq. rewrite mod_succ_add in Heq.
              symmetry in Heq. revert Heq. apply mod_add_ne; lia.
        -- cbn in Hdj. rewrite <- mod_succ_add. by eapply Hq'.
      * intros i Hi. rewrite Hother'.
        -- rewrite Hrx. apply list_lookup_insert_ne.
           intros <-. apply (Hi 0%nat); [lia|].
           by rewrite Nat.add_0_r, Nat.mod_small.
        -- intros j Hj. rewrite mod_succ_add. apply Hi. lia.
      * rewrite Hdel', Hdel, <- app_assoc. f_equal.
        cbn [omap list_omap]. by destruct (rxFrame d).
      * by rewrite Htxd', Htxc', Htxv', Hev'.
Qed.

Lemma land_lor_keep (a b c : Z) : Z.land a b = b -> Z.land (Z.lor a c) b = b.
Proof.
  intros H. apply Z.bits_inj'. intros n Hn.
  apply (f_equal (fun x => Z.testbit x n)) in H. revert H.
  rewrite !Z.land_spec, Z.lor_spec.
  by destruct (Z.testbit a n), (Z.testbit b n), (Z.testbit c n).
Qed.

(** X1. A frame that fits is queued whole.  When the current transmit
    descriptor is free, msp432e4EthSendPacket copies all the bytes after
    the offset to the buffer of that descriptor, records their exact number
    in TDES1, marks the descriptor as first and last segment and hands it
    to the DMA, asks the DMA to poll, and moves the cursor to the linked
    descriptor; the transmit event is raised exactly when that one is free
    too. *)
Theorem send_packet_queues_frame (buffer : list Z) (offset : Z) (s : State)
    (i : nat) (d : Msp432e4TxDmaDesc) (k : Z) :
  ringsFit ->
  length (txDmaDesc s) = MSP432E4_ETH_TX_BUFFER_COUNT ->
  txRingLinked s ->
  txCurDmaDesc s = txDescAddr i ->
  txDmaDesc s !! i = Some d ->
  Z.land (tdes0 d) EMAC_TDES0_OWN = 0 ->
  0 <= offset <= Z.of_nat (length buffer) ->
  Z.of_nat (length buffer) - offset <= MSP432E4_ETH_TX_BUFFER_SIZE ->
  0 <= k <= 32 -> EMAC_TDES1_TBS1 = Z.ones k ->
  MSP432E4_ETH_TX_BUFFER_SIZE < 2 ^ k ->
  exists s' d' next,
    msp432e4EthSendPacket buffer offset s = Some (NO_ERROR, s') /\
    txCopies s' = txCopies s ++ [(tdes2 d, drop (Z.to_nat offset) buffer)] /\
    txDmaDesc s' = <[ i := d' ]> (txDmaDesc s) /\
    tdes1 d' = Z.of_nat (length buffer) - offset /\
    Z.land (tdes0 d') EMAC_TDES0_OWN = EMAC_TDES0_OWN /\
    Z.land (tdes0 d') EMAC_TDES0_LS = EMAC_TDES0_LS /\
    Z.land (tdes0 d') EMAC_TDES0_FS = EMAC_TDES0_FS /\
    tdes2 d' = tdes2 d /\ tdes3 d' = tdes3 d /\
    txCurDmaDesc s' = tdes3 d /\
    EMAC0 s' DMARIS = EMAC_DMARIS_TU /\ EMAC0 s' TXPOLLD = 0 /\
    txDmaDesc s' !! (S i mod MSP432E4_ETH_TX_BUFFER_COUNT)%nat = Some next /\
    nicTxEvent s' =
      (nicTxEvent s || bool_decide (Z.land (tdes0 next) EMAC_TDES0_OWN = 0)).
Proof.
  intros Hfit Hlen Hlinked Hcur Hd Hown Hoff Hsize Hk Hmask Hpow.
  assert (H32 : 2 ^ k <= 2 ^ 32) by (apply Z.pow_le_mono_r; lia).
  assert (Hu : u32 (Z.of_nat (length buffer) - offset) =
               Z.of_nat (length buffer) - offset).
  { unfold u32. apply Z.mod_small. lia. }
  destruct (send_step buffer offset s i d Hfit Hlen Hlinked Hcur Hd Hown)
    as (s' & next & Hrun & Htx & Hc & Hnext & Hev & Hcopies & Hregs & _).
  { rewrite Hu. lia. }
  rewrite Hu in Htx, Hcopies.
  exists s', (queued (Z.of_nat (length buffer) - offset) d), next.
  split; [exact Hrun|]. split.
  { rewrite Hcopies. do 3 f_equal. apply take_ge. rewrite length_drop. lia. }
  split; [exact Htx|]. split.
  { cbn. rewrite Hmask, Z.land_ones by lia. apply Z.mod_small. lia. }
  split; [cbn; apply land_lor_absorb|].
  split.
  { cbn. apply land_lor_keep. rewrite (Z.lor_comm EMAC_TDES0_LS).
    rewrite Z.lor_assoc. apply land_lor_absorb. }
  split.
  { cbn. apply land_lor_keep. rewrite Z.lor_assoc. apply land_lor_absorb. }
  split; [done|]. split; [done|].
  split; [by rewrite Hc, (Hlinked i d Hd)|].
  split; [by rewrite Hregs|]. split; [by rewrite Hregs|].
  by split.
Qed.

End Proofs.

Section Witnesses.

Local Existing Instance msp432e401y.

Lemma msp432e401y_fits : ringsFit.
Proof. unfold ringsFit. repeat split; first [by vm_compute | cbn; lia]. Qed.

Lemma ringState_tx_linked : txRingLinked ringState.
Proof.
  assert (HF : Forall (fun p => tdes3 p.2 = txDescAddr (S p.1 mod 3))
                 (imap pair (txDmaDesc ringState))).
  { set (l := imap pair (txDmaDesc ringState)). vm_compute in l. subst l.
    repeat (constructor; [by vm_compute|]). constructor. }
  intros i d Hd. apply (Forall_lookup_1 _ _ i (i, d) HF).
  by rewrite list_lookup_imap, Hd.
Qed.

Lemma ringState_rx_linked : rxRingLinked ringState.
Proof.
  assert (HF : Forall (fun p => rdes3 p.2 = rxDescAddr (S p.1 mod 6))
                 (imap pair (rxDmaDesc ringState))).
  { set (l := imap pair (rxDmaDesc ringState)). vm_compute in l. subst l.
    repeat (constructor; [by vm_compute|]). constructor. }
  intros i d Hd. apply (Forall_lookup_1 _ _ i (i, d) HF).
  by rewrite list_lookup_imap, Hd.
Qed.

Lemma threeReceivedState_rx_linked : rxRingLinked threeReceivedState.
Proof.
  assert (HF : Forall (fun p => rdes3 p.2 = rxDescAddr (S p.1 mod 6))
                 (imap pair (rxDmaDesc threeReceivedState))).
  { set (l := imap pair (rxDmaDesc threeReceivedState)). vm_compute in l. subst l.
    repeat (constructor; [by vm_compute|]). constructor. }
  intros i d Hd. apply (Forall_lookup_1 _ _ i (i, d) HF).
  by rewrite list_lookup_imap, Hd.
Qed.

Lemma ringState_ok : ringOk ringState.
Proof.
  split; [reflexivity|]. split; [reflexivity|].
  split; [exact ringState_tx_linked|]. split; [exact ringState_rx_linked|].
  split; exists 0%nat; (split; [cbn; lia | reflexivity]).
Qed.

Lemma ringState_tx_free (i : nat) (d : Msp432e4TxDmaDesc) :
  txDmaDesc ringState !! i = Some d -> Z.land (tdes0 d) EMAC_TDES0_OWN = 0.
Proof.
  assert (HF : Forall (fun d => Z.land (tdes0 d) EMAC_TDES0_OWN = 0)
                 (txDmaDesc ringState)).
  { set (l := txDmaDesc ringState). vm_compute in l. subst l.
    repeat (constructor; [by vm_compute|]). constructor. }
  intros Hd. by apply (Forall_lookup_1 _ _ _ _ HF Hd).
Qed.

Lemma ring_never_left_witness :
  exists s',
    ringRun [OpSend (replicate 60 0xAA) 0; OpDmaTx 0 0x70100000; OpReceive;
             OpDmaRx 0 0x003C0300; OpReceive] ringState = Some s' /\
    ringOk s'.
Proof.
  apply (ring_never_left _ ringState msp432e401y_fits ringState_ok).
Defined.


Lemma receive_pending_drains_witness :
  exists s',
    receivePending 4 threeReceivedState = Some s' /\
    rxCurDmaDesc s' = rxDescAddr 3 /\
    rxDelivered s' = [(0x20001200, 60); (0x20001E00, 1514)].
Proof.
  destruct (receive_pending_drains
              [mkRxDesc 0x003C0300 0x4600 0x20001200 0x20003680 0 0 0 0;
               mkRxDesc 0x00408300 0x4600 0x20001800 0x200036A0 0 0 0 0;
               mkRxDesc 0x05EA0300 0x4600 0x20001E00 0x200036C0 0 0 0 0]
              threeReceivedState 0 4)
    as (s' & Hrun & Hcur & _ & _ & Hdel & _).
  - exact msp432e401y_fits.
  - by vm_compute.
  - reflexivity.
  - exact threeReceivedState_rx_linked.
  - reflexivity.
  - cbn. lia.
  - cbn. lia.
  - intros [|[|[|j]]] d Hd; try done; injection Hd as <-; by vm_compute.
  - intros _. eexists. split; [reflexivity|]. by vm_compute.
  - cbn. lia.
  - exists s'. split; [exact Hrun|]. split; [exact Hcur|]. exact Hdel.
Defined.

Lemma send_packet_queues_frame_witness :
  exists s',
    msp432e4EthSendPacket (replicate 60 0xAA) 0 ringState = Some (NO_ERROR, s') /\
    txCopies s' = [(0x20000000, replicate 60 0xAA)] /\
    txCurDmaDesc s' = 0x20003620.
Proof.
  destruct (send_packet_queues_frame (replicate 60 0xAA) 0 ringState 0
              (mkTxDesc 0x40100000 0 0x20000000 0x20003620 0 0 0 0) 13)
    as (s' & d' & next & Hrun & Hcopies & _ & _ & _ & _ & _ & _ & _ & Hcur & _).
  - exact msp432e401y_fits.
  - reflexivity.
  - exact ringState_tx_linked.
  - reflexivity.
  - reflexivity.
  - reflexivity.
  - cbn. lia.
  - cbn. lia.
  - lia.
  - reflexivity.
  - cbn. lia.
  - exists s'. split; [exact Hrun|]. split; [exact Hcopies|]. exact Hcur.
Defined.

End Witnesses.

End Msp432e4RingProofs.

Module Msp432e4FilterProofs.
Import Msp432e4 Msp432e4Proofs.

Section Proofs.

Context `{hdr : Header}.

Local Opaque hashIndex msp432e4EthCalcCrc.

(** A position of the 64-bit table is a word and a bit of it. *)
Lemma hash_position (k k' : Z) :
  0 <= k < 64 -> 0 <= k' < 64 ->
  Z.to_nat (k / 32) = Z.to_nat (k' / 32) -> k mod 32 = k' mod 32 -> k = k'.
Proof.
  intros Hk Hk' Hw Hb.
  assert (0 <= k / 32) by (apply Z.div_pos; lia).
  assert (0 <= k' / 32) by (apply Z.div_pos; lia).
  rewrite (Z.div_mod k 32), (Z.div_mod k' 32) by lia.
  rewrite Hb. f_equal. f_equal. lia.
Qed.

(** One turn of the loop sets at most the bit of its entry. *)
Lemma filterEntry_hashBit_only (l : FilterLocals) (e : MacFilterEntry) (k : Z) :
  0 <= k < 64 ->
  hashBit (fl_hashTable (filterEntry l e)) k = true ->
  hashBit (fl_hashTable l) k = true \/
  (refCount e > 0 /\ macIsMulticastAddr (addr e) = true /\ hashIndex (addr e) = k).
Proof.
  intros Hk. unfold filterEntry.
  destruct (decide (refCount e > 0)) as [Hact|Hact]; [|by left].
  destruct (macIsMulticastAddr (addr e)) eqn:Hmc;
    [|destruct (decide (fl_j l < 3)%nat); by left].
  cbn [fl_hashTable]. unfold hashBit.
  pose proof (hashIndex_range (addr e)) as Hk'.
  set (k' := hashIndex (addr e)) in *.
  destruct (decide (Z.to_nat (k / 32) = Z.to_nat (k' / 32))) as [Hw|Hw].
  - rewrite Hw, list_lookup_alter_eq.
    destruct (fl_hashTable l !! Z.to_nat (k' / 32)) as [w|] eqn:Hword; cbn.
    + rewrite Z.lor_spec.
      assert (Hm : 0 <= k' mod 32 < 32) by (apply Z.mod_pos_bound; lia).
      assert (Hm' : 0 <= k mod 32 < 32) by (apply Z.mod_pos_bound; lia).
      assert (Hlo : 0 < 2 ^ (k' mod 32)) by (apply Z.pow_pos_nonneg; lia).
      assert (Hhi : 2 ^ (k' mod 32) < 2 ^ 32) by (apply Z.pow_lt_mono_r; lia).
      rewrite Z.shiftl_1_l. unfold u32.
      rewrite (Z.mod_small (2 ^ (k' mod 32))) by lia.
      rewrite Z.pow2_bits_eqb by lia.
      intros [Hold|Hnew]%orb_true_iff.
      * by left.
      * right. apply Z.eqb_eq in Hnew. split; [done|]. split; [done|].
        symmetry. by apply hash_position.
    + by rewrite Z.testbit_0_l.
  - rewrite list_lookup_alter_ne by done. by left.
Qed.

Lemma filterLoop_hashBit_only (es : list MacFilterEntry) :
  forall (l : FilterLocals) (k : Z),
  0 <= k < 64 ->
  hashBit (fl_hashTable (foldl filterEntry l es)) k = true ->
  hashBit (fl_hashTable l) k = true \/
  exists e, e ∈ es /\ refCount e > 0 /\ macIsMulticastAddr (addr e) = true /\
            hashIndex (addr e) = k.
Proof.
  induction es as [|e es IH]; intros l k Hk Hbit; [by left|].
  cbn [foldl] in Hbit.
  destruct (IH _ _ Hk Hbit) as [Hold|(e' & Hin & Hact & Hmc & Hidx)].
  - destruct (filterEntry_hashBit_only l e k Hk Hold) as [Hl|(Hact & Hmc & Hidx)];
      [by left|].
    right. exists e. split; [apply elem_of_cons; by left | done].
  - right. exists e'. split; [apply elem_of_cons; by right | done].
Qed.

(** X5. The hash filter after [msp432e4EthUpdateMacAddrFilter] is exact.  An
    address passes the hash filter if and only if the table has an active
    multicast entry with the same hash index; whatever the registers held
    before the update, no other bit of HASHTBLL and HASHTBLH is left
    set. *)
Theorem hash_filter_exact (macAddr : MacAddr) (macAddrFilter : list MacFilterEntry)
    (s : State) (a : MacAddr) :
  hashMatch (EMAC0 (msp432e4EthUpdateMacAddrFilter macAddr macAddrFilter s).2) a = true <->
  exists e, e ∈ macAddrFilter /\ refCount e > 0 /\
            macIsMulticastAddr (addr e) = true /\
            hashIndex (addr e) = hashIndex a.
Proof.
  destruct (update_hash_regs macAddr macAddrFilter s) as [HL HH].
  rewrite (hashMatch_hashBit _ _ _ HL HH). split.
  - intros Hbit.
    destruct (filterLoop_hashBit_only macAddrFilter _ _ (hashIndex_range a) Hbit)
      as [Hinit|He]; [|done].
    exfalso. revert Hinit. unfold hashBit. cbn [fl_hashTable].
    pose proof (hashIndex_range a) as Hk.
    destruct (Z.to_nat (hashIndex a / 32)) as [|[|n]]; cbn;
      by rewrite Z.testbit_0_l.
  - intros (e & Hin & Hact & Hmc & Hidx). rewrite <- Hidx.
    by apply filterLoop_multicast.
Qed.

(** The bytes of a well-formed address are those of its words. *)
Lemma mac_of_words (a : MacAddr) :
  mac_wf a ->
  a = mkMacAddr
        (Z.land (addrLow a) (Z.ones 8))
        (Z.land (Z.shiftr (addrLow a) 8) (Z.ones 8))
        (Z.land (Z.shiftr (addrLow a) 16) (Z.ones 8))
        (Z.land (Z.shiftr (addrLow a) 24) (Z.ones 8))
        (Z.land (mac_w2 a) (Z.ones 8))
        (Z.land (Z.shiftr (mac_w2 a) 8) (Z.ones 8)).
Proof.
  destruct a as [b0 b1 b2 b3 b4 b5]. unfold mac_wf, mac_b. cbn.
  intros Hwf. repeat (apply Forall_cons in Hwf as [? Hwf]).
  unfold addrLow, mac_w0, mac_w1, mac_w2, u32. cbn.
  rewrite <- (Z.mod_small b0 (2 ^ 8)) by lia.
  rewrite <- (Z.mod_small b1 (2 ^ 8)) by lia.
  rewrite <- (Z.mod_small b2 (2 ^ 8)) by lia.
  rewrite <- (Z.mod_small b3 (2 ^ 8)) by lia.
  rewrite <- (Z.mod_small b4 (2 ^ 8)) by lia.
  rewrite <- (Z.mod_small b5 (2 ^ 8)) by lia.
  f_equal; Z.bitblast;
    repeat match goal with
           | |- context [Z.testbit ?b ?l] => rewrite (Z.testbit_neg_r b l) by lia
           end;
    cbn; rewrite ?orb_false_r, ?andb_true_r, ?andb_false_r; reflexivity.
Qed.

Lemma mac_words_inj (a b : MacAddr) :
  mac_wf a -> mac_wf b -> addrLow a = addrLow b -> mac_w2 a = mac_w2 b -> a = b.
Proof.
  intros Ha Hb HL HH.
  rewrite (mac_of_words a Ha), (mac_of_words b Hb). by rewrite HL, HH.
Qed.

(** The registers of the three slots after the update, used or not. *)
Lemma update_slot_values (macAddr : MacAddr) (es : list MacFilterEntry) (s : State) :
  let s' := (msp432e4EthUpdateMacAddrFilter macAddr es s).2 in
  let l := filterLoop es in
  let a n := default MAC_UNSPECIFIED_ADDR (fl_unicastMacAddr l !! n) in
  let lo n := if decide (S n <= fl_j l)%nat then addrLow (a n) else 0 in
  let hi n ae := if decide (S n <= fl_j l)%nat then u32 (Z.lor (mac_w2 (a n)) ae) else 0 in
  EMAC0 s' ADDR0L = addrLow macAddr /\ EMAC0 s' ADDR0H = mac_w2 macAddr /\
  EMAC0 s' ADDR1L = lo 0%nat /\ EMAC0 s' ADDR1H = hi 0%nat EMAC_ADDR1H_AE /\
  EMAC0 s' ADDR2L = lo 1%nat /\ EMAC0 s' ADDR2H = hi 1%nat EMAC_ADDR2H_AE /\
  EMAC0 s' ADDR3L = lo 2%nat /\ EMAC0 s' ADDR3H = hi 2%nat EMAC_ADDR3H_AE.
Proof.
  intros s' l a lo hi. subst s' lo hi. unfold msp432e4EthUpdateMacAddrFilter.
  fold l. unfold setUnicastSlot. cbn.
  repeat split; unfold regWrite; cbn; repeat case_decide; try lia; done.
Qed.

Lemma slot_accepts (lo hi ae : Z) (a b : MacAddr) (used : bool) :
  0 < ae < 2 ^ 32 -> Z.land ae 0xFFFF = 0 -> mac_wf a -> mac_wf b ->
  slotMatches (if used then addrLow b else 0)
    (if used then u32 (Z.lor (mac_w2 b) ae) else 0) ae a = true ->
  used = true /\ a = b.
Proof.
  intros Hae Hlow Ha Hb Hm. unfold slotMatches in Hm.
  apply bool_decide_eq_true_1 in Hm as (Hen & HL & HH).
  destruct used; [|by rewrite Z.land_0_l in Hen].
  split; [done|]. apply mac_words_inj; [done | done | done |].
  rewrite <- HH. pose proof (mac_w2_range b Hb) as Hw.
  assert (Hu : u32 (Z.lor (mac_w2 b) ae) = Z.lor (mac_w2 b) ae).
  { unfold u32. rewrite Hw. rewrite <- (Z.mod_small ae (2 ^ 32)) at 2 by lia.
    rewrite <- (Z.mod_small ae (2 ^ 32)) at 1 by lia.
    apply Z.bits_inj'. intros i Hi.
    rewrite !testbit_mod_pow2, !Z.lor_spec, !testbit_mod_pow2 by lia.
    destruct (Z.ltb_spec i 32), (Z.ltb_spec i 16); simpl; try lia; done. }
  rewrite Hu, Z.land_lor_distr_l, Hlow, Z.lor_0_r.
  change 0xFFFF with (Z.ones 16). rewrite Z.land_ones by lia. by rewrite <- Hw.
Qed.

(** X6. The perfect filter after [msp432e4EthUpdateMacAddrFilter] is exact.
    ADDR0 holds the station address, and the three other slots accept an
    address if and only if it is one of the first three active unicast
    entries of the table: a slot that is not needed is cleared, so an
    address that has left the table is accepted no longer. *)
Theorem perfect_filter_exact (macAddr : MacAddr)
    (macAddrFilter : list MacFilterEntry) (s : State) (a : MacAddr) :
  0 < EMAC_ADDR1H_AE < 2 ^ 32 -> Z.land EMAC_ADDR1H_AE 0xFFFF = 0 ->
  0 < EMAC_ADDR2H_AE < 2 ^ 32 -> Z.land EMAC_ADDR2H_AE 0xFFFF = 0 ->
  0 < EMAC_ADDR3H_AE < 2 ^ 32 -> Z.land EMAC_ADDR3H_AE 0xFFFF = 0 ->
  Forall (fun e => mac_wf (addr e)) macAddrFilter -> mac_wf a ->
  let s' := (msp432e4EthUpdateMacAddrFilter macAddr macAddrFilter s).2 in
  (perfectMatch (EMAC0 s') a = true <-> a ∈ take 3 (activeUnicast macAddrFilter)) /\
  EMAC0 s' ADDR0L = addrLow macAddr /\ EMAC0 s' ADDR0H = mac_w2 macAddr.
Proof.
  intros Hae1 Hlo1 Hae2 Hlo2 Hae3 Hlo3 Hwf Ha s'.
  destruct (update_slot_values macAddr macAddrFilter s)
    as (H0L & H0H & H1L & H1H & H2L & H2H & H3L & H3H).
  fold s' in H0L, H0H, H1L, H1H, H2L, H2H, H3L, H3H.
  split; [|done].
  destruct (filterLoop_unicast macAddrFilter) as [Hj Hu].
  set (u := activeUnicast macAddrFilter) in *.
  assert (Hwfu : forall b, b ∈ u -> mac_wf b).
  { intros b Hb. subst u. unfold activeUnicast in Hb.
    apply list_elem_of_omap in Hb as (e & Hin & He).
    rewrite Forall_forall in Hwf. specialize (Hwf e Hin).
    destruct (decide (refCount e > 0)); [|done].
    destruct (macIsMulticastAddr (addr e)); [done|]. by injection He as <-. }
  assert (Hslot : forall n, (S n <= fl_j (filterLoop macAddrFilter))%nat ->
            exists b, fl_unicastMacAddr (filterLoop macAddrFilter) !! n = Some b /\
                      take 3 u !! n = Some b).
  { intros n Hn. rewrite Hj in Hn.
    destruct (lookup_lt_is_Some_2 (take 3 u) n) as [b Hb]; [lia|].
    exists b. split; [|done]. rewrite Hu.
    rewrite length_take in Hn.
    rewrite lookup_take_lt by lia. apply lookup_app_l_Some.
    by rewrite lookup_take_lt in Hb by lia. }
  assert (Hone : forall n lo hi ae,
            0 < ae < 2 ^ 32 -> Z.land ae 0xFFFF = 0 ->
            lo = (if decide (S n <= fl_j (filterLoop macAddrFilter))%nat
                  then addrLow (default MAC_UNSPECIFIED_ADDR
                                  (fl_unicastMacAddr (filterLoop macAddrFilter) !! n))
                  else 0) ->
            hi = (if decide (S n <= fl_j (filterLoop macAddrFilter))%nat
                  then u32 (Z.lor (mac_w2 (default MAC_UNSPECIFIED_ADDR
                              (fl_unicastMacAddr (filterLoop macAddrFilter) !! n))) ae)
                  else 0) ->
            slotMatches lo hi ae a = true <-> take 3 u !! n = Some a).
  { intros n lo hi ae Hae Hlow -> ->.
    destruct (decide (S n <= fl_j (filterLoop macAddrFilter))%nat) as [Hn|Hn].
    - destruct (Hslot n Hn) as (b & Hget & Hb). rewrite Hget. cbn [default].
      assert (Hwb : mac_wf b).
      { apply Hwfu. pose proof (list_elem_of_lookup_2 _ _ _ Hb) as Hin.
        apply elem_of_take in Hin as (i & Hi & _).
        by eapply list_elem_of_lookup_2. }
      split.
      + intros Hm.
        destruct (slot_accepts (addrLow b) (u32 (Z.lor (mac_w2 b) ae)) ae a b true)
          as [_ ->]; done.
      + intros Hb'. rewrite Hb in Hb'. injection Hb' as ->.
        by apply slotMatches_programmed.
    - split.
      + intros Hm. unfold slotMatches in Hm.
        apply bool_decide_eq_true_1 in Hm as (Hen & _).
        by rewrite Z.land_0_l in Hen.
      + intros Hb. pose proof (lookup_lt_Some _ _ _ Hb) as Hlt.
        rewrite Hj in Hn. lia. }
  unfold perfectMatch.
  rewrite !orb_true_iff.
  rewrite (Hone 0%nat _ _ _ Hae1 Hlo1 H1L H1H).
  rewrite (Hone 1%nat _ _ _ Hae2 Hlo2 H2L H2H).
  rewrite (Hone 2%nat _ _ _ Hae3 Hlo3 H3L H3H).
  rewrite list_elem_of_lookup. split.
  - intros [[H|H]|H]; eauto.
  - intros (n & Hn). pose proof (lookup_lt_Some _ _ _ Hn) as Hlt.
    rewrite length_take in Hlt.
    destruct n as [|[|[|n]]]; [tauto | tauto | tauto | lia].
Qed.

End Proofs.

Section Witnesses.

Local Existing Instance msp432e401y.

Lemma perfect_filter_exact_witness :
  perfectMatch
    (EMAC0 (msp432e4EthUpdateMacAddrFilter stationAddr fourUnicastFilter startState).2)
    (mkMacAddr 0x02 0x00 0x00 0x00 0x00 0x04) = false.
Proof.
  destruct (perfect_filter_exact stationAddr fourUnicastFilter startState
              (mkMacAddr 0x02 0x00 0x00 0x00 0x00 0x04)) as [Hiff _].
  - done.
  - done.
  - done.
  - done.
  - done.
  - done.
  - repeat (constructor; [repeat (constructor; [cbn; lia|]); constructor|]).
    constructor.
  - repeat (constructor; [cbn; lia|]). constructor.
  - apply not_true_iff_false. intros Hm. apply Hiff in Hm.
    set (l := take 3 (activeUnicast fourUnicastFilter)) in Hm.
    vm_compute in l. subst l. revert Hm.
    rewrite !elem_of_cons, elem_of_nil. intros [H|[H|[H|H]]]; done.
Defined.

End Witnesses.

End Msp432e4FilterProofs.

Module Msp432e4MiiProofs.
Import Msp432e4Mii.

Section Proofs.

Local Existing Instance msp432e4_mii_h.
Local Existing Instance miiEmac.

Ltac mii_bits :=
  Z.bitblast;
  repeat match goal with
         | |- context [Z.eqb ?a ?b] => destruct (Z.eqb_spec a b); try lia
         end;
  repeat match goal with
         | |- context [Z.testbit ?b ?l] => rewrite (Z.testbit_neg_r b l) by lia
         end;
  cbn; rewrite ?orb_false_r, ?andb_true_r, ?andb_false_r, ?orb_true_r;
  try reflexivity.

Lemma busy_bit_set (a : Z) : Z.land (Z.lor a 0x01) 0x01 ≠ 0.
Proof.
  intros H. apply (f_equal (fun x => Z.testbit x 0)) in H.
  rewrite Z.land_spec, Z.lor_spec, Z.bits_0 in H.
  change (Z.testbit 1 0) with true in H. by rewrite orb_true_r in H.
Qed.

Lemma busy_bit_clear (a : Z) : Z.land (Z.land a (Z.lnot 0x01)) 0x01 = 0.
Proof.
  apply Z.bits_inj'. intros n Hn.
  rewrite !Z.land_spec, Z.lnot_spec, Z.bits_0 by lia.
  by destruct (Z.testbit a n), (Z.testbit 1 n).
Qed.

(** The wait ends once the transfer is over. *)
Lemma waitNotBusy_settles (b : nat) : forall (fuel : nat) (a dat : Z)
    (phy : Z -> Z -> Z) (lat : nat),
  (b < fuel)%nat ->
  waitNotBusy fuel (mkMiiUnit a dat phy b lat) =
    Some (tt, mkMiiUnit a dat phy 0 lat).
Proof.
  induction b as [|b IH]; intros fuel a dat phy lat Hfuel;
    (destruct fuel as [|fuel]; [lia|]); cbn [waitNotBusy read_MIIADDR miiEmac mii_busy
      mii_addr mii_data mii_phy mii_latency].
  - by rewrite decide_False by (intros H; apply H, busy_bit_clear).
  - rewrite decide_True by apply busy_bit_set. apply IH. lia.
Qed.

Lemma land_pow2 (x n : Z) :
  0 <= n -> Z.land x (2 ^ n) = if Z.testbit x n then 2 ^ n else 0.
Proof.
  intros Hn. apply Z.bits_inj'. intros m Hm.
  rewrite Z.land_spec, Z.pow2_bits_eqb by lia.
  destruct (Z.eqb_spec n m) as [->|Hne].
  - destruct (Z.testbit x m); [|by rewrite Z.bits_0].
    by rewrite Z.pow2_bits_true by lia.
  - rewrite andb_false_r.
    destruct (Z.testbit x n); [|by rewrite Z.bits_0].
    by rewrite Z.pow2_bits_false by lia.
Qed.

Lemma bit_nonzero (x n : Z) :
  0 <= n -> Z.testbit x n = true -> Z.land x (2 ^ n) ≠ 0.
Proof.
  intros Hn Hb. rewrite land_pow2, Hb by done.
  assert (0 < 2 ^ n) by (apply Z.pow_pos_nonneg; lia). lia.
Qed.

Lemma bit_zero (x n : Z) :
  0 <= n -> Z.testbit x n = false -> Z.land x (2 ^ n) = 0.
Proof. intros Hn Hb. by rewrite land_pow2, Hb. Qed.

(** The address fields of a command select the register asked for. *)
Lemma command_fields (value p r op : Z) :
  0 <= p < 32 -> 0 <= r < 32 -> 0 <= op < 4 ->
  let temp :=
    u32 (Z.lor (Z.lor (Z.lor (Z.land value 0x3C) op)
                  (Z.land (Z.shiftl p 11) 0xF800))
           (Z.land (Z.shiftl r 6) 0x07C0)) in
  Z.shiftr (Z.land temp 0xF800) 11 = p /\
  Z.shiftr (Z.land temp 0x07C0) 6 = r /\
  Z.testbit temp 0 = Z.testbit op 0 /\
  Z.testbit temp 1 = Z.testbit op 1 /\
  Z.land temp 0x3C = Z.land value 0x3C.
Proof.
  intros Hp Hr Hop temp. subst temp. unfold u32.
  rewrite <- (Z.mod_small p (2 ^ 5)) by lia.
  rewrite <- (Z.mod_small r (2 ^ 5)) by lia.
  rewrite <- (Z.mod_small op (2 ^ 2)) by lia.
  change 0xF800 with (Z.shiftl (Z.ones 5) 11).
  change 0x07C0 with (Z.shiftl (Z.ones 5) 6).
  change 0x3C with (Z.shiftl (Z.ones 4) 2).
  split; [mii_bits|]. split; [mii_bits|].
  split; [Z.bitblast_core; cbn; by rewrite ?orb_false_r, ?andb_true_r|].
  split; [Z.bitblast_core; cbn; by rewrite ?orb_false_r, ?andb_true_r|].
  mii_bits.
Qed.

Lemma clock_range_kept (a : Z) :
  Z.land (Z.land a (Z.lnot 0x01)) 0x3C = Z.land a 0x3C.
Proof.
  change 0x3C with (Z.shiftl (Z.ones 4) 2). change 0x01 with (Z.ones 1).
  mii_bits.
Qed.

Lemma data_mask (v : Z) :
  u16 (Z.land (Z.land (Z.land (Z.land v 0xFFFF) 0xFFFF) 0xFFFF) 0xFFFF) =
  Z.land v 0xFFFF.
Proof. unfold u16. change 0xFFFF with (Z.ones 16). mii_bits. Qed.

(** X24. A transceiver register written through the MAC reads back.  With
    the management unit at rest, [msp432e4EthWritePhyReg] stores the low 16
    bits of the value in the register that the transceiver address and the
    register number select, and in no other, and [msp432e4EthReadPhyReg]
    returns them; both keep the clock range of MIIADDR and wait for the
    busy bit to clear.  With any other opcode than its own, each function
    leaves the peripheral alone, and the read returns 0. *)
Theorem phy_register_round_trip (fuel : nat) (p r v : Z) (d : MiiUnit) :
  (mii_latency d < fuel)%nat -> mii_busy d = 0%nat ->
  0 <= p < 32 -> 0 <= r < 32 ->
  (exists d1 d2,
     msp432e4EthWritePhyReg fuel SMI_OPCODE_WRITE p r v d = Some (tt, d1) /\
     mii_phy d1 p r = Z.land v 0xFFFF /\
     (forall p' r', ~ (p' = p /\ r' = r) -> mii_phy d1 p' r' = mii_phy d p' r') /\
     msp432e4EthReadPhyReg fuel SMI_OPCODE_READ p r d1 = Some (Z.land v 0xFFFF, d2) /\
     (forall p' r', mii_phy d2 p' r' = mii_phy d1 p' r') /\
     mii_busy d2 = 0%nat /\
     Z.land (mii_addr d2) EMAC_MIIADDR_CR_M = Z.land (mii_addr d) EMAC_MIIADDR_CR_M) /\
  (forall opcode, opcode ≠ SMI_OPCODE_WRITE ->
     msp432e4EthWritePhyReg fuel opcode p r v d = Some (tt, d)) /\
  (forall opcode, opcode ≠ SMI_OPCODE_READ ->
     msp432e4EthReadPhyReg fuel opcode p r d = Some (0, d)).
Proof.
  intros Hfuel Hbusy Hp Hr.
  destruct d as [a dat phy busy lat]. cbn in Hfuel, Hbusy. subst busy.
  split; [|split].
  - set (value1 := Z.land a (Z.lnot 0x01)).
    destruct (command_fields value1 p r 3 Hp Hr ltac:(lia))
      as (Hpla1 & Hmii1 & Hb1 & Hw1 & Hcr1).
    set (temp1 := u32 (Z.lor (Z.lor (Z.lor (Z.land value1 0x3C) 3)
                                (Z.land (Z.shiftl p 11) 0xF800))
                         (Z.land (Z.shiftl r 6) 0x07C0))) in *.
    set (value2 := Z.land temp1 (Z.lnot 0x01)).
    destruct (command_fields value2 p r 1 Hp Hr ltac:(lia))
      as (Hpla2 & Hmii2 & Hb2 & Hw2 & Hcr2).
    set (temp2 := u32 (Z.lor (Z.lor (Z.lor (Z.land value2 0x3C) 1)
                                (Z.land (Z.shiftl p 11) 0xF800))
                         (Z.land (Z.shiftl r 6) 0x07C0))) in *.
    set (phy1 := fun p' r' => if decide (p' = p /\ r' = r)
                              then Z.land (Z.land v 0xFFFF) 0xFFFF else phy p' r').
    exists (mkMiiUnit temp1 (Z.land v 0xFFFF) phy1 0 lat),
           (mkMiiUnit temp2 (Z.land (phy1 p r) 0xFFFF) phy1 0 lat).
    assert (Hwrite : msp432e4EthWritePhyReg fuel SMI_OPCODE_WRITE p r v
                       (mkMiiUnit a dat phy 0 lat) =
                     Some (tt, mkMiiUnit temp1 (Z.land v 0xFFFF) phy1 0 lat)).
    { unfold msp432e4EthWritePhyReg. rewrite decide_True by done.
      cbn [read_MIIADDR write_MIIADDR write_MIIDATA miiEmac mii_busy mii_addr
           mii_data mii_phy mii_latency].
      change (u32 _) with temp1. unfold mii_start.
      cbn [mii_busy mii_addr mii_data mii_phy mii_latency].
      rewrite Hpla1, Hmii1.
      rewrite (decide_True (P := Z.land temp1 1 ≠ 0))
        by (apply (bit_nonzero temp1 0); [lia | by rewrite Hb1]).
      rewrite (decide_True (P := Z.land temp1 2 ≠ 0))
        by (apply (bit_nonzero temp1 1); [lia | by rewrite Hw1]).
      by apply waitNotBusy_settles. }
    assert (Hread : msp432e4EthReadPhyReg fuel SMI_OPCODE_READ p r
                      (mkMiiUnit temp1 (Z.land v 0xFFFF) phy1 0 lat) =
                    Some (u16 (Z.land (Z.land (phy1 p r) 0xFFFF) 0xFFFF),
                          mkMiiUnit temp2 (Z.land (phy1 p r) 0xFFFF) phy1 0 lat)).
    { unfold msp432e4EthReadPhyReg. rewrite decide_True by done.
      cbn [read_MIIADDR write_MIIADDR read_MIIDATA miiEmac mii_busy mii_addr
           mii_data mii_phy mii_latency].
      change (u32 _) with temp2. unfold mii_start.
      cbn [mii_busy mii_addr mii_data mii_phy mii_latency].
      rewrite Hpla2, Hmii2.
      rewrite (decide_True (P := Z.land temp2 1 ≠ 0))
        by (apply (bit_nonzero temp2 0); [lia | by rewrite Hb2]).
      rewrite (decide_False (P := Z.land temp2 2 ≠ 0))
        by (intros H; apply H, (bit_zero temp2 1); [lia | by rewrite Hw2]).
      rewrite waitNotBusy_settles by done. reflexivity. }
    assert (Hphy : phy1 p r = Z.land (Z.land v 0xFFFF) 0xFFFF).
    { subst phy1. cbv beta. by rewrite decide_True. }
    split; [exact Hwrite|]. cbn [mii_phy mii_busy mii_addr].
    split.
    { rewrite Hphy. change 0xFFFF with (Z.ones 16). mii_bits. }
    split.
    { intros p' r' Hne. subst phy1. cbv beta. by rewrite decide_False. }
    split.
    { rewrite Hread, Hphy. by rewrite data_mask. }
    split; [done|]. split; [done|].
    change EMAC_MIIADDR_CR_M with 0x3C.
    rewrite Hcr2. subst value2. rewrite clock_range_kept, Hcr1.
    subst value1. apply clock_range_kept.
  - intros opcode Hop. unfold msp432e4EthWritePhyReg. by rewrite decide_False.
  - intros opcode Hop. unfold msp432e4EthReadPhyReg. by rewrite decide_False.
Qed.

End Proofs.

Section Witnesses.

Local Existing Instance msp432e4_mii_h.
Local Existing Instance miiEmac.

Lemma phy_register_round_trip_witness :
  exists d1 d2,
    msp432e4EthWritePhyReg 4 SMI_OPCODE_WRITE 0 4 0x01E1 idleMii = Some (tt, d1) /\
    msp432e4EthReadPhyReg 4 SMI_OPCODE_READ 0 4 d1 = Some (0x01E1, d2).
Proof.
  destruct (phy_register_round_trip 4 0 4 0x01E1 idleMii)
    as ((d1 & d2 & Hwrite & _ & _ & Hread & _) & _).
  - cbn. lia.
  - reflexivity.
  - lia.
  - lia.
  - exists d1, d2. by split.
Defined.

End Witnesses.

End Msp432e4MiiProofs.

Module Lan8720Proofs.
Import Nic Msp432e4Mac Lan8720.

Section Proofs.

Local Existing Instance nic_h.
Local Existing Instance msp432e4_mac_h.
Local Existing Instance lan8720_h.
Local Existing Instance msp432e4Drivers.

Lemma read_answer (reg v : Z) (rest : list Z) (i : NetInterface MacPhy) :
  answers (hw i) (phyAddr i) reg = v :: rest ->
  lan8720ReadPhyReg reg i =
    Some (u16 v, set_hw (afterRead (phyAddr i) reg rest (hw i)) i).
Proof.
  intros Hv. unfold lan8720ReadPhyReg.
  assert (Hread : forall op, op = SMI_OPCODE_READ ->
            answeredRead op (phyAddr i) reg (hw i) =
            (v, afterRead (phyAddr i) reg rest (hw i))).
  { intros op ->. unfold answeredRead. rewrite decide_True by done. by rewrite Hv. }
  destruct (smiDriver i); cbn [smi_readPhyReg nic_readPhyReg msp432e4Drivers];
    by rewrite Hread.
Qed.

Lemma afterRead_other (phy reg reg' : Z) (rest : list Z) (d : MacPhy) :
  reg' ≠ reg -> answers (afterRead phy reg rest d) phy reg' = answers d phy reg'.
Proof. intros Hne. cbn. rewrite decide_False; [done|]. by intros [_ ?]. Qed.

Lemma afterRead_same (phy reg : Z) (rest : list Z) (d : MacPhy) :
  answers (afterRead phy reg rest d) phy reg = rest.
Proof. cbn. by rewrite decide_True. Qed.

(** The bits of the MAC configuration after the update. *)
Lemma macConfig_bits (speed duplex cfg : Z) :
  0 <= cfg < 2 ^ 32 ->
  let cfg' := (msp432e4EthUpdateMacConfig speed duplex cfg).2 in
  Z.testbit cfg' 14 = bool_decide (speed = NIC_LINK_SPEED_100MBPS) /\
  Z.testbit cfg' 11 = bool_decide (duplex = NIC_FULL_DUPLEX_MODE) /\
  (forall n, n ≠ 14 -> n ≠ 11 -> Z.testbit cfg' n = Z.testbit cfg n).
Proof.
  intros Hcfg cfg'. subst cfg'. unfold msp432e4EthUpdateMacConfig. cbn [snd].
  assert (Hhi : forall n, 32 <= n -> Z.testbit cfg n = false).
  { intros n Hn. destruct (decide (cfg = 0)) as [->|Hne]; [apply Z.bits_0|].
    apply Z.bits_above_log2; [lia|].
    assert (Z.log2 cfg < 32) by (apply Z.log2_lt_pow2; lia). lia. }
  unfold u32, not32.
  change EMAC_CFG_FES with (2 ^ 14). change EMAC_CFG_DUPM with (2 ^ 11).
  change 0xFFFFFFFF with (Z.ones 32).
  assert (Hbit : forall n (f d : bool), 0 <= n ->
            Z.testbit
              (if d then
                 Z.lor (if f then Z.lor cfg (2 ^ 14) mod 2 ^ 32
                        else Z.land cfg (Z.lxor (2 ^ 14) (Z.ones 32))) (2 ^ 11) mod 2 ^ 32
               else
                 Z.land (if f then Z.lor cfg (2 ^ 14) mod 2 ^ 32
                         else Z.land cfg (Z.lxor (2 ^ 14) (Z.ones 32)))
                   (Z.lxor (2 ^ 11) (Z.ones 32))) n =
            if n =? 14 then f else if n =? 11 then d else Z.testbit cfg n).
  { intros n [] [] Hn;
      rewrite <- ?Z.land_ones by lia;
      Z.bitblast_core;
      repeat match goal with
             | |- context [Z.eqb ?a ?b] => destruct (Z.eqb_spec a b); try lia
             end;
      cbn; rewrite ?orb_false_r, ?andb_true_r, ?andb_false_r, ?orb_true_r;
      try reflexivity; try (by rewrite Hhi by lia). }
  set (fes := bool_decide (speed = NIC_LINK_SPEED_100MBPS)).
  set (dupm := bool_decide (duplex = NIC_FULL_DUPLEX_MODE)).
  assert (Heq : (let config :=
                   if decide (speed = NIC_LINK_SPEED_100MBPS)
                   then Z.lor cfg (2 ^ 14) mod 2 ^ 32
                   else Z.land cfg (Z.lxor (2 ^ 14) (Z.ones 32)) in
                 if decide (duplex = NIC_FULL_DUPLEX_MODE)
                 then Z.lor config (2 ^ 11) mod 2 ^ 32
                 else Z.land config (Z.lxor (2 ^ 11) (Z.ones 32))) =
                (if dupm then
                   Z.lor (if fes then Z.lor cfg (2 ^ 14) mod 2 ^ 32
                          else Z.land cfg (Z.lxor (2 ^ 14) (Z.ones 32))) (2 ^ 11) mod 2 ^ 32
                 else
                   Z.land (if fes then Z.lor cfg (2 ^ 14) mod 2 ^ 32
                           else Z.land cfg (Z.lxor (2 ^ 14) (Z.ones 32)))
                     (Z.lxor (2 ^ 11) (Z.ones 32)))).
  { subst fes dupm. cbv zeta. by repeat case_decide; repeat case_bool_decide. }
  cbv zeta in Heq. cbv zeta. rewrite Heq.
  split; [|split].
  - by rewrite (Hbit 14 fes dupm) by lia.
  - by rewrite (Hbit 11 fes dupm) by lia.
  - intros n Hn1 Hn2. destruct (decide (0 <= n)) as [Hpos|Hneg].
    + rewrite (Hbit n fes dupm) by lia.
      destruct (Z.eqb_spec n 14); [lia|]. by destruct (Z.eqb_spec n 11); [lia|].
    + by rewrite !(Z.testbit_neg_r _ n) by lia.
Qed.

(** The run of the handler on a flagged interrupt, with the operation mode
    as the handler reads it. *)
Lemma lan8720EventHandler_run (i : NetInterface MacPhy)
    (isr stale bmsr pscsr : Z) (r1 r2 r3 : list Z) :
  answers (hw i) (phyAddr i) LAN8720_ISR = isr :: r1 ->
  answers (hw i) (phyAddr i) LAN8720_BMSR = stale :: bmsr :: r2 ->
  answers (hw i) (phyAddr i) LAN8720_PSCSR = pscsr :: r3 ->
  Z.land (u16 isr) (Z.lor LAN8720_IMR_AN_COMPLETE LAN8720_IMR_LINK_DOWN) ≠ 0 ->
  0 <= CFG (hw i) < 2 ^ 32 ->
  exists i',
    lan8720EventHandler i = Some (tt, i') /\
    linkState i' = bool_decide (Z.land (u16 bmsr) LAN8720_BMSR_LINK_STATUS ≠ 0) /\
    linkChanges i' = S (linkChanges i) /\
    (if linkState i' then
       (linkSpeed i', duplexMode i') =
         default (linkSpeed i, duplexMode i) (operationMode (u16 pscsr)) /\
       Z.testbit (CFG (hw i')) 14 =
         bool_decide (linkSpeed i' = NIC_LINK_SPEED_100MBPS) /\
       Z.testbit (CFG (hw i')) 11 =
         bool_decide (duplexMode i' = NIC_FULL_DUPLEX_MODE) /\
       (forall n, n ≠ 14 -> n ≠ 11 ->
          Z.testbit (CFG (hw i')) n = Z.testbit (CFG (hw i)) n)
     else
       linkSpeed i' = linkSpeed i /\ duplexMode i' = duplexMode i /\
       CFG (hw i') = CFG (hw i)).
Proof.
  intros Hisr Hbmsr Hpscsr Hflag Hcfg. unfold lan8720EventHandler.
  erewrite bind_run by (by apply read_answer).
  rewrite decide_True by done.
  erewrite bind_run.
  2:{ apply read_answer. cbn [hw set_hw phyAddr].
      rewrite afterRead_other by done. exact Hbmsr. }
  erewrite bind_run.
  2:{ apply read_answer. cbn [hw set_hw phyAddr]. apply afterRead_same. }
  destruct (decide (Z.land (u16 bmsr) LAN8720_BMSR_LINK_STATUS ≠ 0)) as [Hup|Hdown].
  - erewrite bind_run.
    2:{ erewrite bind_run.
        2:{ apply read_answer. cbn [hw set_hw phyAddr].
            rewrite !afterRead_other by done. exact Hpscsr. }
        reflexivity. }
    eexists. split; [reflexivity|].
    cbn [linkState linkChanges nicNotifyLinkChange set_hw set_linkState hw
         linkSpeed duplexMode].
    rewrite bool_decide_eq_true_2 by done.
    split; [done|].
    destruct (operationMode (u16 pscsr)) as [[speed duplex]|] eqn:Hmode;
      cbn [linkState linkChanges set_link set_hw hw linkSpeed duplexMode default
           nic_updateMacConfig msp432e4Drivers CFG afterRead phyAddr];
      (split; [done|]); (split; [done|]); by apply macConfig_bits.
  - eexists. split; [reflexivity|].
    cbn [linkState linkChanges nicNotifyLinkChange set_hw set_linkState hw
         linkSpeed duplexMode].
    rewrite bool_decide_eq_false_2 by done. by repeat split.
Qed.

(** The operation modes of the transceiver, one by one. *)
Lemma operationMode_cases (value : Z) :
  let mode := Z.land value 0x001C in
  (mode = 0x0004 -> operationMode value = Some (10000000, 1)) /\
  (mode = 0x0014 -> operationMode value = Some (10000000, 2)) /\
  (mode = 0x0008 -> operationMode value = Some (100000000, 1)) /\
  (mode = 0x0018 -> operationMode value = Some (100000000, 2)) /\
  (mode ≠ 0x0004 -> mode ≠ 0x0014 -> mode ≠ 0x0008 -> mode ≠ 0x0018 ->
     operationMode value = None).
Proof.
  intros mode. unfold operationMode.
  change (Z.land value LAN8720_PSCSR_HCDSPEED) with mode.
  change LAN8720_PSCSR_HCDSPEED_10BT_HD with 0x0004.
  change LAN8720_PSCSR_HCDSPEED_10BT_FD with 0x0014.
  change LAN8720_PSCSR_HCDSPEED_100BTX_HD with 0x0008.
  change LAN8720_PSCSR_HCDSPEED_100BTX_FD with 0x0018.
  repeat split; intros; repeat case_decide; try done; lia.
Qed.

(** X7. A link change reported by the LAN8720 reaches the MAC.  When the
    interrupt status flags the end of auto-negotiation or a link failure,
    [lan8720EventHandler] takes the link state from the second read of the
    status register, the first giving a latched value, and notifies the
    stack once.  With the link up, the HCDSPEED field of the special
    control/status register gives the speed and the duplex mode:
    10BASE-T half duplex gives 10 Mbit/s and half duplex, 10BASE-T full
    duplex 10 Mbit/s and full duplex, 100BASE-TX half duplex 100 Mbit/s
    and half duplex, 100BASE-TX full duplex 100 Mbit/s and full duplex,
    and any other value leaves both as they were; then
    [msp432e4EthUpdateMacConfig] sets bit 14 of the MAC configuration for
    100 Mbit/s and bit 11 for full duplex, clears them otherwise and keeps
    every other bit.  With the link down, speed, duplex mode and MAC
    configuration stay. *)
Theorem link_change_configures_mac (i : NetInterface MacPhy)
    (isr stale bmsr pscsr : Z) (r1 r2 r3 : list Z) :
  answers (hw i) (phyAddr i) LAN8720_ISR = isr :: r1 ->
  answers (hw i) (phyAddr i) LAN8720_BMSR = stale :: bmsr :: r2 ->
  answers (hw i) (phyAddr i) LAN8720_PSCSR = pscsr :: r3 ->
  Z.land (u16 isr) (Z.lor LAN8720_IMR_AN_COMPLETE LAN8720_IMR_LINK_DOWN) ≠ 0 ->
  0 <= CFG (hw i) < 2 ^ 32 ->
  let mode := Z.land (u16 pscsr) LAN8720_PSCSR_HCDSPEED in
  exists i',
    lan8720EventHandler i = Some (tt, i') /\
    linkState i' = bool_decide (Z.land (u16 bmsr) LAN8720_BMSR_LINK_STATUS ≠ 0) /\
    linkChanges i' = S (linkChanges i) /\
    (if linkState i' then
       (mode = LAN8720_PSCSR_HCDSPEED_10BT_HD ->
          linkSpeed i' = NIC_LINK_SPEED_10MBPS /\
          duplexMode i' = NIC_HALF_DUPLEX_MODE) /\
       (mode = LAN8720_PSCSR_HCDSPEED_10BT_FD ->
          linkSpeed i' = NIC_LINK_SPEED_10MBPS /\
          duplexMode i' = NIC_FULL_DUPLEX_MODE) /\
       (mode = LAN8720_PSCSR_HCDSPEED_100BTX_HD ->
          linkSpeed i' = NIC_LINK_SPEED_100MBPS /\
          duplexMode i' = NIC_HALF_DUPLEX_MODE) /\
       (mode = LAN8720_PSCSR_HCDSPEED_100BTX_FD ->
          linkSpeed i' = NIC_LINK_SPEED_100MBPS /\
          duplexMode i' = NIC_FULL_DUPLEX_MODE) /\
       (mode ≠ LAN8720_PSCSR_HCDSPEED_10BT_HD ->
        mode ≠ LAN8720_PSCSR_HCDSPEED_10BT_FD ->
        mode ≠ LAN8720_PSCSR_HCDSPEED_100BTX_HD ->
        mode ≠ LAN8720_PSCSR_HCDSPEED_100BTX_FD ->
          linkSpeed i' = linkSpeed i /\ duplexMode i' = duplexMode i) /\
       Z.testbit (CFG (hw i')) 14 =
         bool_decide (linkSpeed i' = NIC_LINK_SPEED_100MBPS) /\
       Z.testbit (CFG (hw i')) 11 =
         bool_decide (duplexMode i' = NIC_FULL_DUPLEX_MODE) /\
       (forall n, n ≠ 14 -> n ≠ 11 ->
          Z.testbit (CFG (hw i')) n = Z.testbit (CFG (hw i)) n)
     else
       linkSpeed i' = linkSpeed i /\ duplexMode i' = duplexMode i /\
       CFG (hw i') = CFG (hw i)).
Proof.
  intros Hisr Hbmsr Hpscsr Hflag Hcfg mode.
  destruct (lan8720EventHandler_run i isr stale bmsr pscsr r1 r2 r3
              Hisr Hbmsr Hpscsr Hflag Hcfg) as (i' & Hrun & Hstate & Hnotify & Hlink).
  exists i'. split; [exact Hrun|]. split; [exact Hstate|]. split; [exact Hnotify|].
  destruct (linkState i'); [|exact Hlink].
  destruct Hlink as (Hmode & Hfes & Hdupm & Hrest).
  destruct (operationMode_cases (u16 pscsr)) as (H1 & H2 & H3 & H4 & H5).
  assert (Hset : forall speed duplex,
            operationMode (u16 pscsr) = Some (speed, duplex) ->
            linkSpeed i' = speed /\ duplexMode i' = duplex).
  { intros speed duplex Hm. rewrite Hm in Hmode. by injection Hmode. }
  split; [intros Hm; by apply Hset, H1|].
  split; [intros Hm; by apply Hset, H2|].
  split; [intros Hm; by apply Hset, H3|].
  split; [intros Hm; by apply Hset, H4|].
  split; [|done].
  intros Hm1 Hm2 Hm3 Hm4. rewrite H5 in Hmode by done. by injection Hmode.
Qed.

(** X8. [lan8720Tick] only raises the event.  Without an interrupt line it
    reads the status register once and sets the transceiver event and the
    event of the stack when the link bit differs from the link state of
    the interface, and never clears them; with an interrupt line it does
    nothing.  In no case does it change the link state, the speed, the
    duplex mode or the MAC configuration, or notify a link change. *)
Theorem tick_raises_phy_event (i : NetInterface MacPhy) (bmsr : Z) (r : list Z) :
  answers (hw i) (phyAddr i) LAN8720_BMSR = bmsr :: r ->
  let up := bool_decide (Z.land (u16 bmsr) LAN8720_BMSR_LINK_STATUS ≠ 0) in
  exists i',
    lan8720Tick i = Some (tt, i') /\
    linkState i' = linkState i /\ linkSpeed i' = linkSpeed i /\
    duplexMode i' = duplexMode i /\ linkChanges i' = linkChanges i /\
    CFG (hw i') = CFG (hw i) /\
    (if extIntDriver i then i' = i
     else phyEvent i' = phyEvent i || xorb up (linkState i) /\
          netEvent i' = netEvent i || xorb up (linkState i) /\
          answers (hw i') (phyAddr i) LAN8720_BMSR = r).
Proof.
  intros Hbmsr up. unfold lan8720Tick.
  destruct (extIntDriver i) eqn:Hext.
  - exists i. by repeat split.
  - erewrite bind_run by (by apply read_answer). fold up.
    unfold modify. cbn [linkState set_hw].
    destruct up, (linkState i) eqn:Hls; cbn [andb negb xorb];
      eexists; (split; [reflexivity|]);
      cbn [linkState linkSpeed duplexMode linkChanges hw set_hw raisePhyEvent
           phyEvent netEvent CFG afterRead answers];
      rewrite ?orb_true_r, ?orb_false_r, ?decide_True by done;
      by repeat split.
Qed.

End Proofs.

Section Witnesses.

Local Existing Instance nic_h.
Local Existing Instance msp432e4_mac_h.
Local Existing Instance lan8720_h.
Local Existing Instance msp432e4Drivers.

Ltac link_witness H :=
  destruct H as (i' & Hrun & Hstate & _ & Hup);
  [reflexivity | reflexivity | reflexivity | by vm_compute | by vm_compute |];
  cbv zeta in Hup;
  replace (linkState i') with true in Hup by (by rewrite Hstate);
  destruct Hup as (H1 & H2 & H3 & H4 & _ & Hfes & Hdupm & _);
  first [ pose proof (H1 eq_refl) | pose proof (H2 eq_refl)
        | pose proof (H3 eq_refl) | pose proof (H4 eq_refl) ];
  match goal with
  | Hmode : linkSpeed _ = _ /\ duplexMode _ = _ |- _ =>
      destruct Hmode as [Hspeed Hduplex];
      exists i'; split; [exact Hrun|];
      split; [by rewrite Hstate|]; split; [exact Hspeed|]; split; [exact Hduplex|];
      by rewrite Hfes, Hdupm, Hspeed, Hduplex
  end.

(** The four operation modes, each from an interface with unknown speed
    and duplex mode: the register values 0x1044, 0x1054, 0x1048 and 0x1058
    hold the modes 10BASE-T half and full duplex and 100BASE-TX half and
    full duplex. *)
Lemma link_change_configures_mac_witness :
  (exists i',
     lan8720EventHandler (linkDownInterface 0x1044 0x0000C800) = Some (tt, i') /\
     linkState i' = true /\ linkSpeed i' = 10000000 /\ duplexMode i' = 1 /\
     Z.testbit (CFG (hw i')) 14 = false /\ Z.testbit (CFG (hw i')) 11 = false) /\
  (exists i',
     lan8720EventHandler (linkDownInterface 0x1054 0x00008000) = Some (tt, i') /\
     linkState i' = true /\ linkSpeed i' = 10000000 /\ duplexMode i' = 2 /\
     Z.testbit (CFG (hw i')) 14 = false /\ Z.testbit (CFG (hw i')) 11 = true) /\
  (exists i',
     lan8720EventHandler (linkDownInterface 0x1048 0x00008000) = Some (tt, i') /\
     linkState i' = true /\ linkSpeed i' = 100000000 /\ duplexMode i' = 1 /\
     Z.testbit (CFG (hw i')) 14 = true /\ Z.testbit (CFG (hw i')) 11 = false) /\
  (exists i',
     lan8720EventHandler (linkDownInterface 0x1058 0x00008000) = Some (tt, i') /\
     linkState i' = true /\ linkSpeed i' = 100000000 /\ duplexMode i' = 2 /\
     Z.testbit (CFG (hw i')) 14 = true /\ Z.testbit (CFG (hw i')) 11 = true).
Proof.
  split; [|split; [|split]].
  - link_witness
      (link_change_configures_mac (linkDownInterface 0x1044 0x0000C800)
         0x0040 0x7809 0x782D 0x1044 [] [] []).
  - link_witness
      (link_change_configures_mac (linkDownInterface 0x1054 0x00008000)
         0x0040 0x7809 0x782D 0x1054 [] [] []).
  - link_witness
      (link_change_configures_mac (linkDownInterface 0x1048 0x00008000)
         0x0040 0x7809 0x782D 0x1048 [] [] []).
  - link_witness
      (link_change_configures_mac (linkDownInterface 0x1058 0x00008000)
         0x0040 0x7809 0x782D 0x1058 [] [] []).
Defined.

Lemma tick_raises_phy_event_witness :
  exists i',
    lan8720Tick
      (mkNetInterface (mkMacPhy linkUpAnswers 0) 0 false false true 0 0 false false 0) =
      Some (tt, i') /\
    phyEvent i' = true /\ linkState i' = true.
Proof.
  destruct (tick_raises_phy_event
              (mkNetInterface (mkMacPhy linkUpAnswers 0) 0 false false true 0 0
                 false false 0) 0x7809 [0x782D])
    as (i' & Hrun & Hstate & _ & _ & _ & _ & Hev & _).
  - reflexivity.
  - exists i'. split; [exact Hrun|]. split; [exact Hev | exact Hstate].
Defined.

End Witnesses.

End Lan8720Proofs.

Module W5100sRxProofs.
Import W5100s W5100sRx.

Section Proofs.

Local Existing Instance w5100s_h.
Local Existing Instance w5100s_rx_h.
Local Existing Instance memSpi.

(** The two address bytes of a frame give the address back. *)
Lemma address_bytes (a : Z) :
  0 <= a < 2 ^ 16 -> Z.lor (Z.shiftl (MSB a) 8) (LSB a) = a.
Proof.
  intros Ha. unfold MSB, LSB.
  change 0xFF with (Z.ones 8).
  assert (Hhi : forall i, 16 <= i -> Z.testbit a i = false).
  { intros i Hi. destruct (decide (a = 0)) as [->|Hne]; [apply Z.bits_0|].
    apply Z.bits_above_log2; [lia|].
    assert (Z.log2 a < 16) by (apply Z.log2_lt_pow2; lia). lia. }
  Z.bitblast. rewrite Hhi by lia. done.
Qed.

(** The bus with the chip in some phase. *)
Lemma transfer_chip (b : Z) (mem : Z -> Z) (ph : ChipPhase) (ev : bool) :
  spiTransfer b (mkNetInterface (mkMemChip mem ph) ev) =
    Some (u8 (mc_transfer b (mkMemChip mem ph)).1,
          mkNetInterface (mc_transfer b (mkMemChip mem ph)).2 ev).
Proof.
  unfold spiTransfer. cbn [chip nicTxEvent transfer memSpi].
  by destruct (mc_transfer b (mkMemChip mem ph)).
Qed.

(** The first three bytes of a frame. *)
Lemma frame_start {A : Type} (op a : Z) (k : St (NetInterface MemChip) A)
    (mem : Z -> Z) (ev : bool) :
  0 <= a < 2 ^ 16 ->
  (spiAssertCs ;; spiTransfer op ;; spiTransfer (MSB a) ;; spiTransfer (LSB a) ;; k)
    (onChip mem ev) =
  k (mkNetInterface (mkMemChip mem (DataPhase op a)) ev).
Proof.
  intros Ha. unfold onChip.
  erewrite bind_run by reflexivity.
  cbn [chip nicTxEvent assertCs memSpi mc_mem].
  erewrite bind_run by apply transfer_chip. cbn [mc_transfer mc_phase mc_mem fst snd].
  erewrite bind_run by apply transfer_chip. cbn [mc_transfer mc_phase mc_mem fst snd].
  erewrite bind_run by apply transfer_chip. cbn [mc_transfer mc_phase mc_mem fst snd].
  by rewrite address_bytes.
Qed.

Lemma writeReg8_chip (a v : Z) (mem : Z -> Z) (ev : bool) :
  0 <= a < 2 ^ 16 ->
  w5100sWriteReg8 a v (onChip mem ev) = Some (tt, onChip (store a v mem) ev).
Proof.
  intros Ha. unfold w5100sWriteReg8. rewrite frame_start by done.
  erewrite bind_run by apply transfer_chip. cbn [mc_transfer mc_phase mc_mem fst snd].
  rewrite decide_True by done. reflexivity.
Qed.

Lemma readReg8_chip (a : Z) (mem : Z -> Z) (ev : bool) :
  0 <= a < 2 ^ 16 ->
  w5100sReadReg8 a (onChip mem ev) = Some (u8 (mem a), onChip mem ev).
Proof.
  intros Ha. unfold w5100sReadReg8. rewrite frame_start by done.
  erewrite bind_run by apply transfer_chip. cbn [mc_transfer mc_phase mc_mem fst snd].
  rewrite decide_False by done. rewrite decide_True by done. reflexivity.
Qed.

Lemma writeReg16_chip (a v : Z) (mem : Z -> Z) (ev : bool) :
  0 <= a < 2 ^ 16 ->
  w5100sWriteReg16 a v (onChip mem ev) =
    Some (tt, onChip (store (u16 (a + 1)) (LSB v) (store a (MSB v) mem)) ev).
Proof.
  intros Ha. unfold w5100sWriteReg16. rewrite frame_start by done.
  erewrite bind_run by apply transfer_chip. cbn [mc_transfer mc_phase mc_mem fst snd].
  rewrite decide_True by done. cbn [fst snd].
  erewrite bind_run by apply transfer_chip. cbn [mc_transfer mc_phase mc_mem fst snd].
  rewrite decide_True by done. reflexivity.
Qed.

Lemma readReg16_chip (a : Z) (mem : Z -> Z) (ev : bool) :
  0 <= a < 2 ^ 16 ->
  w5100sReadReg16 a (onChip mem ev) =
    Some (Z.lor (u16 (Z.shiftl (u8 (mem a)) 8)) (u8 (mem (u16 (a + 1)))),
          onChip mem ev).
Proof.
  intros Ha. unfold w5100sReadReg16. rewrite frame_start by done.
  erewrite bind_run by apply transfer_chip. cbn [mc_transfer mc_phase mc_mem fst snd].
  rewrite decide_False by done. rewrite decide_True by done. cbn [fst snd].
  erewrite bind_run by apply transfer_chip. cbn [mc_transfer mc_phase mc_mem fst snd].
  rewrite decide_False by done. rewrite decide_True by done. reflexivity.
Qed.

Lemma transferAll_chip (bs : list Z) : forall (a : Z) (mem : Z -> Z) (ev : bool),
  transferAll bs (mkNetInterface (mkMemChip mem (DataPhase 0xF0 a)) ev) =
    Some (tt, mkNetInterface
                (mkMemChip (storeBytes a bs mem)
                   (DataPhase 0xF0 (foldl (fun x _ => u16 (x + 1)) a bs))) ev).
Proof.
  induction bs as [|b bs IH]; intros a mem ev; [done|].
  cbn [transferAll storeBytes foldl].
  erewrite bind_run by apply transfer_chip. cbn [mc_transfer mc_phase mc_mem fst snd].
  rewrite decide_True by done. cbn [fst snd]. apply IH.
Qed.

Lemma writeBuffer_chip (a : Z) (data : list Z) (len : Z) (mem : Z -> Z) (ev : bool) :
  0 <= a < 2 ^ 16 ->
  w5100sWriteBuffer a data len (onChip mem ev) =
    Some (tt, onChip (storeBytes a (take (Z.to_nat len) data) mem) ev).
Proof.
  intros Ha. unfold w5100sWriteBuffer. rewrite frame_start by done.
  erewrite bind_run by apply transferAll_chip. reflexivity.
Qed.

Lemma readLoop_chip (n : nat) : forall (i : nat) (data : list Z) (a : Z)
    (mem : Z -> Z) (ev : bool),
  (i + n <= length data)%nat ->
  readLoop n i data (mkNetInterface (mkMemChip mem (DataPhase 0x0F a)) ev) =
    Some (take i data ++ loadBytes a n mem ++ drop (i + n) data,
          mkNetInterface
            (mkMemChip mem (DataPhase 0x0F (Nat.iter n (fun x => u16 (x + 1)) a))) ev).
Proof.
  induction n as [|n IH]; intros i data a mem ev Hn.
  - cbn [readLoop loadBytes Nat.iter]. rewrite Nat.add_0_r.
    by rewrite app_nil_l, take_drop.
  - cbn [readLoop loadBytes].
    erewrite bind_run by apply transfer_chip. cbn [mc_transfer mc_phase mc_mem fst snd].
    rewrite (decide_False (P := 0x0F = 0xF0)) by done.
    rewrite (decide_True (P := 0x0F = 0x0F)) by done. cbn [fst snd].
    rewrite decide_True by lia. rewrite IH by (rewrite length_insert; lia).
    rewrite Nat.iter_succ_r.
    rewrite (take_S_r _ _ (u8 (mem a))) by (apply list_lookup_insert_eq; lia).
    rewrite take_insert_ge by lia. rewrite drop_insert_lt by lia.
    replace (S i + n)%nat with (i + S n)%nat by lia.
    by rewrite <- app_assoc.
Qed.

Lemma readBuffer_chip (a : Z) (data : list Z) (start : nat) (len : Z)
    (mem : Z -> Z) (ev : bool) :
  0 <= a < 2 ^ 16 ->
  (start + Z.to_nat len <= length data)%nat ->
  w5100sReadBuffer a data start len (onChip mem ev) =
    Some (take start data ++ loadBytes a (Z.to_nat len) mem ++
            drop (start + Z.to_nat len) data,
          onChip mem ev).
Proof.
  intros Ha Hlen. unfold w5100sReadBuffer. rewrite frame_start by done.
  erewrite bind_run by (by apply readLoop_chip). reflexivity.
Qed.

(** *** The memory after a burst *)

Lemma store_eq (a v : Z) (mem : Z -> Z) : store a v mem a = u8 v.
Proof. unfold store. by rewrite decide_True. Qed.

Lemma store_ne (a v : Z) (mem : Z -> Z) (x : Z) :
  x ≠ a -> store a v mem x = mem x.
Proof. intros Hx. unfold store. by rewrite decide_False. Qed.

Lemma storeBytes_out (bs : list Z) : forall (a : Z) (mem : Z -> Z) (x : Z),
  0 <= a -> a + Z.of_nat (length bs) <= 2 ^ 16 ->
  ~ (a <= x < a + Z.of_nat (length bs)) ->
  storeBytes a bs mem x = mem x.
Proof.
  induction bs as [|b bs IH]; intros a mem x Ha Hfit Hx; [done|].
  cbn [storeBytes length] in *.
  destruct (decide (length bs = 0%nat)) as [Hnil|Hne].
  - destruct bs; [|done]. cbn [storeBytes]. unfold store.
    rewrite decide_False by lia. done.
  - assert (Hu : u16 (a + 1) = a + 1) by (unfold u16; apply Z.mod_small; lia).
    rewrite Hu, IH by lia. unfold store. by rewrite decide_False by lia.
Qed.

Lemma storeBytes_in (bs : list Z) : forall (a : Z) (mem : Z -> Z) (i : nat) (b : Z),
  0 <= a -> a + Z.of_nat (length bs) <= 2 ^ 16 ->
  bs !! i = Some b ->
  storeBytes a bs mem (a + Z.of_nat i) = u8 b.
Proof.
  induction bs as [|b0 bs IH]; intros a mem i b Ha Hfit Hb; [done|].
  cbn [storeBytes length] in *.
  destruct i as [|i].
  - injection Hb as ->.
    destruct (decide (length bs = 0%nat)) as [Hnil|Hne].
    + destruct bs; [|done]. cbn [storeBytes]. unfold store.
      by rewrite decide_True by lia.
    + assert (Hu : u16 (a + 1) = a + 1) by (unfold u16; apply Z.mod_small; lia).
      rewrite Hu, storeBytes_out by lia. unfold store.
      by rewrite decide_True by lia.
  - cbn in Hb. pose proof (lookup_lt_Some _ _ _ Hb) as Hi.
    assert (Hu : u16 (a + 1) = a + 1) by (unfold u16; apply Z.mod_small; lia).
    rewrite Hu. replace (a + Z.of_nat (S i)) with (a + 1 + Z.of_nat i) by lia.
    apply IH; [lia | lia | done].
Qed.

Lemma length_loadBytes (n : nat) : forall (a : Z) (mem : Z -> Z),
  length (loadBytes a n mem) = n.
Proof. induction n as [|n IH]; intros a mem; [done|]. cbn. by rewrite IH. Qed.

Lemma loadBytes_lookup (n : nat) : forall (a : Z) (mem : Z -> Z) (i : nat),
  0 <= a -> a + Z.of_nat n <= 2 ^ 16 -> (i < n)%nat ->
  loadBytes a n mem !! i = Some (u8 (mem (a + Z.of_nat i))).
Proof.
  induction n as [|n IH]; intros a mem i Ha Hfit Hi; [lia|].
  cbn [loadBytes]. destruct i as [|i].
  - cbn. by rewrite Z.add_0_r.
  - cbn [lookup list_lookup].
    assert (Hu : u16 (a + 1) = a + 1) by (unfold u16; apply Z.mod_small; lia).
    change (loadBytes (u16 (a + 1)) n mem !! i = Some (u8 (mem (a + Z.of_nat (S i))))).
    rewrite Hu, IH by lia. do 3 f_equal. lia.
Qed.

(** *** The circular buffers *)

Lemma mod_wrap (size y : Z) :
  size <= y < 2 * size -> y mod size = y - size.
Proof. intros Hy. symmetry. apply (Z.mod_unique_pos y size 1); lia. Qed.

(** The offset of a pointer in a buffer of 1, 2, 4 or 8 kilobytes. *)
Lemma ring_offset (k p : Z) :
  0 <= k <= 3 -> 0 <= p ->
  Z.land p (u32 (2 ^ k * 1024 - 1)) = p mod (2 ^ k * 1024).
Proof.
  intros Hk Hp.
  assert (Hsize : 2 ^ k * 1024 = 2 ^ (k + 10)) by (rewrite Z.pow_add_r by lia; lia).
  assert (Hle : 2 ^ (k + 10) <= 2 ^ 13) by (apply Z.pow_le_mono_r; lia).
  assert (Hpos : 0 < 2 ^ (k + 10)) by (apply Z.pow_pos_nonneg; lia).
  rewrite Hsize. unfold u32. rewrite Z.mod_small by lia.
  replace (2 ^ (k + 10) - 1) with (Z.ones (k + 10))
    by (rewrite Z.ones_equiv; lia).
  apply Z.land_ones. lia.
Qed.

(** What [w5100sWriteData] leaves in the memory of the buffer. *)
Lemma ring_written (base size o : Z) (data : list Z) (mem : Z -> Z) :
  let n := Z.of_nat (length data) in
  let m1 :=
    if decide (u32 (o + n) < size) then
      storeBytes (u16 (base + o)) (take (Z.to_nat n) data) mem
    else
      storeBytes (u16 base)
        (take (Z.to_nat (u32 (o + n - size))) (drop (Z.to_nat (u32 (size - o))) data))
        (storeBytes (u16 (base + o)) (take (Z.to_nat (u32 (size - o))) data) mem) in
  0 <= base -> base + size <= 2 ^ 16 -> 0 <= o < size -> n <= size ->
  (forall i b, data !! i = Some b ->
     m1 (base + (o + Z.of_nat i) mod size) = u8 b) /\
  (forall x, (forall i, (i < length data)%nat ->
                x ≠ base + (o + Z.of_nat i) mod size) ->
     m1 x = mem x).
Proof.
  intros n m1 Hbase Hfit Ho Hn. subst m1.
  assert (Hu1 : u16 (base + o) = base + o) by (unfold u16; apply Z.mod_small; lia).
  assert (Hu0 : u16 base = base) by (unfold u16; apply Z.mod_small; lia).
  rewrite Hu1, Hu0.
  destruct (decide (u32 (o + n) < size)) as [Hlt|Hge].
  - assert (Hsum : o + n < size).
    { revert Hlt. unfold u32. rewrite Z.mod_small by lia. done. }
    rewrite take_ge by lia. split.
    + intros i b Hb. pose proof (lookup_lt_Some _ _ _ Hb) as Hi.
      rewrite Z.mod_small by lia. rewrite Z.add_assoc.
      apply storeBytes_in; [lia | lia | done].
    + intros x Hx. apply storeBytes_out; [lia | lia |].
      intros Hin. apply (Hx (Z.to_nat (x - base - o))); [lia|].
      rewrite Z.mod_small by lia. lia.
  - assert (Hsum : size <= o + n).
    { revert Hge. unfold u32. rewrite Z.mod_small by lia. lia. }
    assert (Hc1 : u32 (size - o) = size - o) by (unfold u32; apply Z.mod_small; lia).
    assert (Hc2 : u32 (o + n - size) = o + n - size)
      by (unfold u32; apply Z.mod_small; lia).
    rewrite Hc1, Hc2.
    set (d1 := take (Z.to_nat (size - o)) data).
    set (d2 := take (Z.to_nat (o + n - size)) (drop (Z.to_nat (size - o)) data)).
    assert (Hl1 : Z.of_nat (length d1) = size - o).
    { subst d1. rewrite length_take. lia. }
    assert (Hl2 : Z.of_nat (length d2) = o + n - size).
    { subst d2. rewrite length_take, length_drop. lia. }
    split.
    + intros i b Hb. pose proof (lookup_lt_Some _ _ _ Hb) as Hi.
      destruct (decide (Z.of_nat i < size - o)) as [Hfirst|Hsecond].
      * rewrite Z.mod_small by lia.
        rewrite storeBytes_out by lia.
        rewrite Z.add_assoc. apply storeBytes_in; [lia | lia |].
        subst d1. rewrite lookup_take_lt by lia. done.
      * rewrite mod_wrap by lia.
        replace (base + (o + Z.of_nat i - size))
          with (base + Z.of_nat (i - Z.to_nat (size - o))) by lia.
        apply storeBytes_in; [lia | lia |].
        subst d2. rewrite lookup_take_lt by lia. rewrite lookup_drop.
        by replace (Z.to_nat (size - o) + (i - Z.to_nat (size - o)))%nat with i by lia.
    + intros x Hx.
      rewrite storeBytes_out; [|lia|lia|].
      * apply storeBytes_out; [lia | lia |].
        intros Hin. apply (Hx (Z.to_nat (x - base - o))); [lia|].
        rewrite Z.mod_small by lia. lia.
      * intros Hin. apply (Hx (Z.to_nat (x - base + size - o))); [lia|].
        rewrite mod_wrap by lia. lia.
Qed.

Lemma high_bits_clear (v : Z) (i : Z) :
  0 <= v < 2 ^ 16 -> 16 <= i -> Z.testbit v i = false.
Proof.
  intros Hv Hi. destruct (decide (v = 0)) as [->|Hne]; [apply Z.bits_0|].
  apply Z.bits_above_log2; [lia|].
  assert (Z.log2 v < 16) by (apply Z.log2_lt_pow2; lia). lia.
Qed.

(** The two bytes of a 16-bit register give its value back. *)
Lemma reg16_stored (v : Z) :
  0 <= v < 2 ^ 16 ->
  Z.lor (u16 (Z.shiftl (u8 (u8 (MSB v))) 8)) (u8 (u8 (LSB v))) = v.
Proof.
  intros Hv. unfold u8, u16, MSB, LSB.
  rewrite <- !Z.land_ones by lia. change 0xFF with (Z.ones 8).
  pose proof (high_bits_clear v) as Hhi.
  Z.bitblast. rewrite Hhi by lia. done.
Qed.

Lemma writeData_chip (data : list Z) (len : Z) (mem : Z -> Z) (ev : bool) :
  let size := u8 (mem W5100S_S0_TXBUF_SIZE) * 1024 in
  let p := reg16 mem W5100S_S0_TX_WR0 in
  let offset := Z.land p (u32 (size - 1)) in
  let m1 :=
    if decide (u32 (offset + len) < size) then
      storeBytes (u16 (W5100S_TX_BUFFER + offset)) (take (Z.to_nat len) data) mem
    else
      storeBytes (u16 W5100S_TX_BUFFER)
        (take (Z.to_nat (u32 (offset + len - size)))
           (drop (Z.to_nat (u32 (size - offset))) data))
        (storeBytes (u16 (W5100S_TX_BUFFER + offset))
           (take (Z.to_nat (u32 (size - offset))) data) mem) in
  w5100sWriteData data len (onChip mem ev) =
    Some (tt, onChip
                (store W5100S_S0_CR W5100S_Sn_CR_SEND
                   (store (W5100S_S0_TX_WR0 + 1) (LSB (u16 (p + len)))
                      (store W5100S_S0_TX_WR0 (MSB (u16 (p + len))) m1))) ev).
Proof.
  intros size p offset m1. unfold w5100sWriteData.
  erewrite bind_run by (by apply readReg8_chip).
  erewrite bind_run by (by apply readReg16_chip).
  fold size. change (Z.lor _ _) with p. fold offset.
  assert (Hu : forall x, 0 <= u16 x < 2 ^ 16) by (intros x; apply Z.mod_pos_bound; lia).
  destruct (decide (u32 (offset + len) < size)) as [Hlt|Hge].
  - erewrite bind_run by (apply writeBuffer_chip, Hu).
    erewrite bind_run by (by apply writeReg16_chip).
    by rewrite writeReg8_chip.
  - erewrite bind_run.
    2:{ erewrite bind_run by (apply writeBuffer_chip, Hu). apply writeBuffer_chip, Hu. }
    erewrite bind_run by (by apply writeReg16_chip).
    by rewrite writeReg8_chip.
Qed.

Lemma reg16_range (mem : Z -> Z) (a : Z) : 0 <= reg16 mem a < 2 ^ 16.
Proof.
  unfold reg16, u16, u8.
  assert (H1 : 0 <= Z.shiftl (mem a mod 2 ^ 8) 8 mod 2 ^ 16 < 2 ^ 16)
    by (apply Z.mod_pos_bound; lia).
  assert (H2 : 0 <= mem (a + 1) mod 2 ^ 8 < 2 ^ 8) by (apply Z.mod_pos_bound; lia).
  split; [apply Z.lor_nonneg; lia|].
  destruct (decide (Z.lor (Z.shiftl (mem a mod 2 ^ 8) 8 mod 2 ^ 16)
                      (mem (a + 1) mod 2 ^ 8) = 0)) as [->|Hne]; [lia|].
  apply Z.log2_lt_pow2; [|].
  - assert (0 <= Z.lor (Z.shiftl (mem a mod 2 ^ 8) 8 mod 2 ^ 16)
                  (mem (a + 1) mod 2 ^ 8)) by (apply Z.lor_nonneg; lia). lia.
  - rewrite Z.log2_lor by lia.
    apply Z.max_lub_lt.
    + destruct (decide (Z.shiftl (mem a mod 2 ^ 8) 8 mod 2 ^ 16 = 0)) as [->|Hn1];
        [done|]. apply Z.log2_lt_pow2; lia.
    + destruct (decide (mem (a + 1) mod 2 ^ 8 = 0)) as [->|Hn2]; [done|].
      apply Z.log2_lt_pow2; lia.
Qed.

(** X10. A frame that the chip has room for lands in the circular transmit
    buffer.  [w5100sSendPacket] stores byte i of the frame at offset
    (write pointer + i) modulo the buffer size, wrapping at the end of the
    buffer, advances the write pointer by the length of the frame modulo
    2^16, issues the SEND command and touches no other byte of the chip;
    the transmit event is set when the free size read back is at least a
    full frame. *)
Theorem send_packet_fills_ring (buffer : list Z) (offset : Z) (mem : Z -> Z)
    (ev : bool) (k : Z) :
  let len := Z.of_nat (length buffer) - offset in
  let size := 2 ^ k * 1024 in
  let wr := reg16 mem W5100S_S0_TX_WR0 in
  let fsr := reg16 mem W5100S_S0_TX_FSR0 in
  0 <= k <= 3 -> u8 (mem W5100S_S0_TXBUF_SIZE) = 2 ^ k ->
  0 <= offset <= Z.of_nat (length buffer) ->
  len <= ETH_MAX_FRAME_SIZE -> len <= fsr -> len <= size ->
  exists mem',
    w5100sSendPacket buffer offset (onChip mem ev) =
      Some (NO_ERROR, onChip mem' (ev || bool_decide (fsr >= ETH_MAX_FRAME_SIZE))) /\
    (forall i b, drop (Z.to_nat offset) buffer !! i = Some b ->
       mem' (W5100S_TX_BUFFER + (wr + Z.of_nat i) mod size) = u8 b) /\
    reg16 mem' W5100S_S0_TX_WR0 = u16 (wr + len) /\
    mem' W5100S_S0_CR = W5100S_Sn_CR_SEND /\
    (forall x, x ≠ W5100S_S0_CR -> x ≠ W5100S_S0_TX_WR0 ->
       x ≠ W5100S_S0_TX_WR0 + 1 ->
       (forall i, (i < Z.to_nat len)%nat ->
          x ≠ W5100S_TX_BUFFER + (wr + Z.of_nat i) mod size) ->
       mem' x = mem x).
Proof.
  intros len size wr fsr Hk Hsz Hoff Hmax Hfree Hfit.
  assert (Hsize : 1024 <= size <= 8192).
  { subst size. assert (2 ^ 0 <= 2 ^ k <= 2 ^ 3)
      by (split; apply Z.pow_le_mono_r; lia). lia. }
  pose proof (reg16_range mem W5100S_S0_TX_WR0) as Hwr. fold wr in Hwr.
  set (temp := take (Z.to_nat len) (drop (Z.to_nat offset) buffer)).
  assert (Htemp : temp = drop (Z.to_nat offset) buffer).
  { subst temp. apply take_ge. rewrite length_drop. lia. }
  assert (Hlen : Z.of_nat (length temp) = len).
  { rewrite Htemp, length_drop. lia. }
  assert (Hu : u32 len = len) by (unfold u32; apply Z.mod_small; cbn in Hmax; lia).
  pose proof (writeData_chip temp len mem ev) as Hwrite.
  cbv zeta in Hwrite. rewrite Hsz in Hwrite.
  rewrite ring_offset in Hwrite by (first [lia | apply reg16_range]).
  fold size wr in Hwrite.
  pose proof (ring_written W5100S_TX_BUFFER size (wr mod size) temp mem) as Hring.
  cbv zeta in Hring. rewrite Hlen in Hring.
  destruct Hring as [Hin Hout]; [done | cbn; lia | apply Z.mod_pos_bound; lia | lia |].
  match type of Hwrite with
  | _ = Some (tt, onChip (store _ _ (store _ _ (store _ _ ?m))) _) => set (m1 := m) in *
  end.
  set (m' := store W5100S_S0_CR W5100S_Sn_CR_SEND
               (store (W5100S_S0_TX_WR0 + 1) (LSB (u16 (wr + len)))
                  (store W5100S_S0_TX_WR0 (MSB (u16 (wr + len))) m1))) in *.
  assert (Hother : forall x, x ≠ W5100S_S0_CR -> x ≠ W5100S_S0_TX_WR0 ->
            x ≠ W5100S_S0_TX_WR0 + 1 -> m' x = m1 x).
  { intros x H1 H2 H3. subst m'. by rewrite !store_ne by done. }
  assert (Hpos : forall i, W5100S_TX_BUFFER <=
                   W5100S_TX_BUFFER + (wr mod size + Z.of_nat i) mod size).
  { intros i. assert (0 <= (wr mod size + Z.of_nat i) mod size < size)
      by (apply Z.mod_pos_bound; lia). lia. }
  assert (Hfsr : reg16 m' W5100S_S0_TX_FSR0 = fsr).
  { unfold fsr, reg16. rewrite !Hother by done.
    rewrite !Hout; [done| |].
    - intros i _. specialize (Hpos i). cbn in *. lia.
    - intros i _. specialize (Hpos i). cbn in *. lia. }
  exists m'. split; [|split; [|split; [|split]]].
  - unfold w5100sSendPacket. rewrite decide_False by (fold len; lia).
    erewrite bind_run by (by apply readReg16_chip).
    change (Z.lor _ _) with fsr.
    rewrite decide_False by (fold len; lia).
    fold len. rewrite Hu. fold temp.
    erewrite bind_run by exact Hwrite.
    erewrite bind_run by (by apply readReg16_chip).
    change (Z.lor _ _) with (reg16 m' W5100S_S0_TX_FSR0). rewrite Hfsr.
    destruct (decide (fsr >= ETH_MAX_FRAME_SIZE)) as [Hfull|Hpart].
    + rewrite bool_decide_eq_true_2 by done. by rewrite orb_true_r.
    + rewrite bool_decide_eq_false_2 by done. by rewrite orb_false_r.
  - intros i b Hb. rewrite <- Htemp in Hb.
    rewrite Hother.
    + rewrite <- Z.add_mod_idemp_l by lia. by apply Hin.
    + specialize (Hpos i). rewrite Z.add_mod_idemp_l in Hpos by lia. cbn in *. lia.
    + specialize (Hpos i). rewrite Z.add_mod_idemp_l in Hpos by lia. cbn in *. lia.
    + specialize (Hpos i). rewrite Z.add_mod_idemp_l in Hpos by lia. cbn in *. lia.
  - unfold reg16. subst m'.
    rewrite (store_ne W5100S_S0_CR) by done.
    rewrite (store_ne (W5100S_S0_TX_WR0 + 1)) by done. rewrite store_eq.
    rewrite (store_ne W5100S_S0_CR) by done. rewrite store_eq.
    apply reg16_stored. apply Z.mod_pos_bound. lia.
  - subst m'. by rewrite store_eq.
  - intros x H1 H2 H3 Hx. rewrite Hother by done. apply Hout.
    intros i Hi. rewrite Z.add_mod_idemp_l by lia. apply Hx. lia.
Qed.

Lemma length_ringBytes (base size p : Z) (n : nat) (mem : Z -> Z) :
  length (ringBytes base size p n mem) = n.
Proof. unfold ringBytes. by rewrite length_fmap, length_seq. Qed.

Lemma ringBytes_lookup (base size p : Z) (n i : nat) (mem : Z -> Z) :
  (i < n)%nat ->
  ringBytes base size p n mem !! i =
    Some (u8 (mem (base + (p + Z.of_nat i) mod size))).
Proof.
  intros Hi. unfold ringBytes. rewrite list_lookup_fmap.
  by rewrite lookup_seq_lt by done.
Qed.

(** What [w5100sReadData] fetches from the memory of the buffer. *)
Lemma ring_loaded (base size p : Z) (n : nat) (mem : Z -> Z) :
  let o := p mod size in
  0 <= base -> base + size <= 2 ^ 16 -> 0 < size -> Z.of_nat n <= size ->
  (if decide (o + Z.of_nat n < size) then loadBytes (base + o) n mem
   else loadBytes (base + o) (Z.to_nat (size - o)) mem ++
        loadBytes base (Z.to_nat (o + Z.of_nat n - size)) mem) =
  ringBytes base size p n mem.
Proof.
  intros o Hbase Hfit Hsize Hn.
  assert (Ho : 0 <= o < size) by (apply Z.mod_pos_bound; lia).
  apply list_eq. intros i.
  destruct (decide (i < n)%nat) as [Hi|Hi].
  - rewrite ringBytes_lookup by done.
    rewrite <- Z.add_mod_idemp_l by lia. fold o.
    destruct (decide (o + Z.of_nat n < size)) as [Hlt|Hge].
    + rewrite loadBytes_lookup by lia. rewrite Z.mod_small by lia.
      by rewrite Z.add_assoc.
    + destruct (decide (Z.of_nat i < size - o)) as [Hfirst|Hsecond].
      * rewrite lookup_app_l by (rewrite length_loadBytes; lia).
        rewrite loadBytes_lookup by lia. rewrite Z.mod_small by lia.
        by rewrite Z.add_assoc.
      * rewrite lookup_app_r by (rewrite length_loadBytes; lia).
        rewrite length_loadBytes. rewrite loadBytes_lookup by lia.
        rewrite mod_wrap by lia. do 3 f_equal. lia.
  - rewrite (lookup_ge_None_2 (ringBytes _ _ _ _ _)) by (rewrite length_ringBytes; lia).
    apply lookup_ge_None_2.
    destruct (decide (o + Z.of_nat n < size)) as [Hlt|Hge].
    + rewrite length_loadBytes. lia.
    + rewrite length_app, !length_loadBytes. lia.
Qed.

Lemma readData_chip (data : list Z) (len : Z) (mem : Z -> Z) (ev : bool) (k : Z) :
  let size := 2 ^ k * 1024 in
  let rd := reg16 mem W5100S_S0_RX_RD0 in
  0 <= k <= 3 -> u8 (mem W5100S_S0_RXBUF_SIZE) = 2 ^ k ->
  0 <= len <= size -> len <= Z.of_nat (length data) ->
  w5100sReadData data len (onChip mem ev) =
    Some (ringBytes W5100S_RX_BUFFER size rd (Z.to_nat len) mem ++
            drop (Z.to_nat len) data,
          onChip
            (store W5100S_S0_CR W5100S_Sn_CR_RECV
               (store (W5100S_S0_RX_RD0 + 1) (LSB (u16 (rd + len)))
                  (store W5100S_S0_RX_RD0 (MSB (u16 (rd + len))) mem))) ev).
Proof.
  intros size rd Hk Hsz Hlen Hdata.
  assert (Hsize : 1024 <= size <= 8192).
  { subst size. assert (2 ^ 0 <= 2 ^ k <= 2 ^ 3)
      by (split; apply Z.pow_le_mono_r; lia). lia. }
  pose proof (reg16_range mem W5100S_S0_RX_RD0) as Hrd. fold rd in Hrd.
  assert (Ho : 0 <= rd mod size < size) by (apply Z.mod_pos_bound; lia).
  assert (Hu : forall x, 0 <= u16 x < 2 ^ 16) by (intros x; apply Z.mod_pos_bound; lia).
  pose proof (ring_loaded W5100S_RX_BUFFER size rd (Z.to_nat len) mem) as Hring.
  cbv zeta in Hring. rewrite Z2Nat.id in Hring by lia.
  rewrite <- Hring; [|done | cbn; lia | lia | lia]. clear Hring.
  unfold w5100sReadData.
  erewrite bind_run by (by apply readReg8_chip).
  erewrite bind_run by (by apply readReg16_chip).
  rewrite Hsz. change (Z.lor _ _) with rd.
  rewrite ring_offset by lia. fold size.
  assert (Hbase : u16 (W5100S_RX_BUFFER + rd mod size) = W5100S_RX_BUFFER + rd mod size).
  { unfold u16. apply Z.mod_small. cbn. lia. }
  destruct (decide (u32 (rd mod size + len) < size)) as [Hlt|Hge].
  - assert (Hsum : rd mod size + len < size).
    { revert Hlt. unfold u32. by rewrite Z.mod_small by lia. }
    rewrite decide_True by done.
    erewrite bind_run by (apply readBuffer_chip; [apply Hu | lia]).
    erewrite bind_run by (by apply writeReg16_chip).
    erewrite bind_run by (by apply writeReg8_chip).
    rewrite Hbase. reflexivity.
  - assert (Hsum : size <= rd mod size + len).
    { revert Hge. unfold u32. rewrite Z.mod_small by lia. lia. }
    rewrite decide_False by lia.
    assert (Hc1 : u32 (size - rd mod size) = size - rd mod size)
      by (unfold u32; apply Z.mod_small; lia).
    assert (Hc2 : u32 (rd mod size + len - size) = rd mod size + len - size)
      by (unfold u32; apply Z.mod_small; lia).
    rewrite Hc1, Hc2, Hbase.
    erewrite bind_run.
    2:{ erewrite bind_run by (apply readBuffer_chip; [cbn; lia | lia]).
        apply readBuffer_chip; [done|].
        rewrite !length_app, length_loadBytes, length_drop. cbn [take length]. lia. }
    erewrite bind_run by (by apply writeReg16_chip).
    erewrite bind_run by (by apply writeReg8_chip).
    change (u16 W5100S_RX_BUFFER) with W5100S_RX_BUFFER.
    change (take 0 data) with (@nil Z). cbn [app].
    unfold mret, St_ret. do 2 f_equal.
    rewrite take_app_length' by (by rewrite length_loadBytes).
    rewrite <- app_assoc. do 2 f_equal.
    rewrite drop_app_ge by (rewrite length_loadBytes; lia).
    rewrite length_loadBytes, drop_drop. f_equal. lia.
Qed.

(** *** The receiver *)

Lemma onInterface_run {A : Type} (c : St (NetInterface MemChip) A)
    (i i' : NetInterface MemChip) (a : A) (t : list Z) (d : list (list Z)) :
  c i = Some (a, i') ->
  onInterface c (mkReceiver i t d) = Some (a, mkReceiver i' t d).
Proof. intros H. unfold onInterface. cbn [interface temp processed]. by rewrite H. Qed.

Lemma readTemp_run (len : Z) (i i' : NetInterface MemChip) (t t' : list Z)
    (d : list (list Z)) :
  w5100sReadData t len i = Some (t', i') ->
  readTemp len (mkReceiver i t d) = Some (tt, mkReceiver i' t' d).
Proof. intros H. unfold readTemp. cbn [interface temp processed]. by rewrite H. Qed.

Lemma ringBytes_pointer (base size p q : Z) (n : nat) (mem mem' : Z -> Z) :
  0 < size -> (size | 2 ^ 16) -> q = u16 p ->
  (forall x, base <= x < base + size -> mem' x = mem x) ->
  ringBytes base size q n mem' = ringBytes base size p n mem.
Proof.
  intros Hsize Hdiv -> Hmem. unfold ringBytes. apply list_fmap_ext.
  intros _ i _.
  assert (Hmod : (u16 p + Z.of_nat i) mod size = (p + Z.of_nat i) mod size).
  { rewrite <- (Z.add_mod_idemp_l (u16 p)), <- (Z.add_mod_idemp_l p) by lia.
    unfold u16. by rewrite Z.mod_mod_divide. }
  rewrite Hmod, Hmem; [done|].
  assert (0 <= (p + Z.of_nat i) mod size < size) by (apply Z.mod_pos_bound; lia).
  lia.
Qed.

Lemma ring_size_divides (k : Z) : 0 <= k <= 3 -> (2 ^ k * 1024 | 2 ^ 16).
Proof.
  intros Hk. exists (2 ^ (6 - k)).
  replace 1024 with (2 ^ 10) by done.
  rewrite <- !Z.pow_add_r by lia. f_equal. lia.
Qed.

(** X11. [w5100sReceivePacket] on a pending packet with a plausible header.
    The packet starts with two bytes that hold its length, header
    included.  The call reads the header and then the [len - 2] bytes
    that follow it from the circular receive buffer into [temp], moves
    the read pointer by [len] in all, issues RECV twice, and hands
    [temp[0 .. len)] to the upper layer: the [len - 2] bytes of the packet
    followed by the two bytes that [temp] held at that place before the
    packet was read. *)
Theorem receive_packet_delivers (mem : Z -> Z) (ev : bool) (temp0 : list Z)
    (done : list (list Z)) (k len : Z) :
  let size := 2 ^ k * 1024 in
  let rd := reg16 mem W5100S_S0_RX_RD0 in
  let header := ringBytes W5100S_RX_BUFFER size rd 2 mem in
  0 <= k <= 3 -> u8 (mem W5100S_S0_RXBUF_SIZE) = 2 ^ k ->
  reg16 mem W5100S_S0_RX_RSR0 > 0 ->
  LOAD16BE header = Some len ->
  2 <= len <= ETH_MAX_FRAME_SIZE + 2 ->
  len <= size ->
  len <= Z.of_nat (length temp0) ->
  exists mem' temp',
    w5100sReceivePacket (mkReceiver (onChip mem ev) temp0 done) =
      Some (NO_ERROR,
            mkReceiver (onChip mem' ev) temp'
              (done ++ [take (Z.to_nat len) temp'])) /\
    temp' =
      ringBytes W5100S_RX_BUFFER size (rd + 2) (Z.to_nat (len - 2)) mem ++
      drop (Z.to_nat (len - 2)) (header ++ drop 2 temp0) /\
    reg16 mem' W5100S_S0_RX_RD0 = u16 (rd + len) /\
    mem' W5100S_S0_CR = W5100S_Sn_CR_RECV /\
    (forall x, x ≠ W5100S_S0_CR -> x ≠ W5100S_S0_RX_RD0 ->
       x ≠ W5100S_S0_RX_RD0 + 1 -> mem' x = mem x).
Proof.
  intros size rd header Hk Hsz Hrsr Hload Hlen Hfit Htemp.
  assert (Hsize : 1024 <= size <= 8192).
  { subst size. assert (2 ^ 0 <= 2 ^ k <= 2 ^ 3)
      by (split; apply Z.pow_le_mono_r; lia). lia. }
  cbn in Hlen.
  set (mem1 := store W5100S_S0_CR W5100S_Sn_CR_RECV
                 (store (W5100S_S0_RX_RD0 + 1) (LSB (u16 (rd + 2)))
                    (store W5100S_S0_RX_RD0 (MSB (u16 (rd + 2))) mem))).
  set (temp1 := header ++ drop 2 temp0).
  assert (Hread1 : w5100sReadData temp0 2 (onChip mem ev) = Some (temp1, onChip mem1 ev)).
  { apply (readData_chip temp0 2 mem ev k); [done | done | lia | lia]. }
  assert (Hother1 : forall x, x ≠ W5100S_S0_CR -> x ≠ W5100S_S0_RX_RD0 ->
            x ≠ W5100S_S0_RX_RD0 + 1 -> mem1 x = mem x).
  { intros x H1 H2 H3. subst mem1. by rewrite !store_ne by done. }
  assert (Hrd1 : reg16 mem1 W5100S_S0_RX_RD0 = u16 (rd + 2)).
  { unfold reg16. subst mem1.
    rewrite (store_ne W5100S_S0_CR) by done.
    rewrite (store_ne (W5100S_S0_RX_RD0 + 1)) by done. rewrite store_eq.
    rewrite (store_ne W5100S_S0_CR) by done. rewrite store_eq.
    apply reg16_stored. apply Z.mod_pos_bound. lia. }
  assert (Hload1 : LOAD16BE temp1 = Some len) by exact Hload.
  assert (Hl1 : length temp1 = length temp0).
  { subst temp1 header. rewrite length_app, length_ringBytes, length_drop. lia. }
  set (v2 := u16 (u16 (rd + 2) + u32 (len - 2))).
  set (mem2 := store W5100S_S0_CR W5100S_Sn_CR_RECV
                 (store (W5100S_S0_RX_RD0 + 1) (LSB v2)
                    (store W5100S_S0_RX_RD0 (MSB v2) mem1))).
  set (temp2 := ringBytes W5100S_RX_BUFFER size (rd + 2) (Z.to_nat (len - 2)) mem ++
                drop (Z.to_nat (len - 2)) temp1).
  assert (Hu : u32 (len - 2) = len - 2) by (unfold u32; apply Z.mod_small; lia).
  assert (Hread2 : w5100sReadData temp1 (u32 (len - 2)) (onChip mem1 ev) =
                   Some (temp2, onChip mem2 ev)).
  { pose proof (readData_chip temp1 (u32 (len - 2)) mem1 ev k) as H.
    cbv zeta in H. rewrite Hrd1 in H. fold size v2 mem2 in H.
    rewrite H; [|done | by rewrite Hother1 | rewrite Hu; lia | rewrite Hu; lia].
    rewrite Hu. do 2 f_equal. subst temp2. f_equal.
    apply ringBytes_pointer; [lia | by apply ring_size_divides | done |].
    intros x Hx. apply Hother1; cbn in *; lia. }
  assert (Hl2 : length temp2 = length temp0).
  { subst temp2. rewrite length_app, length_ringBytes, length_drop. lia. }
  exists mem2, temp2. split; [|split; [done|split; [|split]]].
  - unfold w5100sReceivePacket.
    erewrite bind_run by (apply onInterface_run; by apply readReg16_chip).
    change (Z.lor _ _) with (reg16 mem W5100S_S0_RX_RSR0).
    rewrite decide_True by done.
    erewrite bind_run.
    2:{ erewrite bind_run by (apply readTemp_run; exact Hread1).
        erewrite bind_run.
        2:{ cbv beta. cbn [temp]. rewrite Hload1. reflexivity. }
        rewrite decide_True by (cbn; lia).
        erewrite bind_run by (apply readTemp_run; exact Hread2).
        reflexivity. }
    cbv beta iota. rewrite decide_True by done.
    erewrite bind_run.
    2:{ unfold nicProcessPacket. cbn [temp interface processed].
        rewrite decide_True by lia. reflexivity. }
    reflexivity.
  - unfold reg16. subst mem2.
    rewrite (store_ne W5100S_S0_CR) by done.
    rewrite (store_ne (W5100S_S0_RX_RD0 + 1)) by done. rewrite store_eq.
    rewrite (store_ne W5100S_S0_CR) by done. rewrite store_eq.
    rewrite reg16_stored by (apply Z.mod_pos_bound; lia).
    subst v2. rewrite Hu. unfold u16. rewrite Z.add_mod_idemp_l by lia.
    f_equal. lia.
  - subst mem2. by rewrite store_eq.
  - intros x H1 H2 H3. subst mem2. rewrite !store_ne by done. by apply Hother1.
Qed.

(** X12. [w5100sReceivePacket] with nothing to deliver.  With no data in the
    receive buffer the call returns ERROR_BUFFER_EMPTY and changes neither
    the chip nor the driver.  With data whose first two bytes are not a
    length from 2 to ETH_MAX_FRAME_SIZE + 2, it returns
    ERROR_INVALID_LENGTH, hands nothing to the upper layer and moves the
    read pointer past these two bytes only. *)
Theorem receive_packet_rejects (mem : Z -> Z) (ev : bool) (temp0 : list Z)
    (done : list (list Z)) (k len : Z) :
  let size := 2 ^ k * 1024 in
  let rd := reg16 mem W5100S_S0_RX_RD0 in
  let header := ringBytes W5100S_RX_BUFFER size rd 2 mem in
  0 <= k <= 3 -> u8 (mem W5100S_S0_RXBUF_SIZE) = 2 ^ k ->
  2 <= Z.of_nat (length temp0) ->
  (reg16 mem W5100S_S0_RX_RSR0 = 0 ->
   w5100sReceivePacket (mkReceiver (onChip mem ev) temp0 done) =
     Some (ERROR_BUFFER_EMPTY, mkReceiver (onChip mem ev) temp0 done)) /\
  (reg16 mem W5100S_S0_RX_RSR0 > 0 ->
   LOAD16BE header = Some len ->
   len < 2 \/ len > ETH_MAX_FRAME_SIZE + 2 ->
   exists mem',
     w5100sReceivePacket (mkReceiver (onChip mem ev) temp0 done) =
       Some (ERROR_INVALID_LENGTH,
             mkReceiver (onChip mem' ev) (header ++ drop 2 temp0) done) /\
     reg16 mem' W5100S_S0_RX_RD0 = u16 (rd + 2) /\
     mem' W5100S_S0_CR = W5100S_Sn_CR_RECV /\
     (forall x, x ≠ W5100S_S0_CR -> x ≠ W5100S_S0_RX_RD0 ->
        x ≠ W5100S_S0_RX_RD0 + 1 -> mem' x = mem x)).
Proof.
  intros size rd header Hk Hsz Htemp.
  assert (Hsize : 1024 <= size <= 8192).
  { subst size. assert (2 ^ 0 <= 2 ^ k <= 2 ^ 3)
      by (split; apply Z.pow_le_mono_r; lia). lia. }
  split.
  - intros Hrsr. unfold w5100sReceivePacket.
    erewrite bind_run by (apply onInterface_run; by apply readReg16_chip).
    change (Z.lor _ _) with (reg16 mem W5100S_S0_RX_RSR0).
    rewrite decide_False by lia. reflexivity.
  - intros Hrsr Hload Hlen.
    set (mem1 := store W5100S_S0_CR W5100S_Sn_CR_RECV
                   (store (W5100S_S0_RX_RD0 + 1) (LSB (u16 (rd + 2)))
                      (store W5100S_S0_RX_RD0 (MSB (u16 (rd + 2))) mem))).
    set (temp1 := header ++ drop 2 temp0).
    assert (Hread1 : w5100sReadData temp0 2 (onChip mem ev) =
                     Some (temp1, onChip mem1 ev)).
    { apply (readData_chip temp0 2 mem ev k); [done | done | lia | lia]. }
    assert (Hload1 : LOAD16BE temp1 = Some len) by exact Hload.
    exists mem1. split; [|split; [|split]].
    + unfold w5100sReceivePacket.
      erewrite bind_run by (apply onInterface_run; by apply readReg16_chip).
      change (Z.lor _ _) with (reg16 mem W5100S_S0_RX_RSR0).
      rewrite decide_True by done.
      erewrite bind_run.
      2:{ erewrite bind_run by (apply readTemp_run; exact Hread1).
          erewrite bind_run.
          2:{ cbv beta. cbn [temp]. rewrite Hload1. reflexivity. }
          rewrite decide_False by (cbn in *; lia). reflexivity. }
      cbv beta iota. rewrite decide_False by done. reflexivity.
    + unfold reg16. subst mem1.
      rewrite (store_ne W5100S_S0_CR) by done.
      rewrite (store_ne (W5100S_S0_RX_RD0 + 1)) by done. rewrite store_eq.
      rewrite (store_ne W5100S_S0_CR) by done. rewrite store_eq.
      apply reg16_stored. apply Z.mod_pos_bound. lia.
    + subst mem1. by rewrite store_eq.
    + intros x H1 H2 H3. subst mem1. by rewrite !store_ne by done.
Qed.

Lemma reg16_stored_u16 (v : Z) :
  Z.lor (u16 (Z.shiftl (u8 (u8 (MSB v))) 8)) (u8 (u8 (LSB v))) = u16 v.
Proof.
  unfold u8, u16, MSB, LSB.
  rewrite <- !Z.land_ones by lia. change 0xFF with (Z.ones 8).
  Z.bitblast.
Qed.

Lemma load_stored (bs : list Z) (a : Z) (mem : Z -> Z) :
  0 <= a -> a + Z.of_nat (length bs) <= 2 ^ 16 ->
  loadBytes a (length bs) (storeBytes a bs mem) = u8 <$> bs.
Proof.
  intros Ha Hfit. apply list_eq. intros i.
  destruct (bs !! i) as [b|] eqn:Hb.
  - pose proof (lookup_lt_Some _ _ _ Hb) as Hi.
    rewrite loadBytes_lookup by lia.
    rewrite list_lookup_fmap, Hb. cbn.
    rewrite (storeBytes_in bs a mem i b) by done.
    unfold u8. by rewrite Z.mod_mod by lia.
  - rewrite list_lookup_fmap, Hb. cbn. apply lookup_ge_None_2.
    rewrite length_loadBytes. by apply lookup_ge_None_1.
Qed.

(** X9. What is written to the chip reads back.  On a chip that stores, a
    byte written with [w5100sWriteReg8] is read by [w5100sReadReg8], a
    16-bit value written with [w5100sWriteReg16] is read by
    [w5100sReadReg16] (most significant byte at the lower address), and a
    block written with [w5100sWriteBuffer] is read by [w5100sReadBuffer]
    into the array, whose other elements stay. *)
Theorem chip_round_trip (a v : Z) (data buf : list Z) (mem : Z -> Z) (ev : bool) :
  0 <= a -> a + 2 <= 2 ^ 16 ->
  a + Z.of_nat (length data) <= 2 ^ 16 ->
  (length data <= length buf)%nat ->
  (exists mem', (w5100sWriteReg8 a v ;; w5100sReadReg8 a) (onChip mem ev) =
     Some (u8 v, onChip mem' ev)) /\
  (exists mem', (w5100sWriteReg16 a v ;; w5100sReadReg16 a) (onChip mem ev) =
     Some (u16 v, onChip mem' ev)) /\
  (exists mem',
     (w5100sWriteBuffer a data (Z.of_nat (length data)) ;;
      w5100sReadBuffer a buf 0 (Z.of_nat (length data))) (onChip mem ev) =
     Some ((u8 <$> data) ++ drop (length data) buf, onChip mem' ev)).
Proof.
  intros Ha Ha2 Hfit Hbuf. split; [|split].
  - eexists. erewrite bind_run by (apply writeReg8_chip; lia).
    rewrite readReg8_chip by lia. rewrite store_eq.
    unfold u8. by rewrite Z.mod_mod by lia.
  - eexists. erewrite bind_run by (apply writeReg16_chip; lia).
    rewrite readReg16_chip by lia.
    assert (Hu : u16 (a + 1) = a + 1) by (unfold u16; apply Z.mod_small; lia).
    rewrite Hu. rewrite store_eq.
    rewrite (store_ne (a + 1)) by lia. rewrite store_eq.
    by rewrite reg16_stored_u16.
  - eexists. erewrite bind_run by (apply writeBuffer_chip; lia).
    rewrite readBuffer_chip by lia.
    rewrite !Nat2Z.id. rewrite (take_ge data) by lia.
    by rewrite load_stored by lia.
Qed.

End Proofs.

Section Witnesses.

Local Existing Instance w5100s_h.
Local Existing Instance w5100s_rx_h.
Local Existing Instance memSpi.

Lemma send_packet_fills_ring_witness :
  exists mem',
    w5100sSendPacket (replicate 60 0xAA) 0 (onChip txMemory false) =
      Some (NO_ERROR, onChip mem' true) /\
    mem' 0x5FFF = 0xAA /\ mem' 0x4000 = 0xAA /\
    reg16 mem' 0x0424 = 0x202C.
Proof.
  destruct (send_packet_fills_ring (replicate 60 0xAA) 0 txMemory false 3)
    as (mem' & Hrun & Hin & Hwr & _).
  - lia.
  - reflexivity.
  - cbn. lia.
  - by vm_compute.
  - by vm_compute.
  - by vm_compute.
  - exists mem'. split; [exact Hrun|].
    split; [exact (Hin 15%nat 0xAA eq_refl)|].
    split; [exact (Hin 16%nat 0xAA eq_refl) | exact Hwr].
Defined.

Lemma receive_packet_delivers_witness :
  exists mem' temp',
    w5100sReceivePacket
      (mkReceiver (onChip (rxMemory 0x00 0x06) false) (replicate 1536 0x55) []) =
      Some (NO_ERROR,
            mkReceiver (onChip mem' false) temp'
              [[0xDE; 0xAD; 0xBE; 0xEF; 0x55; 0x55]]) /\
    reg16 mem' 0x0428 = 0x2005.
Proof.
  destruct (receive_packet_delivers (rxMemory 0x00 0x06) false
              (replicate 1536 0x55) [] 3 6)
    as (mem' & temp' & Hrun & Htemp & Hrd & _).
  - lia.
  - reflexivity.
  - by vm_compute.
  - reflexivity.
  - cbn. lia.
  - by vm_compute.
  - by vm_compute.
  - exists mem', temp'. split; [|exact Hrd].
    rewrite Hrun. do 3 f_equal. rewrite Htemp. by vm_compute.
Defined.

Lemma receive_packet_rejects_witness :
  exists mem',
    w5100sReceivePacket
      (mkReceiver (onChip (fun _ => 0x08) false) (replicate 1536 0x55) []) =
      Some (ERROR_INVALID_LENGTH,
            mkReceiver (onChip mem' false) ([0x08; 0x08] ++ replicate 1534 0x55) []) /\
    reg16 mem' 0x0428 = 0x080A.
Proof.
  destruct (receive_packet_rejects (fun _ => 0x08) false (replicate 1536 0x55)
              [] 3 0x0808) as [_ Hbad].
  - lia.
  - reflexivity.
  - by vm_compute.
  - destruct Hbad as (mem' & Hrun & Hrd & _); [by vm_compute | reflexivity | cbn; lia |].
    exists mem'. split; [|exact Hrd].
    rewrite Hrun. do 3 f_equal.
Defined.

Lemma chip_round_trip_witness :
  exists mem',
    (w5100sWriteReg16 0x0424 0x1234 ;; w5100sReadReg16 0x0424) (onChip (fun _ => 0) false) =
      Some (0x1234, onChip mem' false).
Proof.
  destruct (chip_round_trip 0x0424 0x1234 [] [] (fun _ => 0) false)
    as (_ & Hreg & _).
  - lia.
  - lia.
  - cbn. lia.
  - done.
  - exact Hreg.
Defined.

End Witnesses.

End W5100sRxProofs.

Module Ksz9477SpiProofs.
Import Ksz9477 Ksz9477Spi Ksz9477Proofs.

Section Proofs.

Local Existing Instance ksz9477_h.
Local Existing Instance ksz9477_spi_h.
Local Existing Instance regFileSpi.
Local Existing Instance spiBus.

Ltac bits_deep :=
  Z.bitblast;
  repeat (subst; progress Z.bitblast_core);
  bits_finish.

(** Four bytes, most significant first, make up the 32-bit value they
    were taken from. *)
Lemma be32_decode (c : Z) :
  0 <= c < 2 ^ 32 ->
  Z.lor (Z.shiftl (Z.lor (Z.shiftl (Z.lor (Z.shiftl (Z.land (Z.shiftr c 24) 0xFF) 8)
     (Z.land (Z.shiftr c 16) 0xFF)) 8) (Z.land (Z.shiftr c 8) 0xFF)) 8) (Z.land c 0xFF) = c.
Proof.
  intros Hc. rewrite <- (Z.mod_small c (2 ^ 32)) by lia.
  change 0xFF with (Z.ones 8). bits_deep.
Qed.

(** The slave decodes the command word that the driver sends. *)
Lemma command_decode (op a : Z) :
  op = 0x40000000 \/ op = 0x60000000 ->
  let c := spiCommand op a in
  forall rest,
  rf_command (Z.land (Z.shiftr c 24) 0xFF :: Z.land (Z.shiftr c 16) 0xFF ::
              Z.land (Z.shiftr c 8) 0xFF :: Z.land c 0xFF :: rest) = c /\
  Z.land c 0xE0000000 = op /\
  Z.shiftr (Z.land c 0x001FFFE0) 5 = u16 a.
Proof.
  intros Hop c rest.
  assert (Hc : c mod 2 ^ 32 = c /\ Z.land c 0xE0000000 = op /\
               Z.shiftr (Z.land c 0x001FFFE0) 5 = u16 a).
  { subst c. unfold spiCommand, u16.
    change KSZ9477_SPI_CMD_ADDR with 0x001FFFE0.
    change 0x001FFFE0 with (Z.shiftl (Z.ones 16) 5).
    change 0xE0000000 with (Z.shiftl (Z.ones 3) 29).
    destruct Hop as [-> | ->].
    - change 0x40000000 with (2 ^ 30). repeat split; bits.
    - change 0x60000000 with (Z.lor (2 ^ 30) (2 ^ 29)).
      repeat split; bits. }
  destruct Hc as (Hrange & Hopc & Haddr). split; [|done].
  unfold rf_command. cbn [take foldl]. rewrite Z.shiftl_0_l, Z.lor_0_l.
  apply be32_decode. rewrite <- Hrange. apply Z.mod_pos_bound. lia.
Qed.

Lemma commandPhase_rf (c : Z) (mem : Z -> Z) :
  spiCommandPhase c (mkRegFile mem None) = mkRegFile mem (Some (commandBytes c)).
Proof. reflexivity. Qed.

(** A data byte of a write goes to the next byte register. *)
Lemma rf_write_byte (a b : Z) (mem : Z -> Z) (data : list Z) :
  rf_transfer b (mkRegFile mem (Some (commandBytes (spiCommand 0x40000000 a) ++ data))) =
    (0, mkRegFile (setByte (u16 a + Z.of_nat (length data)) b mem)
          (Some (commandBytes (spiCommand 0x40000000 a) ++ data ++ [b]))).
Proof.
  destruct (command_decode 0x40000000 a (or_introl eq_refl) data) as (Hc & Hop & Ha).
  unfold rf_transfer. cbn [rf_frame rf_mem].
  rewrite decide_False by (cbn [commandBytes app length]; lia).
  change (commandBytes ?c ++ data) with
    (Z.land (Z.shiftr c 24) 0xFF :: Z.land (Z.shiftr c 16) 0xFF ::
     Z.land (Z.shiftr c 8) 0xFF :: Z.land c 0xFF :: data).
  rewrite Hc, Hop, Ha. rewrite decide_True by done.
  cbn [length]. replace (S (S (S (S (length data)))) - 4)%nat with (length data) by lia.
  reflexivity.
Qed.

(** A data byte of a read comes from the next byte register. *)
Lemma rf_read_byte (a b : Z) (mem : Z -> Z) (data : list Z) :
  rf_transfer b (mkRegFile mem (Some (commandBytes (spiCommand 0x60000000 a) ++ data))) =
    (mem (u16 a + Z.of_nat (length data)),
     mkRegFile mem (Some (commandBytes (spiCommand 0x60000000 a) ++ data ++ [b]))).
Proof.
  destruct (command_decode 0x60000000 a (or_intror eq_refl) data) as (Hc & Hop & Ha).
  unfold rf_transfer. cbn [rf_frame rf_mem].
  rewrite decide_False by (cbn [commandBytes app length]; lia).
  change (commandBytes ?c ++ data) with
    (Z.land (Z.shiftr c 24) 0xFF :: Z.land (Z.shiftr c 16) 0xFF ::
     Z.land (Z.shiftr c 8) 0xFF :: Z.land c 0xFF :: data).
  rewrite Hc, Hop, Ha. rewrite decide_False by done. rewrite decide_True by done.
  cbn [length]. replace (S (S (S (S (length data)))) - 4)%nat with (length data) by lia.
  reflexivity.
Qed.

Lemma rf_send (a b : Z) (mem : Z -> Z) (data : list Z) :
  spiSend b (mkRegFile mem (Some (commandBytes (spiCommand 0x40000000 a) ++ data))) =
    mkRegFile (setByte (u16 a + Z.of_nat (length data)) b mem)
      (Some (commandBytes (spiCommand 0x40000000 a) ++ data ++ [b])).
Proof.
  unfold spiSend. cbn [W5100s.transfer regFileSpi]. by rewrite rf_write_byte.
Qed.

Lemma rf_receive (a : Z) (mem : Z -> Z) (data : list Z) :
  spiReceive (mkRegFile mem (Some (commandBytes (spiCommand 0x60000000 a) ++ data))) =
    (u8 (mem (u16 a + Z.of_nat (length data))),
     mkRegFile mem (Some (commandBytes (spiCommand 0x60000000 a) ++ data ++ [0xFF]))).
Proof.
  unfold spiReceive. cbn [W5100s.transfer regFileSpi]. by rewrite rf_read_byte.
Qed.

(** The register functions on the register file. *)
Lemma write8_rf (a v : Z) (mem : Z -> Z) :
  ksz9477WriteSwitchReg8 a v (onSpi mem) = Some (tt, onSpi (setByte (u16 a) v mem)).
Proof.
  unfold ksz9477WriteSwitchReg8, onSpi. cbn [spiDriver chip spiWrite8 spiBus].
  unfold writeTransaction8. change KSZ9477_SPI_CMD_WRITE with 0x40000000.
  rewrite commandPhase_rf.
  rewrite <- (app_nil_r (commandBytes _)), rf_send.
  cbn [length Z.of_nat]. by rewrite Z.add_0_r.
Qed.

Lemma read8_rf (a : Z) (mem : Z -> Z) :
  ksz9477ReadSwitchReg8 a (onSpi mem) = Some (u8 (mem (u16 a)), onSpi mem).
Proof.
  unfold ksz9477ReadSwitchReg8, onSpi. cbn [spiDriver chip].
  unfold readTransaction8. change KSZ9477_SPI_CMD_READ with 0x60000000.
  rewrite commandPhase_rf.
  rewrite <- (app_nil_r (commandBytes _)), rf_receive.
  cbn [length Z.of_nat]. by rewrite Z.add_0_r.
Qed.

Lemma write16_rf (a v : Z) (mem : Z -> Z) :
  ksz9477WriteSwitchReg16 a v (onSpi mem) =
    Some (tt, onSpi (setByte (u16 a + 1) (Z.land v 0xFF)
                       (setByte (u16 a) (Z.land (Z.shiftr v 8) 0xFF) mem))).
Proof.
  unfold ksz9477WriteSwitchReg16, onSpi. cbn [spiDriver chip].
  unfold writeTransaction16. change KSZ9477_SPI_CMD_WRITE with 0x40000000.
  rewrite commandPhase_rf.
  rewrite <- (app_nil_r (commandBytes _)), !rf_send.
  cbn [length Z.of_nat app]. by rewrite Z.add_0_r.
Qed.

Lemma read16_rf (a : Z) (mem : Z -> Z) :
  ksz9477ReadSwitchReg16 a (onSpi mem) =
    Some (Z.lor (u16 (Z.shiftl (u8 (mem (u16 a))) 8)) (u8 (mem (u16 a + 1))), onSpi mem).
Proof.
  unfold ksz9477ReadSwitchReg16, onSpi. cbn [spiDriver chip].
  unfold readTransaction16. change KSZ9477_SPI_CMD_READ with 0x60000000.
  rewrite commandPhase_rf.
  rewrite <- (app_nil_r (commandBytes _)), !rf_receive.
  cbn [length Z.of_nat app]. by rewrite Z.add_0_r.
Qed.

Lemma write32_rf (a v : Z) (mem : Z -> Z) :
  ksz9477WriteSwitchReg32 a v (onSpi mem) =
    Some (tt, onSpi (setByte (u16 a + 3) (Z.land v 0xFF)
                       (setByte (u16 a + 2) (Z.land (Z.shiftr v 8) 0xFF)
                          (setByte (u16 a + 1) (Z.land (Z.shiftr v 16) 0xFF)
                             (setByte (u16 a) (Z.land (Z.shiftr v 24) 0xFF) mem))))).
Proof.
  unfold ksz9477WriteSwitchReg32, onSpi. cbn [spiDriver chip spiWrite32 spiBus].
  unfold writeTransaction32. change KSZ9477_SPI_CMD_WRITE with 0x40000000.
  rewrite commandPhase_rf.
  rewrite <- (app_nil_r (commandBytes _)), !rf_send.
  cbn [length Z.of_nat app Pos.of_succ_nat Pos.succ]. by rewrite Z.add_0_r.
Qed.

Lemma read32_rf (a : Z) (mem : Z -> Z) :
  ksz9477ReadSwitchReg32 a (onSpi mem) =
    Some (u32 (Z.lor (Z.lor (Z.lor (u32 (Z.shiftl (u8 (mem (u16 a))) 24))
                               (u32 (Z.shiftl (u8 (mem (u16 a + 1))) 16)))
                        (u32 (Z.shiftl (u8 (mem (u16 a + 2))) 8)))
                 (u8 (mem (u16 a + 3)))), onSpi mem).
Proof.
  unfold ksz9477ReadSwitchReg32, onSpi. cbn [spiDriver chip spiRead32 spiBus].
  unfold readTransaction32. change KSZ9477_SPI_CMD_READ with 0x60000000.
  rewrite commandPhase_rf.
  rewrite <- (app_nil_r (commandBytes _)), !rf_receive.
  cbn [length Z.of_nat app Pos.of_succ_nat Pos.succ]. by rewrite Z.add_0_r.
Qed.

(** The bytes of a value, sent and received, make up the value again. *)
Lemma be16_round_trip (v : Z) :
  Z.lor (u16 (Z.shiftl (u8 (u8 (Z.land (Z.shiftr v 8) 0xFF))) 8))
        (u8 (u8 (Z.land v 0xFF))) = u16 v.
Proof. unfold u8, u16. change 0xFF with (Z.ones 8). bits. Qed.

Lemma be32_round_trip (v : Z) :
  u32 (Z.lor (Z.lor (Z.lor (u32 (Z.shiftl (u8 (u8 (Z.land (Z.shiftr v 24) 0xFF))) 24))
                        (u32 (Z.shiftl (u8 (u8 (Z.land (Z.shiftr v 16) 0xFF))) 16)))
                 (u32 (Z.shiftl (u8 (u8 (Z.land (Z.shiftr v 8) 0xFF))) 8)))
          (u8 (u8 (Z.land v 0xFF)))) = u32 v.
Proof. unfold u8, u32. change 0xFF with (Z.ones 8). bits. Qed.

Lemma byte_of_u8 (v : Z) : u8 (u8 (Z.land v 0xFF)) = Z.land v 0xFF.
Proof. unfold u8. change 0xFF with (Z.ones 8). bits. Qed.

(** X13. A switch register written over SPI reads back with the value written,
    cut to the width of the register, and the write changes no other
    register; the bytes of a 32-bit register are those of four byte
    registers, the most significant first. *)
Theorem switch_register_round_trip (a v : Z) (mem : Z -> Z) :
  0 <= a <= 0xFFFC ->
  (ksz9477WriteSwitchReg8 a v ;; ksz9477ReadSwitchReg8 a) (onSpi mem) =
    Some (u8 v, onSpi (setByte a v mem)) /\
  (exists mem',
     (ksz9477WriteSwitchReg16 a v ;; ksz9477ReadSwitchReg16 a) (onSpi mem) =
       Some (u16 v, onSpi mem') /\
     forall x, ~ (a <= x <= a + 1) -> mem' x = mem x) /\
  (exists mem',
     (ksz9477WriteSwitchReg32 a v ;; ksz9477ReadSwitchReg32 a) (onSpi mem) =
       Some (u32 v, onSpi mem') /\
     (forall x, ~ (a <= x <= a + 3) -> mem' x = mem x) /\
     forall k, 0 <= k <= 3 ->
       ksz9477ReadSwitchReg8 (a + k) (onSpi mem') =
         Some (Z.land (Z.shiftr v (8 * (3 - k))) 0xFF, onSpi mem')).
Proof.
  intros Ha.
  assert (Hu : forall k, 0 <= k <= 3 -> u16 (a + k) = a + k).
  { intros k Hk. unfold u16. apply Z.mod_small. lia. }
  assert (Hu0 : u16 a = a) by (unfold u16; apply Z.mod_small; lia).
  split; [|split].
  - erewrite bind_run by apply write8_rf. rewrite read8_rf, Hu0.
    unfold setByte at 1. rewrite decide_True by done.
    unfold u8. by rewrite Z.mod_mod by lia.
  - eexists. erewrite bind_run by apply write16_rf. rewrite read16_rf, Hu0.
    split.
    + unfold setByte at 1 2 3. rewrite decide_False by lia.
      rewrite !decide_True by done. by rewrite be16_round_trip.
    + intros x Hx. unfold setByte. by rewrite !decide_False by lia.
  - eexists. erewrite bind_run by apply write32_rf. rewrite read32_rf, Hu0.
    split; [|split].
    + unfold setByte.
      repeat (first [rewrite decide_True by lia | rewrite decide_False by lia]).
      by rewrite be32_round_trip.
    + intros x Hx. unfold setByte. by rewrite !decide_False by lia.
    + intros k Hk. rewrite read8_rf, Hu by done. unfold setByte.
      assert (Hcase : k = 0 \/ k = 1 \/ k = 2 \/ k = 3) by lia.
      destruct Hcase as [-> | [-> | [-> | ->]]];
        repeat (first [rewrite decide_True by lia | rewrite decide_False by lia]);
        rewrite byte_of_u8; reflexivity.
Qed.

Lemma setByte_ext (a v1 v2 : Z) (mem : Z -> Z) :
  u8 v1 = u8 v2 -> setByte a v1 mem = setByte a v2 mem.
Proof. intros H. unfold setByte. by rewrite H. Qed.

(** The byte that [ksz9477SetPortState] writes back, with the masks as
    powers of two. *)
Lemma port_state_byte (state : SwitchPortState) (t : Z) :
  let temp := u8 t in
  u8 match state with
     | SWITCH_PORT_STATE_LISTENING => set8 (set8 (clear8 temp (2 ^ 2)) (2 ^ 1)) (2 ^ 0)
     | SWITCH_PORT_STATE_LEARNING => clear8 (clear8 (clear8 temp (2 ^ 2)) (2 ^ 1)) (2 ^ 0)
     | SWITCH_PORT_STATE_FORWARDING => clear8 (set8 (set8 temp (2 ^ 2)) (2 ^ 1)) (2 ^ 0)
     | _ => set8 (clear8 (clear8 temp (2 ^ 2)) (2 ^ 1)) (2 ^ 0)
     end =
  u8 (Z.lor (Z.land t (Z.shiftl (Z.ones 5) 3))
        match state with
        | SWITCH_PORT_STATE_LISTENING => Z.lor (2 ^ 1) (2 ^ 0)
        | SWITCH_PORT_STATE_LEARNING => 0
        | SWITCH_PORT_STATE_FORWARDING => Z.lor (2 ^ 2) (2 ^ 1)
        | _ => 2 ^ 0
        end).
Proof.
  intros temp. subst temp. unfold set8, clear8, u8.
  destruct state; bits.
Qed.

(** The three state bits of the byte written. *)
Lemma port_state_bits (state : SwitchPortState) (t : Z) :
  let code :=
    match state with
    | SWITCH_PORT_STATE_LISTENING => Z.lor (2 ^ 1) (2 ^ 0)
    | SWITCH_PORT_STATE_LEARNING => 0
    | SWITCH_PORT_STATE_FORWARDING => Z.lor (2 ^ 2) (2 ^ 1)
    | _ => 2 ^ 0
    end in
  let temp := u8 (u8 (Z.lor (Z.land t (Z.shiftl (Z.ones 5) 3)) code)) in
  Z.land temp (2 ^ 2) = Z.land code (2 ^ 2) /\
  Z.land temp (2 ^ 1) = Z.land code (2 ^ 1) /\
  Z.land temp (2 ^ 0) = Z.land code (2 ^ 0).
Proof.
  intros code temp. subst code temp. unfold u8.
  destruct state; repeat split; bits.
Qed.

(** X14. With the switch on the SPI bus, on a register file that stores what
    is written: for a port from 1 to 5, [ksz9477SetPortState] rewrites the
    three state bits of the MSTP state register of the port and keeps its
    five other bits and every other register; [ksz9477GetPortState] then
    returns the state programmed: the state asked for when it is
    listening, learning or forwarding, and disabled for any other.  For
    another port number the first does nothing and the second returns
    disabled. *)
Theorem port_state_round_trip (port : Z) (state : SwitchPortState) (mem : Z -> Z) :
  (1 <= port <= 5 ->
   let reg := 0x0B04 + port * 0x1000 in
   let mem' := setByte reg (Z.lor (Z.land (mem reg) 0xF8) (stateBits state)) mem in
   ksz9477SetPortState port state (onSpi mem) = Some (tt, onSpi mem') /\
   ksz9477GetPortState port (onSpi mem') = Some (programmedState state, onSpi mem')) /\
  (~ (1 <= port <= 5) ->
   ksz9477SetPortState port state (onSpi mem) = Some (tt, onSpi mem) /\
   ksz9477GetPortState port (onSpi mem) = Some (SWITCH_PORT_STATE_DISABLED, onSpi mem)).
Proof.
  split.
  - intros Hport reg mem'.
    assert (Hreg : u16 (KSZ9477_PORTn_MSTP_STATE port) = reg).
    { unfold u16. apply Z.mod_small. cbn. lia. }
    split.
    + unfold ksz9477SetPortState.
      rewrite decide_True by (cbn; lia).
      erewrite bind_run by apply read8_rf.
      rewrite write8_rf, Hreg. subst mem'. f_equal. f_equal. f_equal.
      apply setByte_ext.
      change KSZ9477_PORTn_MSTP_STATE_TRANSMIT_EN with 0x04.
      change KSZ9477_PORTn_MSTP_STATE_RECEIVE_EN with 0x02.
      change KSZ9477_PORTn_MSTP_STATE_LEARNING_DIS with 0x01.
      exact (port_state_byte state (mem reg)).
    + unfold ksz9477GetPortState.
      rewrite decide_True by (cbn; lia).
      erewrite bind_run by apply read8_rf. rewrite Hreg.
      subst mem'.
      assert (Hm : forall X, setByte reg X mem reg = u8 X).
      { intros X. unfold setByte. by rewrite decide_True. }
      rewrite !Hm.
      change KSZ9477_PORTn_MSTP_STATE_TRANSMIT_EN with 0x04.
      change KSZ9477_PORTn_MSTP_STATE_RECEIVE_EN with 0x02.
      change KSZ9477_PORTn_MSTP_STATE_LEARNING_DIS with 0x01.
      pose proof (port_state_bits state (mem reg)) as Hbits.
      cbv zeta in Hbits.
      change (Z.shiftl (Z.ones 5) 3) with 0xF8 in Hbits.
      change (2 ^ 2) with 0x04 in Hbits. change (2 ^ 1) with 0x02 in Hbits.
      change (2 ^ 0) with 0x01 in Hbits.
      change (match state with
              | SWITCH_PORT_STATE_LISTENING => Z.lor 2 1
              | SWITCH_PORT_STATE_LEARNING => 0
              | SWITCH_PORT_STATE_FORWARDING => Z.lor 4 2
              | _ => 1
              end) with (stateBits state) in Hbits.
      destruct Hbits as (-> & -> & ->).
      by destruct state.
  - intros Hport. unfold ksz9477SetPortState, ksz9477GetPortState.
    by rewrite !decide_False by (cbn; lia).
Qed.

(** Setting or clearing one bit of a byte register. *)
Lemma switch_bit_byte (i : Z) (b : bool) (t : Z) :
  0 <= i < 8 ->
  u8 (if b then set8 (u8 t) (2 ^ i) else clear8 (u8 t) (2 ^ i)) = u8 (withBit i b t).
Proof.
  intros Hi. unfold set8, clear8, withBit, u8, Z.setbit, Z.clearbit.
  rewrite Z.shiftl_1_l. destruct b; bits.
Qed.



(** The value that [ksz9477SetUnknownMcastFwdPorts] writes, with the
    masks as powers of two. *)
Lemma mcast_value (x p : Z) (enable : bool) :
  let v := x mod 2 ^ 32 in
  let temp :=
    if enable then
      Z.lor (if decide (Z.land p (2 ^ 31) ≠ 0)
             then Z.lor (Z.lor (Z.land v (Z.lxor (Z.ones 7) (Z.ones 32))) (2 ^ 31)) (2 ^ 5)
             else Z.lor (Z.land v (Z.lxor (Z.ones 7) (Z.ones 32))) (2 ^ 31))
        (Z.land p (Z.ones 7))
    else
      Z.land (Z.land v (Z.lxor (Z.ones 7) (Z.ones 32))) (Z.lxor (2 ^ 31) (Z.ones 32)) in
  let v' := temp mod 2 ^ 32 in
  Z.land v' (Z.shiftl (Z.ones 24) 7) = Z.land v (Z.shiftl (Z.ones 24) 7) /\
  Z.testbit v' 31 = enable /\
  Z.land v' (Z.ones 7) =
    if enable then
      Z.lor (Z.land p (Z.ones 7)) (if decide (Z.land p (2 ^ 31) ≠ 0) then 2 ^ 5 else 0)
    else 0.
Proof.
  intros v temp v'. subst v temp v'.
  destruct enable; [destruct (decide (Z.land p (2 ^ 31) ≠ 0))|];
    (split; [bits; bits_finish | split; [Z.bitblast_core; bits_finish | bits; bits_finish]]).
Qed.

(** X17. With the switch on the SPI bus, on a register file that stores what
    is written: [ksz9477SetUnknownMcastFwdPorts] rewrites the forward bit
    and the port map of the unknown multicast control register and keeps
    its bits 7 to 30 and every other register.  Enabling sets the forward
    bit and makes the map the low seven bits of [forwardPorts], with the
    bit of port 6 added when [forwardPorts] has the CPU port bit;
    disabling clears both the forward bit and the map. *)
Theorem unknown_mcast_fwd_ports (enable : bool) (forwardPorts : Z) (mem : Z -> Z) :
  let v := reg32 mem 0x0324 in
  ksz9477ReadSwitchReg32 0x0324 (onSpi mem) = Some (v, onSpi mem) /\
  exists mem',
    ksz9477SetUnknownMcastFwdPorts enable forwardPorts (onSpi mem) =
      Some (tt, onSpi mem') /\
    (forall x, ~ (0x0324 <= x <= 0x0327) -> mem' x = mem x) /\
    let v' := reg32 mem' 0x0324 in
    ksz9477ReadSwitchReg32 0x0324 (onSpi mem') = Some (v', onSpi mem') /\
    Z.land v' 0x7FFFFF80 = Z.land v 0x7FFFFF80 /\
    Z.testbit v' 31 = enable /\
    Z.land v' 0x7F =
      if enable then
        Z.lor (Z.land forwardPorts 0x7F)
          (if decide (Z.land forwardPorts 0x80000000 ≠ 0) then 0x20 else 0)
      else 0.
Proof.
  intros v. split; [apply read32_rf|].
  unfold ksz9477SetUnknownMcastFwdPorts.
  erewrite bind_run by apply read32_rf. fold (reg32 mem 0x0324). fold v.
  rewrite write32_rf. change (u16 KSZ9477_UNKONWN_MULTICAST_CTRL) with 0x0324.
  eexists. split; [reflexivity|]. split.
  { intros x Hx. unfold setByte. by rewrite !decide_False by lia. }
  cbv zeta. split; [apply read32_rf|].
  match goal with
  | |- context [setByte 0x0324 (Z.land (Z.shiftr ?t 24) 0xFF)] => set (temp := t)
  end.
  assert (Hv' : reg32 (setByte (0x0324 + 3) (Z.land temp 0xFF)
                         (setByte (0x0324 + 2) (Z.land (Z.shiftr temp 8) 0xFF)
                            (setByte (0x0324 + 1) (Z.land (Z.shiftr temp 16) 0xFF)
                               (setByte 0x0324 (Z.land (Z.shiftr temp 24) 0xFF) mem))))
                  0x0324 = u32 temp).
  { unfold reg32, setByte.
    repeat (first [rewrite decide_True by lia | rewrite decide_False by lia]).
    apply be32_round_trip. }
  rewrite Hv'. clear Hv'. subst temp.
  exact (mcast_value _ forwardPorts enable).
Qed.

End Proofs.

Section Witnesses.

Local Existing Instance ksz9477_h.
Local Existing Instance ksz9477_spi_h.
Local Existing Instance regFileSpi.
Local Existing Instance spiBus.

Lemma switch_register_round_trip_witness :
  exists mem',
    (ksz9477WriteSwitchReg32 0x0324 0x8000007F ;; ksz9477ReadSwitchReg32 0x0324)
      (onSpi zeroRegs) = Some (0x8000007F, onSpi mem') /\
    ksz9477ReadSwitchReg8 0x0327 (onSpi mem') = Some (0x7F, onSpi mem').
Proof.
  destruct (switch_register_round_trip 0x0324 0x8000007F zeroRegs)
    as (_ & _ & mem' & Hrun & _ & Hbytes).
  - lia.
  - exists mem'. split; [exact Hrun|]. apply (Hbytes 3). lia.
Defined.

Lemma port_state_round_trip_witness :
  exists mem',
    ksz9477SetPortState 3 SWITCH_PORT_STATE_FORWARDING (onSpi zeroRegs) =
      Some (tt, onSpi mem') /\
    ksz9477GetPortState 3 (onSpi mem') = Some (SWITCH_PORT_STATE_FORWARDING, onSpi mem') /\
    mem' 0x3B04 = 0x06.
Proof.
  destruct (port_state_round_trip 3 SWITCH_PORT_STATE_FORWARDING zeroRegs)
    as [Hvalid _].
  destruct Hvalid as [Hset Hget]; [lia|].
  eexists. split; [exact Hset|]. split; [exact Hget|]. reflexivity.
Defined.

End Witnesses.

End Ksz9477SpiProofs.

Module Ksz9477StaticProofs.
Import Ksz9477 Ksz9477Static Ksz9477Proofs.

Section Mdio.

Context {dev : Type} `{bus : SwitchBus dev} `{hdr : Header}.

(** Without an SPI driver the poll of the static table reads 0 and ends
    at once. *)
Lemma pollStartFinish_mdio (fuel : nat) (c : dev) :
  (1 <= fuel)%nat ->
  pollStartFinish fuel (mkNetInterface false c) = Some (0, mkNetInterface false c).
Proof.
  intros Hfuel. destruct fuel as [|fuel]; [lia|]. cbn [pollStartFinish].
  erewrite bind_run by reflexivity.
  rewrite decide_False; [done|]. rewrite Z.land_0_l. by intros H.
Qed.

Lemma getStatic_mdio (fuel index : nat) (entry : SwitchFdbEntry) (c : dev) :
  (1 <= fuel)%nat -> (index < KSZ9477_STATIC_MAC_TABLE_SIZE)%nat ->
  ksz9477GetStaticFdbEntry fuel index entry (mkNetInterface false c) =
    Some ((ERROR_INVALID_ENTRY, entry), mkNetInterface false c).
Proof.
  intros Hfuel Hindex. unfold ksz9477GetStaticFdbEntry.
  rewrite decide_True by done.
  erewrite bind_run by reflexivity.
  erewrite bind_run by (by apply pollStartFinish_mdio).
  erewrite bind_run by reflexivity.
  rewrite decide_False; [done|]. rewrite Z.land_0_l. by intros H.
Qed.

Lemma addStaticScan_mdio (fuel : nat) (entry : SwitchFdbEntry) (c : dev) (n : nat) :
  (1 <= fuel)%nat ->
  forall i j currentEntry,
  (i + n <= KSZ9477_STATIC_MAC_TABLE_SIZE)%nat ->
  addStaticScan fuel entry n i j currentEntry (mkNetInterface false c) =
    Some (if decide (j = KSZ9477_STATIC_MAC_TABLE_SIZE /\ n ≠ 0%nat) then i else j,
          mkNetInterface false c).
Proof.
  intros Hfuel. induction n as [|n IH]; intros i j cur Hin.
  - cbn [addStaticScan]. rewrite decide_False by (intros [_ ?]; done). done.
  - cbn [addStaticScan].
    erewrite bind_run by (apply getStatic_mdio; [done | lia]).
    cbv beta iota.
    rewrite (decide_False (P := ERROR_INVALID_ENTRY = NO_ERROR)) by done.
    destruct (decide (j = KSZ9477_STATIC_MAC_TABLE_SIZE)) as [->|Hj].
    + rewrite IH by lia. rewrite decide_False by lia.
      by rewrite decide_True.
    + rewrite IH by lia. rewrite !decide_False by tauto. done.
Qed.

Lemma deleteStaticScan_mdio (fuel : nat) (entry : SwitchFdbEntry) (c : dev) (n : nat) :
  (1 <= fuel)%nat ->
  forall j currentEntry,
  (j + n <= KSZ9477_STATIC_MAC_TABLE_SIZE)%nat ->
  deleteStaticScan fuel entry n j currentEntry (mkNetInterface false c) =
    Some ((j + n)%nat, mkNetInterface false c).
Proof.
  intros Hfuel. induction n as [|n IH]; intros j cur Hjn.
  - cbn [deleteStaticScan]. by rewrite Nat.add_0_r.
  - cbn [deleteStaticScan].
    erewrite bind_run by (apply getStatic_mdio; [done | lia]).
    cbv beta iota.
    rewrite (decide_False (P := ERROR_INVALID_ENTRY = NO_ERROR)) by done.
    rewrite IH by lia. by replace (S j + n)%nat with (j + S n)%nat by lia.
Qed.

Lemma flushStaticLoop_mdio (fuel : nat) (c : dev) (n i : nat) :
  (1 <= fuel)%nat ->
  flushStaticLoop fuel n i (mkNetInterface false c) = Some (tt, mkNetInterface false c).
Proof.
  intros Hfuel. revert i. induction n as [|n IH]; intros i; [done|].
  cbn [flushStaticLoop].
  do 5 (erewrite bind_run by reflexivity).
  erewrite bind_run by (by apply pollStartFinish_mdio).
  apply IH.
Qed.

(** X22. With the switch managed over MDC/MDIO, that is without an SPI driver,
    the static table cannot be reached and the functions behave as on an
    empty table that takes no entry: a read of a slot reports an invalid
    entry, [ksz9477AddStaticFdbEntry] returns [NO_ERROR] although nothing
    is stored, [ksz9477DeleteStaticFdbEntry] returns [ERROR_NOT_FOUND], and
    none of them, [ksz9477FlushStaticFdbTable] included, changes the
    interface. *)
Theorem static_table_without_spi (fuel : nat) (entry currentEntry : SwitchFdbEntry)
    (c : dev) :
  (1 <= fuel)%nat -> (1 <= KSZ9477_STATIC_MAC_TABLE_SIZE)%nat ->
  let interface := mkNetInterface false c in
  (forall index, (index < KSZ9477_STATIC_MAC_TABLE_SIZE)%nat ->
     ksz9477GetStaticFdbEntry fuel index currentEntry interface =
       Some ((ERROR_INVALID_ENTRY, currentEntry), interface)) /\
  ksz9477AddStaticFdbEntry fuel entry currentEntry interface =
    Some (NO_ERROR, interface) /\
  ksz9477DeleteStaticFdbEntry fuel entry currentEntry interface =
    Some (ERROR_NOT_FOUND, interface) /\
  ksz9477FlushStaticFdbTable fuel interface = Some (tt, interface).
Proof.
  intros Hfuel Hsize interface. split; [|split; [|split]].
  - intros index Hindex. by apply getStatic_mdio.
  - unfold ksz9477AddStaticFdbEntry.
    erewrite bind_run by (by apply addStaticScan_mdio).
    rewrite (decide_True (P := _ /\ _)) by (split; [done | lia]).
    rewrite decide_True by lia.
    do 5 (erewrite bind_run by reflexivity).
    erewrite bind_run by (by apply pollStartFinish_mdio).
    reflexivity.
  - unfold ksz9477DeleteStaticFdbEntry.
    erewrite bind_run by (by apply deleteStaticScan_mdio).
    by rewrite decide_False by lia.
  - by apply flushStaticLoop_mdio.
Qed.

(** X23. With the switch managed over MDC/MDIO, [ksz9477GetDynamicFdbEntry]
    does not return, whatever the index: every read of the control
    register gives 0, so the wait for VALID_ENTRY_OR_SEARCH_END ends after
    no number of reads. *)
Theorem dynamic_entry_without_spi (fuel index : nat) (entry : SwitchFdbEntry) (c : dev) :
  ksz9477GetDynamicFdbEntry fuel index entry (mkNetInterface false c) = None.
Proof.
  unfold ksz9477GetDynamicFdbEntry.
  assert (Hstart :
    (if decide (index = 0%nat)
     then ksz9477WriteSwitchReg32 KSZ9477_ALU_TABLE_CTRL 0 ;;
          ksz9477WriteSwitchReg32 KSZ9477_ALU_TABLE_CTRL
            (Z.lor KSZ9477_ALU_TABLE_CTRL_START_FINISH
               KSZ9477_ALU_TABLE_CTRL_ACTION_SEARCH)
     else mret tt) (mkNetInterface false c) = Some (tt, mkNetInterface false c)).
  { by destruct (decide (index = 0%nat)). }
  rewrite (bind_run _ _ _ _ _ Hstart).
  unfold mbind, St_bind. by rewrite pollSearch_mdio.
Qed.

End Mdio.

Section Sim.

Local Existing Instance ksz9477_h.
Local Existing Instance simBus.

(** The scan of the delete loop, computed on the table. *)
Lemma deleteStaticScan_sim (fuel : nat) (entry : SwitchFdbEntry)
    (st : list TableWords) (lat : nat) (n : nat) :
  forall j currentEntry d,
  staticView st lat d -> length st = 16%nat -> (j + n = 16)%nat ->
  (lat < fuel)%nat ->
  exists d',
    deleteStaticScan fuel entry n j currentEntry (mkNetInterface true d) =
      Some (match list_find (holdsMac (macAddr entry)) (drop j st) with
            | Some (k, _) => (j + k)%nat
            | None => 16%nat
            end, mkNetInterface true d') /\
    staticView st lat d'.
Proof.
  induction n as [|n IH]; intros j cur d Hview Hlen Hjn Hfuel.
  - exists d. split; [|done]. cbn [deleteStaticScan].
    rewrite drop_ge by lia. cbn. by replace j with 16%nat by lia.
  - cbn [deleteStaticScan].
    destruct (getStatic_sim fuel j cur d st lat Hview ltac:(lia) Hfuel)
      as (d1 & Hget & Hview1).
    rewrite (bind_run _ _ _ _ _ Hget).
    destruct (lookup_lt_is_Some_2 st j) as [w Hw]; [lia|].
    rewrite Hw. rewrite (drop_S _ _ _ Hw). cbn [list_find].
    destruct (IH (S j) (if decide (slotValid w) then slotEntry w else cur) d1
                Hview1 Hlen ltac:(lia) Hfuel) as (d2 & Hrest & Hview2).
    assert (Hskip : forall X : option (nat * TableWords),
              match prod_map S id <$> X with
              | Some (k, _) => (j + k)%nat
              | None => 16%nat
              end =
              match X with
              | Some (k, _) => (S j + k)%nat
              | None => 16%nat
              end).
    { intros [[k w']|]; cbn; [lia | done]. }
    destruct (decide (slotValid w)) as [Hv|Hv].
    + rewrite decide_True by done. unfold macCompAddr.
      destruct (decide (macAddr (slotEntry w) = macAddr entry)) as [Heq|Hne].
      * rewrite bool_decide_eq_true_2 by done.
        rewrite decide_True by done. exists d1. split; [|done].
        unfold mret, St_ret. by rewrite Nat.add_0_r.
      * rewrite bool_decide_eq_false_2 by done.
        rewrite decide_False by (by intros [_ ?]).
        rewrite Hskip. by exists d2.
    + rewrite decide_False by done.
      rewrite decide_False by (by intros [? _]).
      rewrite Hskip. by exists d2.
Qed.

(** The run of [ksz9477DeleteStaticFdbEntry]: the first slot that holds
    the address is cleared. *)
Lemma deleteStatic_run (fuel : nat) (entry currentEntry : SwitchFdbEntry)
    (d : SimSwitch) (st : list TableWords) (lat : nat) :
  staticView st lat d -> length st = 16%nat -> (lat < fuel)%nat ->
  exists d',
    ksz9477DeleteStaticFdbEntry fuel entry currentEntry (mkNetInterface true d) =
      Some (match list_find (holdsMac (macAddr entry)) st with
            | Some _ => NO_ERROR
            | None => ERROR_NOT_FOUND
            end, mkNetInterface true d') /\
    staticView
      match list_find (holdsMac (macAddr entry)) st with
      | Some (m, _) => <[ m := clearedSlot ]> st
      | None => st
      end lat d'.
Proof.
  intros Hview Hlen Hfuel.
  unfold ksz9477DeleteStaticFdbEntry.
  change KSZ9477_STATIC_MAC_TABLE_SIZE with 16%nat.
  destruct (deleteStaticScan_sim fuel entry st lat 16 0 currentEntry d
              Hview Hlen eq_refl Hfuel) as (d1 & Hscan & Hview1).
  rewrite (bind_run _ _ _ _ _ Hscan). rewrite drop_0.
  destruct (list_find (holdsMac (macAddr entry)) st) as [[m w]|] eqn:Hfind.
  - apply list_find_Some in Hfind as (Hm & _ & _).
    pose proof (lookup_lt_Some _ _ _ Hm) as Hlt.
    rewrite decide_True by lia. cbn [Nat.add].
    destruct d1 as [regs st1 ctrl sb alu search sbusy lat1 log].
    destruct Hview1 as (Hst1 & Hs1 & Hl1).
    cbn [sim_static sim_search sim_latency] in Hst1, Hs1, Hl1.
    subst st1 search lat1.
    do 4 (erewrite bind_run by apply write32_sim;
          rewrite sim_write_reg by done).
    erewrite bind_run by apply write32_sim.
    change KSZ9477_STATIC_MCAST_TABLE_CTRL with 0x041C.
    rewrite sim_static_write_cmd by lia.
    rewrite (bind_run _ _ _ _ _ (pollStartFinish_sim _ _ _ _ _ _ _ _ _ Hfuel)).
    eexists. split; [reflexivity|]. done.
  - rewrite decide_False by lia. by exists d1.
Qed.

(** The run of [ksz9477AddStaticFdbEntry]: the record of the entry is
    written at the slot that the scan selects. *)
Lemma addStatic_run (fuel : nat) (entry currentEntry : SwitchFdbEntry)
    (d : SimSwitch) (st : list TableWords) (lat : nat) :
  staticView st lat d -> (lat < fuel)%nat ->
  let j := scanSlots (macAddr entry) st 16 0 16 in
  exists d',
    ksz9477AddStaticFdbEntry fuel entry currentEntry (mkNetInterface true d) =
      Some (if decide (j < 16)%nat then NO_ERROR else ERROR_TABLE_FULL,
            mkNetInterface true d') /\
    staticView
      (if decide (j < 16)%nat then <[ j := entryWords entry ]> st else st) lat d'.
Proof.
  intros Hview Hfuel j.
  unfold ksz9477AddStaticFdbEntry.
  change KSZ9477_STATIC_MAC_TABLE_SIZE with 16%nat.
  destruct (addStaticScan_sim fuel entry st lat 16 0 16 currentEntry d
              Hview eq_refl Hfuel) as (d1 & Hscan & Hview1).
  rewrite (bind_run _ _ _ _ _ Hscan). fold j.
  destruct (decide (j < 16)%nat) as [Hj|Hj]; [|by exists d1].
  destruct d1 as [regs st1 ctrl sb alu search sbusy lat1 log].
  destruct Hview1 as (Hst1 & Hs1 & Hl1).
  cbn [sim_static sim_search sim_latency] in Hst1, Hs1, Hl1.
  subst st1 search lat1.
  do 4 (erewrite bind_run by apply write32_sim;
        rewrite sim_write_reg by done).
  erewrite bind_run by apply write32_sim.
  change KSZ9477_STATIC_MCAST_TABLE_CTRL with 0x041C.
  rewrite sim_static_write_cmd by done.
  rewrite (bind_run _ _ _ _ _ (pollStartFinish_sim _ _ _ _ _ _ _ _ _ Hfuel)).
  eexists. split; [reflexivity|]. done.
Qed.

(** No slot before the one that the scan selects holds the address. *)
Lemma scanSlots_first (mac : MacAddr) (st : list TableWords) (n : nat) :
  forall i j k w,
  (i <= k < i + n)%nat -> (k < scanSlots mac st n i j)%nat ->
  st !! k = Some w -> ~ holdsMac mac w.
Proof.
  induction n as [|n IH]; intros i j k w Hk Hlt Hw; [lia|].
  cbn [scanSlots] in Hlt.
  destruct (decide (k = i)) as [->|Hne].
  - rewrite Hw in Hlt. intros [Hv Hm].
    rewrite !decide_True in Hlt by done. lia.
  - destruct (st !! i) as [w0|];
      [destruct (decide (slotValid w0));
         [destruct (decide (macAddr (slotEntry w0) = mac)); [lia|]|]|];
      eapply IH; try exact Hlt; try exact Hw; lia.
Qed.

(** The loop of [ksz9477FlushStaticFdbTable] clears the slots it visits. *)
Lemma flushStaticLoop_sim (fuel : nat) (lat : nat) (n : nat) :
  forall i st d,
  staticView st lat d -> (i + n <= 16)%nat -> (lat < fuel)%nat ->
  exists d' st',
    flushStaticLoop fuel n i (mkNetInterface true d) =
      Some (tt, mkNetInterface true d') /\
    staticView st' lat d' /\
    length st' = length st /\
    forall k, st' !! k =
      if decide (i <= k < i + n)%nat then (fun _ => clearedSlot) <$> st !! k else st !! k.
Proof.
  induction n as [|n IH]; intros i st d Hview Hin Hfuel.
  - exists d, st. split; [done|]. split; [done|]. split; [done|].
    intros k. by rewrite decide_False by lia.
  - cbn [flushStaticLoop].
    destruct d as [regs st1 ctrl sb alu search sbusy lat1 log].
    destruct Hview as (Hst1 & Hs1 & Hl1).
    cbn [sim_static sim_search sim_latency] in Hst1, Hs1, Hl1.
    subst st1 search lat1.
    do 4 (erewrite bind_run by apply write32_sim;
          rewrite sim_write_reg by done).
    erewrite bind_run by apply write32_sim.
    change KSZ9477_STATIC_MCAST_TABLE_CTRL with 0x041C.
    rewrite sim_static_write_cmd by lia.
    rewrite (bind_run _ _ _ _ _ (pollStartFinish_sim _ _ _ _ _ _ _ _ _ Hfuel)).
    match goal with
    | |- context [flushStaticLoop fuel n (S i) (mkNetInterface true ?dd)] =>
        destruct (IH (S i) (sim_static dd) dd) as (d' & st' & Hrun & Hview' & Hlen' & Hst');
          [done | lia | done |]
    end.
    exists d', st'. split; [exact Hrun|]. split; [done|].
    cbn [sim_static] in Hlen', Hst'. rewrite length_insert in Hlen'.
    split; [done|]. intros k. rewrite Hst'.
    change (mkTableWords _ _ _ _) with clearedSlot.
    destruct (decide (k = i)) as [->|Hne].
    + rewrite decide_False by lia. rewrite decide_True by lia.
      destruct (st !! i) as [w|] eqn:Hw.
      * apply list_lookup_insert_eq. by eapply lookup_lt_Some.
      * apply lookup_ge_None. rewrite length_insert. by apply lookup_ge_None.
    + rewrite list_lookup_insert_ne by done.
      repeat case_decide; try lia; done.
Qed.


(** X19. On the simulated switch behind the SPI bus, with a static table of 16
    slots, no search running and fuel for more reads than the table
    engine takes, an entry that was added can be removed again: when the
    add finds a slot, the delete that follows finds the entry in that
    slot and clears it, both returning [NO_ERROR]; if no other slot held
    the address, no slot holds it afterwards. *)
Theorem add_then_delete_static_entry (fuel : nat)
    (entry currentEntry currentEntry' : SwitchFdbEntry) (d : SimSwitch) :
  length (sim_static d) = 16%nat ->
  sim_search d = None ->
  (sim_latency d < fuel)%nat ->
  mac_wf (macAddr entry) ->
  let st := sim_static d in
  let j := scanSlots (macAddr entry) st 16 0 16 in
  (j < 16)%nat ->
  exists d',
    (e1 ← ksz9477AddStaticFdbEntry fuel entry currentEntry;
     e2 ← ksz9477DeleteStaticFdbEntry fuel entry currentEntry';
     mret (e1, e2)) (mkNetInterface true d) =
      Some ((NO_ERROR, NO_ERROR), mkNetInterface true d') /\
    sim_static d' = <[ j := clearedSlot ]> st /\
    ((forall k w, k ≠ j -> st !! k = Some w -> ~ holdsMac (macAddr entry) w) ->
     forall k w, sim_static d' !! k = Some w -> ~ holdsMac (macAddr entry) w).
Proof.
  intros Hlen Hsearch Hfuel Hwf st j Hj.
  assert (Hlen' : length st = 16%nat) by exact Hlen.
  assert (Hview : staticView st (sim_latency d) d) by done.
  destruct (addStatic_run fuel entry currentEntry d st (sim_latency d) Hview Hfuel)
    as (d1 & Hadd & Hview1).
  fold j in Hadd, Hview1.
  rewrite decide_True in Hadd by done. rewrite decide_True in Hview1 by done.
  rewrite (bind_run _ _ _ _ _ Hadd).
  destruct (deleteStatic_run fuel entry currentEntry' d1 _ _ Hview1) as (d2 & Hdel & Hview2);
    [by rewrite length_insert | done |].
  destruct (slotEntry_entryWords entry Hwf) as [Hv He].
  assert (Hfind : list_find (holdsMac (macAddr entry)) (<[ j := entryWords entry ]> st) =
                  Some (j, entryWords entry)).
  { apply list_find_Some. split; [|split].
    - apply list_lookup_insert_eq. lia.
    - split; [done|]. by rewrite He.
    - intros k w Hk Hlt. rewrite list_lookup_insert_ne in Hk by lia.
      apply (scanSlots_first (macAddr entry) st 16 0 16 k w); [lia | done | done]. }
  rewrite Hfind in Hdel, Hview2.
  rewrite (bind_run _ _ _ _ _ Hdel).
  exists d2. split; [reflexivity|].
  destruct Hview2 as (Hst2 & _ & _). rewrite list_insert_insert_eq in Hst2.
  split; [done|]. intros Hother k w. rewrite Hst2.
  destruct (decide (k = j)) as [->|Hne].
  - rewrite list_lookup_insert_eq by lia.
    intros [= <-] [Hvalid _]. revert Hvalid. unfold slotValid. by vm_compute.
  - rewrite list_lookup_insert_ne by done. by apply Hother.
Qed.


Lemma default_last_cons {A : Type} (a x : A) (l : list A) :
  default a (last (x :: l)) = default x (last l).
Proof.
  destruct l as [|y l]; [done|]. rewrite last_cons_cons.
  destruct (last (y :: l)) eqn:E; [done|]. by apply last_None in E.
Qed.

(** The calls of an enumeration that continue a running search, up to the
    call that finds the end of the table. *)
Lemma enumerateDynamic_rest (fuel : nat) regs st ctrl sb alu lat (n : nat) :
  (lat < fuel)%nat ->
  forall i pos b log entry,
  i ≠ 0%nat -> (b < fuel)%nat -> (pos + n = length alu)%nat ->
  exists log',
    enumerateDynamic fuel (S n) i entry
      (mkNetInterface true (mkSimSwitch regs st ctrl sb alu (Some pos) b lat log)) =
    Some (((fun w => (NO_ERROR, aluEntry w)) <$> drop pos alu) ++
          [(ERROR_END_OF_TABLE, default entry (last (aluEntry <$> drop pos alu)))],
          mkNetInterface true (mkSimSwitch regs st ctrl sb alu None 0 lat log')).
Proof.
  intros Hlat. induction n as [|n IH]; intros i pos b log entry Hi Hb Hpos.
  - cbn [enumerateDynamic].
    pose proof (getDynamic_continue fuel i entry regs st ctrl sb alu pos b lat log Hi Hb)
      as Hget.
    rewrite (proj2 (lookup_ge_None alu pos)) in Hget by lia.
    rewrite (bind_run _ _ _ _ _ Hget).
    rewrite drop_ge by lia. eexists. reflexivity.
  - destruct (lookup_lt_is_Some_2 alu pos) as [w Hw]; [lia|].
    pose proof (getDynamic_continue fuel i entry regs st ctrl sb alu pos b lat log Hi Hb)
      as Hget.
    rewrite Hw in Hget.
    change (enumerateDynamic fuel (S (S n)) i entry)
      with (r ← ksz9477GetDynamicFdbEntry fuel i entry;
            rs ← enumerateDynamic fuel (S n) (S i) r.2;
            mret (r :: rs)).
    rewrite (bind_run _ _ _ _ _ Hget).
    destruct (IH (S i) (S pos) lat
                (log ++ replicate (S b) (BusRead32 0x0418) ++
                 [BusRead32 0x0420; BusRead32 0x0424; BusRead32 0x0428; BusRead32 0x042C])
                (aluEntry w)) as (log' & Hrest);
      [lia | lia | lia |].
    cbn [snd]. rewrite (bind_run _ _ _ _ _ Hrest).
    exists log'. unfold mret, St_ret.
    rewrite (drop_S _ _ _ Hw). cbn [fmap list_fmap app].
    by rewrite default_last_cons.
Qed.

(** The whole enumeration, with the entries as the driver decodes them. *)
Lemma enumerateDynamic_all (fuel : nat) (entry : SwitchFdbEntry) (d : SimSwitch) :
  (sim_latency d < fuel)%nat ->
  exists d',
    enumerateDynamic fuel (S (length (sim_alu d))) 0 entry (mkNetInterface true d) =
      Some (((fun w => (NO_ERROR, aluEntry w)) <$> sim_alu d) ++
            [(ERROR_END_OF_TABLE, default entry (last (aluEntry <$> sim_alu d)))],
            mkNetInterface true d') /\
    sim_search d' = None /\ sim_alu d' = sim_alu d.
Proof.
  intros Hfuel. destruct d as [regs st ctrl sb alu search b lat log].
  cbn [sim_latency sim_alu] in *.
  assert (Hstart :
    ksz9477GetDynamicFdbEntry fuel 0 entry
      (mkNetInterface true (mkSimSwitch regs st ctrl sb alu search b lat log)) =
    ksz9477GetDynamicFdbEntry fuel 1 entry
      (mkNetInterface true
         (mkSimSwitch regs st ctrl sb alu (Some 0%nat) lat lat
            ((log ++ [BusWrite32 0x0418 0]) ++ [BusWrite32 0x0418 0x83]))))
    by reflexivity.
  rewrite getDynamic_continue in Hstart by (done || lia).
  change (enumerateDynamic fuel (S (length alu)) 0 entry)
    with (r ← ksz9477GetDynamicFdbEntry fuel 0 entry;
          rs ← enumerateDynamic fuel (length alu) 1 r.2;
          mret (r :: rs)).
  destruct alu as [|w alu]; cbn [lookup list_lookup] in Hstart;
    rewrite (bind_run _ _ _ _ _ Hstart).
  - eexists. split; [reflexivity|]. done.
  - cbn [length snd].
    match goal with
    | |- context [mkSimSwitch _ _ _ _ _ (Some 1%nat) _ _ ?l] =>
        destruct (enumerateDynamic_rest fuel regs st ctrl sb (w :: alu) lat (length alu)
                    Hfuel 1 1 lat l (aluEntry w)) as (log' & Hrest);
          [lia | lia | cbn [length]; lia |]
    end.
    rewrite (bind_run _ _ _ _ _ Hrest). unfold mret, St_ret.
    cbn [drop fmap list_fmap app]. rewrite drop_0, default_last_cons.
    eexists. split; [reflexivity | done].
Qed.

(** The entries that the driver decodes from slots that hold the
    addresses and ports of [learned]. *)
Lemma aluEntry_learned (alu : list TableWords) (learned : list (MacAddr * Z)) :
  Forall2 (fun w ap => learnedOn ap.1 ap.2 w) alu learned ->
  aluEntry <$> alu = (fun ap => mkSwitchFdbEntry ap.1 ap.2 0 false) <$> learned /\
  (fun w => (NO_ERROR, aluEntry w)) <$> alu =
    (fun ap => (NO_ERROR, mkSwitchFdbEntry ap.1 ap.2 0 false)) <$> learned.
Proof.
  induction 1 as [|w ap alu learned Hw _ [IH1 IH2]]; [done|].
  cbn [fmap list_fmap]. by rewrite (aluEntry_learnedOn _ _ _ Hw), <- IH1, <- IH2.
Qed.

(** X21. An enumeration of the dynamic table from index 0, on the simulated
    switch behind the SPI bus and with fuel for more reads than the search
    engine takes.  When the slots of the address lookup table hold, in
    the order of the table, the addresses [a1 .. an] learned on the ports
    [p1 .. pn], the calls with the indices 0, 1, ... return [NO_ERROR]
    with the address [ak] and the source port [pk], in this order, and the
    call after the last entry returns [ERROR_END_OF_TABLE] and leaves the
    record of the caller as the last entry had it.  The search is stopped
    at the end. *)
Theorem dynamic_table_enumeration (fuel : nat) (entry : SwitchFdbEntry) (d : SimSwitch)
    (learned : list (MacAddr * Z)) :
  (sim_latency d < fuel)%nat ->
  Forall2 (fun w ap => learnedOn ap.1 ap.2 w) (sim_alu d) learned ->
  exists d',
    enumerateDynamic fuel (S (length (sim_alu d))) 0 entry (mkNetInterface true d) =
      Some (((fun ap => (NO_ERROR, mkSwitchFdbEntry ap.1 ap.2 0 false)) <$> learned) ++
            [(ERROR_END_OF_TABLE,
              default entry
                (last ((fun ap => mkSwitchFdbEntry ap.1 ap.2 0 false) <$> learned)))],
            mkNetInterface true d') /\
    sim_search d' = None /\ sim_alu d' = sim_alu d.
Proof.
  intros Hfuel Hlearned.
  destruct (enumerateDynamic_all fuel entry d Hfuel) as (d' & Hrun & Hs & Halu).
  exists d'. split; [|done].
  destruct (aluEntry_learned _ _ Hlearned) as [<- <-].
  by rewrite Hrun.
Qed.

End Sim.

Section Witnesses.

Local Existing Instance ksz9477_h.
Local Existing Instance simBus.

Lemma static_table_without_spi_witness :
  ksz9477AddStaticFdbEntry 1 cpuEntry noEntry (mkNetInterface false emptySwitch) =
    Some (NO_ERROR, mkNetInterface false emptySwitch) /\
  ksz9477DeleteStaticFdbEntry 1 cpuEntry noEntry (mkNetInterface false emptySwitch) =
    Some (ERROR_NOT_FOUND, mkNetInterface false emptySwitch).
Proof.
  destruct (static_table_without_spi 1 cpuEntry noEntry emptySwitch)
    as (_ & Hadd & Hdel & _).
  - lia.
  - simpl. lia.
  - split; [exact Hadd | exact Hdel].
Defined.


Lemma add_then_delete_static_entry_witness :
  exists d',
    (e1 ← ksz9477AddStaticFdbEntry 5 cpuEntry noEntry;
     e2 ← ksz9477DeleteStaticFdbEntry 5 cpuEntry noEntry;
     mret (e1, e2)) (mkNetInterface true emptySwitch) =
      Some ((NO_ERROR, NO_ERROR), mkNetInterface true d') /\
    sim_static d' = sim_static emptySwitch.
Proof.
  destruct (add_then_delete_static_entry 5 cpuEntry noEntry noEntry emptySwitch)
    as (d' & Hrun & Hst & _).
  - reflexivity.
  - reflexivity.
  - simpl. lia.
  - repeat constructor; simpl; lia.
  - vm_compute. lia.
  - exists d'. split; [exact Hrun|]. rewrite Hst. reflexivity.
Defined.


Lemma dynamic_table_enumeration_witness :
  exists d',
    enumerateDynamic 5 3 0 noEntry (mkNetInterface true emptySwitch) =
      Some ([(NO_ERROR,
              mkSwitchFdbEntry (mkMacAddr 0x00 0x11 0x22 0x33 0x44 0x55) 2 0 false);
             (NO_ERROR,
              mkSwitchFdbEntry (mkMacAddr 0x00 0xAA 0xBB 0xCC 0xDD 0xEE) 7 0 false);
             (ERROR_END_OF_TABLE,
              mkSwitchFdbEntry (mkMacAddr 0x00 0xAA 0xBB 0xCC 0xDD 0xEE) 7 0 false)],
            mkNetInterface true d') /\
    sim_search d' = None.
Proof.
  destruct (dynamic_table_enumeration 5 noEntry emptySwitch
              [(mkMacAddr 0x00 0x11 0x22 0x33 0x44 0x55, 2);
               (mkMacAddr 0x00 0xAA 0xBB 0xCC 0xDD 0xEE, 7)])
    as (d' & Hrun & Hs & _).
  - simpl. lia.
  - constructor; [|constructor; [|constructor]];
      (split; [repeat constructor; cbn; lia|]);
      (split; [reflexivity|]); (split; [reflexivity|]);
      left; (split; [cbn; lia | reflexivity]).
  - exists d'. split; [exact Hrun | exact Hs].
Defined.

End Witnesses.

End Ksz9477StaticProofs.
